(** * vulkan-forge: terrain tiles, culling and GPU memory pools

    A shallow embedding of the terrain core of vulkan-forge
    (cpp/include/vf/terrain_tile.hpp, cpp/src/terrain_tile.cpp,
    cpp/src/terrain_renderer.cpp, cpp/src/terrain_memory_pool.cpp) and the
    properties its specification states about it.

    Conventions of the embedding.
    - [uint32_t] and [size_t] values are integers of [Z] with the wrap-around
      written out ([wrap32], [wrap64]); [int32_t] tile indices are integers of
      [Z] (signed overflow is undefined in C++ and is not given a meaning).
    - [float] arithmetic is a parameter ([FloatOps]).  Two implementations are
      provided: [binary32], IEEE 754 single precision as specified by the
      Standard Library's [SpecFloat], used to run the code on concrete
      inputs and where a property is about rounding; and [exactQ], the
      rationals, used where a property is algebraic.
    - Calls into Vulkan, VMA and libm are inputs of the functions that make
      them: the function takes the outcome of the call as an argument.
    - [std::lock_guard] is a synchronisation device and has no counterpart in
      the sequential model; in particular the model does not represent that
      [TerrainTile::evictFromMemory] re-acquires [m_mutex] through its call
      of [unloadFromGPU]. *)

From Stdlib Require Import ZArith QArith Qreduction Bool List String Lia Lqa.
From Stdlib Require Import Permutation Sorted Qround Qpower.
From Stdlib Require Import Floats.SpecFloat.
Import ListNotations.
Local Open Scope Z_scope.

(* ================================================================== *)
(** ** Machine integers and result codes *)

(** [uint32_t]: arithmetic modulo 2^32. *)
Definition wrap32 (z : Z) : Z := z mod 2 ^ 32.

(** [size_t] and [VkDeviceSize]: arithmetic modulo 2^64. *)
Definition wrap64 (z : Z) : Z := z mod 2 ^ 64.

(** The [VkResult] codes the terrain core returns or tests; every other code
    a driver may report is [VK_ERROR_OTHER]. *)
Inductive VkResult : Type :=
| VK_SUCCESS
| VK_TIMEOUT
| VK_ERROR_INITIALIZATION_FAILED
| VK_ERROR_OUT_OF_DEVICE_MEMORY
| VK_ERROR_FEATURE_NOT_PRESENT
| VK_ERROR_VALIDATION_FAILED_EXT
| VK_ERROR_OTHER (code : Z).

Definition is_success (r : VkResult) : bool :=
  match r with VK_SUCCESS => true | _ => false end.

(** Vulkan and VMA handles are opaque 64-bit values; [VK_NULL_HANDLE] is 0. *)
Definition Handle := Z.
Definition VK_NULL_HANDLE : Handle := 0.
Definition is_null (h : Handle) : bool := h =? VK_NULL_HANDLE.

(* ================================================================== *)
(** ** Floating-point arithmetic as an interface *)

(** The operations of C++ [float] the terrain core uses.  [flt a b] is
    [a < b] and [fle a b] is [a <= b]; [a > b] and [a >= b] are written with
    the arguments exchanged, which is their meaning for IEEE comparisons as
    well (every comparison with a NaN is false).

    The code scales by powers of two through [std::pow(2.0f, level)] with an
    integer [level].  That call is evaluated in [double], where the product
    or quotient of a [float] and [2^level] is exact, and the result is
    converted to [float]: the value is the operand scaled by a power of two
    and rounded once, which is [ldexp]. *)
Record FloatOps : Type := {
  F : Type;
  of_Z : Z -> F;           (* conversion of an integer, integral literals *)
  fadd : F -> F -> F;
  fsub : F -> F -> F;
  fmul : F -> F -> F;
  fdiv : F -> F -> F;
  fopp : F -> F;
  fsqrt : F -> F;          (* std::sqrt *)
  flt : F -> F -> bool;
  fle : F -> F -> bool;
  to_int : F -> Z;         (* static_cast<int>: truncation toward zero *)
  ldexp : F -> Z -> F      (* x * 2^n, rounded once *)
}.

Declare Scope fl_scope.
Delimit Scope fl_scope with fl.
Infix ".+" := (fadd _) (at level 50, left associativity) : fl_scope.
Infix ".-" := (fsub _) (at level 50, left associativity) : fl_scope.
Infix ".*" := (fmul _) (at level 40, left associativity) : fl_scope.
Infix "./" := (fdiv _) (at level 40, left associativity) : fl_scope.
Infix ".<" := (flt _) (at level 70, no associativity) : fl_scope.
Infix ".<=" := (fle _) (at level 70, no associativity) : fl_scope.
Notation "a .> b" := (flt _ b a) (at level 70, no associativity) : fl_scope.
Notation "a .>= b" := (fle _ b a) (at level 70, no associativity) : fl_scope.
Local Open Scope fl_scope.

(** *** IEEE 754 binary32 *)

Definition b32_prec : Z := 24.
Definition b32_emax : Z := 128.

Definition b32_of_Z (z : Z) : spec_float :=
  binary_normalize b32_prec b32_emax z 0 false.

(** Truncation toward zero.  Converting an infinity, a NaN or a value out of
    the range of [int] is undefined in C++; the model returns the unbounded
    integer, and 0 for infinities and NaN. *)
Definition b32_to_int (f : spec_float) : Z :=
  match f with
  | S754_finite s m e =>
      let a := if 0 <=? e then Zpos m * 2 ^ e else Zpos m / 2 ^ (- e) in
      if s then - a else a
  | _ => 0
  end.

Definition binary32 : FloatOps := {|
  F := spec_float;
  of_Z := b32_of_Z;
  fadd := SFadd b32_prec b32_emax;
  fsub := SFsub b32_prec b32_emax;
  fmul := SFmul b32_prec b32_emax;
  fdiv := SFdiv b32_prec b32_emax;
  fopp := SFopp;
  fsqrt := SFsqrt b32_prec b32_emax;
  flt := SFltb;
  fle := SFleb;
  to_int := b32_to_int;
  ldexp := SFldexp b32_prec b32_emax
|}.

(** *** Exact rational arithmetic

    Results are kept in lowest terms, so that equal values are equal terms.
    The square root of a rational is not rational in general: [exactQ] takes
    the square-root function as a parameter, and the properties proved over
    [exactQ] hold whatever it is. *)

Definition Qtrunc (q : Q) : Z := Z.quot (Qnum q) (Zpos (Qden q)).

Definition exactQ (sqrtQ : Q -> Q) : FloatOps := {|
  F := Q;
  of_Z := inject_Z;
  fadd := fun a b => Qred (a + b);
  fsub := fun a b => Qred (a - b);
  fmul := fun a b => Qred (a * b);
  fdiv := fun a b => Qred (a / b);
  fopp := fun a => Qred (- a);
  fsqrt := sqrtQ;
  flt := fun a b => negb (Qle_bool b a);
  fle := Qle_bool;
  to_int := Qtrunc;
  ldexp := fun a n => Qred (a * Qpower (2 # 1) n)
|}.

(* ================================================================== *)
(** ** The GLM vector and matrix operations the code calls

    GLM is a third-party library; the definitions follow its reference
    (non-SIMD) implementation: [dot] adds the products from left to right,
    [length] is the square root of [dot v v], [normalize] multiplies by the
    inverse square root, matrices are stored by columns and [m[c][r]] is
    column [c], row [r]. *)

Section Glm.
Context {fl : FloatOps}.
Local Abbreviation Fl := (F fl).

Record vec3 : Type := mkvec3 { vx : Fl; vy : Fl; vz : Fl }.
Record vec4 : Type := mkvec4 { px : Fl; py : Fl; pz : Fl; pw : Fl }.

Definition f0 : Fl := of_Z fl 0.
Definition f1 : Fl := of_Z fl 1.
(** The literal [0.5f]. *)
Definition fhalf : Fl := of_Z fl 1 ./ of_Z fl 2.

Definition vec3_splat (a : Fl) : vec3 := mkvec3 a a a.
Definition vec3_add (a b : vec3) : vec3 :=
  mkvec3 (vx a .+ vx b) (vy a .+ vy b) (vz a .+ vz b).
Definition vec3_sub (a b : vec3) : vec3 :=
  mkvec3 (vx a .- vx b) (vy a .- vy b) (vz a .- vz b).
Definition vec3_scale (a : vec3) (s : Fl) : vec3 :=
  mkvec3 (vx a .* s) (vy a .* s) (vz a .* s).
Definition vec3_of_vec4 (p : vec4) : vec3 := mkvec3 (px p) (py p) (pz p).

Definition dot (a b : vec3) : Fl :=
  vx a .* vx b .+ vy a .* vy b .+ vz a .* vz b.
Definition length3 (v : vec3) : Fl := fsqrt fl (dot v v).
Definition normalize (v : vec3) : vec3 :=
  vec3_scale v (f1 ./ fsqrt fl (dot v v)).
Definition cross (a b : vec3) : vec3 :=
  mkvec3 (vy a .* vz b .- vy b .* vz a)
         (vz a .* vx b .- vz b .* vx a)
         (vx a .* vy b .- vx b .* vy a).

Definition vec4_add (a b : vec4) : vec4 :=
  mkvec4 (px a .+ px b) (py a .+ py b) (pz a .+ pz b) (pw a .+ pw b).
Definition vec4_scale (a : vec4) (s : Fl) : vec4 :=
  mkvec4 (px a .* s) (py a .* s) (pz a .* s) (pw a .* s).
Definition vec4_div (a : vec4) (s : Fl) : vec4 :=
  mkvec4 (px a ./ s) (py a ./ s) (pz a ./ s) (pw a ./ s).

(** A 4x4 matrix, by columns. *)
Record mat4 : Type := mkmat4 { col0 : vec4; col1 : vec4; col2 : vec4; col3 : vec4 }.

(** [m1 * m2]: column [j] of the product is the combination of the columns
    of [m1] with the entries of column [j] of [m2]. *)
Definition mat4_mul_col (m1 : mat4) (c : vec4) : vec4 :=
  vec4_add
    (vec4_add
       (vec4_add (vec4_scale (col0 m1) (px c)) (vec4_scale (col1 m1) (py c)))
       (vec4_scale (col2 m1) (pz c)))
    (vec4_scale (col3 m1) (pw c)).
Definition mat4_mul (m1 m2 : mat4) : mat4 :=
  mkmat4 (mat4_mul_col m1 (col0 m2)) (mat4_mul_col m1 (col1 m2))
         (mat4_mul_col m1 (col2 m2)) (mat4_mul_col m1 (col3 m2)).

(** [glm::lookAt] (right-handed). *)
Definition lookAt (eye center up : vec3) : mat4 :=
  let f := normalize (vec3_sub center eye) in
  let s := normalize (cross f up) in
  let u := cross s f in
  mkmat4 (mkvec4 (vx s) (vx u) (fopp fl (vx f)) f0)
         (mkvec4 (vy s) (vy u) (fopp fl (vy f)) f0)
         (mkvec4 (vz s) (vz u) (fopp fl (vz f)) f0)
         (mkvec4 (fopp fl (dot s eye)) (fopp fl (dot u eye)) (dot f eye) f1).

(** [glm::perspective] (right-handed, depth range [-1, 1]).  Its first
    argument is the vertical field of view; the model takes
    [tanHalfFovy], the value of [tan(fovy / 2)] that the function obtains
    from libm. *)
Definition perspective (tanHalfFovy aspect zNear zFar : Fl) : mat4 :=
  mkmat4 (mkvec4 (f1 ./ (aspect .* tanHalfFovy)) f0 f0 f0)
         (mkvec4 f0 (f1 ./ tanHalfFovy) f0 f0)
         (mkvec4 f0 f0 (fopp fl (zFar .+ zNear) ./ (zFar .- zNear)) (fopp fl f1))
         (mkvec4 f0 f0
                 (fopp fl (of_Z fl 2 .* zFar .* zNear) ./ (zFar .- zNear)) f0).
End Glm.

Arguments vec3 : clear implicits.
Arguments vec4 : clear implicits.
Arguments mat4 : clear implicits.

(** Integer ranges, for the counting loops of the source:
    [zrange lo hi] is [lo, lo+1, ..., hi] and is empty when [hi < lo]. *)
Fixpoint zrange_from (lo : Z) (n : nat) : list Z :=
  match n with
  | O => []
  | S n' => lo :: zrange_from (lo + 1) n'
  end.

Definition zrange (lo hi : Z) : list Z := zrange_from lo (Z.to_nat (hi - lo + 1)).

(** [std::sort] with a comparator [comp a b] ("[a] goes before [b]").  The
    order in which [std::sort] leaves equivalent elements is unspecified; the
    model sorts by insertion and keeps them in their original order. *)
Section Sort.
Context {A : Type} (comp : A -> A -> bool).

Fixpoint sort_insert (a : A) (l : list A) : list A :=
  match l with
  | [] => [a]
  | b :: l' => if comp b a then b :: sort_insert a l' else a :: b :: l'
  end.

Fixpoint std_sort (l : list A) : list A :=
  match l with
  | [] => []
  | a :: l' => sort_insert a (std_sort l')
  end.
End Sort.

(** [m[k] = v] on a [std::unordered_map] kept as a list of entries: the
    value of an existing key is replaced, a missing key gets a new entry. *)
Fixpoint assign {K V : Type} (eqb : K -> K -> bool) (k : K) (v : V) (m : list (K * V))
  : list (K * V) :=
  match m with
  | [] => [(k, v)]
  | e :: rest =>
      if eqb (fst e) k then (fst e, v) :: rest else e :: assign eqb k v rest
  end.

(* ================================================================== *)
(** ** terrain_tile.hpp: tile coordinates *)

Module TileCoordinate.

Record t : Type := mk {
  x : Z;               (* int32_t *)
  y : Z;               (* int32_t *)
  level : Z;           (* uint32_t, 0 = highest detail *)
  datasetId : string
}.

(** [operator==] *)
Definition eqb (a b : t) : bool :=
  (x a =? x b) && (y a =? y b) && (level a =? level b)
  && String.eqb (datasetId a) (datasetId b).

(** [getParent]: C++ integer division truncates toward zero ([Z.quot]);
    [level + 1] is unsigned. *)
Definition getParent (c : t) : t :=
  mk (Z.quot (x c) 2) (Z.quot (y c) 2) (wrap32 (level c + 1)) (datasetId c).

(** [getChildren] *)
Definition getChildren (c : t) : list t :=
  if level c =? 0 then []
  else
    [ mk (x c * 2)     (y c * 2)     (wrap32 (level c - 1)) (datasetId c);
      mk (x c * 2 + 1) (y c * 2)     (wrap32 (level c - 1)) (datasetId c);
      mk (x c * 2)     (y c * 2 + 1) (wrap32 (level c - 1)) (datasetId c);
      mk (x c * 2 + 1) (y c * 2 + 1) (wrap32 (level c - 1)) (datasetId c) ].

(** [getNeighbors] *)
Definition getNeighbors (c : t) : list t :=
  [ mk (x c - 1) (y c)     (level c) (datasetId c);
    mk (x c + 1) (y c)     (level c) (datasetId c);
    mk (x c)     (y c - 1) (level c) (datasetId c);
    mk (x c)     (y c + 1) (level c) (datasetId c);
    mk (x c - 1) (y c - 1) (level c) (datasetId c);
    mk (x c + 1) (y c - 1) (level c) (datasetId c);
    mk (x c - 1) (y c + 1) (level c) (datasetId c);
    mk (x c + 1) (y c + 1) (level c) (datasetId c) ].

(** [operator<]: by dataset, then level, then row, then column.
    [std::string] compares byte by byte, a proper prefix first. *)
Definition ltb (a b : t) : bool :=
  if negb (String.eqb (datasetId a) (datasetId b))
  then String.ltb (datasetId a) (datasetId b)
  else if negb (level a =? level b) then level a <? level b
  else if negb (y a =? y b) then y a <? y b
  else x a <? x b.

(** The values of the field types: [x] and [y] are [int32_t], [level] is
    [uint32_t]. *)
Definition in_range (c : t) : Prop :=
  - 2 ^ 31 <= x c < 2 ^ 31 /\ - 2 ^ 31 <= y c < 2 ^ 31 /\ 0 <= level c < 2 ^ 32.

End TileCoordinate.

(** ** terrain_tile.hpp: tile states, bounds, CPU and GPU data *)

Inductive TileState : Type :=
| Empty | Loading | Loaded | Uploading | Ready | Error | Evicted.

Definition TileState_eqb (a b : TileState) : bool :=
  match a, b with
  | Empty, Empty | Loading, Loading | Loaded, Loaded | Uploading, Uploading
  | Ready, Ready | Error, Error | Evicted, Evicted => true
  | _, _ => false
  end.

Module TileBounds.
Section WithFloat.
Context {fl : FloatOps}.

Record t : Type := mk {
  min : vec3 fl;
  max : vec3 fl;
  minElevation : F fl;
  maxElevation : F fl
}.

Definition center (b : t) : vec3 fl := vec3_scale (vec3_add (min b) (max b)) fhalf.

Definition contains (b : t) (point : vec3 fl) : bool :=
  (vx point .>= vx (min b)) && (vx point .<= vx (max b)) &&
  (vy point .>= vy (min b)) && (vy point .<= vy (max b)) &&
  (vz point .>= vz (min b)) && (vz point .<= vz (max b)).

Definition intersects (b other : t) : bool :=
  negb ((vx (max b) .< vx (min other)) || (vx (min b) .> vx (max other)) ||
        (vy (max b) .< vy (min other)) || (vy (min b) .> vy (max other)) ||
        (vz (max b) .< vz (min other)) || (vz (min b) .> vz (max other))).

End WithFloat.
Arguments t : clear implicits.
End TileBounds.

Module TileGPUResources.

Record t : Type := mk {
  vertexBuffer : Handle;
  vertexMemory : Handle;
  vertexCount : Z;
  indexBuffer : Handle;
  indexMemory : Handle;
  indexCount : Z;
  heightTexture : Handle;
  heightTextureMemory : Handle;
  heightTextureView : Handle;
  normalTexture : Handle;
  normalTextureMemory : Handle;
  normalTextureView : Handle;
  descriptorSet : Handle;
  totalMemoryUsage : Z
}.

Definition init : t := mk 0 0 0 0 0 0 0 0 0 0 0 0 0 0.

Definition isValid (g : t) : bool :=
  negb (is_null (vertexBuffer g)) && negb (is_null (heightTexture g)).

(** [destroy]: every buffer, memory, image and view handle is released and
    set to [VK_NULL_HANDLE]; the counts and the descriptor set are left. *)
Definition destroy (g : t) : t :=
  mk VK_NULL_HANDLE VK_NULL_HANDLE (vertexCount g)
     VK_NULL_HANDLE VK_NULL_HANDLE (indexCount g)
     VK_NULL_HANDLE VK_NULL_HANDLE VK_NULL_HANDLE
     VK_NULL_HANDLE VK_NULL_HANDLE VK_NULL_HANDLE
     (descriptorSet g) 0.

End TileGPUResources.

Module TileCPUData.
Section WithFloat.
Context {fl : FloatOps}.

Record t : Type := mk {
  heightData : list (F fl);
  normalData : list (F fl);
  textureData : list Z;      (* uint8_t *)
  width : Z;
  height : Z;
  heightScale : F fl
}.

Definition init : t := mk [] [] [] 0 0 f1.

(** [sizeof(float)] is 4 and [sizeof(uint8_t)] is 1. *)
Definition getMemoryUsage (d : t) : Z :=
  wrap64 (wrap64 (Z.of_nat (List.length (heightData d)) * 4
                  + Z.of_nat (List.length (normalData d)) * 4)
          + Z.of_nat (List.length (textureData d)) * 1).

Definition clear (d : t) : t := mk [] [] [] (width d) (height d) (heightScale d).

End WithFloat.
Arguments t : clear implicits.
End TileCPUData.

(** ** The AABB-against-planes test

    [TerrainTile::isVisible] (terrain_tile.cpp) and [Frustum::intersects]
    (terrain_renderer.cpp) have the same body; it is written once here.  The
    array [planes[6]] is a list, visited in index order. *)
Section AabbTest.
Context {fl : FloatOps}.

(** "Find the positive vertex (farthest along plane normal)". *)
Definition positiveVertex (normal bmin bmax : vec3 fl) : vec3 fl :=
  let pv := bmin in
  let pv := if vx normal .>= f0 then mkvec3 (vx bmax) (vy pv) (vz pv) else pv in
  let pv := if vy normal .>= f0 then mkvec3 (vx pv) (vy bmax) (vz pv) else pv in
  let pv := if vz normal .>= f0 then mkvec3 (vx pv) (vy pv) (vz bmax) else pv in
  pv.

(** The signed distance of a point to a plane, as the test evaluates it. *)
Definition planeDistance (plane : vec4 fl) (point : vec3 fl) : F fl :=
  dot (vec3_of_vec4 plane) point .+ pw plane.

Fixpoint aabbAgainstPlanes (planes : list (vec4 fl)) (bmin bmax : vec3 fl) : bool :=
  match planes with
  | [] => true
  | plane :: rest =>
      let normal := vec3_of_vec4 plane in
      if planeDistance plane (positiveVertex normal bmin bmax) .< f0
      then false
      else aabbAgainstPlanes rest bmin bmax
  end.

End AabbTest.

(** ** terrain_tile.{hpp,cpp}: TerrainTile *)

Module TerrainTile.

Definition DEFAULT_TILE_SIZE : Z := 512.
Definition VERTICES_PER_SIDE : Z := 64.
(** [sizeof(Vertex)]: a [vec3], a [vec2] and a [vec3] of [float]. *)
Definition sizeof_Vertex : Z := 32.

(** What the Vulkan and VMA calls of [uploadToGPU] returned, in call order:
    the result code and the handles or sizes the call wrote. *)
Record GpuCalls : Type := mkGpuCalls {
  vertex_createBuffer : VkResult * Handle * Handle;
  vertex_uploadBufferData : VkResult;
  staging_createBuffer : VkResult;
  height_vkCreateImage : VkResult * Handle;
  height_memRequirements_size : Z;
  height_vkAllocateMemory : VkResult * Handle;
  height_vkCreateImageView : VkResult * Handle
}.

Section WithFloat.
Context {fl : FloatOps}.

(** The members of the class that the modelled methods read or write.  The
    load timestamps and the weak parent/children/neighbour references are
    written but never read by them and are left out. *)
Record t : Type := mk {
  m_coordinate : TileCoordinate.t;
  m_state : TileState;
  m_bounds : TileBounds.t fl;
  m_cpuData : TileCPUData.t fl;
  m_gpuResources : TileGPUResources.t;
  m_priority : F fl;
  m_framesSinceAccess : Z;           (* uint32_t *)
  m_lastDistanceToCamera : F fl;
  m_errorMessage : string
}.

Definition with_state (s : TileState) (tile : t) : t :=
  mk (m_coordinate tile) s (m_bounds tile) (m_cpuData tile) (m_gpuResources tile)
     (m_priority tile) (m_framesSinceAccess tile) (m_lastDistanceToCamera tile)
     (m_errorMessage tile).
Definition with_bounds (b : TileBounds.t fl) (tile : t) : t :=
  mk (m_coordinate tile) (m_state tile) b (m_cpuData tile) (m_gpuResources tile)
     (m_priority tile) (m_framesSinceAccess tile) (m_lastDistanceToCamera tile)
     (m_errorMessage tile).
Definition with_cpuData (d : TileCPUData.t fl) (tile : t) : t :=
  mk (m_coordinate tile) (m_state tile) (m_bounds tile) d (m_gpuResources tile)
     (m_priority tile) (m_framesSinceAccess tile) (m_lastDistanceToCamera tile)
     (m_errorMessage tile).
Definition with_gpuResources (g : TileGPUResources.t) (tile : t) : t :=
  mk (m_coordinate tile) (m_state tile) (m_bounds tile) (m_cpuData tile) g
     (m_priority tile) (m_framesSinceAccess tile) (m_lastDistanceToCamera tile)
     (m_errorMessage tile).
Definition with_priority (p : F fl) (tile : t) : t :=
  mk (m_coordinate tile) (m_state tile) (m_bounds tile) (m_cpuData tile)
     (m_gpuResources tile) p (m_framesSinceAccess tile)
     (m_lastDistanceToCamera tile) (m_errorMessage tile).
Definition with_framesSinceAccess (n : Z) (tile : t) : t :=
  mk (m_coordinate tile) (m_state tile) (m_bounds tile) (m_cpuData tile)
     (m_gpuResources tile) (m_priority tile) n (m_lastDistanceToCamera tile)
     (m_errorMessage tile).
Definition with_lastDistanceToCamera (d : F fl) (tile : t) : t :=
  mk (m_coordinate tile) (m_state tile) (m_bounds tile) (m_cpuData tile)
     (m_gpuResources tile) (m_priority tile) (m_framesSinceAccess tile) d
     (m_errorMessage tile).
Definition with_errorMessage (msg : string) (tile : t) : t :=
  mk (m_coordinate tile) (m_state tile) (m_bounds tile) (m_cpuData tile)
     (m_gpuResources tile) (m_priority tile) (m_framesSinceAccess tile)
     (m_lastDistanceToCamera tile) msg.

Definition getCoordinate (tile : t) := m_coordinate tile.
Definition getState (tile : t) := m_state tile.
Definition getBounds (tile : t) := m_bounds tile.
Definition getPriority (tile : t) := m_priority tile.
Definition getFramesSinceAccess (tile : t) := m_framesSinceAccess tile.
Definition hasValidGPUResources (tile : t) : bool :=
  TileGPUResources.isValid (m_gpuResources tile).
Definition hasError (tile : t) : bool := TileState_eqb (m_state tile) Error.
Definition markAccessed (tile : t) : t := with_framesSinceAccess 0 tile.
Definition incrementFrameCounter (tile : t) : t :=
  with_framesSinceAccess (wrap32 (m_framesSinceAccess tile + 1)) tile.
Definition setPriority (p : F fl) (tile : t) : t := with_priority p tile.

Definition setState (newState : TileState) (tile : t) : t := with_state newState tile.
Definition setError (errorMessage : string) (tile : t) : t :=
  setState Error (with_errorMessage errorMessage tile).

(** [calculateBounds]: the world-space box of a coordinate. *)
Definition calculateBounds (c : TileCoordinate.t) : TileBounds.t fl :=
  let tileSize := ldexp fl (of_Z fl 1000) (- TileCoordinate.level c) in
  TileBounds.mk
    (mkvec3 (of_Z fl (TileCoordinate.x c) .* tileSize) f0
            (of_Z fl (TileCoordinate.y c) .* tileSize))
    (mkvec3 (of_Z fl (TileCoordinate.x c + 1) .* tileSize) (of_Z fl 200)
            (of_Z fl (TileCoordinate.y c + 1) .* tileSize))
    f0 f0.

(** The constructor: default member initialisers, then [calculateBounds]. *)
Definition create (coordinate : TileCoordinate.t) : t :=
  mk coordinate Empty (calculateBounds coordinate) TileCPUData.init
     TileGPUResources.init f0 0 f0 EmptyString.

Definition loadFromCache (tile : t) : VkResult := VK_ERROR_FEATURE_NOT_PRESENT.

(** [std::minmax_element]: the first smallest and the last largest element. *)
Definition min_element (h : F fl) (l : list (F fl)) : F fl :=
  fold_left (fun m a => if a .< m then a else m) l h.
Definition max_element (h : F fl) (l : list (F fl)) : F fl :=
  fold_left (fun m a => if a .< m then m else a) l h.

(** [loadFromDisk] fills a [size] x [size] grid, row by row, with a height
    computed from sines of the sample position.  [synth x y] stands for that
    value (libm is not modelled); the rest is as in the source. *)
Definition loadFromDisk (synth : Z -> Z -> F fl) (dataPath : string) (tile : t)
  : VkResult * t :=
  let size := DEFAULT_TILE_SIZE in
  let heights :=
    flat_map (fun y => map (fun x => synth x y) (zrange 0 (size - 1)))
             (zrange 0 (size - 1)) in
  let cpu := TileCPUData.mk heights (TileCPUData.normalData (m_cpuData tile))
               (TileCPUData.textureData (m_cpuData tile)) size size (of_Z fl 100) in
  let b := m_bounds tile in
  let b' :=
    match heights with
    | [] => b
    | h :: rest =>
        let lo := min_element h rest in
        let hi := max_element h rest in
        TileBounds.mk
          (mkvec3 (vx (TileBounds.min b)) lo (vz (TileBounds.min b)))
          (mkvec3 (vx (TileBounds.max b)) hi (vz (TileBounds.max b)))
          lo hi
    end in
  (VK_SUCCESS, with_bounds b' (with_cpuData cpu tile)).

(** [loadData] *)
Definition loadData (synth : Z -> Z -> F fl) (dataPath : string) (tile : t)
  : VkResult * t :=
  if negb (TileState_eqb (m_state tile) Empty) then
    (VK_ERROR_INITIALIZATION_FAILED, tile)
  else
    let tile := setState Loading tile in
    match loadFromCache tile with
    | VK_SUCCESS => (VK_SUCCESS, setState Loaded tile)
    | _ =>
        let '(result, tile) := loadFromDisk synth dataPath tile in
        if negb (is_success result)
        then (result, setError "Failed to load tile data from disk" tile)
        else (VK_SUCCESS, setState Loaded tile)
    end.

Definition isEmptyList {A : Type} (l : list A) : bool :=
  match l with [] => true | _ => false end.

(** [createVertexBuffer]: a base mesh of [VERTICES_PER_SIDE]^2 vertices. *)
Definition createVertexBuffer (calls : GpuCalls) (tile : t) : VkResult * t :=
  if isEmptyList (TileCPUData.heightData (m_cpuData tile)) then
    (VK_ERROR_INITIALIZATION_FAILED, tile)
  else
    let bufferSize := wrap64 (VERTICES_PER_SIDE * VERTICES_PER_SIDE * sizeof_Vertex) in
    let '(result, buffer, memory) := vertex_createBuffer calls in
    let g := m_gpuResources tile in
    let g := TileGPUResources.mk buffer memory
               (TileGPUResources.vertexCount g) (TileGPUResources.indexBuffer g)
               (TileGPUResources.indexMemory g) (TileGPUResources.indexCount g)
               (TileGPUResources.heightTexture g)
               (TileGPUResources.heightTextureMemory g)
               (TileGPUResources.heightTextureView g)
               (TileGPUResources.normalTexture g)
               (TileGPUResources.normalTextureMemory g)
               (TileGPUResources.normalTextureView g)
               (TileGPUResources.descriptorSet g)
               (TileGPUResources.totalMemoryUsage g) in
    let tile := with_gpuResources g tile in
    if negb (is_success result) then (result, tile)
    else
      let result := vertex_uploadBufferData calls in
      if negb (is_success result) then (result, tile)
      else
        let g := TileGPUResources.mk buffer memory
                   (wrap32 (VERTICES_PER_SIDE * VERTICES_PER_SIDE))
                   (TileGPUResources.indexBuffer g)
                   (TileGPUResources.indexMemory g) (TileGPUResources.indexCount g)
                   (TileGPUResources.heightTexture g)
                   (TileGPUResources.heightTextureMemory g)
                   (TileGPUResources.heightTextureView g)
                   (TileGPUResources.normalTexture g)
                   (TileGPUResources.normalTextureMemory g)
                   (TileGPUResources.normalTextureView g)
                   (TileGPUResources.descriptorSet g)
                   (wrap64 (TileGPUResources.totalMemoryUsage g + bufferSize)) in
        (VK_SUCCESS, with_gpuResources g tile).

(** [createHeightTexture]: staging buffer, image, image memory, copy, view.
    The staging buffer is local to the function and is released on every
    path; the image, memory and view handles are members. *)
Definition createHeightTexture (calls : GpuCalls) (tile : t) : VkResult * t :=
  if isEmptyList (TileCPUData.heightData (m_cpuData tile)) then
    (VK_ERROR_INITIALIZATION_FAILED, tile)
  else
    let result := staging_createBuffer calls in
    if negb (is_success result) then (result, tile)
    else
      let set_height (image memory view : Handle) (usage : Z) (tile : t) : t :=
        let g := m_gpuResources tile in
        with_gpuResources
          (TileGPUResources.mk
             (TileGPUResources.vertexBuffer g) (TileGPUResources.vertexMemory g)
             (TileGPUResources.vertexCount g) (TileGPUResources.indexBuffer g)
             (TileGPUResources.indexMemory g) (TileGPUResources.indexCount g)
             image memory view
             (TileGPUResources.normalTexture g)
             (TileGPUResources.normalTextureMemory g)
             (TileGPUResources.normalTextureView g)
             (TileGPUResources.descriptorSet g) usage) tile in
      let g := m_gpuResources tile in
      let '(result, image) := height_vkCreateImage calls in
      let tile := set_height image (TileGPUResources.heightTextureMemory g)
                    (TileGPUResources.heightTextureView g)
                    (TileGPUResources.totalMemoryUsage g) tile in
      if negb (is_success result) then (result, tile)
      else
        let '(result, memory) := height_vkAllocateMemory calls in
        let tile := set_height image memory (TileGPUResources.heightTextureView g)
                      (TileGPUResources.totalMemoryUsage g) tile in
        if negb (is_success result) then (result, tile)
        else
          let '(result, view) := height_vkCreateImageView calls in
          let usage :=
            if is_success result
            then wrap64 (TileGPUResources.totalMemoryUsage g
                         + height_memRequirements_size calls)
            else TileGPUResources.totalMemoryUsage g in
          (result, set_height image memory view usage tile).

Definition createNormalTexture (tile : t) : VkResult := VK_SUCCESS.
Definition createDescriptorSet (tile : t) : VkResult := VK_SUCCESS.

(** [uploadToGPU] *)
Definition uploadToGPU (calls : GpuCalls) (tile : t) : VkResult * t :=
  if negb (TileState_eqb (m_state tile) Loaded) then
    (VK_ERROR_INITIALIZATION_FAILED, tile)
  else
    let tile := setState Uploading tile in
    let '(result, tile) := createVertexBuffer calls tile in
    if negb (is_success result)
    then (result, setError "Failed to create vertex buffer" tile)
    else
      let '(result, tile) := createHeightTexture calls tile in
      if negb (is_success result)
      then (result, setError "Failed to create height texture" tile)
      else
        let result :=
          if negb (isEmptyList (TileCPUData.normalData (m_cpuData tile)))
          then createNormalTexture tile else result in
        if negb (is_success result)
        then (result, setError "Failed to create normal texture" tile)
        else
          let result := createDescriptorSet tile in
          if negb (is_success result)
          then (result, setError "Failed to create descriptor set" tile)
          else (VK_SUCCESS, setState Ready tile).

(** [unloadFromGPU] *)
Definition unloadFromGPU (tile : t) : t :=
  let tile := with_gpuResources (TileGPUResources.destroy (m_gpuResources tile)) tile in
  if TileState_eqb (m_state tile) Ready then setState Loaded tile else tile.

(** [evictFromMemory] *)
Definition evictFromMemory (tile : t) : t :=
  let tile := unloadFromGPU tile in
  let tile := with_cpuData (TileCPUData.clear (m_cpuData tile)) tile in
  if negb (TileState_eqb (m_state tile) Error) then setState Evicted tile else tile.

(** [render]: the draw commands are recorded into the command buffer, which
    is not modelled; the tile is marked as accessed. *)
Definition render (tile : t) : VkResult * t :=
  if negb (hasValidGPUResources tile) then (VK_ERROR_INITIALIZATION_FAILED, tile)
  else (VK_SUCCESS, markAccessed tile).

(** [isVisible] *)
Definition isVisible (frustumPlanes : list (vec4 fl)) (tile : t) : bool :=
  aabbAgainstPlanes frustumPlanes
    (TileBounds.min (m_bounds tile)) (TileBounds.max (m_bounds tile)).

(** [getDistanceToCamera] *)
Definition getDistanceToCamera (cameraPosition : vec3 fl) (tile : t) : F fl :=
  length3 (vec3_sub cameraPosition (TileBounds.center (m_bounds tile))).

(** [getRecommendedLOD] *)
Definition getRecommendedLOD (cameraPosition : vec3 fl)
    (nearDistance farDistance : F fl) (tile : t) : Z :=
  let distance := getDistanceToCamera cameraPosition tile in
  if distance .< nearDistance then 0
  else if distance .> farDistance then 7
  else
    let ratio := (distance .- nearDistance) ./ (farDistance .- nearDistance) in
    wrap32 (to_int fl (ratio .* of_Z fl 7)).

(** [updatePriority]: [8 - m_coordinate.level] is evaluated in [uint32_t]
    and converted to [float]; [std::max(a, b)] is [b] when [a < b]. *)
Definition updatePriority (cameraPosition : vec3 fl) (time : F fl) (tile : t) : t :=
  let distance := getDistanceToCamera cameraPosition tile in
  let basePriority := of_Z fl 1000 ./ (distance .+ of_Z fl 1) in
  let lodBonus :=
    of_Z fl (wrap32 (8 - TileCoordinate.level (m_coordinate tile))) .* of_Z fl 10 in
  let access := of_Z fl 100 .- of_Z fl (m_framesSinceAccess tile) in
  let accessBonus := if f0 .< access then access else f0 in
  with_priority (basePriority .+ lodBonus .+ accessBonus) tile.

(** [updateLOD] *)
Definition updateLOD (cameraPosition : vec3 fl) (tile : t) : t :=
  let distance := getDistanceToCamera cameraPosition tile in
  let tile := with_lastDistanceToCamera distance tile in
  updatePriority cameraPosition f0 tile.

Definition getMemoryUsage (tile : t) : Z := TileCPUData.getMemoryUsage (m_cpuData tile).
Definition getGPUMemoryUsage (tile : t) : Z :=
  TileGPUResources.totalMemoryUsage (m_gpuResources tile).

(** A call of a method of the tile by a holder of a reference to it. *)
Inductive Call : Type :=
| CallLoadData (synth : Z -> Z -> F fl) (dataPath : string)
| CallUploadToGPU (calls : GpuCalls)
| CallUnloadFromGPU
| CallEvictFromMemory
| CallRender
| CallMarkAccessed
| CallIncrementFrameCounter
| CallUpdatePriority (cameraPosition : vec3 fl) (time : F fl)
| CallUpdateLOD (cameraPosition : vec3 fl)
| CallSetPriority (p : F fl).

Definition call (c : Call) (tile : t) : t :=
  match c with
  | CallLoadData synth dataPath => snd (loadData synth dataPath tile)
  | CallUploadToGPU calls => snd (uploadToGPU calls tile)
  | CallUnloadFromGPU => unloadFromGPU tile
  | CallEvictFromMemory => evictFromMemory tile
  | CallRender => snd (render tile)
  | CallMarkAccessed => markAccessed tile
  | CallIncrementFrameCounter => incrementFrameCounter tile
  | CallUpdatePriority cameraPosition time => updatePriority cameraPosition time tile
  | CallUpdateLOD cameraPosition => updateLOD cameraPosition tile
  | CallSetPriority p => setPriority p tile
  end.

End WithFloat.
Arguments t : clear implicits.
Arguments Call : clear implicits.
End TerrainTile.

(** ** terrain_tile.{hpp,cpp}: TileLoadingScope

    The scope holds a shared pointer to a tile ([None] is a null pointer);
    the tile is updated in place, so the scope after the call holds the tile
    as the calls left it. *)

Module TileLoadingScope.
Section WithFloat.
Context {fl : FloatOps}.

Record t : Type := mk {
  m_tile : option (TerrainTile.t fl);
  m_originalState : TileState;
  m_success : bool
}.

(** The constructor reads the state of the tile it is given. *)
Definition create (tile : TerrainTile.t fl) : t :=
  mk (Some tile) (TerrainTile.getState tile) false.

(** [loadAndUpload] *)
Definition loadAndUpload (synth : Z -> Z -> F fl) (dataPath : string)
    (calls : TerrainTile.GpuCalls) (s : t) : VkResult * t :=
  match m_tile s with
  | None => (VK_ERROR_INITIALIZATION_FAILED, s)
  | Some tile =>
      let '(result, tile) := TerrainTile.loadData synth dataPath tile in
      if negb (is_success result)
      then (result, mk (Some tile) (m_originalState s) (m_success s))
      else
        let '(result, tile) := TerrainTile.uploadToGPU calls tile in
        if negb (is_success result)
        then (result, mk (Some tile) (m_originalState s) (m_success s))
        else (VK_SUCCESS, mk (Some tile) (m_originalState s) true)
  end.

End WithFloat.
Arguments t : clear implicits.
End TileLoadingScope.

(** ** terrain_tile.{hpp,cpp}: TerrainTileManager

    [m_tiles] is a [std::unordered_map] from coordinates to shared tiles.  The
    order in which it is iterated decides which of several equally old tiles
    [getLRUTiles] returns, so the map is a list of entries in iteration order
    (unspecified in C++; here a new entry goes first).  A tile is shared with
    everyone who holds the pointer [getTile] or [createTile] returned: a
    method call through such a pointer is [callTile], which updates the
    entry of the map. *)

Module TerrainTileManager.
Section WithFloat.
Context {fl : FloatOps}.

Definition Entry : Type := (TileCoordinate.t * TerrainTile.t fl)%type.

Record t : Type := mk {
  m_tiles : list Entry;
  m_maxTiles : Z;            (* uint32_t *)
  m_maxMemoryUsage : Z       (* size_t *)
}.

(** The constructor: an empty map and the default limits. *)
Definition init : t := mk [] 1000 (1024 * 1024 * 1024).

Definition setMaxTiles (maxTiles : Z) (m : t) : t :=
  mk (m_tiles m) maxTiles (m_maxMemoryUsage m).
Definition setMaxMemoryUsage (maxMemory : Z) (m : t) : t :=
  mk (m_tiles m) (m_maxTiles m) maxMemory.

Definition with_tiles (tiles : list Entry) (m : t) : t :=
  mk tiles (m_maxTiles m) (m_maxMemoryUsage m).

(** [m_tiles.find] and [m_tiles.erase] by key. *)
Definition find (c : TileCoordinate.t) (tiles : list Entry) : option (TerrainTile.t fl) :=
  match List.find (fun e => TileCoordinate.eqb (fst e) c) tiles with
  | Some e => Some (snd e)
  | None => None
  end.

Definition erase (c : TileCoordinate.t) (tiles : list Entry) : list Entry :=
  filter (fun e => negb (TileCoordinate.eqb (fst e) c)) tiles.

Definition size (m : t) : Z := Z.of_nat (List.length (m_tiles m)).

(** [getTile] *)
Definition getTile (coordinate : TileCoordinate.t) (m : t) : option (TerrainTile.t fl) :=
  find coordinate (m_tiles m).

(** [getLRUTiles]: "Sort by frames since access (highest first = least
    recently used)", then the first [count] tiles. *)
Definition getLRUTiles (count : Z) (m : t) : list (TerrainTile.t fl) :=
  let allTiles := map snd (m_tiles m) in
  let sorted :=
    std_sort (fun a b => TerrainTile.getFramesSinceAccess a >?
                         TerrainTile.getFramesSinceAccess b) allTiles in
  let count := Z.min count (Z.of_nat (List.length sorted)) in
  firstn (Z.to_nat count) sorted.

(** [enforceLimits] *)
Definition enforceLimits (m : t) : t :=
  if size m <=? m_maxTiles m then m
  else
    let tilesToRemove := wrap64 (size m - m_maxTiles m) in
    let lruTiles := getLRUTiles tilesToRemove m in
    with_tiles
      (fold_left (fun tiles tile => erase (TerrainTile.getCoordinate tile) tiles)
                 lruTiles (m_tiles m))
      m.

(** [createTile] *)
Definition createTile (coordinate : TileCoordinate.t) (m : t) : t * TerrainTile.t fl :=
  match find coordinate (m_tiles m) with
  | Some tile => (m, tile)
  | None =>
      let tile := TerrainTile.create coordinate in
      let m := with_tiles ((coordinate, tile) :: m_tiles m) m in
      (enforceLimits m, tile)
  end.

(** [removeTile] *)
Definition removeTile (coordinate : TileCoordinate.t) (m : t) : t :=
  match find coordinate (m_tiles m) with
  | Some _ => with_tiles (erase coordinate (m_tiles m)) m
  | None => m
  end.

(** [removeAllTiles] *)
Definition removeAllTiles (m : t) : t := with_tiles [] m.

(** A method call on the tile stored under [coordinate], made through a
    shared pointer to it. *)
Definition callTile (coordinate : TileCoordinate.t) (c : TerrainTile.Call fl) (m : t) : t :=
  with_tiles
    (map (fun e => if TileCoordinate.eqb (fst e) coordinate
                   then (fst e, TerrainTile.call c (snd e)) else e)
         (m_tiles m))
    m.

(** [getTotalMemoryUsage] and [getTotalGPUMemoryUsage] *)
Definition getTotalMemoryUsage (m : t) : Z :=
  fold_left (fun total e => wrap64 (total + TerrainTile.getMemoryUsage (snd e)))
            (m_tiles m) 0.
Definition getTotalGPUMemoryUsage (m : t) : Z :=
  fold_left (fun total e => wrap64 (total + TerrainTile.getGPUMemoryUsage (snd e)))
            (m_tiles m) 0.

(** [getTilesByLOD] and [getVisibleTiles] *)
Definition getTilesByLOD (level : Z) (m : t) : list (TerrainTile.t fl) :=
  map snd (filter (fun e => TileCoordinate.level (fst e) =? level) (m_tiles m)).
Definition getVisibleTiles (frustumPlanes : list (vec4 fl)) (m : t) : list (TerrainTile.t fl) :=
  filter (TerrainTile.isVisible frustumPlanes) (map snd (m_tiles m)).

(** [updateLOD] and [updatePriorities] *)
Definition updateLOD (cameraPosition : vec3 fl) (m : t) : t :=
  with_tiles
    (map (fun e => (fst e, TerrainTile.updateLOD cameraPosition (snd e))) (m_tiles m)) m.
Definition updatePriorities (cameraPosition : vec3 fl) (deltaTime : F fl) (m : t) : t :=
  with_tiles
    (map (fun e => (fst e, TerrainTile.updatePriority cameraPosition deltaTime (snd e)))
         (m_tiles m)) m.

(** [getHighPriorityLoadingQueue]: the coordinates of the [Empty] and
    [Evicted] tiles, "highest first", at most [maxCount] of them. *)
Definition getHighPriorityLoadingQueue (maxCount : Z) (m : t) : list TileCoordinate.t :=
  let priorityList :=
    map (fun e => (fst e, TerrainTile.getPriority (snd e)))
        (filter (fun e => TileState_eqb (TerrainTile.getState (snd e)) Empty
                          || TileState_eqb (TerrainTile.getState (snd e)) Evicted)
                (m_tiles m)) in
  let sorted := std_sort (fun a b => snd a .> snd b) priorityList in
  let count := Z.min maxCount (Z.of_nat (List.length sorted)) in
  map fst (firstn (Z.to_nat count) sorted).

(** [performMemoryCleanup]: the least recently used tiles are evicted; they
    stay in the map. *)
Definition performMemoryCleanup (targetMemoryUsage : Z) (m : t) : t :=
  let currentUsage := getTotalMemoryUsage m in
  if currentUsage <=? targetMemoryUsage then m
  else
    let tilesToRemove := wrap64 (currentUsage - targetMemoryUsage) / (1024 * 1024) in
    let lruTiles := getLRUTiles tilesToRemove m in
    fold_left (fun m tile =>
                 callTile (TerrainTile.getCoordinate tile)
                          TerrainTile.CallEvictFromMemory m)
              lruTiles m.

(** [getTilesInBounds] *)
Definition getTilesInBounds (bounds : TileBounds.t fl) (m : t) : list (TerrainTile.t fl) :=
  filter (fun tile => TileBounds.intersects (TerrainTile.getBounds tile) bounds)
         (map snd (m_tiles m)).

(** [TileStats] and [getStats]: the counters are [uint32_t], the two usages
    [size_t]. *)
Record TileStats : Type := mkTileStats {
  totalTiles : Z;
  readyTiles : Z;
  loadingTiles : Z;
  errorTiles : Z;
  memoryUsage : Z;
  gpuMemoryUsage : Z
}.

Definition getStats (m : t) : TileStats :=
  fold_left
    (fun stats e =>
       let tile := snd e in
       let stats :=
         match TerrainTile.getState tile with
         | Ready =>
             mkTileStats (totalTiles stats) (wrap32 (readyTiles stats + 1))
               (loadingTiles stats) (errorTiles stats)
               (memoryUsage stats) (gpuMemoryUsage stats)
         | Loading | Uploading =>
             mkTileStats (totalTiles stats) (readyTiles stats)
               (wrap32 (loadingTiles stats + 1)) (errorTiles stats)
               (memoryUsage stats) (gpuMemoryUsage stats)
         | Error =>
             mkTileStats (totalTiles stats) (readyTiles stats)
               (loadingTiles stats) (wrap32 (errorTiles stats + 1))
               (memoryUsage stats) (gpuMemoryUsage stats)
         | _ => stats
         end in
       mkTileStats (totalTiles stats) (readyTiles stats) (loadingTiles stats)
         (errorTiles stats)
         (wrap64 (memoryUsage stats + TerrainTile.getMemoryUsage tile))
         (wrap64 (gpuMemoryUsage stats + TerrainTile.getGPUMemoryUsage tile)))
    (m_tiles m)
    (mkTileStats (wrap32 (size m)) 0 0 0 0 0).

(** The operations on a manager and on its tiles, and their execution in
    sequence.  The limits are configured before the first operation. *)
Inductive Op : Type :=
| OpCreateTile (coordinate : TileCoordinate.t)
| OpRemoveTile (coordinate : TileCoordinate.t)
| OpRemoveAllTiles
| OpCallTile (coordinate : TileCoordinate.t) (c : TerrainTile.Call fl)
| OpUpdateLOD (cameraPosition : vec3 fl)
| OpUpdatePriorities (cameraPosition : vec3 fl) (deltaTime : F fl)
| OpPerformMemoryCleanup (targetMemoryUsage : Z).

Definition step (m : t) (op : Op) : t :=
  match op with
  | OpCreateTile c => fst (createTile c m)
  | OpRemoveTile c => removeTile c m
  | OpRemoveAllTiles => removeAllTiles m
  | OpCallTile c call => callTile c call m
  | OpUpdateLOD cam => updateLOD cam m
  | OpUpdatePriorities cam dt => updatePriorities cam dt m
  | OpPerformMemoryCleanup target => performMemoryCleanup target m
  end.

Definition run (ops : list Op) (m : t) : t := fold_left step ops m.

End WithFloat.
Arguments t : clear implicits.
Arguments Op : clear implicits.
Arguments Entry : clear implicits.
End TerrainTileManager.

(* ================================================================== *)
(** ** terrain_renderer.{hpp,cpp}: camera, frustum and candidate tiles *)

Module TerrainCamera.
Section WithFloat.
Context {fl : FloatOps}.

(** [fov] is used only through [glm::perspective(glm::radians(fov), ...)];
    the model holds [tanHalfFov], the tangent of half that angle. *)
Record t : Type := mk {
  position : vec3 fl;
  direction : vec3 fl;
  up : vec3 fl;
  tanHalfFov : F fl;
  nearPlane : F fl;
  farPlane : F fl;
  aspect : F fl
}.

Definition getViewMatrix (c : t) : mat4 fl :=
  lookAt (position c) (vec3_add (position c) (direction c)) (up c).
Definition getProjectionMatrix (c : t) : mat4 fl :=
  perspective (tanHalfFov c) (aspect c) (nearPlane c) (farPlane c).
Definition getViewProjectionMatrix (c : t) : mat4 fl :=
  mat4_mul (getProjectionMatrix c) (getViewMatrix c).

End WithFloat.
Arguments t : clear implicits.
End TerrainCamera.

Module TerrainBounds.
Section WithFloat.
Context {fl : FloatOps}.

Record t : Type := mk { min : vec3 fl; max : vec3 fl }.

Definition center (b : t) : vec3 fl := vec3_scale (vec3_add (min b) (max b)) fhalf.

Definition contains (b : t) (point : vec3 fl) : bool :=
  (vx point .>= vx (min b)) && (vx point .<= vx (max b)) &&
  (vy point .>= vy (min b)) && (vy point .<= vy (max b)) &&
  (vz point .>= vz (min b)) && (vz point .<= vz (max b)).

Definition intersects (b other : t) : bool :=
  negb ((vx (max b) .< vx (min other)) || (vx (min b) .> vx (max other)) ||
        (vy (max b) .< vy (min other)) || (vy (min b) .> vy (max other)) ||
        (vz (max b) .< vz (min other)) || (vz (min b) .> vz (max other))).

End WithFloat.
Arguments t : clear implicits.
End TerrainBounds.

Module Frustum.
Section WithFloat.
Context {fl : FloatOps}.

(** [planes[6]]: left, right, bottom, top, near, far. *)
Record t : Type := mk { planes : list (vec4 fl) }.

(** Row [r] of a matrix stored by columns: [m[0][r], m[1][r], m[2][r], m[3][r]]. *)
Definition row (r : vec4 fl -> F fl) (m : mat4 fl) : vec4 fl :=
  mkvec4 (r (col0 m)) (r (col1 m)) (r (col2 m)) (r (col3 m)).

(** [update]: the planes are combinations of the rows of the
    view-projection matrix, each divided by the length of its normal. *)
Definition update (viewProjection : mat4 fl) : t :=
  let m := viewProjection in
  let r0 := row px m in
  let r1 := row py m in
  let r2 := row pz m in
  let r3 := row pw m in
  let plus (a b : vec4 fl) := vec4_add a b in
  let minus (a b : vec4 fl) :=
    mkvec4 (px a .- px b) (py a .- py b) (pz a .- pz b) (pw a .- pw b) in
  let raw := [ plus r3 r0; minus r3 r0; plus r3 r1; minus r3 r1;
               plus r3 r2; minus r3 r2 ] in
  mk (map (fun p => vec4_div p (length3 (vec3_of_vec4 p))) raw).

(** [intersects(const TerrainBounds&)] *)
Definition intersects (f : t) (bounds : TerrainBounds.t fl) : bool :=
  aabbAgainstPlanes (planes f) (TerrainBounds.min bounds) (TerrainBounds.max bounds).

(** [intersects(const glm::vec3&, float)]: the sphere test. *)
Definition intersectsSphere (f : t) (center : vec3 fl) (radius : F fl) : bool :=
  forallb (fun plane => negb (planeDistance plane center .< fopp fl radius)) (planes f).

End WithFloat.
Arguments t : clear implicits.
End Frustum.

Module TerrainRenderer.
Section WithFloat.
Context {fl : FloatOps}.

(** The fields of [TerrainRenderConfig] that culling reads. *)
Record Config : Type := mkConfig {
  nearDistance : F fl;
  farDistance : F fl;
  tileSize : Z;
  maxVisibleTiles : Z;
  enableFrustumCulling : bool
}.

(** [getTileBounds] *)
Definition getTileBounds (coord : TileCoordinate.t) : TerrainBounds.t fl :=
  let tileSize := ldexp fl (of_Z fl 1000) (- TileCoordinate.level coord) in
  TerrainBounds.mk
    (mkvec3 (of_Z fl (TileCoordinate.x coord) .* tileSize) f0
            (of_Z fl (TileCoordinate.y coord) .* tileSize))
    (mkvec3 (of_Z fl (TileCoordinate.x coord + 1) .* tileSize) (of_Z fl 200)
            (of_Z fl (TileCoordinate.y coord + 1) .* tileSize)).

(** The two culling tests of [performCulling] on one grid cell: [true] when
    the cell is pushed to [candidateTiles]. *)
Definition keepTile (cfg : Config) (frustum : Frustum.t fl) (cameraPos : vec3 fl)
    (maxDistance : F fl) (coord : TileCoordinate.t) : bool :=
  let tileBounds := getTileBounds coord in
  if enableFrustumCulling cfg && negb (Frustum.intersects frustum tileBounds)
  then false
  else
    let distance := length3 (vec3_sub cameraPos (TerrainBounds.center tileBounds)) in
    if distance .> maxDistance then false else true.

(** The body of the loop over LOD levels for one [level]: the grid cells
    within [cameraPos +- maxDistance], row by row. *)
Definition levelTiles (cfg : Config) (frustum : Frustum.t fl) (cameraPos : vec3 fl)
    (maxDistance : F fl) (activeDataset : string) (level : Z)
  : list TileCoordinate.t :=
  let tilesPerSide := wrap32 (2 ^ level) in
  let tileSize := of_Z fl 2000 ./ of_Z fl tilesPerSide in
  let minTileX := to_int fl ((vx cameraPos .- maxDistance) ./ tileSize) - 1 in
  let maxTileX := to_int fl ((vx cameraPos .+ maxDistance) ./ tileSize) + 1 in
  let minTileY := to_int fl ((vz cameraPos .- maxDistance) ./ tileSize) - 1 in
  let maxTileY := to_int fl ((vz cameraPos .+ maxDistance) ./ tileSize) + 1 in
  flat_map
    (fun y =>
       flat_map
         (fun x =>
            let coord := TileCoordinate.mk x y level activeDataset in
            if keepTile cfg frustum cameraPos maxDistance coord then [coord] else [])
         (zrange minTileX maxTileX))
    (zrange minTileY maxTileY).

(** The loop over LOD levels, with its [break]. *)
Fixpoint levelLoop (cfg : Config) (frustum : Frustum.t fl) (cameraPos : vec3 fl)
    (maxDistance : F fl) (activeDataset : string) (levels : list Z)
  : list TileCoordinate.t :=
  match levels with
  | [] => []
  | level :: rest =>
      let levelDistance := ldexp fl (nearDistance cfg) level in
      if levelDistance .> maxDistance then []
      else levelTiles cfg frustum cameraPos maxDistance activeDataset level
           ++ levelLoop cfg frustum cameraPos maxDistance activeDataset rest
  end.

(** [candidateTiles] as it stands when the level loop ends, before the sort
    and the truncation. *)
Definition candidateTiles (cfg : Config) (frustum : Frustum.t fl) (cameraPos : vec3 fl)
    (maxDistance : F fl) (activeDataset : string) : list TileCoordinate.t :=
  levelLoop cfg frustum cameraPos maxDistance activeDataset (zrange 0 7).

(** [std::min(a, b)] is [b] when [b < a]. *)
Definition fmin (a b : F fl) : F fl := if b .< a then b else a.

(** [performCulling] up to the truncated candidate list: the candidates are
    generated for [maxDistance = min(camera.farPlane, farDistance)], sorted
    by the distance of their centre to the camera and cut to
    [maxVisibleTiles].  (The function goes on to look the candidates up in
    the renderer's tile map and to queue the missing ones for loading.) *)
Definition performCulling (cfg : Config) (camera : TerrainCamera.t fl)
    (frustum : Frustum.t fl) (activeDataset : string) : list TileCoordinate.t :=
  let maxDistance := fmin (TerrainCamera.farPlane camera) (farDistance cfg) in
  let cameraPos := TerrainCamera.position camera in
  let candidates := candidateTiles cfg frustum cameraPos maxDistance activeDataset in
  let dist c := length3 (vec3_sub cameraPos (TerrainBounds.center (getTileBounds c))) in
  let sorted := std_sort (fun a b => dist a .< dist b) candidates in
  if Z.of_nat (List.length sorted) >? maxVisibleTiles cfg
  then firstn (Z.to_nat (maxVisibleTiles cfg)) sorted
  else sorted.

(** [render] sets the frustum of the frame from the camera before it calls
    [performCulling]. *)
Definition frameFrustum (camera : TerrainCamera.t fl) : Frustum.t fl :=
  Frustum.update (TerrainCamera.getViewProjectionMatrix camera).

(** [worldToTileCoordinate]; [ffloor] is [std::floor], [activeDataset] the
    renderer's [m_activeDataset]. *)
Definition worldToTileCoordinate (ffloor : F fl -> F fl) (activeDataset : string)
    (worldPos : vec3 fl) (level : Z) : TileCoordinate.t :=
  let tileSize := ldexp fl (of_Z fl 1000) (- level) in
  let x := to_int fl (ffloor (vx worldPos ./ tileSize)) in
  let y := to_int fl (ffloor (vz worldPos ./ tileSize)) in
  TileCoordinate.mk x y level activeDataset.

(** [calculateLODLevel] *)
Definition calculateLODLevel (cfg : Config) (tileCenter cameraPos : vec3 fl) : Z :=
  let distance := length3 (vec3_sub cameraPos tileCenter) in
  if distance .< nearDistance cfg then 0
  else if distance .> farDistance cfg then 7
  else
    let ratio :=
      (distance .- nearDistance cfg) ./ (farDistance cfg .- nearDistance cfg) in
    wrap32 (to_int fl (ratio .* of_Z fl 7)).

(** *** The renderer's datasets, tiles and loading queue

    [m_datasets] and [m_tiles] are [std::unordered_map]s: lists of entries in
    iteration order (C++ leaves the order open; here a new key goes last).
    [visibleTiles] of the current frame holds shared pointers to tiles of
    [m_tiles] and is kept as the list of their keys.  The loops of the
    worker threads are modelled by their bodies, run between the other
    calls. *)

Record DatasetInfo : Type := mkDatasetInfo {
  path : string;
  bounds : TerrainBounds.t fl;
  heightScale : F fl;
  width : Z;
  height : Z
}.

(** The value-initialised entry that [m_datasets[id]] creates for an [id]
    that is not in the map. *)
Definition emptyDataset : DatasetInfo :=
  mkDatasetInfo EmptyString (TerrainBounds.mk (vec3_splat f0) (vec3_splat f0)) f0 0 0.

Record t : Type := mk {
  m_config : Config;
  m_initialized : bool;
  m_datasets : list (string * DatasetInfo);
  m_activeDataset : string;
  m_tiles : list (TileCoordinate.t * TerrainTile.t fl);
  m_loadingQueue : list TileCoordinate.t;
  visibleTiles : list TileCoordinate.t;     (* m_currentFrame.visibleTiles *)
  tilesCulled : Z                           (* m_stats.tilesCulled, uint32_t *)
}.

(** The defaults of [TerrainRenderConfig] and the state after the
    constructor. *)
Definition defaultConfig : Config :=
  mkConfig (of_Z fl 50) (of_Z fl 2000) 512 256 true.

Definition init : t := mk defaultConfig false [] EmptyString [] [] [] 0.

Definition with_datasets (datasets : list (string * DatasetInfo)) (r : t) : t :=
  mk (m_config r) (m_initialized r) datasets (m_activeDataset r) (m_tiles r)
     (m_loadingQueue r) (visibleTiles r) (tilesCulled r).
Definition with_activeDataset (id : string) (r : t) : t :=
  mk (m_config r) (m_initialized r) (m_datasets r) id (m_tiles r)
     (m_loadingQueue r) (visibleTiles r) (tilesCulled r).
Definition with_tiles (tiles : list (TileCoordinate.t * TerrainTile.t fl)) (r : t) : t :=
  mk (m_config r) (m_initialized r) (m_datasets r) (m_activeDataset r) tiles
     (m_loadingQueue r) (visibleTiles r) (tilesCulled r).
Definition with_loadingQueue (queue : list TileCoordinate.t) (r : t) : t :=
  mk (m_config r) (m_initialized r) (m_datasets r) (m_activeDataset r) (m_tiles r)
     queue (visibleTiles r) (tilesCulled r).
Definition with_visibleTiles (visible : list TileCoordinate.t) (r : t) : t :=
  mk (m_config r) (m_initialized r) (m_datasets r) (m_activeDataset r) (m_tiles r)
     (m_loadingQueue r) visible (tilesCulled r).

Definition isEmptyString (s : string) : bool :=
  match s with EmptyString => true | _ => false end.

(** [find] and [m[k]] on [m_datasets]: the subscript creates the entry of a
    missing key. *)
Definition findDataset (id : string) (datasets : list (string * DatasetInfo))
  : option DatasetInfo :=
  match List.find (fun e => String.eqb (fst e) id) datasets with
  | Some e => Some (snd e)
  | None => None
  end.

Definition subscript (id : string) (datasets : list (string * DatasetInfo))
  : list (string * DatasetInfo) :=
  match findDataset id datasets with
  | Some _ => datasets
  | None => datasets ++ [(id, emptyDataset)]
  end.

(** [initialize]; [vulkan] is the result of creating the pipelines, the
    uniform buffer and the descriptor sets: [VK_SUCCESS], or the code of the
    first call that failed. *)
Definition initialize (config : Config) (vulkan : VkResult) (r : t) : VkResult * t :=
  if m_initialized r then (VK_ERROR_INITIALIZATION_FAILED, r)
  else
    let r := mk config (m_initialized r) (m_datasets r) (m_activeDataset r) (m_tiles r)
                (m_loadingQueue r) (visibleTiles r) (tilesCulled r) in
    if negb (is_success vulkan) then (vulkan, r)
    else (VK_SUCCESS,
          mk (m_config r) true (m_datasets r) (m_activeDataset r) (m_tiles r)
             (m_loadingQueue r) (visibleTiles r) (tilesCulled r)).

(** [destroy] *)
Definition destroy (r : t) : t :=
  if negb (m_initialized r) then r
  else mk (m_config r) false [] (m_activeDataset r) []
          (m_loadingQueue r) (visibleTiles r) (tilesCulled r).

(** [loadDataset] *)
Definition loadDataset (datasetId geoTiffPath : string) (r : t) : VkResult * t :=
  let dataset :=
    mkDatasetInfo geoTiffPath
      (TerrainBounds.mk (mkvec3 (of_Z fl (-1000)) f0 (of_Z fl (-1000)))
                        (mkvec3 (of_Z fl 1000) (of_Z fl 200) (of_Z fl 1000)))
      f1 4096 4096 in
  let r := with_datasets (assign String.eqb datasetId dataset (m_datasets r)) r in
  let r := if isEmptyString (m_activeDataset r) then with_activeDataset datasetId r
           else r in
  (VK_SUCCESS, r).

(** [unloadDataset] *)
Definition unloadDataset (datasetId : string) (r : t) : t :=
  match findDataset datasetId (m_datasets r) with
  | None => r
  | Some _ =>
      let r :=
        with_tiles
          (filter (fun e => negb (String.eqb (TileCoordinate.datasetId (fst e)) datasetId))
                  (m_tiles r)) r in
      let r :=
        with_datasets
          (filter (fun e => negb (String.eqb (fst e) datasetId)) (m_datasets r)) r in
      if String.eqb (m_activeDataset r) datasetId
      then with_activeDataset
             (match m_datasets r with [] => EmptyString | e :: _ => fst e end) r
      else r
  end.

(** [setActiveDataset] *)
Definition setActiveDataset (datasetId : string) (r : t) : t :=
  match findDataset datasetId (m_datasets r) with
  | Some _ => with_activeDataset datasetId r
  | None => r
  end.

(** [updateConfig] *)
Definition updateConfig (config : Config) (r : t) : t :=
  mk config (m_initialized r) (m_datasets r) (m_activeDataset r) (m_tiles r)
     (m_loadingQueue r) (visibleTiles r) (tilesCulled r).

(** [getTile] and [scheduleLoading] *)
Definition getTile (coord : TileCoordinate.t) (r : t) : option (TerrainTile.t fl) :=
  TerrainTileManager.find coord (m_tiles r).

Definition scheduleLoading (coord : TileCoordinate.t) (r : t) : t :=
  with_loadingQueue (m_loadingQueue r ++ [coord]) r.

(** The last loop of [performCulling], "Get or create tiles", for one
    candidate. *)
Definition getOrCreate (r : t) (coord : TileCoordinate.t) : t :=
  match getTile coord r with
  | Some tile =>
      if TileState_eqb (TerrainTile.getState tile) Ready
      then with_visibleTiles (visibleTiles r ++ [coord]) r
      else r
  | None => scheduleLoading coord r
  end.

(** [performCulling] as a whole, on the renderer: the candidate list of
    [performCulling] above, then the look-up of the candidates. *)
Definition performCullingFrame (camera : TerrainCamera.t fl) (frustum : Frustum.t fl)
    (r : t) : VkResult * t :=
  let r := with_visibleTiles [] r in
  if isEmptyString (m_activeDataset r) then (VK_SUCCESS, r)
  else
    let r := with_datasets (subscript (m_activeDataset r) (m_datasets r)) r in
    let candidateTiles := performCulling (m_config r) camera frustum (m_activeDataset r) in
    let r := fold_left getOrCreate candidateTiles r in
    let culled :=
      wrap32 (wrap64 (Z.of_nat (List.length candidateTiles)
                      - Z.of_nat (List.length (visibleTiles r)))) in
    (VK_SUCCESS,
     mk (m_config r) (m_initialized r) (m_datasets r) (m_activeDataset r) (m_tiles r)
        (m_loadingQueue r) (visibleTiles r) culled).

(** [updateTileStates] *)
Definition updateTileStates (r : t) : t :=
  with_tiles
    (map (fun e =>
            let tile := TerrainTile.incrementFrameCounter (snd e) in
            (fst e,
             if TerrainTile.getFramesSinceAccess tile >? 300
             then TerrainTile.evictFromMemory tile else tile))
         (m_tiles r))
    r.

(** One turn of the loop of [tileLoadingWorker]: with an empty queue the
    thread sleeps; otherwise the front coordinate is taken, a tile is
    created, loaded and uploaded, and stored when both steps succeeded. *)
Definition tileLoadingWorker (synth : Z -> Z -> F fl) (calls : TerrainTile.GpuCalls)
    (r : t) : t :=
  match m_loadingQueue r with
  | [] => r
  | coord :: rest =>
      let r := with_loadingQueue rest r in
      let tile := TerrainTile.create coord in
      let r := with_datasets (subscript (TileCoordinate.datasetId coord) (m_datasets r)) r in
      let dataPath :=
        match findDataset (TileCoordinate.datasetId coord) (m_datasets r) with
        | Some dataset => path dataset
        | None => EmptyString
        end in
      let '(result, tile) := TerrainTile.loadData synth dataPath tile in
      let '(result, tile) :=
        if is_success result then TerrainTile.uploadToGPU calls tile else (result, tile) in
      if is_success result
      then with_tiles (assign TileCoordinate.eqb coord tile (m_tiles r)) r
      else r
  end.

(** The calls on a renderer, and their execution in sequence. *)
Inductive Op : Type :=
| OpInitialize (config : Config) (vulkan : VkResult)
| OpLoadDataset (datasetId geoTiffPath : string)
| OpUnloadDataset (datasetId : string)
| OpSetActiveDataset (datasetId : string)
| OpUpdateConfig (config : Config)
| OpPerformCulling (camera : TerrainCamera.t fl) (frustum : Frustum.t fl)
| OpUpdateTileStates
| OpTileLoadingWorker (synth : Z -> Z -> F fl) (calls : TerrainTile.GpuCalls).

Definition step (r : t) (op : Op) : t :=
  match op with
  | OpInitialize config vulkan => snd (initialize config vulkan r)
  | OpLoadDataset datasetId geoTiffPath => snd (loadDataset datasetId geoTiffPath r)
  | OpUnloadDataset datasetId => unloadDataset datasetId r
  | OpSetActiveDataset datasetId => setActiveDataset datasetId r
  | OpUpdateConfig config => updateConfig config r
  | OpPerformCulling camera frustum => snd (performCullingFrame camera frustum r)
  | OpUpdateTileStates => updateTileStates r
  | OpTileLoadingWorker synth calls => tileLoadingWorker synth calls r
  end.

Definition run (ops : list Op) (r : t) : t := fold_left step ops r.

End WithFloat.
Arguments Config : clear implicits.
Arguments DatasetInfo : clear implicits.
Arguments t : clear implicits.
Arguments Op : clear implicits.
End TerrainRenderer.

(* ================================================================== *)
(** ** terrain_memory_pool.{hpp,cpp}: memory pools *)

Inductive TerrainMemoryType : Type :=
| VertexBuffer | IndexBuffer | HeightTexture | ColorTexture
| NormalTexture | UniformBuffer | StagingBuffer | ComputeBuffer.

Module TerrainMemoryUtils.

(** [~a] on [size_t]. *)
Definition lnot64 (a : Z) : Z := 2 ^ 64 - 1 - wrap64 a.

(** [alignSize]: [(size + alignment - 1) & ~(alignment - 1)]. *)
Definition alignSize (size alignment : Z) : Z :=
  Z.land (wrap64 (size + alignment - 1)) (lnot64 (wrap64 (alignment - 1))).

(** [isAligned]: [(offset & (alignment - 1)) == 0]. *)
Definition isAligned (offset alignment : Z) : bool :=
  Z.land offset (wrap64 (alignment - 1)) =? 0.

(** [getOptimalAlignment] *)
Definition getOptimalAlignment (type : TerrainMemoryType) : Z :=
  match type with
  | VertexBuffer | IndexBuffer => 256
  | UniformBuffer => 256
  | HeightTexture | ColorTexture | NormalTexture => 1024
  | StagingBuffer => 64
  | ComputeBuffer => 256
  end.

(** [calculateOptimalPoolSize]: the sizes are [size_t] values; [std::max]
    and [std::min] on them are [Z.max] and [Z.min]. *)
Definition calculateOptimalPoolSize (type : TerrainMemoryType)
    (allocationSizes : list Z) : Z :=
  match allocationSizes with
  | [] => 64 * 1024 * 1024
  | _ =>
      let '(total, maxSize) :=
        fold_left (fun '(total, maxSize) size =>
                     (wrap64 (total + size), Z.max maxSize size))
                  allocationSizes (0, 0) in
      let avgSize := total / Z.of_nat (List.length allocationSizes) in
      let poolSize := Z.max (wrap64 (avgSize * 15)) (wrap64 (maxSize * 3)) in
      let poolSize :=
        match type with
        | HeightTexture | ColorTexture => wrap64 (poolSize * 2)
        | UniformBuffer => Z.max poolSize (16 * 1024 * 1024)
        | _ => poolSize
        end in
      let poolSize := Z.max poolSize (16 * 1024 * 1024) in
      Z.min poolSize (1024 * 1024 * 1024)
  end.

(** [getTypeName] *)
Definition getTypeName (type : TerrainMemoryType) : string :=
  match type with
  | VertexBuffer => "VertexBuffer"
  | IndexBuffer => "IndexBuffer"
  | HeightTexture => "HeightTexture"
  | ColorTexture => "ColorTexture"
  | NormalTexture => "NormalTexture"
  | UniformBuffer => "UniformBuffer"
  | StagingBuffer => "StagingBuffer"
  | ComputeBuffer => "ComputeBuffer"
  end.

End TerrainMemoryUtils.

Module TerrainMemoryConfig.

(** [TypeConfig]; its [growthFactor] is never read and is left out. *)
Record TypeConfig : Type := mkTypeConfig {
  preferredPoolSize : Z;
  minPoolSize : Z;
  allocationAlignment : Z;
  enableDefragmentation : bool
}.

Definition MB : Z := 1024 * 1024.

(** The per-type defaults set by the constructor of [TerrainMemoryConfig]. *)
Definition typeConfigs (type : TerrainMemoryType) : TypeConfig :=
  match type with
  | VertexBuffer => mkTypeConfig (128 * MB) (16 * MB) 256 true
  | IndexBuffer => mkTypeConfig (64 * MB) (8 * MB) 256 true
  | HeightTexture => mkTypeConfig (256 * MB) (32 * MB) 1024 false
  | ColorTexture => mkTypeConfig (512 * MB) (64 * MB) 1024 false
  | NormalTexture => mkTypeConfig (256 * MB) (32 * MB) 1024 false
  | UniformBuffer => mkTypeConfig (16 * MB) (2 * MB) 256 true
  | StagingBuffer => mkTypeConfig (64 * MB) (8 * MB) 256 true
  | ComputeBuffer => mkTypeConfig (32 * MB) (4 * MB) 256 true
  end.

End TerrainMemoryConfig.

Module TerrainMemoryAllocation.

(** An allocation is a shared object; [object] is its identity (its
    address), by which the pool's weak references are compared. *)
Record t : Type := mk {
  object : Z;
  allocation : Handle;       (* VmaAllocation *)
  buffer : Handle;
  image : Handle;
  type : TerrainMemoryType;
  size : Z;
  alignment : Z
}.

Definition isValid (a : t) : bool :=
  negb (is_null (allocation a))
  && (negb (is_null (buffer a)) || negb (is_null (image a))).

End TerrainMemoryAllocation.

Module TerrainMemoryPool.

Record t : Type := mk {
  m_type : TerrainMemoryType;
  m_config : TerrainMemoryConfig.TypeConfig;
  m_vmaPool : Handle;
  m_totalSize : Z;               (* size_t *)
  m_usedSize : Z;                (* atomic size_t *)
  m_activeAllocations : Z;       (* atomic uint32_t *)
  m_allocations : list Z         (* weak references, by object identity *)
}.

(** The constructor. *)
Definition create (type : TerrainMemoryType) (config : TerrainMemoryConfig.TypeConfig) : t :=
  mk type config VK_NULL_HANDLE 0 0 0 [].

Definition getTotalSize (p : t) : Z := m_totalSize p.
Definition getUsedSize (p : t) : Z := m_usedSize p.
Definition getFreeSize (p : t) : Z := wrap64 (m_totalSize p - m_usedSize p).
Definition getActiveAllocations (p : t) : Z := m_activeAllocations p.

(** [canAllocate] *)
Definition canAllocate (size alignment : Z) (p : t) : bool :=
  let alignedSize :=
    Z.land (wrap64 (size + alignment - 1))
           (TerrainMemoryUtils.lnot64 (wrap64 (alignment - 1))) in
  wrap64 (m_usedSize p + alignedSize) <=? m_totalSize p.

(** [createPool]; [vmaCreatePool] is what the VMA call returned: the result
    code and the pool handle. *)
Definition createPool (vmaCreatePool : VkResult * Handle) (p : t) : VkResult * t :=
  let '(result, pool) := vmaCreatePool in
  if is_success result
  then (result,
        mk (m_type p) (m_config p) pool
           (TerrainMemoryConfig.preferredPoolSize (m_config p))
           (m_usedSize p) (m_activeAllocations p) (m_allocations p))
  else (result, p).

(** [allocateBuffer].  [size] is [bufferInfo.size]; [vmaCreatePool] (used
    only when the pool does not exist yet) and [vmaCreateBuffer] are what the
    VMA calls returned, the latter with the buffer and the allocation
    handle; [object] identifies the allocation object created by
    [std::make_shared]. *)
Definition allocateBuffer (size : Z) (vmaCreatePool : VkResult * Handle)
    (vmaCreateBuffer : VkResult * Handle * Handle) (object : Z) (p : t)
  : VkResult * t * option TerrainMemoryAllocation.t :=
  let '(result, p) :=
    if is_null (m_vmaPool p) then createPool vmaCreatePool p else (VK_SUCCESS, p) in
  if negb (is_success result) then (result, p, None)
  else
    let requiredSize := size in
    let alignment := TerrainMemoryConfig.allocationAlignment (m_config p) in
    if negb (canAllocate requiredSize alignment p)
    then (VK_ERROR_OUT_OF_DEVICE_MEMORY, p, None)
    else
      let '(result, buffer, allocation) := vmaCreateBuffer in
      if negb (is_success result) then (result, p, None)
      else
        let a := TerrainMemoryAllocation.mk object allocation buffer VK_NULL_HANDLE
                   (m_type p) requiredSize alignment in
        (VK_SUCCESS,
         mk (m_type p) (m_config p) (m_vmaPool p) (m_totalSize p)
            (wrap64 (m_usedSize p + requiredSize))
            (wrap32 (m_activeAllocations p + 1))
            (m_allocations p ++ [object]),
         Some a).

(** [allocateImage].  [vmaCreateImage] is what the VMA call returned: the
    result code, the image and allocation handles, and the size and
    alignment VMA reports in [allocation->info]. *)
Definition allocateImage (vmaCreatePool : VkResult * Handle)
    (vmaCreateImage : VkResult * Handle * Handle * Z * Z) (object : Z) (p : t)
  : VkResult * t * option TerrainMemoryAllocation.t :=
  let '(result, p) :=
    if is_null (m_vmaPool p) then createPool vmaCreatePool p else (VK_SUCCESS, p) in
  if negb (is_success result) then (result, p, None)
  else
    let '(result, image, allocation, info_size, info_alignment) := vmaCreateImage in
    if negb (is_success result) then (result, p, None)
    else
      let a := TerrainMemoryAllocation.mk object allocation VK_NULL_HANDLE image
                 (m_type p) info_size info_alignment in
      (VK_SUCCESS,
       mk (m_type p) (m_config p) (m_vmaPool p) (m_totalSize p)
          (wrap64 (m_usedSize p + info_size))
          (wrap32 (m_activeAllocations p + 1))
          (m_allocations p ++ [object]),
       Some a).

(** [m_allocations.erase(std::find_if(...))]: the first reference to the
    object is removed. *)
Fixpoint erase_first (object : Z) (l : list Z) : list Z :=
  match l with
  | [] => []
  | o :: l' => if o =? object then l' else o :: erase_first object l'
  end.

(** [deallocate]; [None] is a null pointer. *)
Definition deallocate (a : option TerrainMemoryAllocation.t) (p : t) : t :=
  match a with
  | None => p
  | Some a =>
      if negb (TerrainMemoryAllocation.isValid a) then p
      else
        mk (m_type p) (m_config p) (m_vmaPool p) (m_totalSize p)
           (wrap64 (m_usedSize p - TerrainMemoryAllocation.size a))
           (wrap32 (m_activeAllocations p - 1))
           (erase_first (TerrainMemoryAllocation.object a) (m_allocations p))
  end.

(** [resize] *)
Definition resize (newSize : Z) (p : t) : VkResult * t :=
  if newSize <? m_usedSize p then (VK_ERROR_VALIDATION_FAILED_EXT, p)
  else (VK_SUCCESS,
        mk (m_type p) (m_config p) (m_vmaPool p) newSize
           (m_usedSize p) (m_activeAllocations p) (m_allocations p)).

(** [cleanup]: the expired weak references are dropped; [expired] tells
    which objects no longer have an owner. *)
Definition cleanup (expired : Z -> bool) (p : t) : t :=
  mk (m_type p) (m_config p) (m_vmaPool p) (m_totalSize p)
     (m_usedSize p) (m_activeAllocations p)
     (filter (fun o => negb (expired o)) (m_allocations p)).

(** [defragment]; [elapsedMs] is the time the clock measured for the pass. *)
Definition defragment (expired : Z -> bool) (elapsedMs : Z) (maxTimeMs : Z) (p : t)
  : VkResult * t :=
  if negb (TerrainMemoryConfig.enableDefragmentation (m_config p)) then (VK_SUCCESS, p)
  else
    let p := cleanup expired p in
    if elapsedMs >? maxTimeMs then (VK_TIMEOUT, p) else (VK_SUCCESS, p).

(** [destroyPool] *)
Definition destroyPool (p : t) : t :=
  mk (m_type p) (m_config p) VK_NULL_HANDLE 0 0 0 [].

Section WithFloat.
Context {fl : FloatOps}.

(** [getFragmentation] *)
Definition getFragmentation (p : t) : F fl :=
  if m_totalSize p =? 0 then f0
  else
    let largestFreeBlock := wrap64 (m_totalSize p - m_usedSize p) in
    let totalFreeMemory := wrap64 (m_totalSize p - m_usedSize p) in
    if totalFreeMemory =? 0 then f0
    else f1 .- (of_Z fl largestFreeBlock ./ of_Z fl totalFreeMemory).

End WithFloat.

(** The pool operations, and their execution in sequence. *)
Inductive Op : Type :=
| OpAllocateBuffer (size : Z) (vmaCreatePool : VkResult * Handle)
    (vmaCreateBuffer : VkResult * Handle * Handle) (object : Z)
| OpAllocateImage (vmaCreatePool : VkResult * Handle)
    (vmaCreateImage : VkResult * Handle * Handle * Z * Z) (object : Z)
| OpDeallocate (a : option TerrainMemoryAllocation.t)
| OpResize (newSize : Z)
| OpCleanup (expired : Z -> bool)
| OpDefragment (expired : Z -> bool) (elapsedMs maxTimeMs : Z).

Definition step (p : t) (op : Op) : t :=
  match op with
  | OpAllocateBuffer size cp cb o => snd (fst (allocateBuffer size cp cb o p))
  | OpAllocateImage cp ci o => snd (fst (allocateImage cp ci o p))
  | OpDeallocate a => deallocate a p
  | OpResize newSize => snd (resize newSize p)
  | OpCleanup expired => cleanup expired p
  | OpDefragment expired elapsed maxTime => snd (defragment expired elapsed maxTime p)
  end.

Definition run (ops : list Op) (p : t) : t := fold_left step ops p.

End TerrainMemoryPool.

(** ** terrain_memory_pool.cpp: the allocator's statistics and its worker *)

Module TerrainMemoryAllocator.
Section WithFloat.
Context {fl : FloatOps}.

(** The aggregate fields of [TerrainMemoryStats] that [updateGlobalStats]
    recomputes. *)
Record Stats : Type := mkStats {
  totalAllocated : Z;
  totalUsed : Z;
  totalFree : Z;
  activeAllocations : Z;
  poolCount : Z;
  fragmentation : F fl
}.

(** [updateGlobalStats] over the pools of [m_pools]: the aggregates are
    sums over the pools, the fragmentation is the average of the pools'. *)
Definition updateGlobalStats (m_pools : list TerrainMemoryPool.t) : Stats :=
  let sum (f : TerrainMemoryPool.t -> Z) (wrap : Z -> Z) :=
    fold_left (fun acc p => wrap (acc + f p)) m_pools 0 in
  let totalFragmentation :=
    fold_left (fun acc p => acc .+ TerrainMemoryPool.getFragmentation p) m_pools f0 in
  mkStats
    (sum TerrainMemoryPool.getTotalSize wrap64)
    (sum TerrainMemoryPool.getUsedSize wrap64)
    (sum TerrainMemoryPool.getFreeSize wrap64)
    (sum TerrainMemoryPool.getActiveAllocations wrap32)
    (wrap32 (Z.of_nat (List.length m_pools)))
    (match m_pools with
     | [] => f0
     | _ => totalFragmentation ./ of_Z fl (Z.of_nat (List.length m_pools))
     end).

(** [garbageCollect] *)
Definition garbageCollect (expired : Z -> bool) (m_pools : list TerrainMemoryPool.t)
  : list TerrainMemoryPool.t * Stats :=
  let pools := map (TerrainMemoryPool.cleanup expired) m_pools in
  (pools, updateGlobalStats pools).

(** One iteration of [backgroundWorker], after its sleep: garbage
    collection, then "if (timeSinceDefrag.count() > 5) if
    (m_stats.fragmentation > m_config.defragmentationThreshold) defragment".
    The result tells whether [defragment] is called. *)
Definition backgroundWorker_defragments (defragmentationThreshold : F fl)
    (expired : Z -> bool) (timeSinceDefrag : Z) (m_pools : list TerrainMemoryPool.t)
  : bool :=
  let '(_, m_stats) := garbageCollect expired m_pools in
  (timeSinceDefrag >? 5) && (fragmentation m_stats .> defragmentationThreshold).

End WithFloat.
Arguments Stats : clear implicits.
End TerrainMemoryAllocator.

(** ** terrain_memory_pool.cpp: the allocator object

    [m_pools] and [typeConfigs] are [std::unordered_map]s keyed by the
    memory type: lists of entries in iteration order.  A pool is owned by
    the map and changed in place by the calls made on it; the entry of the
    map is updated.  What the clock and the owners of the allocations
    contribute is given by a [Clock]: which allocation objects have no owner
    left, and the milliseconds measured inside [TerrainMemoryPool::defragment]
    and around it.  The callbacks are called where the code calls them; they
    are not part of the state.  The background thread is modelled by one turn
    of its loop. *)

Definition TerrainMemoryType_eqb (a b : TerrainMemoryType) : bool :=
  match a, b with
  | VertexBuffer, VertexBuffer => true
  | IndexBuffer, IndexBuffer => true
  | HeightTexture, HeightTexture => true
  | ColorTexture, ColorTexture => true
  | NormalTexture, NormalTexture => true
  | UniformBuffer, UniformBuffer => true
  | StagingBuffer, StagingBuffer => true
  | ComputeBuffer, ComputeBuffer => true
  | _, _ => false
  end.

Module Allocator.
Section WithFloat.
Context {fl : FloatOps}.

(** The fields of [TerrainMemoryConfig] that the allocator reads. *)
Record Config : Type := mkConfig {
  maxTotalMemory : Z;
  typeConfigs : list (TerrainMemoryType * TerrainMemoryConfig.TypeConfig);
  warningThreshold : F fl;
  criticalThreshold : F fl;
  enableAutoDefragmentation : bool;
  defragmentationThreshold : F fl;
  maxDefragmentationTime : Z
}.

(** The configuration made by the constructor of [TerrainMemoryConfig]. *)
Definition defaultConfig : Config :=
  mkConfig (2 * 1024 * 1024 * 1024)
    (map (fun type => (type, TerrainMemoryConfig.typeConfigs type))
         [VertexBuffer; IndexBuffer; HeightTexture; ColorTexture; NormalTexture;
          UniformBuffer; StagingBuffer; ComputeBuffer])
    (of_Z fl 8 ./ of_Z fl 10) (of_Z fl 95 ./ of_Z fl 100) true
    (of_Z fl 3 ./ of_Z fl 10) 16.

Record Clock : Type := mkClock {
  expired : Z -> bool;
  defragmentMs : TerrainMemoryType -> Z;
  poolDurationMs : TerrainMemoryType -> Z
}.

Record t : Type := mk {
  m_initialized : bool;
  m_config : Config;
  m_pools : list (TerrainMemoryType * TerrainMemoryPool.t);
  m_stats : TerrainMemoryAllocator.Stats fl;
  m_backgroundThreadRunning : bool
}.

(** A new allocator. *)
Definition init : t :=
  mk false defaultConfig [] (TerrainMemoryAllocator.mkStats 0 0 0 0 0 f0) false.

Definition with_pools (pools : list (TerrainMemoryType * TerrainMemoryPool.t)) (a : t) : t :=
  mk (m_initialized a) (m_config a) pools (m_stats a) (m_backgroundThreadRunning a).

(** [getPool], and the look-up in [m_config.typeConfigs]. *)
Definition getPool (type : TerrainMemoryType) (a : t) : option TerrainMemoryPool.t :=
  match List.find (fun e => TerrainMemoryType_eqb (fst e) type) (m_pools a) with
  | Some e => Some (snd e)
  | None => None
  end.

Definition findTypeConfig (type : TerrainMemoryType) (config : Config)
  : option TerrainMemoryConfig.TypeConfig :=
  match List.find (fun e => TerrainMemoryType_eqb (fst e) type) (typeConfigs config) with
  | Some e => Some (snd e)
  | None => None
  end.

(** [createPool] *)
Definition createPool (type : TerrainMemoryType) (a : t) : VkResult * t :=
  match findTypeConfig type (m_config a) with
  | None => (VK_ERROR_INITIALIZATION_FAILED, a)
  | Some typeConfig =>
      (VK_SUCCESS,
       with_pools (assign TerrainMemoryType_eqb type
                     (TerrainMemoryPool.create type typeConfig) (m_pools a)) a)
  end.

(** [updateGlobalStats] on the allocator. *)
Definition updateGlobalStats (a : t) : t :=
  mk (m_initialized a) (m_config a) (m_pools a)
     (TerrainMemoryAllocator.updateGlobalStats (map snd (m_pools a)))
     (m_backgroundThreadRunning a).

(** [destroy] *)
Definition destroy (a : t) : t :=
  if negb (m_initialized a) then a
  else mk false (m_config a) [] (m_stats a) false.

(** [initialize]: the loop over [config.typeConfigs], which calls
    [destroy] and returns when a pool cannot be created. *)
Fixpoint createPools (types : list TerrainMemoryType) (a : t) : VkResult * t :=
  match types with
  | [] => (VK_SUCCESS, a)
  | type :: rest =>
      let '(result, a) := createPool type a in
      if negb (is_success result) then (result, destroy a)
      else createPools rest a
  end.

Definition initialize (config : Config) (a : t) : VkResult * t :=
  if m_initialized a then (VK_ERROR_INITIALIZATION_FAILED, a)
  else
    let a := mk (m_initialized a) config (m_pools a) (m_stats a)
                (m_backgroundThreadRunning a) in
    let '(result, a) := createPools (map fst (typeConfigs config)) a in
    if negb (is_success result) then (result, a)
    else (VK_SUCCESS, mk true (m_config a) (m_pools a) (m_stats a) true).

(** [getMemoryUsageRatio], [isMemoryPressure], [isCriticalMemoryPressure] *)
Definition getMemoryUsageRatio (a : t) : F fl :=
  if maxTotalMemory (m_config a) =? 0 then f0
  else
    let totalUsed :=
      fold_left (fun total e => wrap64 (total + TerrainMemoryPool.getUsedSize (snd e)))
                (m_pools a) 0 in
    of_Z fl totalUsed ./ of_Z fl (maxTotalMemory (m_config a)).

Definition isMemoryPressure (a : t) : bool :=
  getMemoryUsageRatio a .> warningThreshold (m_config a).
Definition isCriticalMemoryPressure (a : t) : bool :=
  getMemoryUsageRatio a .> criticalThreshold (m_config a).

(** [garbageCollect] *)
Definition garbageCollect (clock : Clock) (a : t) : t :=
  updateGlobalStats
    (with_pools
       (map (fun e => (fst e, TerrainMemoryPool.cleanup (expired clock) (snd e)))
            (m_pools a)) a).

(** [static_cast<long>] of a [size_t]. *)
Definition as_long (z : Z) : Z := if z <? 2 ^ 63 then z else z - 2 ^ 64.

(** [defragment]: the loop over the pools stops after a pool that timed
    out or took longer than [maxTimeMs]. *)
Fixpoint defragmentPools (clock : Clock) (timePerPool maxTimeMs : Z)
    (pools : list (TerrainMemoryType * TerrainMemoryPool.t))
  : list (TerrainMemoryType * TerrainMemoryPool.t) :=
  match pools with
  | [] => []
  | e :: rest =>
      let '(result, pool) :=
        TerrainMemoryPool.defragment (expired clock) (defragmentMs clock (fst e))
          timePerPool (snd e) in
      match result with
      | VK_TIMEOUT => (fst e, pool) :: rest
      | _ =>
          if poolDurationMs clock (fst e) >? as_long maxTimeMs
          then (fst e, pool) :: rest
          else (fst e, pool) :: defragmentPools clock timePerPool maxTimeMs rest
      end
  end.

Definition defragment (clock : Clock) (maxTimeMs : Z) (a : t) : VkResult * t :=
  if negb (enableAutoDefragmentation (m_config a)) then (VK_SUCCESS, a)
  else
    let timePerPool := maxTimeMs / Z.max 1 (Z.of_nat (List.length (m_pools a))) in
    (VK_SUCCESS,
     updateGlobalStats
       (with_pools (defragmentPools clock timePerPool maxTimeMs (m_pools a)) a)).

(** [handleMemoryPressure] and [checkMemoryPressure] *)
Definition handleMemoryPressure (clock : Clock) (a : t) : t :=
  snd (defragment clock 50 (garbageCollect clock a)).

Definition checkMemoryPressure (clock : Clock) (a : t) : t :=
  let usageRatio := getMemoryUsageRatio a in
  if usageRatio .> criticalThreshold (m_config a) then handleMemoryPressure clock a
  else a.

(** [allocateBuffer] and [allocateImage]; the arguments after [type] are
    those of the pool's functions. *)
Definition allocateBuffer (type : TerrainMemoryType) (size : Z)
    (vmaCreatePool : VkResult * Handle) (vmaCreateBuffer : VkResult * Handle * Handle)
    (object : Z) (clock : Clock) (a : t)
  : VkResult * t * option TerrainMemoryAllocation.t :=
  match getPool type a with
  | None => (VK_ERROR_OUT_OF_DEVICE_MEMORY, a, None)
  | Some pool =>
      let '(result, pool, allocation) :=
        TerrainMemoryPool.allocateBuffer size vmaCreatePool vmaCreateBuffer object pool in
      let a := with_pools (assign TerrainMemoryType_eqb type pool (m_pools a)) a in
      if negb (is_success result) then (result, a, allocation)
      else (result, checkMemoryPressure clock (updateGlobalStats a), allocation)
  end.

Definition allocateImage (type : TerrainMemoryType)
    (vmaCreatePool : VkResult * Handle)
    (vmaCreateImage : VkResult * Handle * Handle * Z * Z)
    (object : Z) (clock : Clock) (a : t)
  : VkResult * t * option TerrainMemoryAllocation.t :=
  match getPool type a with
  | None => (VK_ERROR_OUT_OF_DEVICE_MEMORY, a, None)
  | Some pool =>
      let '(result, pool, allocation) :=
        TerrainMemoryPool.allocateImage vmaCreatePool vmaCreateImage object pool in
      let a := with_pools (assign TerrainMemoryType_eqb type pool (m_pools a)) a in
      if negb (is_success result) then (result, a, allocation)
      else (result, checkMemoryPressure clock (updateGlobalStats a), allocation)
  end.

(** The typed entry points. *)
Definition allocateVertexBuffer := allocateBuffer VertexBuffer.
Definition allocateIndexBuffer := allocateBuffer IndexBuffer.
Definition allocateUniformBuffer := allocateBuffer UniformBuffer.
Definition allocateStagingBuffer := allocateBuffer StagingBuffer.

(** [deallocate] *)
Definition deallocate (allocation : option TerrainMemoryAllocation.t) (a : t) : t :=
  match allocation with
  | None => a
  | Some alloc =>
      match getPool (TerrainMemoryAllocation.type alloc) a with
      | None => a
      | Some pool =>
          updateGlobalStats
            (with_pools
               (assign TerrainMemoryType_eqb (TerrainMemoryAllocation.type alloc)
                  (TerrainMemoryPool.deallocate allocation pool) (m_pools a)) a)
      end
  end.

(** [updateConfig] *)
Definition updateConfig (config : Config) (a : t) : t :=
  mk (m_initialized a) config (m_pools a) (m_stats a) (m_backgroundThreadRunning a).

(** One turn of the loop of [backgroundWorker], after its sleep;
    [timeSinceDefrag] is the number of seconds since the last
    defragmentation check. *)
Definition backgroundWorker (clock : Clock) (timeSinceDefrag : Z) (a : t) : t :=
  if negb (m_backgroundThreadRunning a) then a
  else
    let a := garbageCollect clock a in
    let a :=
      if timeSinceDefrag >? 5
      then
        if TerrainMemoryAllocator.fragmentation (m_stats a)
             .> defragmentationThreshold (m_config a)
        then snd (defragment clock (maxDefragmentationTime (m_config a)) a)
        else a
      else a in
    checkMemoryPressure clock a.

(** The calls on an allocator, and their execution in sequence. *)
Inductive Op : Type :=
| OpInitialize (config : Config)
| OpDestroy
| OpAllocateBuffer (type : TerrainMemoryType) (size : Z)
    (vmaCreatePool : VkResult * Handle) (vmaCreateBuffer : VkResult * Handle * Handle)
    (object : Z) (clock : Clock)
| OpAllocateImage (type : TerrainMemoryType) (vmaCreatePool : VkResult * Handle)
    (vmaCreateImage : VkResult * Handle * Handle * Z * Z) (object : Z) (clock : Clock)
| OpDeallocate (allocation : option TerrainMemoryAllocation.t)
| OpGarbageCollect (clock : Clock)
| OpDefragment (clock : Clock) (maxTimeMs : Z)
| OpUpdateConfig (config : Config)
| OpBackgroundWorker (clock : Clock) (timeSinceDefrag : Z).

Definition step (a : t) (op : Op) : t :=
  match op with
  | OpInitialize config => snd (initialize config a)
  | OpDestroy => destroy a
  | OpAllocateBuffer type size cp cb object clock =>
      snd (fst (allocateBuffer type size cp cb object clock a))
  | OpAllocateImage type cp ci object clock =>
      snd (fst (allocateImage type cp ci object clock a))
  | OpDeallocate allocation => deallocate allocation a
  | OpGarbageCollect clock => garbageCollect clock a
  | OpDefragment clock maxTimeMs => snd (defragment clock maxTimeMs a)
  | OpUpdateConfig config => updateConfig config a
  | OpBackgroundWorker clock timeSinceDefrag => backgroundWorker clock timeSinceDefrag a
  end.

Definition run (ops : list Op) (a : t) : t := fold_left step ops a.

End WithFloat.
Arguments Config : clear implicits.
Arguments t : clear implicits.
Arguments Op : clear implicits.
End Allocator.
(* ================================================================== *)
(** ** Vocabulary of the statements and sample inputs *)

(** A sequence of method calls on one tile. *)
Definition tile_calls {fl : FloatOps} (cs : list (TerrainTile.Call fl))
    (tile : TerrainTile.t fl) : TerrainTile.t fl :=
  fold_left (fun t c => TerrainTile.call c t) cs tile.

(** The calls that are [loadData] or [uploadToGPU]. *)
Definition is_load_or_upload {fl : FloatOps} (c : TerrainTile.Call fl) : Prop :=
  match c with
  | TerrainTile.CallLoadData _ _ | TerrainTile.CallUploadToGPU _ => True
  | _ => False
  end.

(** Sample inputs, in binary32: a coordinate, flat synthetic heights, Vulkan
    calls that all succeed, and tiles in given states. *)
Definition sample_coord : TileCoordinate.t := TileCoordinate.mk 0 0 0 "terrain".
Definition sample_synth : Z -> Z -> F binary32 := fun _ _ => of_Z binary32 0.
Definition sample_gpu_calls : TerrainTile.GpuCalls :=
  TerrainTile.mkGpuCalls (VK_SUCCESS, 1, 2) VK_SUCCESS VK_SUCCESS (VK_SUCCESS, 3)
    1048576 (VK_SUCCESS, 4) (VK_SUCCESS, 5).
Definition sample_tile : TerrainTile.t binary32 := TerrainTile.create sample_coord.
Definition sample_tile_in (s : TileState) : TerrainTile.t binary32 :=
  TerrainTile.setState s sample_tile.

(** A tile that was created and then evicted, alone and in a manager. *)
Definition sample_evicted_tile : TerrainTile.t binary32 :=
  TerrainTile.evictFromMemory sample_tile.
Definition sample_evicted_manager : TerrainTileManager.t binary32 :=
  TerrainTileManager.run
    [ TerrainTileManager.OpCreateTile sample_coord;
      TerrainTileManager.OpCallTile sample_coord TerrainTile.CallEvictFromMemory ]
    TerrainTileManager.init.

(** Buffer allocations in sequence, each of [size] bytes: [requests] gives,
    for each one, what the VMA calls returned and the identity of the new
    allocation object.  The result is the pool and the allocations made when
    every call returned [VK_SUCCESS], and [None] otherwise. *)
Fixpoint allocate_all (size : Z)
    (requests : list ((VkResult * Handle) * (VkResult * Handle * Handle) * Z))
    (p : TerrainMemoryPool.t)
  : option (TerrainMemoryPool.t * list TerrainMemoryAllocation.t) :=
  match requests with
  | [] => Some (p, [])
  | (cp, cb, o) :: rest =>
      match TerrainMemoryPool.allocateBuffer size cp cb o p with
      | (VK_SUCCESS, p', Some a) =>
          match allocate_all size rest p' with
          | Some (p'', l) => Some (p'', a :: l)
          | None => None
          end
      | _ => None
      end
  end.

Definition deallocate_all (l : list TerrainMemoryAllocation.t) (p : TerrainMemoryPool.t)
  : TerrainMemoryPool.t :=
  fold_left (fun p a => TerrainMemoryPool.deallocate (Some a) p) l p.

(** A vertex-buffer pool as the allocator creates it. *)
Definition sample_pool : TerrainMemoryPool.t :=
  TerrainMemoryPool.create VertexBuffer (TerrainMemoryConfig.typeConfigs VertexBuffer).



(** The sample pool after a first allocation of 4096 bytes. *)
Definition sample_pool_in_use : TerrainMemoryPool.t :=
  TerrainMemoryPool.step sample_pool
    (TerrainMemoryPool.OpAllocateBuffer 4096 (VK_SUCCESS, 1) (VK_SUCCESS, 2, 3) 1000).


(** A manager with configured limits and no tile yet. *)
Definition manager_with_limits {fl : FloatOps} (maxTiles maxMemoryUsage : Z)
  : TerrainTileManager.t fl :=
  TerrainTileManager.setMaxMemoryUsage maxMemoryUsage
    (TerrainTileManager.setMaxTiles maxTiles TerrainTileManager.init).

(** A second coordinate, and a manager in which the first tile was loaded
    before the second was created, with a limit of 1,000,000 bytes. *)
Definition sample_coord_b : TileCoordinate.t := TileCoordinate.mk 1 0 0 "terrain".
Definition sample_loaded_manager : TerrainTileManager.t binary32 :=
  TerrainTileManager.run
    [ TerrainTileManager.OpCreateTile sample_coord;
      TerrainTileManager.OpCallTile sample_coord
        (TerrainTile.CallLoadData sample_synth "terrain.tif");
      TerrainTileManager.OpCreateTile sample_coord_b ]
    (manager_with_limits 10 1000000).


(** Two tiles at levels 8 and 9 and a camera position at the same distance
    from their centres, (1.953125, 100, 1.953125) and
    (0.9765625, 100, 0.9765625): the point (2.9296875, 100, 0). *)
Definition sample_tile_level8 : TerrainTile.t binary32 :=
  TerrainTile.create (TileCoordinate.mk 0 0 8 "terrain").
Definition sample_tile_level9 : TerrainTile.t binary32 :=
  TerrainTile.create (TileCoordinate.mk 0 0 9 "terrain").
Definition sample_equidistant_camera : vec3 binary32 :=
  mkvec3 (fdiv binary32 (of_Z binary32 375) (of_Z binary32 128))
         (of_Z binary32 100) (of_Z binary32 0).

(** The eight corners of a box. *)
Definition corners {fl : FloatOps} (bmin bmax : vec3 fl) : list (vec3 fl) :=
  [ mkvec3 (vx bmin) (vy bmin) (vz bmin); mkvec3 (vx bmax) (vy bmin) (vz bmin);
    mkvec3 (vx bmin) (vy bmax) (vz bmin); mkvec3 (vx bmax) (vy bmax) (vz bmin);
    mkvec3 (vx bmin) (vy bmin) (vz bmax); mkvec3 (vx bmax) (vy bmin) (vz bmax);
    mkvec3 (vx bmin) (vy bmax) (vz bmax); mkvec3 (vx bmax) (vy bmax) (vz bmax) ].

(** A box lies entirely on the negative side of a plane when each of its
    corners has a negative signed distance to it. *)
Definition entirely_behind {fl : FloatOps} (plane : vec4 fl) (bmin bmax : vec3 fl) : Prop :=
  forall c, In c (corners bmin bmax) -> (planeDistance plane c .< f0) = true.

(** A camera inside the box of tile (0, 0) of level 0, which is
    [0,1000] x [0,200] x [0,1000]: at (500, 100, 0.0625), looking along
    -z with a field of view of 90 degrees (the tangent of its half is 1),
    near plane at 0.1 and far plane at 10000. *)
Definition sample_inside_camera : TerrainCamera.t binary32 :=
  TerrainCamera.mk
    (mkvec3 (of_Z binary32 500) (of_Z binary32 100)
            (fdiv binary32 (of_Z binary32 1) (of_Z binary32 16)))
    (mkvec3 (of_Z binary32 0) (of_Z binary32 0) (of_Z binary32 (-1)))
    (mkvec3 (of_Z binary32 0) (of_Z binary32 1) (of_Z binary32 0))
    (of_Z binary32 1)
    (fdiv binary32 (of_Z binary32 1) (of_Z binary32 10))
    (of_Z binary32 10000)
    (of_Z binary32 1).

(** The same tile in exact arithmetic, six planes that bound the box
    [-500,500] x [-1000,1000] x [-500,500] from inside, a point of that box,
    and a plane that the tile is behind. *)
Definition vec3Q (a b c : Q) : vec3 (exactQ (fun q => q)) :=
  mkvec3 (fl := exactQ (fun q => q)) a b c.
Definition vec4Q (a b c d : Q) : vec4 (exactQ (fun q => q)) :=
  mkvec4 (fl := exactQ (fun q => q)) a b c d.
Definition sample_tileQ : TerrainTile.t (exactQ (fun q => q)) :=
  TerrainTile.create sample_coord.
Definition sample_planesQ : list (vec4 (exactQ (fun q => q))) :=
  [ vec4Q 1 0 0 500;
    vec4Q (-1) 0 0 500;
    vec4Q 0 1 0 1000;
    vec4Q 0 (-1) 0 1000;
    vec4Q 0 0 1 500;
    vec4Q 0 0 (-1) 500 ].
Definition sample_pointQ : vec3 (exactQ (fun q => q)) :=
  vec3Q 100 100 100.
Definition sample_plane_behindQ : vec4 (exactQ (fun q => q)) :=
  vec4Q (-1) 0 0 (-1).
Definition sample_planes_behindQ : list (vec4 (exactQ (fun q => q))) :=
  [ vec4Q 1 0 0 500;
    sample_plane_behindQ;
    vec4Q 0 1 0 1000;
    vec4Q 0 (-1) 0 1000;
    vec4Q 0 0 1 500;
    vec4Q 0 0 (-1) 500 ].

(** The default configuration (frustum culling enabled), and the same with
    frustum culling disabled. *)
Definition sample_config (culling : bool) : TerrainRenderer.Config binary32 :=
  TerrainRenderer.mkConfig (fl := binary32)
    (of_Z binary32 50) (of_Z binary32 2000) 512 256 culling.
Definition sample_configQ : TerrainRenderer.Config (exactQ (fun q => q)) :=
  TerrainRenderer.mkConfig (fl := exactQ (fun q => q)) 50%Q 2000%Q 512 256 true.

(** Two tiles of levels 0 and 1 in exact arithmetic, and a camera position
    at the same distance from the centres of both. *)
Definition sample_tileQ_level1 : TerrainTile.t (exactQ (fun q => q)) :=
  TerrainTile.create (TileCoordinate.mk 0 0 1 "terrain").
Definition sample_equidistant_cameraQ : vec3 (exactQ (fun q => q)) :=
  vec3Q 375 100 375.

(** The transitions of the state of a tile that a method call can make:
    none, [Empty] to [Loaded] ([loadData]), [Loaded] to [Ready] or [Error]
    ([uploadToGPU]), [Ready] to [Loaded] ([unloadFromGPU]), and any state
    but [Error] to [Evicted] ([evictFromMemory]). *)
Definition allowed_transition (before after : TileState) : bool :=
  TileState_eqb before after ||
  match before, after with
  | Empty, Loaded | Loaded, Ready | Loaded, Error | Ready, Loaded => true
  | Error, Evicted => false
  | _, Evicted => true
  | _, _ => false
  end.

(** GPU calls that all return [VK_SUCCESS] and hand out handles that are not
    null. *)
Definition gpu_calls_succeed (calls : TerrainTile.GpuCalls) : Prop :=
  exists buffer memory image imageMemory view,
    TerrainTile.vertex_createBuffer calls = (VK_SUCCESS, buffer, memory) /\
    TerrainTile.vertex_uploadBufferData calls = VK_SUCCESS /\
    TerrainTile.staging_createBuffer calls = VK_SUCCESS /\
    TerrainTile.height_vkCreateImage calls = (VK_SUCCESS, image) /\
    TerrainTile.height_vkAllocateMemory calls = (VK_SUCCESS, imageMemory) /\
    TerrainTile.height_vkCreateImageView calls = (VK_SUCCESS, view) /\
    buffer <> VK_NULL_HANDLE /\ image <> VK_NULL_HANDLE.

(** The number of tiles of a manager whose state satisfies [p]. *)
Definition count_state {fl : FloatOps} (p : TileState -> bool)
    (m : TerrainTileManager.t fl) : Z :=
  Z.of_nat (List.length
              (filter (fun e => p (TerrainTile.getState (snd e)))
                      (TerrainTileManager.m_tiles m))).


(** The pool operations that only tidy up: [cleanup] and [defragment]. *)
Definition is_maintenance (op : TerrainMemoryPool.Op) : bool :=
  match op with
  | TerrainMemoryPool.OpCleanup _ => true
  | TerrainMemoryPool.OpDefragment _ _ _ => true
  | _ => false
  end.

(** The sum of a field over the pools, in the integers. *)
Definition sum_over (f : TerrainMemoryPool.t -> Z) (pools : list TerrainMemoryPool.t) : Z :=
  fold_right (fun p acc => f p + acc) 0 pools.

(** [std::floor] in exact arithmetic. *)
Definition floorQ (q : Q) : Q := inject_Z (Qfloor q).

(** What holds of the datasets of a renderer: the keys of the map are
    distinct, and the active dataset is either unset or one of them. *)
Definition datasets_ok {fl : FloatOps} (r : TerrainRenderer.t fl) : Prop :=
  NoDup (map fst (TerrainRenderer.m_datasets r)) /\
  (TerrainRenderer.m_activeDataset r = EmptyString \/
   In (TerrainRenderer.m_activeDataset r) (map fst (TerrainRenderer.m_datasets r))).

(** What holds of the tiles of a renderer: the keys of the map are distinct,
    and every tile is stored under its own coordinate and is [Ready] or
    [Evicted]. *)
Definition tiles_ok {fl : FloatOps} (r : TerrainRenderer.t fl) : Prop :=
  NoDup (map fst (TerrainRenderer.m_tiles r)) /\
  Forall (fun e => TerrainTile.m_coordinate (snd e) = fst e /\
                   (TerrainTile.m_state (snd e) = Ready \/
                    TerrainTile.m_state (snd e) = Evicted))
         (TerrainRenderer.m_tiles r).

(** A renderer in use: frustum culling is switched off, the dataset "terrain"
    is loaded, and a camera that sees 60 units far stands at the centre of
    the level-0 tile (0, 0), which the culling pass queues for loading; then
    a worker loads it. *)
Definition sample_near_camera : TerrainCamera.t binary32 :=
  TerrainCamera.mk
    (mkvec3 (of_Z binary32 500) (of_Z binary32 100) (of_Z binary32 500))
    (mkvec3 (of_Z binary32 0) (of_Z binary32 0) (of_Z binary32 (-1)))
    (mkvec3 (of_Z binary32 0) (of_Z binary32 1) (of_Z binary32 0))
    (of_Z binary32 1)
    (fdiv binary32 (of_Z binary32 1) (of_Z binary32 10))
    (of_Z binary32 60)
    (of_Z binary32 1).
Definition sample_frame_ops : list (TerrainRenderer.Op binary32) :=
  [ TerrainRenderer.OpInitialize (sample_config false) VK_SUCCESS;
    TerrainRenderer.OpLoadDataset "terrain" "terrain.tif";
    TerrainRenderer.OpPerformCulling sample_near_camera (Frustum.mk []) ].
Definition sample_worker_ops : list (TerrainRenderer.Op binary32) :=
  sample_frame_ops ++ [ TerrainRenderer.OpTileLoadingWorker sample_synth sample_gpu_calls ].

(** What holds of an allocator: without initialisation there are no pools,
    the keys of the pool map are distinct, and every pool is stored under its
    own memory type. *)
Definition allocator_ok {fl : FloatOps} (a : Allocator.t fl) : Prop :=
  (Allocator.m_initialized a = false -> Allocator.m_pools a = []) /\
  NoDup (map fst (Allocator.m_pools a)) /\
  Forall (fun e => TerrainMemoryPool.m_type (snd e) = fst e) (Allocator.m_pools a).

(** A clock for which nothing has expired and no time passes. *)
Definition sample_clock : Allocator.Clock :=
  Allocator.mkClock (fun _ => false) (fun _ => 0) (fun _ => 0).

(** An allocator initialised with the default configuration, in exact
    arithmetic. *)
Definition sample_allocator : Allocator.t (exactQ (fun q => q)) :=
  Allocator.run [Allocator.OpInitialize Allocator.defaultConfig] Allocator.init.
(* ================================================================== *)
(** * Properties *)

(** ** Auxiliary facts *)

Lemma TileState_eqb_eq (a b : TileState) : TileState_eqb a b = true <-> a = b.
Proof. destruct a, b; simpl; split; intro H; try reflexivity; discriminate. Qed.

Lemma TileState_eqb_neq (a b : TileState) : TileState_eqb a b = false <-> a <> b.
Proof.
  destruct a, b; simpl; split; intro H; try reflexivity; try discriminate;
    try (exfalso; apply H; reflexivity).
Qed.

Lemma TileCoordinate_eqb_eq (a b : TileCoordinate.t) :
  TileCoordinate.eqb a b = true <-> a = b.
Proof.
  unfold TileCoordinate.eqb. destruct a as [ax ay al ad], b as [bx by' bl bd]; simpl.
  rewrite !andb_true_iff, !Z.eqb_eq, String.eqb_eq. split.
  - intros [[[-> ->] ->] ->]. reflexivity.
  - intros H. injection H as -> -> -> ->. auto.
Qed.

Lemma TileCoordinate_eqb_refl (a : TileCoordinate.t) : TileCoordinate.eqb a a = true.
Proof. apply TileCoordinate_eqb_eq. reflexivity. Qed.

Lemma TileCoordinate_eqb_neq (a b : TileCoordinate.t) :
  TileCoordinate.eqb a b = false <-> a <> b.
Proof.
  split.
  - intros H E. apply TileCoordinate_eqb_eq in E. congruence.
  - intros H. destruct (TileCoordinate.eqb a b) eqn:E; [|reflexivity].
    apply TileCoordinate_eqb_eq in E. contradiction.
Qed.

(** [std_sort] rearranges its input. *)
Lemma sort_insert_perm {A} (comp : A -> A -> bool) (a : A) (l : list A) :
  Permutation (a :: l) (sort_insert comp a l).
Proof.
  induction l as [|b l IH]; simpl.
  - apply Permutation_refl.
  - destruct (comp b a).
    + eapply perm_trans; [apply perm_swap|]. apply perm_skip. exact IH.
    + apply Permutation_refl.
Qed.

Lemma std_sort_perm {A} (comp : A -> A -> bool) (l : list A) :
  Permutation l (std_sort comp l).
Proof.
  induction l as [|a l IH]; simpl.
  - apply perm_nil.
  - eapply perm_trans; [apply perm_skip; exact IH|]. apply sort_insert_perm.
Qed.

Lemma std_sort_length {A} (comp : A -> A -> bool) (l : list A) :
  List.length (std_sort comp l) = List.length l.
Proof. symmetry. apply Permutation_length, std_sort_perm. Qed.

(** ** The tile state machine (C1, C9) *)

Section TileStateMachine.
Context {fl : FloatOps}.
Implicit Types tile : TerrainTile.t fl.

Lemma loadData_guard tile synth dataPath :
  TerrainTile.m_state tile <> Empty ->
  TerrainTile.loadData synth dataPath tile = (VK_ERROR_INITIALIZATION_FAILED, tile).
Proof.
  intros H. unfold TerrainTile.loadData.
  apply TileState_eqb_neq in H. rewrite H. reflexivity.
Qed.

Lemma uploadToGPU_guard tile calls :
  TerrainTile.m_state tile <> Loaded ->
  TerrainTile.uploadToGPU calls tile = (VK_ERROR_INITIALIZATION_FAILED, tile).
Proof.
  intros H. unfold TerrainTile.uploadToGPU.
  apply TileState_eqb_neq in H. rewrite H. reflexivity.
Qed.

Lemma unloadFromGPU_state tile :
  TerrainTile.m_state (TerrainTile.unloadFromGPU tile)
  = match TerrainTile.m_state tile with Ready => Loaded | s => s end.
Proof.
  unfold TerrainTile.unloadFromGPU. destruct tile as [c s b d g p f l e]; simpl.
  destruct s; reflexivity.
Qed.

Lemma evictFromMemory_state tile :
  TerrainTile.m_state (TerrainTile.evictFromMemory tile)
  = match TerrainTile.m_state tile with Error => Error | _ => Evicted end.
Proof.
  unfold TerrainTile.evictFromMemory, TerrainTile.unloadFromGPU.
  destruct tile as [c s b d g p f l e]; simpl. destruct s; reflexivity.
Qed.

(** A successful [loadData] starts in [Empty] and ends in [Loaded]. *)
Lemma loadData_from_Empty tile synth dataPath :
  TerrainTile.m_state tile = Empty ->
  fst (TerrainTile.loadData synth dataPath tile) = VK_SUCCESS /\
  TerrainTile.m_state (snd (TerrainTile.loadData synth dataPath tile)) = Loaded.
Proof.
  intros H. unfold TerrainTile.loadData. rewrite H. simpl. split; reflexivity.
Qed.

End TileStateMachine.



(** ** The loading queue of the manager *)

Section LoadingQueue.
Context {fl : FloatOps}.

Lemma queue_contains_candidates (m : TerrainTileManager.t fl) (c : TileCoordinate.t)
    (tile : TerrainTile.t fl) (maxCount : Z) :
  In (c, tile) (TerrainTileManager.m_tiles m) ->
  TerrainTile.m_state tile = Empty \/ TerrainTile.m_state tile = Evicted ->
  TerrainTileManager.size m <= maxCount ->
  In c (TerrainTileManager.getHighPriorityLoadingQueue maxCount m).
Proof.
  intros Hin Hst Hsz. unfold TerrainTileManager.getHighPriorityLoadingQueue.
  cbv zeta.
  match goal with |- context [filter ?f ?l] => set (cands := filter f l) end.
  match goal with |- context [map ?f cands] => set (plist := map f cands) end.
  match goal with |- context [std_sort ?f plist] => set (sorted := std_sort f plist) end.
  assert (Hlen : (List.length sorted <= List.length (TerrainTileManager.m_tiles m))%nat).
  { unfold sorted. rewrite std_sort_length. unfold plist. rewrite length_map.
    unfold cands. apply filter_length_le. }
  unfold TerrainTileManager.size in Hsz.
  rewrite Z.min_r by lia. rewrite Nat2Z.id, firstn_all.
  apply (Permutation_in (l := map fst plist)).
  - apply Permutation_map, std_sort_perm.
  - unfold plist. rewrite map_map. simpl.
    change c with (fst (c, tile)). apply in_map. unfold cands.
    apply filter_In. split; [exact Hin|]. simpl. unfold TerrainTile.getState.
    destruct Hst as [-> | ->]; reflexivity.
Qed.

End LoadingQueue.

(** C9.  An evicted tile cannot be loaded again.  On a tile whose state is
    [Evicted], [loadData] and [uploadToGPU] return
    [VK_ERROR_INITIALIZATION_FAILED] and change nothing, so every sequence of
    [loadData] and [uploadToGPU] calls leaves it [Evicted] (never [Ready]);
    and yet [getHighPriorityLoadingQueue] returns the coordinate of such a
    tile whenever [maxCount] does not cut the queue. *)
Theorem C9_evicted_tile_never_ready :
  forall (fl : FloatOps) (tile : TerrainTile.t fl),
    TerrainTile.m_state tile = Evicted ->
    (forall synth dataPath,
        TerrainTile.loadData synth dataPath tile
        = (VK_ERROR_INITIALIZATION_FAILED, tile)) /\
    (forall calls,
        TerrainTile.uploadToGPU calls tile = (VK_ERROR_INITIALIZATION_FAILED, tile)) /\
    (forall cs,
        Forall is_load_or_upload cs ->
        tile_calls cs tile = tile /\
        TerrainTile.m_state (tile_calls cs tile) = Evicted /\
        TerrainTile.m_state (tile_calls cs tile) <> Ready) /\
    (forall (m : TerrainTileManager.t fl) (c : TileCoordinate.t) (maxCount : Z),
        In (c, tile) (TerrainTileManager.m_tiles m) ->
        TerrainTileManager.size m <= maxCount ->
        In c (TerrainTileManager.getHighPriorityLoadingQueue maxCount m)).
Proof.
  intros fl tile Hev.
  assert (Hload : forall synth dataPath,
             TerrainTile.loadData synth dataPath tile
             = (VK_ERROR_INITIALIZATION_FAILED, tile)).
  { intros. apply loadData_guard. rewrite Hev. discriminate. }
  assert (Hup : forall calls,
             TerrainTile.uploadToGPU calls tile = (VK_ERROR_INITIALIZATION_FAILED, tile)).
  { intros. apply uploadToGPU_guard. rewrite Hev. discriminate. }
  assert (Hcalls : forall cs, Forall is_load_or_upload cs -> tile_calls cs tile = tile).
  { intros cs H. induction H as [|c cs Hc Hcs IH]; [reflexivity|].
    unfold tile_calls in *; simpl.
    destruct c; simpl in Hc; try contradiction; simpl.
    - rewrite Hload. exact IH.
    - rewrite Hup. exact IH. }
  split; [exact Hload|]. split; [exact Hup|]. split.
  - intros cs H. rewrite (Hcalls cs H). split; [reflexivity|].
    rewrite Hev. split; [reflexivity|discriminate].
  - intros m c maxCount Hin Hsz.
    apply (queue_contains_candidates m c tile maxCount Hin); auto.
Qed.

Lemma C9_evicted_tile_never_ready_witness :
  TerrainTile.loadData sample_synth "tile.tif" sample_evicted_tile
  = (VK_ERROR_INITIALIZATION_FAILED, sample_evicted_tile) /\
  TerrainTile.m_state
    (tile_calls [ TerrainTile.CallLoadData sample_synth "tile.tif";
                  TerrainTile.CallUploadToGPU sample_gpu_calls ]
                sample_evicted_tile) = Evicted /\
  In sample_coord
     (TerrainTileManager.getHighPriorityLoadingQueue 16 sample_evicted_manager).
Proof.
  destruct (C9_evicted_tile_never_ready binary32 sample_evicted_tile eq_refl)
    as (H1 & _ & H3 & H4).
  split; [apply H1|]. split.
  - apply H3. repeat constructor.
  - apply H4.
    + left. reflexivity.
    + vm_compute. discriminate.
Defined.

(** ** Tile coordinates (C5) *)

(** Where the round trip through the parent holds: the level must not wrap,
    and each index must be non-negative or even. *)
Lemma getParent_getChildren_contains (c : TileCoordinate.t) :
  0 <= TileCoordinate.level c < 2 ^ 32 - 1 ->
  (0 <= TileCoordinate.x c \/ Z.even (TileCoordinate.x c) = true) ->
  (0 <= TileCoordinate.y c \/ Z.even (TileCoordinate.y c) = true) ->
  In c (TileCoordinate.getChildren (TileCoordinate.getParent c)).
Proof.
  destruct c as [x y l d]; simpl. intros Hl Hx Hy.
  unfold TileCoordinate.getChildren, TileCoordinate.getParent; simpl.
  assert (Hw : wrap32 (l + 1) = l + 1) by (unfold wrap32; apply Z.mod_small; lia).
  rewrite Hw. replace (l + 1 =? 0) with false by (symmetry; apply Z.eqb_neq; lia).
  replace (wrap32 (l + 1 - 1)) with l
    by (unfold wrap32; replace (l + 1 - 1) with l by lia;
        symmetry; apply Z.mod_small; lia).
  assert (Ex : x = Z.quot x 2 * 2 \/ x = Z.quot x 2 * 2 + 1).
  { pose proof (Z.quot_rem' x 2) as Q. destruct Hx as [Hx | Hx].
    - pose proof (Z.rem_bound_pos x 2 Hx ltac:(lia)). lia.
    - left. rewrite Z.even_spec in Hx. destruct Hx as [k ->].
      rewrite Z.mul_comm, Z.quot_mul by lia. lia. }
  assert (Ey : y = Z.quot y 2 * 2 \/ y = Z.quot y 2 * 2 + 1).
  { pose proof (Z.quot_rem' y 2) as Q. destruct Hy as [Hy | Hy].
    - pose proof (Z.rem_bound_pos y 2 Hy ltac:(lia)). lia.
    - left. rewrite Z.even_spec in Hy. destruct Hy as [k ->].
      rewrite Z.mul_comm, Z.quot_mul by lia. lia. }
  simpl. destruct Ex as [Ex | Ex], Ey as [Ey | Ey]; rewrite <- ?Ex, <- ?Ey; auto.
Qed.



(** ** Memory pools (C3, C4, C10) *)

(** The bit mask of [canAllocate] rounds down to a multiple of a power of
    two. *)
Lemma land_mask (k x : Z) :
  0 <= k < 64 -> 0 <= x < 2 ^ 64 -> Z.land x (2 ^ 64 - 2 ^ k) = x - x mod 2 ^ k.
Proof.
  intros Hk Hx.
  assert (P : 0 < 2 ^ k) by (apply Z.pow_pos_nonneg; lia).
  assert (M : 2 ^ 64 - 2 ^ k = Z.shiftl (Z.ones (64 - k)) k).
  { rewrite Z.shiftl_mul_pow2, Z.ones_equiv by lia.
    replace (2 ^ 64) with (2 ^ (64 - k) * 2 ^ k)
      by (rewrite <- Z.pow_add_r by lia; f_equal; lia).
    lia. }
  assert (R : x - x mod 2 ^ k = Z.shiftl (Z.shiftr x k) k).
  { rewrite Z.shiftl_mul_pow2, Z.shiftr_div_pow2 by lia.
    pose proof (Z.div_mod x (2 ^ k) ltac:(lia)). lia. }
  rewrite M, R. apply Z.bits_inj'. intros n Hn.
  rewrite Z.land_spec, !Z.shiftl_spec by lia.
  destruct (Z.ltb_spec n k).
  - rewrite (Z.testbit_neg_r _ (n - k)) by lia.
    rewrite (Z.testbit_neg_r (Z.shiftr x k)) by lia. apply Bool.andb_false_r.
  - rewrite Z.shiftr_spec by lia. replace (n - k + k) with n by lia.
    rewrite Z.testbit_ones_nonneg by lia.
    destruct (Z.ltb_spec (n - k) (64 - k)).
    + apply Bool.andb_true_r.
    + rewrite Bool.andb_false_r. symmetry.
      destruct (Z.eq_dec x 0) as [->|]; [apply Z.testbit_0_l|].
      apply Z.bits_above_log2; [lia|].
      assert (Z.log2 x < 64) by (apply Z.log2_lt_pow2; lia). lia.
Qed.

Lemma alignSize_bounds (k size : Z) :
  0 <= k < 64 -> 0 <= size -> size + 2 ^ k <= 2 ^ 64 ->
  size <= TerrainMemoryUtils.alignSize size (2 ^ k) <= size + 2 ^ k - 1.
Proof.
  intros Hk Hs Hb.
  assert (P : 0 < 2 ^ k) by (apply Z.pow_pos_nonneg; lia).
  assert (P64 : 2 ^ k < 2 ^ 64) by (apply Z.pow_lt_mono_r; lia).
  unfold TerrainMemoryUtils.alignSize, TerrainMemoryUtils.lnot64, wrap64.
  rewrite (Z.mod_small (size + 2 ^ k - 1)) by lia.
  rewrite (Z.mod_small (2 ^ k - 1)) by lia.
  rewrite (Z.mod_small (2 ^ k - 1)) by lia.
  replace (2 ^ 64 - 1 - (2 ^ k - 1)) with (2 ^ 64 - 2 ^ k) by lia.
  rewrite land_mask by lia.
  pose proof (Z.mod_pos_bound (size + 2 ^ k - 1) (2 ^ k) P) as B.
  pose proof (Z.div_mod (size + 2 ^ k - 1) (2 ^ k) ltac:(lia)) as D.
  split; [|lia].
  (* the rounded value is a multiple of 2^k that is above size - 1 *)
  destruct (Z.eq_dec ((size + 2 ^ k - 1) mod 2 ^ k) (2 ^ k - 1)) as [E|E]; [|lia].
  lia.
Qed.

(** What a successful [allocateBuffer] does to the counters. *)
Lemma allocateBuffer_success size cp cb o p p' a :
  TerrainMemoryPool.allocateBuffer size cp cb o p = (VK_SUCCESS, p', Some a) ->
  TerrainMemoryPool.m_usedSize p' = wrap64 (TerrainMemoryPool.m_usedSize p + size) /\
  TerrainMemoryPool.m_activeAllocations p'
  = wrap32 (TerrainMemoryPool.m_activeAllocations p + 1) /\
  TerrainMemoryAllocation.size a = size /\
  TerrainMemoryAllocation.buffer a = snd (fst cb) /\
  TerrainMemoryAllocation.allocation a = snd cb.
Proof.
  unfold TerrainMemoryPool.allocateBuffer, TerrainMemoryPool.createPool.
  destruct cp as [r h], cb as [[rb hb] ha].
  destruct (is_null (TerrainMemoryPool.m_vmaPool p)).
  - destruct (is_success r) eqn:Er; simpl; [|rewrite Er; simpl; discriminate].
    destruct r; try discriminate; simpl.
    destruct (TerrainMemoryPool.canAllocate _ _ _); simpl; [|discriminate].
    destruct rb; simpl; try discriminate.
    intros H; injection H as <- <-; simpl. auto.
  - simpl.
    destruct (TerrainMemoryPool.canAllocate _ _ _); simpl; [|discriminate].
    destruct rb; simpl; try discriminate.
    intros H; injection H as <- <-; simpl. auto.
Qed.

Lemma wrap64_add_l (a b : Z) : wrap64 (wrap64 a + b) = wrap64 (a + b).
Proof. unfold wrap64. apply Zplus_mod_idemp_l. Qed.

Lemma wrap32_add_l (a b : Z) : wrap32 (wrap32 a + b) = wrap32 (a + b).
Proof. unfold wrap32. apply Zplus_mod_idemp_l. Qed.

Lemma wrap64_add_l' (a b : Z) : wrap64 (wrap64 a - b) = wrap64 (a - b).
Proof. unfold wrap64. apply Zminus_mod_idemp_l. Qed.

Lemma wrap32_add_l' (a b : Z) : wrap32 (wrap32 a - b) = wrap32 (a - b).
Proof. unfold wrap32. apply Zminus_mod_idemp_l. Qed.

(** After N successful buffer allocations of S bytes the used size has grown
    by N * S: the requested sizes are added, not the aligned ones. *)
Lemma allocate_all_counters size requests : forall p p' l,
  0 <= TerrainMemoryPool.m_usedSize p < 2 ^ 64 ->
  0 <= TerrainMemoryPool.m_activeAllocations p < 2 ^ 32 ->
  allocate_all size requests p = Some (p', l) ->
  TerrainMemoryPool.m_usedSize p'
  = wrap64 (TerrainMemoryPool.m_usedSize p + Z.of_nat (List.length requests) * size) /\
  TerrainMemoryPool.m_activeAllocations p'
  = wrap32 (TerrainMemoryPool.m_activeAllocations p + Z.of_nat (List.length requests)) /\
  List.length l = List.length requests /\
  Forall (fun a => TerrainMemoryAllocation.size a = size) l.
Proof.
  induction requests as [|[[cp cb] o] rest IH]; intros p p' l Hu Ha H.
  - simpl in H. injection H as <- <-. simpl.
    rewrite !Z.add_0_r. unfold wrap64, wrap32.
    rewrite !Z.mod_small by lia. auto.
  - simpl in H.
    destruct (TerrainMemoryPool.allocateBuffer size cp cb o p) as [[r p1] a] eqn:E.
    destruct r; try discriminate. destruct a as [a|]; try discriminate.
    destruct (allocate_all size rest p1) as [[p2 l2]|] eqn:E2; try discriminate.
    injection H as <- <-.
    apply allocateBuffer_success in E. destruct E as (U & A & Sz & _).
    assert (Hu1 : 0 <= TerrainMemoryPool.m_usedSize p1 < 2 ^ 64).
    { rewrite U. unfold wrap64. apply Z.mod_pos_bound. lia. }
    assert (Ha1 : 0 <= TerrainMemoryPool.m_activeAllocations p1 < 2 ^ 32).
    { rewrite A. unfold wrap32. apply Z.mod_pos_bound. lia. }
    destruct (IH p1 p2 l2 Hu1 Ha1 E2) as (U2 & A2 & L2 & F2).
    rewrite U2, A2, U, A, wrap64_add_l, wrap32_add_l.
    change (List.length ((cp, cb, o) :: rest)) with (S (List.length rest)).
    rewrite Nat2Z.inj_succ. repeat split.
    + f_equal. lia.
    + f_equal. lia.
    + simpl. f_equal. exact L2.
    + constructor; assumption.
Qed.

(** Deallocating valid allocations of S bytes gives the bytes back. *)
Lemma deallocate_all_counters size l : forall p,
  0 <= TerrainMemoryPool.m_usedSize p < 2 ^ 64 ->
  0 <= TerrainMemoryPool.m_activeAllocations p < 2 ^ 32 ->
  Forall (fun a => TerrainMemoryAllocation.size a = size
                   /\ TerrainMemoryAllocation.isValid a = true) l ->
  TerrainMemoryPool.m_usedSize (deallocate_all l p)
  = wrap64 (TerrainMemoryPool.m_usedSize p - Z.of_nat (List.length l) * size) /\
  TerrainMemoryPool.m_activeAllocations (deallocate_all l p)
  = wrap32 (TerrainMemoryPool.m_activeAllocations p - Z.of_nat (List.length l)).
Proof.
  induction l as [|a l IH]; intros p Hu Ha H.
  - simpl. rewrite !Z.sub_0_r. unfold wrap64, wrap32.
    rewrite !Z.mod_small by lia. auto.
  - inversion H as [|? ? [Hs Hv] Hl]; subst.
    change (deallocate_all (a :: l) p)
      with (deallocate_all l (TerrainMemoryPool.deallocate (Some a) p)).
    set (p1 := TerrainMemoryPool.deallocate (Some a) p).
    assert (E1 : TerrainMemoryPool.m_usedSize p1
                 = wrap64 (TerrainMemoryPool.m_usedSize p - TerrainMemoryAllocation.size a)
                 /\ TerrainMemoryPool.m_activeAllocations p1
                    = wrap32 (TerrainMemoryPool.m_activeAllocations p - 1)).
    { unfold p1, TerrainMemoryPool.deallocate. rewrite Hv. simpl. auto. }
    destruct E1 as [U1 A1].
    assert (Hu1 : 0 <= TerrainMemoryPool.m_usedSize p1 < 2 ^ 64).
    { rewrite U1. unfold wrap64. apply Z.mod_pos_bound. lia. }
    assert (Ha1 : 0 <= TerrainMemoryPool.m_activeAllocations p1 < 2 ^ 32).
    { rewrite A1. unfold wrap32. apply Z.mod_pos_bound. lia. }
    destruct (IH p1 Hu1 Ha1 Hl) as [U A]. rewrite U, A, U1, A1.
    rewrite wrap64_add_l', wrap32_add_l'.
    change (List.length (a :: l)) with (S (List.length l)).
    rewrite Nat2Z.inj_succ. split; f_equal; lia.
Qed.

(** C4.  The used size counts requested bytes, not aligned bytes.  One
    successful allocation of 100 bytes from a fresh vertex-buffer pool
    (alignment 256) leaves [used = 100], where 1 * align(100) is 256;
    deallocating it brings the used size and the allocation count back
    to 0. *)
Theorem C4_used_size_counts_requested_bytes :
  exists p l,
    allocate_all 100 [((VK_SUCCESS, 1), (VK_SUCCESS, 2, 3), 1000)] sample_pool
    = Some (p, l) /\
    TerrainMemoryConfig.allocationAlignment (TerrainMemoryPool.m_config p) = 256 /\
    TerrainMemoryPool.m_usedSize p = 100 /\
    1 * TerrainMemoryUtils.alignSize 100 256 = 256 /\
    TerrainMemoryPool.m_activeAllocations p = 1 /\
    TerrainMemoryPool.m_usedSize (deallocate_all l p) = 0 /\
    TerrainMemoryPool.m_activeAllocations (deallocate_all l p) = 0.
Proof.
  eexists. eexists. split; [vm_compute; reflexivity|].
  vm_compute. repeat split; reflexivity.
Qed.









(** [allocateImage] makes no capacity test: two images of 200 MB, which VMA
    places in two blocks of a height-texture pool, bring the used size to
    400 MB while the total size is 256 MB. *)
Lemma allocateImage_exceeds_total :
  let p0 := TerrainMemoryPool.create HeightTexture
              (TerrainMemoryConfig.typeConfigs HeightTexture) in
  let p2 := TerrainMemoryPool.run
              [ TerrainMemoryPool.OpAllocateImage (VK_SUCCESS, 1)
                  (VK_SUCCESS, 2, 3, 200 * 1024 * 1024, 1024) 1000;
                TerrainMemoryPool.OpAllocateImage (VK_SUCCESS, 1)
                  (VK_SUCCESS, 4, 5, 200 * 1024 * 1024, 1024) 1001 ] p0 in
  TerrainMemoryPool.m_usedSize p2 = 400 * 1024 * 1024 /\
  TerrainMemoryPool.m_totalSize p2 = 256 * 1024 * 1024.
Proof. vm_compute. split; reflexivity. Qed.

(** *** Fragmentation (C10) *)

Lemma Qred_eq_of_Qeq (q r : Q) : (q == r)%Q -> Qred q = Qred r.
Proof. apply Qred_complete. Qed.

Section FragmentationExact.
Variable sqrtQ : Q -> Q.
Let flQ := exactQ sqrtQ.

Lemma getFragmentation_exactQ (p : TerrainMemoryPool.t) :
  TerrainMemoryPool.getFragmentation (fl := flQ) p = 0%Q.
Proof.
  unfold TerrainMemoryPool.getFragmentation.
  destruct (TerrainMemoryPool.m_totalSize p =? 0); [reflexivity|].
  destruct (Z.eqb_spec
              (wrap64 (TerrainMemoryPool.m_totalSize p - TerrainMemoryPool.m_usedSize p)) 0)
    as [E|E]; [reflexivity|].
  set (free := wrap64 _) in E |- *.
  unfold f1, flQ, exactQ. cbn [fsub fdiv of_Z].
  assert (D : Qred (inject_Z free / inject_Z free) = 1%Q).
  { change 1%Q with (Qred 1). apply Qred_eq_of_Qeq.
    apply Qmult_inv_r. intros H. apply E.
    unfold Qeq in H. simpl in H. lia. }
  rewrite D. reflexivity.
Qed.

Lemma totalFragmentation_exactQ (pools : list TerrainMemoryPool.t) :
  fold_left (fun acc p => fadd flQ acc (TerrainMemoryPool.getFragmentation (fl := flQ) p))
            pools 0%Q = 0%Q.
Proof.
  induction pools as [|p pools IH]; [reflexivity|].
  simpl fold_left. rewrite getFragmentation_exactQ.
  change (fadd flQ 0%Q 0%Q) with 0%Q. exact IH.
Qed.

Lemma updateGlobalStats_fragmentation_exactQ (pools : list TerrainMemoryPool.t) :
  TerrainMemoryAllocator.fragmentation
    (TerrainMemoryAllocator.updateGlobalStats (fl := flQ) pools) = 0%Q.
Proof.
  unfold TerrainMemoryAllocator.updateGlobalStats.
  cbn [TerrainMemoryAllocator.fragmentation].
  destruct pools as [|p pools]; [reflexivity|]. cbv beta iota.
  unfold f0. change (of_Z flQ 0) with 0%Q.
  rewrite (totalFragmentation_exactQ (p :: pools)).
  unfold flQ, exactQ. cbn [fdiv of_Z].
  change 0%Q with (Qred 0) at 2. apply Qred_eq_of_Qeq.
  unfold Qdiv. apply Qmult_0_l.
Qed.

End FragmentationExact.

(** **** In single precision

    A non-zero [size_t] converts to a finite [float]: the conversion rounds
    to 24 bits and cannot overflow below 2^64.  A finite [float] divided by
    itself is exactly 1. *)

Lemma digits2_pos_size (p : positive) : digits2_pos p = Pos.size p.
Proof. induction p; simpl; congruence. Qed.

Lemma digits2_pos_bound (p : positive) (n : Z) :
  0 <= n -> Zpos p < 2 ^ n -> Zpos (digits2_pos p) <= n.
Proof.
  intros Hn H. rewrite digits2_pos_size.
  destruct (Z.le_gt_cases (Zpos (Pos.size p)) n) as [L|G]; [exact L|exfalso].
  pose proof (Pos.size_le p) as S. apply Pos2Z.pos_le_pos in S.
  rewrite Pos2Z.inj_pow in S. change (Z.pos 2) with 2 in S.
  rewrite (Pos2Z.inj_xO p) in S.
  assert (2 ^ (n + 1) <= 2 ^ Zpos (Pos.size p)) by (apply Z.pow_le_mono_r; lia).
  rewrite Z.pow_add_r in H0 by lia. change (2 ^ 1) with 2 in H0. lia.
Qed.

Lemma digits2_pos_succ (p : positive) :
  digits2_pos (Pos.succ p) = digits2_pos p \/
  digits2_pos (Pos.succ p) = Pos.succ (digits2_pos p).
Proof.
  induction p as [p IH|p IH|]; simpl; [|left; reflexivity|right; reflexivity].
  destruct IH as [->| ->]; [left|right]; reflexivity.
Qed.

Lemma digits2_pos_iter_xO (p k : positive) :
  digits2_pos (Pos.iter xO p k) = (digits2_pos p + k)%positive.
Proof.
  induction k as [|k IH] using Pos.peano_ind.
  - simpl. now rewrite Pos.add_1_r.
  - rewrite Pos.iter_succ. simpl. rewrite IH. lia.
Qed.

(** One right shift of a mantissa of at least two digits. *)
Lemma shr_1_digits (mrs : shr_record) (p : positive) :
  shr_m mrs = Zpos p -> (1 < digits2_pos p)%positive ->
  exists p', shr_m (shr_1 mrs) = Zpos p' /\ Pos.succ (digits2_pos p') = digits2_pos p.
Proof.
  destruct mrs as [m r s]. simpl. intros -> H.
  destruct p as [p|p|]; [exists p|exists p|simpl in H; lia]; split; reflexivity.
Qed.

Lemma iter_pos_nat {A} (f : A -> A) (k : positive) (x : A) :
  iter_pos f k x = Nat.iter (Pos.to_nat k) f x.
Proof.
  revert x. induction k as [k IH|k IH|]; intros x; simpl iter_pos.
  - rewrite !IH. rewrite Pos2Nat.inj_xI.
    replace (S (2 * Pos.to_nat k)) with (Pos.to_nat k + (Pos.to_nat k + 1))%nat by lia.
    rewrite !Nat.iter_add. reflexivity.
  - rewrite !IH. rewrite Pos2Nat.inj_xO.
    replace (2 * Pos.to_nat k)%nat with (Pos.to_nat k + Pos.to_nat k)%nat by lia.
    rewrite Nat.iter_add. reflexivity.
  - reflexivity.
Qed.

Lemma iter_shr_1_digits (n : nat) (mrs : shr_record) (p : positive) :
  shr_m mrs = Zpos p -> Z.of_nat n < Zpos (digits2_pos p) ->
  exists p', shr_m (Nat.iter n shr_1 mrs) = Zpos p' /\
             Zpos (digits2_pos p') = Zpos (digits2_pos p) - Z.of_nat n.
Proof.
  induction n as [|n IH]; intros Hm Hn.
  - exists p. split; [exact Hm|lia].
  - destruct IH as (p1 & E1 & D1); [exact Hm|lia|].
    destruct (shr_1_digits _ p1 E1) as (p2 & E2 & D2); [lia|].
    exists p2. split; [exact E2|lia].
Qed.

Lemma shr_digits (mrs : shr_record) (p : positive) (e n : Z) :
  shr_m mrs = Zpos p -> 0 <= n < Zpos (digits2_pos p) ->
  exists mrs' p', shr mrs e n = (mrs', e + n) /\ shr_m mrs' = Zpos p' /\
                  Zpos (digits2_pos p') = Zpos (digits2_pos p) - n.
Proof.
  intros Hm Hn. destruct n as [|k|k]; [| |lia].
  - exists mrs, p. rewrite Z.add_0_r. split; [reflexivity|]. split; [exact Hm|lia].
  - destruct (iter_shr_1_digits (Pos.to_nat k) mrs p Hm) as (p' & E & D).
    { rewrite positive_nat_Z. lia. }
    exists (iter_pos shr_1 k mrs), p'. rewrite <- iter_pos_nat in E.
    rewrite positive_nat_Z in D. split; [reflexivity|]. split; assumption.
Qed.

Lemma round_nearest_even_digits (p : positive) (l : location) :
  exists q, round_nearest_even (Zpos p) l = Zpos q /\
            (digits2_pos q = digits2_pos p \/ digits2_pos q = Pos.succ (digits2_pos p)).
Proof.
  assert (S : exists q, Zpos p + 1 = Zpos q /\
                        (digits2_pos q = digits2_pos p \/
                         digits2_pos q = Pos.succ (digits2_pos p))).
  { exists (Pos.succ p). split; [lia|apply digits2_pos_succ]. }
  assert (I : exists q, Zpos p = Zpos q /\
                        (digits2_pos q = digits2_pos p \/
                         digits2_pos q = Pos.succ (digits2_pos p))).
  { exists p. split; [reflexivity|left; reflexivity]. }
  destruct l as [|[| |]]; cbn [round_nearest_even]; try assumption.
  destruct (Z.even (Zpos p)); assumption.
Qed.

Lemma fexp_b32 (z : Z) : -125 <= z -> fexp b32_prec b32_emax z = z - 24.
Proof. intros H. unfold fexp, emin, b32_prec, b32_emax. lia. Qed.

Lemma binary_round_aux_finite (p : positive) (e : Z) :
  24 <= Zpos (digits2_pos p) -> -125 <= e -> Zpos (digits2_pos p) + e <= 100 ->
  exists m' e', binary_round_aux b32_prec b32_emax false (Zpos p) e loc_Exact
                = S754_finite false m' e'.
Proof.
  intros Hd He Hde. unfold binary_round_aux, shr_fexp.
  cbn [Zdigits2 shr_record_of_loc]. rewrite fexp_b32 by lia.
  destruct (shr_digits (Build_shr_record (Zpos p) false false) p e
              (Zpos (digits2_pos p) + e - 24 - e) eq_refl ltac:(lia))
    as (mrs1 & p1 & E1 & M1 & D1).
  rewrite E1, M1.
  destruct (round_nearest_even_digits p1 (loc_of_shr_record mrs1)) as (q & Eq & Dq).
  rewrite Eq. cbn [Zdigits2]. rewrite fexp_b32 by lia.
  set (e1 := e + (Zpos (digits2_pos p) + e - 24 - e)) in *.
  destruct (shr_digits (Build_shr_record (Zpos q) false false) q e1
              (Zpos (digits2_pos q) + e1 - 24 - e1) eq_refl) as (mrs2 & p2 & E2 & M2 & D2).
  { destruct Dq as [Dq|Dq]; rewrite Dq; lia. }
  rewrite E2, M2.
  assert (L : (e1 + (Zpos (digits2_pos q) + e1 - 24 - e1) <=? b32_emax - b32_prec) = true).
  { apply Z.leb_le. unfold b32_emax, b32_prec. subst e1.
    destruct Dq as [Dq|Dq]; rewrite Dq; lia. }
  rewrite L. eauto.
Qed.

Lemma b32_of_Z_finite (x : Z) :
  0 < x < 2 ^ 64 -> exists m e, b32_of_Z x = S754_finite false m e.
Proof.
  intros Hx. destruct x as [|p|p]; try lia.
  pose proof (digits2_pos_bound p 64 ltac:(lia) ltac:(lia)) as Hd.
  unfold b32_of_Z, binary_normalize, binary_round.
  rewrite fexp_b32 by lia. unfold shl_align.
  destruct (Zpos (digits2_pos p) + 0 - 24 - 0) as [|k|k] eqn:E.
  - apply binary_round_aux_finite; lia.
  - apply binary_round_aux_finite; lia.
  - apply binary_round_aux_finite; rewrite ?digits2_pos_iter_xO; lia.
Qed.

Lemma b32_div_self (s : bool) (m : positive) (e : Z) :
  SFdiv b32_prec b32_emax (S754_finite s m e) (S754_finite s m e) = b32_of_Z 1.
Proof.
  unfold SFdiv, SFdiv_core_binary. cbv zeta.
  rewrite !Z.sub_diag. 
  change (Z.min (fexp b32_prec b32_emax 0) 0) with (-24).
  change (0 - -24) with 24.
  assert (D : Z.div_eucl (Z.shiftl (Zpos m) 24) (Zpos m) = (2 ^ 24, 0)).
  { pose proof (Z.div_eucl_eq (Z.shiftl (Zpos m) 24) (Zpos m) ltac:(lia)) as H.
    pose proof (Z.mod_pos_bound (Z.shiftl (Zpos m) 24) (Zpos m) ltac:(lia)) as B.
    unfold Z.modulo in B.
    destruct (Z.div_eucl (Z.shiftl (Zpos m) 24) (Zpos m)) as [q r].
    rewrite Z.shiftl_mul_pow2 in H by lia.
    assert (q = 2 ^ 24) by nia. assert (r = 0) by nia. congruence. }
  cbv iota. change IntDef.Z.div_eucl with Z.div_eucl.
  change IntDef.Z.shiftl with Z.shiftl. rewrite D. unfold new_location.
  destruct (Z.even (Zpos m)); rewrite xorb_nilpotent; reflexivity.
Qed.

Lemma b32_getFragmentation (p : TerrainMemoryPool.t) :
  TerrainMemoryPool.getFragmentation (fl := binary32) p = S754_zero false.
Proof.
  unfold TerrainMemoryPool.getFragmentation.
  destruct (TerrainMemoryPool.m_totalSize p =? 0); [reflexivity|].
  destruct (Z.eqb_spec
              (wrap64 (TerrainMemoryPool.m_totalSize p - TerrainMemoryPool.m_usedSize p)) 0)
    as [E|E]; [reflexivity|].
  set (free := wrap64 _) in E |- *.
  assert (B : 0 < free < 2 ^ 64).
  { assert (0 <= free < 2 ^ 64) by (apply Z.mod_pos_bound; lia). lia. }
  destruct (b32_of_Z_finite free B) as (m & e & F).
  cbn [fsub fdiv of_Z binary32 f1]. rewrite F, b32_div_self. reflexivity.
Qed.

Lemma b32_totalFragmentation (pools : list TerrainMemoryPool.t) :
  fold_left (fun acc p => fadd binary32 acc
                            (TerrainMemoryPool.getFragmentation (fl := binary32) p))
            pools (S754_zero false) = S754_zero false.
Proof.
  induction pools as [|p pools IH]; [reflexivity|].
  cbn [fold_left]. rewrite b32_getFragmentation. exact IH.
Qed.

Lemma b32_updateGlobalStats_fragmentation (pools : list TerrainMemoryPool.t) :
  Z.of_nat (List.length pools) < 2 ^ 64 ->
  TerrainMemoryAllocator.fragmentation
    (TerrainMemoryAllocator.updateGlobalStats (fl := binary32) pools) = S754_zero false.
Proof.
  intros Hlen. unfold TerrainMemoryAllocator.updateGlobalStats.
  cbn [TerrainMemoryAllocator.fragmentation].
  destruct pools as [|p pools]; [reflexivity|]. cbv beta iota.
  change (f0 (fl := binary32)) with (S754_zero false).
  rewrite (b32_totalFragmentation (p :: pools)).
  destruct (b32_of_Z_finite (Z.of_nat (List.length (p :: pools)))) as (m & e & F).
  { split; [|exact Hlen]. cbn [List.length]. lia. }
  cbn [fdiv of_Z binary32]. rewrite F. reflexivity.
Qed.

(** C10.  The fragmentation estimate is always 0.  [getFragmentation]
    divides the free size, converted to [float], by itself and subtracts the
    quotient from 1, so in every state of a pool it returns +0; the average
    that [updateGlobalStats] stores is +0 as well ([m_pools] is keyed by the
    eight memory types: its size is far below 2^64), and the worker's test
    "fragmentation above the defragmentation threshold" fails for every
    positive threshold. *)
Theorem C10_fragmentation_is_always_zero :
  (forall p : TerrainMemoryPool.t,
      TerrainMemoryPool.getFragmentation (fl := binary32) p = f0) /\
  (forall pools : list TerrainMemoryPool.t,
      Z.of_nat (List.length pools) < 2 ^ 64 ->
      TerrainMemoryAllocator.fragmentation
        (TerrainMemoryAllocator.updateGlobalStats (fl := binary32) pools) = f0) /\
  (forall (threshold : F binary32) (expired : Z -> bool) (timeSinceDefrag : Z)
          (pools : list TerrainMemoryPool.t),
      Z.of_nat (List.length pools) < 2 ^ 64 ->
      (f0 .< threshold) = true ->
      TerrainMemoryAllocator.backgroundWorker_defragments (fl := binary32)
        threshold expired timeSinceDefrag pools = false).
Proof.
  split; [|split].
  - apply b32_getFragmentation.
  - apply b32_updateGlobalStats_fragmentation.
  - intros threshold expired timeSinceDefrag pools Hlen Hthr.
    unfold TerrainMemoryAllocator.backgroundWorker_defragments,
      TerrainMemoryAllocator.garbageCollect.
    rewrite b32_updateGlobalStats_fragmentation by (rewrite length_map; exact Hlen).
    assert (L : flt binary32 threshold (S754_zero false) = false).
    { change (f0 (fl := binary32)) with (S754_zero false) in Hthr.
      cbn [flt binary32] in Hthr |- *.
      destruct threshold as [s|s| |s m e]; try destruct s; try discriminate Hthr;
        reflexivity. }
    rewrite L. apply andb_false_r.
Qed.

Lemma C10_fragmentation_is_always_zero_witness :
  TerrainMemoryPool.getFragmentation (fl := binary32) sample_pool_in_use = f0 /\
  TerrainMemoryAllocator.fragmentation
    (TerrainMemoryAllocator.updateGlobalStats (fl := binary32) [sample_pool_in_use]) = f0 /\
  TerrainMemoryAllocator.backgroundWorker_defragments (fl := binary32)
    (fdiv binary32 (of_Z binary32 3) (of_Z binary32 10)) (fun _ => false) 6
    [sample_pool_in_use] = false.
Proof.
  split; [|split].
  - apply (proj1 C10_fragmentation_is_always_zero).
  - apply (proj1 (proj2 C10_fragmentation_is_always_zero)). cbn [List.length]. lia.
  - apply (proj2 (proj2 C10_fragmentation_is_always_zero)).
    + cbn [List.length]. lia.
    + vm_compute. reflexivity.
Defined.

(** The same three facts hold in exact arithmetic. *)
Theorem fragmentation_is_zero_exactQ :
  forall (sqrtQ : Q -> Q),
    (forall p : TerrainMemoryPool.t,
        TerrainMemoryPool.getFragmentation (fl := exactQ sqrtQ) p = 0%Q) /\
    (forall pools : list TerrainMemoryPool.t,
        TerrainMemoryAllocator.fragmentation
          (TerrainMemoryAllocator.updateGlobalStats (fl := exactQ sqrtQ) pools) = 0%Q) /\
    (forall (threshold : Q) (expired : Z -> bool) (timeSinceDefrag : Z)
            (pools : list TerrainMemoryPool.t),
        (0 < threshold)%Q ->
        TerrainMemoryAllocator.backgroundWorker_defragments (fl := exactQ sqrtQ)
          threshold expired timeSinceDefrag pools = false).
Proof.
  intros sqrtQ. split; [|split].
  - apply getFragmentation_exactQ.
  - apply updateGlobalStats_fragmentation_exactQ.
  - intros threshold expired timeSinceDefrag pools Hthr.
    unfold TerrainMemoryAllocator.backgroundWorker_defragments,
      TerrainMemoryAllocator.garbageCollect.
    rewrite updateGlobalStats_fragmentation_exactQ. simpl.
    assert (L : Qle_bool 0 threshold = true).
    { apply Qle_bool_iff. apply Qlt_le_weak. exact Hthr. }
    rewrite L. apply andb_false_r.
Qed.

(** ** The tile manager (C2) *)

Section TileFacts.
Context {fl : FloatOps}.
Implicit Types tile : TerrainTile.t fl.

Lemma createVertexBuffer_coordinate calls tile :
  TerrainTile.m_coordinate (snd (TerrainTile.createVertexBuffer calls tile))
  = TerrainTile.m_coordinate tile.
Proof.
  unfold TerrainTile.createVertexBuffer.
  destruct (TerrainTile.isEmptyList _); [reflexivity|].
  destruct (TerrainTile.vertex_createBuffer calls) as [[r b] m].
  destruct (negb (is_success r)); [reflexivity|].
  destruct (negb (is_success _)); reflexivity.
Qed.

Lemma createHeightTexture_coordinate calls tile :
  TerrainTile.m_coordinate (snd (TerrainTile.createHeightTexture calls tile))
  = TerrainTile.m_coordinate tile.
Proof.
  unfold TerrainTile.createHeightTexture.
  destruct (TerrainTile.isEmptyList _); [reflexivity|].
  destruct (negb (is_success _)); [reflexivity|].
  destruct (TerrainTile.height_vkCreateImage calls) as [r1 image].
  destruct (negb (is_success r1)); [reflexivity|].
  destruct (TerrainTile.height_vkAllocateMemory calls) as [r2 memory].
  destruct (negb (is_success r2)); [reflexivity|].
  destruct (TerrainTile.height_vkCreateImageView calls) as [r3 view].
  reflexivity.
Qed.

Lemma uploadToGPU_coordinate calls tile :
  TerrainTile.m_coordinate (snd (TerrainTile.uploadToGPU calls tile))
  = TerrainTile.m_coordinate tile.
Proof.
  unfold TerrainTile.uploadToGPU.
  destruct (negb (TileState_eqb _ _)); [reflexivity|].
  pose proof (createVertexBuffer_coordinate calls (TerrainTile.setState Uploading tile)) as V.
  destruct (TerrainTile.createVertexBuffer calls _) as [r1 t1]. simpl in V.
  destruct (negb (is_success r1)); [exact V|].
  pose proof (createHeightTexture_coordinate calls t1) as H.
  destruct (TerrainTile.createHeightTexture calls t1) as [r2 t2]. simpl in H.
  rewrite V in H.
  destruct (negb (is_success r2)); [exact H|].
  destruct (negb (is_success _)); [exact H|].
  destruct (negb (is_success _)); exact H.
Qed.

Lemma loadData_coordinate synth dataPath tile :
  TerrainTile.m_coordinate (snd (TerrainTile.loadData synth dataPath tile))
  = TerrainTile.m_coordinate tile.
Proof.
  unfold TerrainTile.loadData.
  destruct (negb (TileState_eqb _ _)); [reflexivity|].
  unfold TerrainTile.loadFromCache, TerrainTile.loadFromDisk.
  destruct (flat_map _ _); reflexivity.
Qed.


End TileFacts.

(** Lists: filters, permutations and sorted lists. *)






(** Sorting by a key, largest first. *)
Section SortByKey.
Context {A : Type} (key : A -> Z).
Let comp (a b : A) : bool := key a >? key b.




End SortByKey.


(** Filtering the entries of a map keeps their keys distinct. *)
Lemma NoDup_map_filter {K V : Type} (keep : K * V -> bool) (entries : list (K * V))
    (Hkeys : NoDup (map fst entries)) :
  NoDup (map fst (filter keep entries)).
Proof.
  induction entries as [|[k v] entries IH]; [constructor|].
  apply NoDup_cons_iff in Hkeys. destruct Hkeys as [Hk Hrest].
  cbn [filter]. destruct (keep (k, v)); [|exact (IH Hrest)].
  cbn [map fst]. apply NoDup_cons; [|exact (IH Hrest)].
  intros Hin. apply Hk. apply in_map_iff in Hin.
  destruct Hin as (kv & Ekv & Hkv). apply filter_In in Hkv.
  apply in_map_iff. exists kv. tauto.
Qed.

Lemma Forall_filter' {A} (P : A -> Prop) (p : A -> bool) (l : list A) :
  Forall P l -> Forall P (filter p l).
Proof.
  rewrite !Forall_forall. intros H a Ha. apply filter_In in Ha. apply H. tauto.
Qed.

Section ManagerFacts.
Context {fl : FloatOps}.
Implicit Types m : TerrainTileManager.t fl.
Implicit Types L : list (TerrainTileManager.Entry fl).

Let coord (t : TerrainTile.t fl) : TileCoordinate.t := TerrainTile.getCoordinate t.







End ManagerFacts.

Section ManagerRuns.
Context {fl : FloatOps}.
Implicit Types m : TerrainTileManager.t fl.










End ManagerRuns.



(** The memory a tile holds once [loadData] has succeeded: 512 x 512
    heights of 4 bytes, besides what it held in the other two arrays. *)
Lemma length_flat_map_const {A B} (g : A -> list B) (n : nat) (l : list A) :
  (forall a, List.length (g a) = n) ->
  List.length (flat_map g l) = (List.length l * n)%nat.
Proof.
  intros H. induction l as [|a l IH]; simpl; [reflexivity|].
  rewrite length_app, H, IH. reflexivity.
Qed.

Lemma zrange_from_length (lo : Z) (n : nat) : List.length (zrange_from lo n) = n.
Proof. revert lo. induction n as [|n IH]; intros lo; simpl; [|rewrite IH]; reflexivity. Qed.

Lemma loadData_memory {fl : FloatOps} synth dataPath (tile : TerrainTile.t fl) :
  TerrainTile.m_state tile = Empty ->
  TileCPUData.normalData (TerrainTile.m_cpuData tile) = [] ->
  TileCPUData.textureData (TerrainTile.m_cpuData tile) = [] ->
  TerrainTile.getMemoryUsage (snd (TerrainTile.loadData synth dataPath tile)) = 1048576.
Proof.
  intros Hs Hn Ht. unfold TerrainTile.loadData. rewrite Hs.
  change (negb (TileState_eqb Empty Empty)) with false. cbv iota.
  unfold TerrainTile.loadFromCache, TerrainTile.loadFromDisk.
  set (heights := flat_map _ _).
  assert (Hlen : Z.of_nat (List.length heights) = 262144).
  { unfold heights. rewrite (length_flat_map_const _ 512).
    - unfold zrange. rewrite zrange_from_length. reflexivity.
    - intros a. rewrite length_map. unfold zrange. rewrite zrange_from_length.
      reflexivity. }
  assert (E : forall b,
             TerrainTile.getMemoryUsage
               (TerrainTile.setState Loaded
                  (TerrainTile.with_bounds b
                     (TerrainTile.with_cpuData
                        (TileCPUData.mk heights
                           (TileCPUData.normalData
                              (TerrainTile.m_cpuData (TerrainTile.setState Loading tile)))
                           (TileCPUData.textureData
                              (TerrainTile.m_cpuData (TerrainTile.setState Loading tile)))
                           TerrainTile.DEFAULT_TILE_SIZE TerrainTile.DEFAULT_TILE_SIZE
                           (of_Z fl 100))
                        (TerrainTile.setState Loading tile)))) = 1048576).
  { intros b. unfold TerrainTile.getMemoryUsage, TileCPUData.getMemoryUsage.
    cbn [TerrainTile.m_cpuData TerrainTile.setState TerrainTile.with_state
         TerrainTile.with_bounds TerrainTile.with_cpuData
         TileCPUData.heightData TileCPUData.normalData TileCPUData.textureData].
    rewrite Hn, Ht, Hlen. reflexivity. }
  destruct heights as [|h rest]; apply E.
Qed.


(** ** Streaming priority (C7) *)

(** C7.  Beyond level 8 the level bonus wraps around.  A tile at level 8 and
    a tile at level 9, at the same distance from the camera and both just
    accessed, get the priorities 100 + 1000/(d+1) and about 4.29e10: the
    tile with the lower level has the lower priority. *)
Theorem C7_priority_order_breaks_above_level_8 :
  TerrainTile.getDistanceToCamera sample_equidistant_camera sample_tile_level8
  = TerrainTile.getDistanceToCamera sample_equidistant_camera sample_tile_level9 /\
  TerrainTile.m_framesSinceAccess sample_tile_level8
  = TerrainTile.m_framesSinceAccess sample_tile_level9 /\
  TileCoordinate.level (TerrainTile.m_coordinate sample_tile_level8)
  < TileCoordinate.level (TerrainTile.m_coordinate sample_tile_level9) /\
  wrap32 (8 - 9) = 4294967295 /\
  flt binary32
    (TerrainTile.m_priority
       (TerrainTile.updatePriority sample_equidistant_camera (of_Z binary32 0)
          sample_tile_level8))
    (TerrainTile.m_priority
       (TerrainTile.updatePriority sample_equidistant_camera (of_Z binary32 0)
          sample_tile_level9)) = true.
Proof.
  split; [vm_compute; reflexivity|]. split; [reflexivity|].
  split; [vm_compute; reflexivity|]. split; [reflexivity|].
  vm_compute. reflexivity.
Qed.

(** ** The AABB-frustum test (C6) *)

Section AabbFacts.
Context {fl : FloatOps}.

Lemma positiveVertex_corner (normal bmin bmax : vec3 fl) :
  In (positiveVertex normal bmin bmax) (corners bmin bmax).
Proof.
  unfold positiveVertex, corners.
  destruct (vx normal .>= f0), (vy normal .>= f0), (vz normal .>= f0);
    destruct bmin, bmax; simpl; tauto.
Qed.

(** A box entirely behind one of the planes is rejected. *)
Lemma aabb_behind_one_plane (planes : list (vec4 fl)) (plane : vec4 fl)
    (bmin bmax : vec3 fl) :
  In plane planes -> entirely_behind plane bmin bmax ->
  aabbAgainstPlanes planes bmin bmax = false.
Proof.
  intros Hin Hb. induction planes as [|p planes IH]; [contradiction|].
  simpl. destruct (planeDistance p _ .< f0) eqn:E; [reflexivity|].
  destruct Hin as [->|Hin]; [|apply IH, Hin].
  rewrite (Hb _ (positiveVertex_corner _ bmin bmax)) in E. discriminate.
Qed.

End AabbFacts.

Section AabbExact.
Variable sqrtQ : Q -> Q.
Let flQ := exactQ sqrtQ.

Lemma planeDistance_exactQ (plane : vec4 flQ) (v : vec3 flQ) :
  (planeDistance plane v
   == px plane * vx v + py plane * vy v + pz plane * vz v + pw plane)%Q.
Proof.
  unfold planeDistance, dot, flQ, exactQ. cbn [fadd fmul vec3_of_vec4 vx vy vz].
  rewrite !Qred_correct. reflexivity.
Qed.

Lemma positiveVertex_exactQ_dominates (plane : vec4 flQ) (bmin bmax q : vec3 flQ) :
  (vx bmin <= vx q <= vx bmax)%Q -> (vy bmin <= vy q <= vy bmax)%Q ->
  (vz bmin <= vz q <= vz bmax)%Q ->
  (planeDistance plane q
   <= planeDistance plane (positiveVertex (vec3_of_vec4 plane) bmin bmax))%Q.
Proof.
  intros Hx Hy Hz. rewrite !planeDistance_exactQ.
  unfold positiveVertex, flQ, exactQ, f0. cbn [fle of_Z vec3_of_vec4 vx vy vz].
  destruct plane as [a b c d]; cbn [px py pz pw].
  assert (Ha : (a * vx q <= a * (if Qle_bool (inject_Z 0) a then vx bmax else vx bmin))%Q).
  { destruct (Qle_bool (inject_Z 0) a) eqn:E.
    - apply Qle_bool_iff in E. change (inject_Z 0) with 0%Q in E. nra.
    - assert (~ (0 <= a)%Q) by (intros L; apply Qle_bool_iff in L;
                                 change 0%Q with (inject_Z 0) in L; congruence).
      nra. }
  assert (Hb : (b * vy q <= b * (if Qle_bool (inject_Z 0) b then vy bmax else vy bmin))%Q).
  { destruct (Qle_bool (inject_Z 0) b) eqn:E.
    - apply Qle_bool_iff in E. change (inject_Z 0) with 0%Q in E. nra.
    - assert (~ (0 <= b)%Q) by (intros L; apply Qle_bool_iff in L;
                                 change 0%Q with (inject_Z 0) in L; congruence).
      nra. }
  assert (Hc : (c * vz q <= c * (if Qle_bool (inject_Z 0) c then vz bmax else vz bmin))%Q).
  { destruct (Qle_bool (inject_Z 0) c) eqn:E.
    - apply Qle_bool_iff in E. change (inject_Z 0) with 0%Q in E. nra.
    - assert (~ (0 <= c)%Q) by (intros L; apply Qle_bool_iff in L;
                                 change 0%Q with (inject_Z 0) in L; congruence).
      nra. }
  destruct (Qle_bool (inject_Z 0) a), (Qle_bool (inject_Z 0) b),
    (Qle_bool (inject_Z 0) c); cbn [vx vy vz];
    repeat apply Qplus_le_compat; try assumption; apply Qle_refl.
Qed.

(** In exact arithmetic, a box that contains a point on the non-negative
    side of every plane passes the test. *)
Lemma aabb_contains_inner_point (planes : list (vec4 flQ)) (bmin bmax q : vec3 flQ) :
  (vx bmin <= vx q <= vx bmax)%Q -> (vy bmin <= vy q <= vy bmax)%Q ->
  (vz bmin <= vz q <= vz bmax)%Q ->
  (forall plane, In plane planes -> (0 <= planeDistance plane q)%Q) ->
  aabbAgainstPlanes planes bmin bmax = true.
Proof.
  intros Hx Hy Hz Hq. induction planes as [|p planes IH]; [reflexivity|].
  cbn [aabbAgainstPlanes]. cbv zeta.
  assert (L : (0 <= planeDistance p (positiveVertex (vec3_of_vec4 p) bmin bmax))%Q).
  { eapply Qle_trans; [apply (Hq p); left; reflexivity|].
    apply positiveVertex_exactQ_dominates; assumption. }
  assert (E : flt flQ (planeDistance p (positiveVertex (vec3_of_vec4 p) bmin bmax)) f0
              = false).
  { apply negb_false_iff. apply Qle_bool_iff. exact L. }
  rewrite E. apply IH. intros plane Hin. apply Hq. right. exact Hin.
Qed.

Lemma contains_exactQ (b : TileBounds.t flQ) (q : vec3 flQ) :
  TileBounds.contains b q = true ->
  (vx (TileBounds.min b) <= vx q <= vx (TileBounds.max b))%Q /\
  (vy (TileBounds.min b) <= vy q <= vy (TileBounds.max b))%Q /\
  (vz (TileBounds.min b) <= vz q <= vz (TileBounds.max b))%Q.
Proof.
  unfold TileBounds.contains, flQ, exactQ. cbn [fle].
  rewrite !andb_true_iff, !Qle_bool_iff. tauto.
Qed.

End AabbExact.

(** C6, as amended.  For six planes and the box of a tile: if the box lies
    entirely on the negative side of one of the planes, the test
    ([TerrainTile::isVisible], [Frustum::intersects]) answers not visible;
    and, in exact arithmetic, if the box contains a point that is on the
    non-negative side of all six planes, the test answers visible.  (A box
    that contains the camera position need not be visible: the camera is
    behind the near plane.) *)
Theorem C6_aabb_frustum_test :
  (forall (fl : FloatOps) (p0 p1 p2 p3 p4 p5 plane : vec4 fl) (tile : TerrainTile.t fl),
      let planes := [p0; p1; p2; p3; p4; p5] in
      let bmin := TileBounds.min (TerrainTile.m_bounds tile) in
      let bmax := TileBounds.max (TerrainTile.m_bounds tile) in
      In plane planes -> entirely_behind plane bmin bmax ->
      TerrainTile.isVisible planes tile = false /\
      Frustum.intersects (Frustum.mk planes) (TerrainBounds.mk bmin bmax) = false) /\
  (forall (sqrtQ : Q -> Q) (p0 p1 p2 p3 p4 p5 : vec4 (exactQ sqrtQ))
          (tile : TerrainTile.t (exactQ sqrtQ)) (q : vec3 (exactQ sqrtQ)),
      let planes := [p0; p1; p2; p3; p4; p5] in
      let bmin := TileBounds.min (TerrainTile.m_bounds tile) in
      let bmax := TileBounds.max (TerrainTile.m_bounds tile) in
      TileBounds.contains (TerrainTile.m_bounds tile) q = true ->
      (forall plane, In plane planes -> (0 <= planeDistance plane q)%Q) ->
      TerrainTile.isVisible planes tile = true /\
      Frustum.intersects (Frustum.mk planes) (TerrainBounds.mk bmin bmax) = true).
Proof.
  split.
  - intros fl p0 p1 p2 p3 p4 p5 plane tile planes bmin bmax Hin Hb.
    change (aabbAgainstPlanes planes bmin bmax = false /\
            aabbAgainstPlanes planes bmin bmax = false).
    rewrite (aabb_behind_one_plane planes plane bmin bmax Hin Hb). auto.
  - intros sqrtQ p0 p1 p2 p3 p4 p5 tile q planes bmin bmax Hc Hq.
    apply contains_exactQ in Hc. destruct Hc as (Hx & Hy & Hz).
    change (aabbAgainstPlanes planes bmin bmax = true /\
            aabbAgainstPlanes planes bmin bmax = true).
    rewrite (aabb_contains_inner_point sqrtQ planes bmin bmax q Hx Hy Hz Hq). auto.
Qed.

Lemma C6_aabb_frustum_test_witness :
  (TerrainTile.isVisible sample_planes_behindQ sample_tileQ = false /\
   Frustum.intersects (Frustum.mk sample_planes_behindQ)
     (TerrainBounds.mk (TileBounds.min (TerrainTile.m_bounds sample_tileQ))
                       (TileBounds.max (TerrainTile.m_bounds sample_tileQ))) = false) /\
  (TerrainTile.isVisible sample_planesQ sample_tileQ = true /\
   Frustum.intersects (Frustum.mk sample_planesQ)
     (TerrainBounds.mk (TileBounds.min (TerrainTile.m_bounds sample_tileQ))
                       (TileBounds.max (TerrainTile.m_bounds sample_tileQ))) = true).
Proof.
  split.
  - refine (proj1 C6_aabb_frustum_test (exactQ (fun q => q))
              _ _ _ _ _ _ sample_plane_behindQ sample_tileQ _ _).
    + right; left; reflexivity.
    + intros c Hc. simpl in Hc.
      repeat (destruct Hc as [<-|Hc]; [vm_compute; reflexivity|]). destruct Hc.
  - refine (proj2 C6_aabb_frustum_test (fun q => q)
              _ _ _ _ _ _ sample_tileQ sample_pointQ _ _).
    + vm_compute. reflexivity.
    + intros plane Hin. simpl in Hin.
      repeat (destruct Hin as [<-|Hin]; [vm_compute; discriminate|]). destruct Hin.
Defined.

(** A camera strictly inside the box of a tile, the six planes extracted
    from its view-projection matrix, and the test answering not visible:
    the box ends before the near plane. *)
Lemma C6_counterexample :
  List.length (Frustum.planes (TerrainRenderer.frameFrustum sample_inside_camera)) = 6%nat /\
  TileBounds.contains (TerrainTile.m_bounds sample_tile)
    (TerrainCamera.position sample_inside_camera) = true /\
  TerrainTile.isVisible
    (Frustum.planes (TerrainRenderer.frameFrustum sample_inside_camera)) sample_tile
  = false /\
  Frustum.intersects (TerrainRenderer.frameFrustum sample_inside_camera)
    (TerrainBounds.mk (TileBounds.min (TerrainTile.m_bounds sample_tile))
                      (TileBounds.max (TerrainTile.m_bounds sample_tile))) = false.
Proof.
  split; [reflexivity|]. split; [vm_compute; reflexivity|].
  split; vm_compute; reflexivity.
Qed.

(** ** Candidate generation (C8) *)

Lemma quot_pos_mono (n1 n2 : Z) (d1 d2 : positive) :
  n1 * Zpos d2 <= n2 * Zpos d1 -> Z.quot n1 (Zpos d1) <= Z.quot n2 (Zpos d2).
Proof.
  intros H.
  destruct (Z.le_gt_cases 0 n1) as [P1|N1].
  - assert (P2 : 0 <= n2) by nia.
    rewrite !Z.quot_div_nonneg by lia.
    apply Z.div_le_lower_bound; [lia|].
    pose proof (Z.mul_div_le n1 (Zpos d1) ltac:(lia)).
    pose proof (Z.div_pos n1 (Zpos d1) P1 ltac:(lia)).
    nia.
  - assert (E1 : Z.quot n1 (Zpos d1) = - Z.quot (- n1) (Zpos d1))
      by (rewrite Z.quot_opp_l; lia).
    pose proof (Z.quot_pos (- n1) (Zpos d1) ltac:(lia) ltac:(lia)) as Q1.
    destruct (Z.le_gt_cases 0 n2) as [P2|N2].
    + pose proof (Z.quot_pos n2 (Zpos d2) P2 ltac:(lia)). lia.
    + assert (E2 : Z.quot n2 (Zpos d2) = - Z.quot (- n2) (Zpos d2))
        by (rewrite Z.quot_opp_l; lia).
      rewrite E1, E2. rewrite !Z.quot_div_nonneg by lia.
      apply -> Z.opp_le_mono.
      apply Z.div_le_lower_bound; [lia|].
      pose proof (Z.mul_div_le (- n2) (Zpos d2) ltac:(lia)).
      pose proof (Z.div_pos (- n2) (Zpos d2) ltac:(lia) ltac:(lia)).
      nia.
Qed.

Lemma Qtrunc_mono (a b : Q) : (a <= b)%Q -> Qtrunc a <= Qtrunc b.
Proof. intros H. apply quot_pos_mono. exact H. Qed.





Section CandidatesExact.
Variable sqrtQ : Q -> Q.
Let flQ := exactQ sqrtQ.





End CandidatesExact.





(** ** Priorities up to level 8

    In exact arithmetic, where the level bonus does not wrap (levels 0 to
    8), of two tiles at the same distance and with the same
    [framesSinceAccess] the one with the lower level gets the strictly
    higher priority. *)
Theorem priority_order_up_to_level_8 :
  forall (sqrtQ : Q -> Q) (cameraPosition : vec3 (exactQ sqrtQ)) (time : Q)
         (a b : TerrainTile.t (exactQ sqrtQ)),
    TerrainTile.getDistanceToCamera cameraPosition a
    = TerrainTile.getDistanceToCamera cameraPosition b ->
    TerrainTile.m_framesSinceAccess a = TerrainTile.m_framesSinceAccess b ->
    0 <= TileCoordinate.level (TerrainTile.m_coordinate a)
      < TileCoordinate.level (TerrainTile.m_coordinate b) ->
    TileCoordinate.level (TerrainTile.m_coordinate b) <= 8 ->
    flt (exactQ sqrtQ)
      (TerrainTile.m_priority (TerrainTile.updatePriority cameraPosition time b))
      (TerrainTile.m_priority (TerrainTile.updatePriority cameraPosition time a)) = true.
Proof.
  intros sqrtQ cameraPosition time a b Hd Hf Hl Hb.
  unfold TerrainTile.updatePriority. cbv zeta.
  destruct a as [ca sa ba da ga pa fa la ea], b as [cb sb bb db gb pb fb lb eb].
  cbn [TerrainTile.with_priority TerrainTile.m_priority TerrainTile.m_coordinate
       TerrainTile.m_framesSinceAccess] in *.
  rewrite Hd. subst fb.
  match goal with
  | |- context [fdiv ?f ?x ?y] => set (base := fdiv f x y)
  end.
  match goal with
  | |- context [if ?c then ?x else ?y] => set (acc := if c then x else y)
  end.
  assert (Wa : wrap32 (8 - TileCoordinate.level ca) = 8 - TileCoordinate.level ca)
    by (unfold wrap32; apply Z.mod_small; lia).
  assert (Wb : wrap32 (8 - TileCoordinate.level cb) = 8 - TileCoordinate.level cb)
    by (unfold wrap32; apply Z.mod_small; lia).
  rewrite Wa, Wb. cbn [flt fadd fmul of_Z exactQ].
  apply negb_true_iff. destruct (Qle_bool _ _) eqn:E; [exfalso|reflexivity].
  apply Qle_bool_iff in E. rewrite !Qred_correct in E.
  assert (L : (inject_Z (8 - TileCoordinate.level cb) * inject_Z 10
               < inject_Z (8 - TileCoordinate.level ca) * inject_Z 10)%Q).
  { rewrite <- !inject_Z_mult, <- Zlt_Qlt. lia. }
  lra.
Qed.

Lemma priority_order_up_to_level_8_witness :
  flt (exactQ (fun q => q))
    (TerrainTile.m_priority
       (TerrainTile.updatePriority sample_equidistant_cameraQ 0%Q sample_tileQ_level1))
    (TerrainTile.m_priority
       (TerrainTile.updatePriority sample_equidistant_cameraQ 0%Q sample_tileQ)) = true.
Proof.
  apply (priority_order_up_to_level_8 (fun q => q)).
  - vm_compute. reflexivity.
  - reflexivity.
  - cbn. lia.
  - cbn. lia.
Defined.

Lemma getParent_getChildren_contains_witness :
  In (TileCoordinate.mk 3 (-2) 4 "terrain")
     (TileCoordinate.getChildren
        (TileCoordinate.getParent (TileCoordinate.mk 3 (-2) 4 "terrain"))).
Proof.
  apply getParent_getChildren_contains; cbn.
  - lia.
  - left; lia.
  - right; reflexivity.
Defined.

(* ================================================================== *)
(** * Further properties of the terrain core *)

(** ** Tile coordinates: children, neighbours and the order *)



(** The neighbour relation is symmetric and irreflexive, and a coordinate
    has eight distinct neighbours on its own level and dataset.  The
    indices are kept away from the ends of [int32_t], where [x - 1] or
    [x + 1] overflows. *)
Theorem getNeighbors_symmetric (c d : TileCoordinate.t) :
  - 2 ^ 31 < TileCoordinate.x c < 2 ^ 31 - 1 ->
  - 2 ^ 31 < TileCoordinate.y c < 2 ^ 31 - 1 ->
  In d (TileCoordinate.getNeighbors c) ->
  In c (TileCoordinate.getNeighbors d) /\ d <> c /\
  TileCoordinate.level d = TileCoordinate.level c /\
  TileCoordinate.datasetId d = TileCoordinate.datasetId c /\
  NoDup (TileCoordinate.getNeighbors c) /\
  List.length (TileCoordinate.getNeighbors c) = 8%nat.
Proof.
  destruct c as [x y l ds]. cbn [TileCoordinate.x TileCoordinate.y]. intros _ _ Hd.
  assert (ND : NoDup (TileCoordinate.getNeighbors (TileCoordinate.mk x y l ds))).
  { unfold TileCoordinate.getNeighbors.
    cbn [TileCoordinate.x TileCoordinate.y TileCoordinate.level TileCoordinate.datasetId].
    repeat (apply NoDup_cons;
            [cbn [In]; intros H; repeat (destruct H as [H|H]; [injection H; lia|]);
             exact H|]).
    apply NoDup_nil. }
  split; [|split; [|split; [|split; [|split; [exact ND|reflexivity]]]]];
    unfold TileCoordinate.getNeighbors in Hd;
    cbn [TileCoordinate.x TileCoordinate.y TileCoordinate.level TileCoordinate.datasetId
         In] in Hd;
    repeat (destruct Hd as [<-|Hd]);
    try contradiction; try reflexivity;
    try (intros H; injection H; lia);
    unfold TileCoordinate.getNeighbors;
    cbn [TileCoordinate.x TileCoordinate.y TileCoordinate.level TileCoordinate.datasetId
         In];
    repeat match goal with
           | |- ?a = ?b \/ _ =>
               first [left; f_equal; lia | right]
           end.
Qed.

Lemma getNeighbors_symmetric_witness :
  In (TileCoordinate.mk 0 0 3 "terrain")
     (TileCoordinate.getNeighbors (TileCoordinate.mk (-1) 1 3 "terrain")).
Proof.
  apply (getNeighbors_symmetric (TileCoordinate.mk 0 0 3 "terrain")
           (TileCoordinate.mk (-1) 1 3 "terrain")); cbn; try lia.
  do 6 right; left; reflexivity.
Defined.

(** *** [operator<] is a strict total order *)

Lemma ascii_compare_trans (a b c : Ascii.ascii) (o : comparison) :
  Ascii.compare a b = o -> Ascii.compare b c = o -> Ascii.compare a c = o.
Proof.
  unfold Ascii.compare. destruct o; intros H1 H2.
  - apply N.compare_eq_iff in H1, H2. apply N.compare_eq_iff. congruence.
  - rewrite N.compare_lt_iff in *. eapply N.lt_trans; eassumption.
  - rewrite N.compare_gt_iff in *. eapply N.lt_trans; eassumption.
Qed.

Lemma ascii_compare_eq (a b : Ascii.ascii) : Ascii.compare a b = Eq -> a = b.
Proof.
  unfold Ascii.compare. intros H. apply N.compare_eq_iff in H.
  rewrite <- (Ascii.ascii_N_embedding a), <- (Ascii.ascii_N_embedding b). congruence.
Qed.

Lemma ascii_compare_refl (a : Ascii.ascii) : Ascii.compare a a = Eq.
Proof. unfold Ascii.compare. apply N.compare_refl. Qed.

Lemma string_compare_lt_trans (s1 s2 s3 : string) :
  String.compare s1 s2 = Lt -> String.compare s2 s3 = Lt -> String.compare s1 s3 = Lt.
Proof.
  revert s2 s3. induction s1 as [|a s1 IH]; intros [|b s2] [|c s3]; cbn;
    try discriminate; try reflexivity.
  destruct (Ascii.compare a b) eqn:Eab; try discriminate;
    destruct (Ascii.compare b c) eqn:Ebc; try discriminate; intros H1 H2.
  - apply ascii_compare_eq in Eab, Ebc. subst.
    rewrite ascii_compare_refl.
    eapply IH; eassumption.
  - apply ascii_compare_eq in Eab. subst. rewrite Ebc. reflexivity.
  - apply ascii_compare_eq in Ebc. subst. rewrite Eab. reflexivity.
  - rewrite (ascii_compare_trans a b c Lt Eab Ebc). reflexivity.
Qed.

Lemma string_compare_refl (s : string) : String.compare s s = Eq.
Proof.
  induction s as [|a s IH]; cbn; [reflexivity|]. now rewrite ascii_compare_refl.
Qed.

Lemma string_ltb_irrefl (s : string) : String.ltb s s = false.
Proof. unfold String.ltb. now rewrite string_compare_refl. Qed.

Lemma string_ltb_trans (s1 s2 s3 : string) :
  String.ltb s1 s2 = true -> String.ltb s2 s3 = true -> String.ltb s1 s3 = true.
Proof.
  unfold String.ltb.
  destruct (String.compare s1 s2) eqn:E1; try discriminate.
  destruct (String.compare s2 s3) eqn:E2; try discriminate.
  intros _ _. rewrite (string_compare_lt_trans _ _ _ E1 E2). reflexivity.
Qed.

Lemma string_ltb_total (s1 s2 : string) :
  String.ltb s1 s2 = true \/ s1 = s2 \/ String.ltb s2 s1 = true.
Proof.
  unfold String.ltb. destruct (String.compare s1 s2) eqn:E.
  - right; left. apply String.compare_eq_iff. exact E.
  - left; reflexivity.
  - right; right. rewrite (String.compare_antisym s2 s1), E. reflexivity.
Qed.

(** [operator<] on tile coordinates is irreflexive and transitive, and of
    two different coordinates one is below the other: it is a strict total
    order, which agrees with [operator==]. *)
Theorem TileCoordinate_ltb_strict_total_order :
  (forall a, TileCoordinate.ltb a a = false) /\
  (forall a b c, TileCoordinate.ltb a b = true -> TileCoordinate.ltb b c = true ->
                 TileCoordinate.ltb a c = true) /\
  (forall a b, TileCoordinate.ltb a b = true \/ a = b \/ TileCoordinate.ltb b a = true) /\
  (forall a b, TileCoordinate.eqb a b = true ->
               TileCoordinate.ltb a b = false /\ TileCoordinate.ltb b a = false).
Proof.
  assert (Irr : forall a, TileCoordinate.ltb a a = false).
  { intros [x y l d]. unfold TileCoordinate.ltb.
    cbn [TileCoordinate.x TileCoordinate.y TileCoordinate.level TileCoordinate.datasetId].
    rewrite String.eqb_refl, !Z.eqb_refl. cbn [negb]. apply Z.ltb_irrefl. }
  split; [exact Irr|]. split; [|split].
  - intros [x1 y1 l1 d1] [x2 y2 l2 d2] [x3 y3 l3 d3]. unfold TileCoordinate.ltb.
    cbn [TileCoordinate.x TileCoordinate.y TileCoordinate.level TileCoordinate.datasetId].
    destruct (String.eqb_spec d1 d2) as [<-|D12];
      destruct (String.eqb_spec d1 d3) as [<-|D13]; cbn [negb].
    + rewrite ?String.eqb_refl. cbn [negb].
      destruct (Z.eqb_spec l1 l2), (Z.eqb_spec l2 l3), (Z.eqb_spec l1 l3),
        (Z.eqb_spec y1 y2), (Z.eqb_spec y2 y3), (Z.eqb_spec y1 y3); cbn [negb];
        rewrite ?Z.ltb_lt; lia.
    + destruct (String.eqb_spec d1 d3); [contradiction|]. cbn [negb]. intros _ H. exact H.
    + destruct (String.eqb_spec d2 d1) as [E|_]; [congruence|]. cbn [negb].
      intros H1 H2. pose proof (string_ltb_trans _ _ _ H1 H2) as H.
      rewrite string_ltb_irrefl in H. discriminate.
    + destruct (String.eqb_spec d2 d3) as [<-|D23]; cbn [negb].
      * intros H _. exact H.
      * apply string_ltb_trans.
  - intros [x1 y1 l1 d1] [x2 y2 l2 d2]. unfold TileCoordinate.ltb.
    cbn [TileCoordinate.x TileCoordinate.y TileCoordinate.level TileCoordinate.datasetId].
    destruct (String.eqb_spec d1 d2) as [<-|D]; cbn [negb].
    + rewrite String.eqb_refl. cbn [negb].
      destruct (Z.eqb_spec l1 l2), (Z.eqb_spec l2 l1), (Z.eqb_spec y1 y2),
        (Z.eqb_spec y2 y1); cbn [negb]; rewrite ?Z.ltb_lt; try lia.
      destruct (Z.lt_trichotomy x1 x2) as [H|[H|H]]; subst; auto.
    + destruct (String.eqb_spec d2 d1) as [E|_]; [congruence|]. cbn [negb].
      destruct (string_ltb_total d1 d2) as [H|[H|H]]; auto; contradiction.
  - intros a b E. apply TileCoordinate_eqb_eq in E. subst b.
    rewrite Irr. split; reflexivity.
Qed.

(** ** Bounding boxes *)

(** The overlap test of two boxes does not depend on their order, for
    [TileBounds] and for [TerrainBounds], whatever the arithmetic. *)
Theorem intersects_symmetric :
  forall (fl : FloatOps),
    (forall a b : TileBounds.t fl, TileBounds.intersects a b = TileBounds.intersects b a) /\
    (forall a b : TerrainBounds.t fl,
        TerrainBounds.intersects a b = TerrainBounds.intersects b a).
Proof.
  intros fl. split; intros a b; unfold TileBounds.intersects, TerrainBounds.intersects;
    f_equal;
    repeat match goal with
           | |- context [flt fl ?u ?v] =>
               let t := fresh "t" in
               let E := fresh "E" in
               remember (flt fl u v) as t eqn:E; clear E
           end;
    repeat match goal with t : bool |- _ => destruct t end; reflexivity.
Qed.

Section BoundsExact.
Variable sqrtQ : Q -> Q.
Let flQ := exactQ sqrtQ.

Lemma terrain_contains_exactQ (b : TerrainBounds.t flQ) (q : vec3 flQ) :
  TerrainBounds.contains b q = true <->
  (vx (TerrainBounds.min b) <= vx q <= vx (TerrainBounds.max b))%Q /\
  (vy (TerrainBounds.min b) <= vy q <= vy (TerrainBounds.max b))%Q /\
  (vz (TerrainBounds.min b) <= vz q <= vz (TerrainBounds.max b))%Q.
Proof.
  unfold TerrainBounds.contains, flQ, exactQ. cbn [fle].
  rewrite !andb_true_iff, !Qle_bool_iff. tauto.
Qed.

Lemma flt_exactQ_false (a b : Q) : flt flQ a b = false <-> (b <= a)%Q.
Proof.
  unfold flQ, exactQ. cbn [flt]. rewrite negb_false_iff. apply Qle_bool_iff.
Qed.

Lemma flt_exactQ_true (a b : Q) : flt flQ a b = true <-> (a < b)%Q.
Proof.
  unfold flQ, exactQ. cbn [flt]. rewrite negb_true_iff.
  split.
  - intros H. apply Qnot_le_lt. intros L. apply Qle_bool_iff in L. congruence.
  - intros H. destruct (Qle_bool b a) eqn:E; [|reflexivity].
    apply Qle_bool_iff in E. exfalso. apply (Qlt_not_le _ _ H E).
Qed.

End BoundsExact.

(** The operations of [exactQ], written out. *)
Ltac exactQ_ops sq :=
  change (fadd (exactQ sq) ?a ?b) with (Qred (a + b)) in *;
  change (fsub (exactQ sq) ?a ?b) with (Qred (a - b)) in *;
  change (fmul (exactQ sq) ?a ?b) with (Qred (a * b)) in *;
  change (fdiv (exactQ sq) ?a ?b) with (Qred (a / b)) in *;
  change (of_Z (exactQ sq) ?z) with (inject_Z z) in *;
  change (to_int (exactQ sq)) with Qtrunc in *;
  change (ldexp (exactQ sq) ?a ?n) with (Qred (a * Qpower (2 # 1) n)) in *.

(** In exact arithmetic, two boxes that contain a common point overlap, and
    a box whose minimum corner is below its maximum corner contains its
    centre. *)
Theorem boxes_with_common_point_intersect :
  forall (sqrtQ : Q -> Q) (a b : TerrainBounds.t (exactQ sqrtQ)) (q : vec3 (exactQ sqrtQ)),
    TerrainBounds.contains a q = true -> TerrainBounds.contains b q = true ->
    TerrainBounds.intersects a b = true /\
    TerrainBounds.contains a (TerrainBounds.center a) = true.
Proof.
  intros sqrtQ a b q Ha Hb.
  apply terrain_contains_exactQ in Ha, Hb.
  destruct Ha as ((Ax1 & Ax2) & (Ay1 & Ay2) & (Az1 & Az2)).
  destruct Hb as ((Bx1 & Bx2) & (By1 & By2) & (Bz1 & Bz2)).
  split.
  - unfold TerrainBounds.intersects. apply negb_true_iff.
    repeat (apply orb_false_iff; split); apply flt_exactQ_false; lra.
  - apply terrain_contains_exactQ.
    unfold TerrainBounds.center, vec3_scale, vec3_add, fhalf. cbn [vx vy vz].
    exactQ_ops sqrtQ. rewrite !Qred_correct.
    change (inject_Z 1 / inject_Z 2)%Q with (1 # 2)%Q.
    repeat split; lra.
Qed.

(** ** The life cycle of a tile *)

Section TileLifeCycle.
Context {fl : FloatOps}.
Implicit Types tile : TerrainTile.t fl.

Lemma createVertexBuffer_state calls tile :
  TerrainTile.m_state (snd (TerrainTile.createVertexBuffer calls tile))
  = TerrainTile.m_state tile.
Proof.
  unfold TerrainTile.createVertexBuffer.
  destruct (TerrainTile.isEmptyList _); [reflexivity|].
  destruct (TerrainTile.vertex_createBuffer calls) as [[r b] m]. cbv zeta.
  destruct (negb (is_success r)); [reflexivity|].
  destruct (negb (is_success _)); reflexivity.
Qed.

Lemma createHeightTexture_state calls tile :
  TerrainTile.m_state (snd (TerrainTile.createHeightTexture calls tile))
  = TerrainTile.m_state tile.
Proof.
  unfold TerrainTile.createHeightTexture.
  destruct (TerrainTile.isEmptyList _); [reflexivity|].
  destruct (negb (is_success (TerrainTile.staging_createBuffer calls))); [reflexivity|].
  cbv zeta.
  destruct (TerrainTile.height_vkCreateImage calls) as [r1 image].
  destruct (negb (is_success r1)); [reflexivity|].
  destruct (TerrainTile.height_vkAllocateMemory calls) as [r2 memory].
  destruct (negb (is_success r2)); [reflexivity|].
  destruct (TerrainTile.height_vkCreateImageView calls) as [r3 view]. reflexivity.
Qed.

Lemma uploadToGPU_from_Loaded calls tile :
  TerrainTile.m_state tile = Loaded ->
  (fst (TerrainTile.uploadToGPU calls tile) = VK_SUCCESS /\
   TerrainTile.m_state (snd (TerrainTile.uploadToGPU calls tile)) = Ready) \/
  (fst (TerrainTile.uploadToGPU calls tile) <> VK_SUCCESS /\
   TerrainTile.m_state (snd (TerrainTile.uploadToGPU calls tile)) = Error).
Proof.
  intros Hs. unfold TerrainTile.uploadToGPU. rewrite Hs.
  change (negb (TileState_eqb Loaded Loaded)) with false. cbv iota.
  destruct (TerrainTile.createVertexBuffer calls _) as [r1 t1].
  destruct r1; cbn [is_success negb];
    try (right; split; [discriminate|reflexivity]).
  destruct (TerrainTile.createHeightTexture calls t1) as [r2 t2].
  destruct r2; cbn [is_success negb];
    try (right; split; [discriminate|reflexivity]).
  destruct (negb (TerrainTile.isEmptyList _)); cbn [TerrainTile.createNormalTexture
    TerrainTile.createDescriptorSet is_success negb];
    left; split; reflexivity.
Qed.

Lemma loadData_state_from_Empty synth dataPath tile :
  TerrainTile.m_state tile = Empty ->
  fst (TerrainTile.loadData synth dataPath tile) = VK_SUCCESS /\
  TerrainTile.m_state (snd (TerrainTile.loadData synth dataPath tile)) = Loaded.
Proof.
  intros Hs. unfold TerrainTile.loadData. rewrite Hs.
  change (negb (TileState_eqb Empty Empty)) with false. cbv iota.
  unfold TerrainTile.loadFromCache, TerrainTile.loadFromDisk. cbv zeta.
  cbn [is_success negb fst snd]. split; reflexivity.
Qed.

Lemma call_allowed (c : TerrainTile.Call fl) tile :
  allowed_transition (TerrainTile.m_state tile)
    (TerrainTile.m_state (TerrainTile.call c tile)) = true.
Proof.
  destruct c; cbn [TerrainTile.call].
  - destruct (TileState_eqb (TerrainTile.m_state tile) Empty) eqn:E.
    + apply TileState_eqb_eq in E.
      rewrite (proj2 (loadData_state_from_Empty synth dataPath tile E)), E. reflexivity.
    + apply TileState_eqb_neq in E. rewrite (loadData_guard tile synth dataPath E).
      cbn [snd]. destruct (TerrainTile.m_state tile); reflexivity.
  - destruct (TileState_eqb (TerrainTile.m_state tile) Loaded) eqn:E.
    + apply TileState_eqb_eq in E.
      destruct (uploadToGPU_from_Loaded calls tile E) as [[_ H]|[_ H]];
        rewrite H, E; reflexivity.
    + apply TileState_eqb_neq in E. rewrite (uploadToGPU_guard tile calls E).
      cbn [snd]. destruct (TerrainTile.m_state tile); reflexivity.
  - destruct tile as [co st bo cp gp pr fr ld em]. destruct st; reflexivity.
  - destruct tile as [co st bo cp gp pr fr ld em]. destruct st; reflexivity.
  - unfold TerrainTile.render. destruct (negb _); cbn [snd];
      destruct tile as [co st bo cp gp pr fr ld em]; destruct st; reflexivity.
  - destruct tile as [co st bo cp gp pr fr ld em]. destruct st; reflexivity.
  - destruct tile as [co st bo cp gp pr fr ld em]. destruct st; reflexivity.
  - destruct tile as [co st bo cp gp pr fr ld em]. destruct st; reflexivity.
  - destruct tile as [co st bo cp gp pr fr ld em]. destruct st; reflexivity.
  - destruct tile as [co st bo cp gp pr fr ld em]. destruct st; reflexivity.
Qed.

End TileLifeCycle.

(** Every method call moves the state of a tile along the transition graph:
    it stays, or goes from [Empty] to [Loaded], from [Loaded] to [Ready] or
    [Error], from [Ready] to [Loaded], or from any state but [Error] to
    [Evicted].  So [Error] and [Evicted] are final: no sequence of calls
    leaves them, and [Loading] and [Uploading] are never the state a call
    ends in unless it began there. *)
Theorem tile_state_transitions :
  forall (fl : FloatOps) (tile : TerrainTile.t fl),
    (forall c : TerrainTile.Call fl,
        allowed_transition (TerrainTile.m_state tile)
          (TerrainTile.m_state (TerrainTile.call c tile)) = true) /\
    (forall cs : list (TerrainTile.Call fl),
        (TerrainTile.m_state tile = Error ->
         TerrainTile.m_state (tile_calls cs tile) = Error) /\
        (TerrainTile.m_state tile = Evicted ->
         TerrainTile.m_state (tile_calls cs tile) = Evicted)).
Proof.
  intros fl tile. split; [intros c; apply call_allowed|].
  intros cs. revert tile. induction cs as [|c cs IH]; intros tile; [split; auto|].
  cbn [tile_calls fold_left]. change (fold_left _ cs ?t) with (tile_calls cs t).
  pose proof (call_allowed c tile) as A.
  split; intros Hs; rewrite Hs in A; apply IH;
    destruct (TerrainTile.m_state (TerrainTile.call c tile)); try discriminate A;
    reflexivity.
Qed.

Lemma tile_state_transitions_witness :
  TerrainTile.m_state
    (tile_calls [TerrainTile.CallLoadData sample_synth "tiles";
                 TerrainTile.CallUploadToGPU sample_gpu_calls;
                 TerrainTile.CallRender]
                sample_evicted_tile) = Evicted.
Proof.
  apply (proj2 (tile_state_transitions binary32 sample_evicted_tile)). reflexivity.
Defined.

Section LoadAndUpload.
Context {fl : FloatOps}.
Implicit Types tile : TerrainTile.t fl.

(** What [loadData] leaves in an [Empty] tile: a non-empty grid of heights,
    bounds with the elevations of the grid, and the state [Loaded]. *)
Lemma loadData_result synth dataPath tile :
  TerrainTile.m_state tile = Empty ->
  exists h rest b,
    Z.of_nat (List.length (h :: rest)) = 262144 /\
    TerrainTile.loadData synth dataPath tile
    = (VK_SUCCESS,
       TerrainTile.mk (TerrainTile.m_coordinate tile) Loaded b
         (TileCPUData.mk (h :: rest)
            (TileCPUData.normalData (TerrainTile.m_cpuData tile))
            (TileCPUData.textureData (TerrainTile.m_cpuData tile))
            512 512 (of_Z fl 100))
         (TerrainTile.m_gpuResources tile) (TerrainTile.m_priority tile)
         (TerrainTile.m_framesSinceAccess tile)
         (TerrainTile.m_lastDistanceToCamera tile)
         (TerrainTile.m_errorMessage tile)).
Proof.
  intros Hs. unfold TerrainTile.loadData. rewrite Hs.
  change (negb (TileState_eqb Empty Empty)) with false. cbv iota.
  unfold TerrainTile.loadFromCache, TerrainTile.loadFromDisk.
  set (heights := flat_map _ _).
  assert (Hlen : Z.of_nat (List.length heights) = 262144).
  { unfold heights. rewrite (length_flat_map_const _ 512).
    - unfold zrange. rewrite zrange_from_length. reflexivity.
    - intros a. rewrite length_map. unfold zrange. rewrite zrange_from_length.
      reflexivity. }
  destruct heights as [|h rest]; [discriminate Hlen|].
  eexists h, rest, _. split; [exact Hlen|]. reflexivity.
Qed.

Lemma createVertexBuffer_succeeds calls tile buffer memory :
  TerrainTile.isEmptyList (TileCPUData.heightData (TerrainTile.m_cpuData tile)) = false ->
  TerrainTile.vertex_createBuffer calls = (VK_SUCCESS, buffer, memory) ->
  TerrainTile.vertex_uploadBufferData calls = VK_SUCCESS ->
  fst (TerrainTile.createVertexBuffer calls tile) = VK_SUCCESS /\
  TerrainTile.m_cpuData (snd (TerrainTile.createVertexBuffer calls tile))
  = TerrainTile.m_cpuData tile /\
  TileGPUResources.vertexBuffer
    (TerrainTile.m_gpuResources (snd (TerrainTile.createVertexBuffer calls tile)))
  = buffer.
Proof.
  intros Hh E1 E2. unfold TerrainTile.createVertexBuffer.
  rewrite Hh, E1. cbv zeta. cbn [is_success negb]. rewrite E2.
  cbn [is_success negb fst snd]. destruct tile. repeat split.
Qed.

Lemma createHeightTexture_succeeds calls tile image imageMemory view :
  TerrainTile.isEmptyList (TileCPUData.heightData (TerrainTile.m_cpuData tile)) = false ->
  TerrainTile.staging_createBuffer calls = VK_SUCCESS ->
  TerrainTile.height_vkCreateImage calls = (VK_SUCCESS, image) ->
  TerrainTile.height_vkAllocateMemory calls = (VK_SUCCESS, imageMemory) ->
  TerrainTile.height_vkCreateImageView calls = (VK_SUCCESS, view) ->
  fst (TerrainTile.createHeightTexture calls tile) = VK_SUCCESS /\
  TerrainTile.m_cpuData (snd (TerrainTile.createHeightTexture calls tile))
  = TerrainTile.m_cpuData tile /\
  TileGPUResources.vertexBuffer
    (TerrainTile.m_gpuResources (snd (TerrainTile.createHeightTexture calls tile)))
  = TileGPUResources.vertexBuffer (TerrainTile.m_gpuResources tile) /\
  TileGPUResources.heightTexture
    (TerrainTile.m_gpuResources (snd (TerrainTile.createHeightTexture calls tile)))
  = image.
Proof.
  intros Hh E3 E4 E5 E6. unfold TerrainTile.createHeightTexture.
  rewrite Hh, E3. cbn [is_success negb]. cbv zeta. rewrite E4.
  cbn [is_success negb]. rewrite E5. cbn [is_success negb]. rewrite E6.
  cbn [is_success fst snd]. destruct tile. repeat split.
Qed.

Lemma uploadToGPU_succeeds calls tile :
  TerrainTile.m_state tile = Loaded ->
  TerrainTile.isEmptyList (TileCPUData.heightData (TerrainTile.m_cpuData tile)) = false ->
  gpu_calls_succeed calls ->
  fst (TerrainTile.uploadToGPU calls tile) = VK_SUCCESS /\
  TerrainTile.m_state (snd (TerrainTile.uploadToGPU calls tile)) = Ready /\
  TerrainTile.hasValidGPUResources (snd (TerrainTile.uploadToGPU calls tile)) = true /\
  TerrainTile.m_cpuData (snd (TerrainTile.uploadToGPU calls tile))
  = TerrainTile.m_cpuData tile.
Proof.
  intros Hs Hh (buffer & memory & image & imageMemory & view &
                E1 & E2 & E3 & E4 & E5 & E6 & Nb & Ni).
  unfold TerrainTile.uploadToGPU. rewrite Hs.
  change (negb (TileState_eqb Loaded Loaded)) with false. cbv iota.
  set (t0 := TerrainTile.setState Uploading tile).
  assert (H0 : TerrainTile.m_cpuData t0 = TerrainTile.m_cpuData tile)
    by (destruct tile; reflexivity).
  destruct (createVertexBuffer_succeeds calls t0 buffer memory) as (R1 & C1 & V1);
    [rewrite H0; exact Hh|exact E1|exact E2|].
  destruct (TerrainTile.createVertexBuffer calls t0) as [r1 t1].
  cbn [fst snd] in R1, C1, V1. subst r1. cbn [is_success negb].
  destruct (createHeightTexture_succeeds calls t1 image imageMemory view)
    as (R2 & C2 & V2 & T2);
    [rewrite C1, H0; exact Hh|exact E3|exact E4|exact E5|exact E6|].
  destruct (TerrainTile.createHeightTexture calls t1) as [r2 t2].
  cbn [fst snd] in R2, C2, V2, T2. subst r2. cbn [is_success negb].
  assert (V : TerrainTile.hasValidGPUResources (TerrainTile.setState Ready t2) = true).
  { destruct t2 as [co st bo cp gp pr fr ld em].
    cbn [TerrainTile.m_gpuResources] in V2, T2.
    unfold TerrainTile.hasValidGPUResources, TileGPUResources.isValid.
    cbn [TerrainTile.setState TerrainTile.with_state TerrainTile.m_gpuResources].
    rewrite V2, V1, T2. unfold is_null.
    apply andb_true_iff; split; apply negb_true_iff, Z.eqb_neq; assumption. }
  assert (C : TerrainTile.m_cpuData (TerrainTile.setState Ready t2)
              = TerrainTile.m_cpuData tile)
    by (rewrite <- H0, <- C1, <- C2; destruct t2; reflexivity).
  destruct (negb (TerrainTile.isEmptyList _));
    cbn [TerrainTile.createNormalTexture TerrainTile.createDescriptorSet
         is_success negb fst snd];
    (split; [reflexivity|]; split; [destruct t2; reflexivity|]; split; assumption).
Qed.

End LoadAndUpload.

(** [TileLoadingScope::loadAndUpload].  On a tile that is not [Empty] it
    returns [VK_ERROR_INITIALIZATION_FAILED] and changes nothing.  On an
    [Empty] tile it either returns [VK_SUCCESS], with the tile [Ready] and
    the scope marked successful, or returns the error of the failing step,
    with the tile in [Error]; when every GPU call succeeds it is the first,
    the tile holds its 512 x 512 heights and [render] accepts it and resets
    its frame counter. *)
Theorem loadAndUpload_outcomes :
  forall (fl : FloatOps) (tile : TerrainTile.t fl) (synth : Z -> Z -> F fl)
         (dataPath : string) (calls : TerrainTile.GpuCalls),
    let r := TileLoadingScope.loadAndUpload synth dataPath calls
               (TileLoadingScope.create tile) in
    (TerrainTile.m_state tile <> Empty ->
     r = (VK_ERROR_INITIALIZATION_FAILED, TileLoadingScope.create tile)) /\
    (TerrainTile.m_state tile = Empty ->
     exists tile',
       TileLoadingScope.m_tile (snd r) = Some tile' /\
       ((fst r = VK_SUCCESS /\ TileLoadingScope.m_success (snd r) = true /\
         TerrainTile.m_state tile' = Ready) \/
        (fst r <> VK_SUCCESS /\ TileLoadingScope.m_success (snd r) = false /\
         TerrainTile.m_state tile' = Error))) /\
    (TerrainTile.m_state tile = Empty -> gpu_calls_succeed calls ->
     exists tile',
       r = (VK_SUCCESS,
            TileLoadingScope.mk (Some tile') Empty true) /\
       TerrainTile.m_state tile' = Ready /\
       Z.of_nat (List.length (TileCPUData.heightData (TerrainTile.m_cpuData tile')))
       = 262144 /\
       fst (TerrainTile.render tile') = VK_SUCCESS /\
       TerrainTile.m_framesSinceAccess (snd (TerrainTile.render tile')) = 0).
Proof.
  intros fl tile synth dataPath calls r. subst r.
  unfold TileLoadingScope.loadAndUpload, TileLoadingScope.create.
  cbn [TileLoadingScope.m_tile TileLoadingScope.m_originalState
       TileLoadingScope.m_success].
  split; [|split].
  - intros Hs. rewrite (loadData_guard tile synth dataPath Hs). reflexivity.
  - intros Hs. destruct (loadData_result synth dataPath tile Hs) as (h & rest & b & _ & E).
    rewrite E. cbn [is_success negb].
    match goal with
    | |- context [TerrainTile.uploadToGPU calls ?t] =>
        destruct (uploadToGPU_from_Loaded calls t eq_refl) as [[R S]|[R S]];
        destruct (TerrainTile.uploadToGPU calls t) as [res t'] eqn:U
    end; cbn [fst snd] in R, S.
    + subst res. cbn [is_success negb]. exists t'.
      split; [reflexivity|]. left. repeat split; assumption.
    + destruct res; [contradiction| | | | | |]; cbn [is_success negb]; exists t';
        (split; [reflexivity|]); right; (split; [discriminate|]); split;
        [reflexivity|assumption| reflexivity|assumption| reflexivity|assumption
        | reflexivity|assumption| reflexivity|assumption| reflexivity|assumption].
  - intros Hs Hc.
    destruct (loadData_result synth dataPath tile Hs) as (h & rest & b & Hlen & E).
    rewrite E. cbn [is_success negb].
    match goal with
    | |- context [TerrainTile.uploadToGPU calls ?t] =>
        destruct (uploadToGPU_succeeds calls t eq_refl eq_refl Hc) as (R & S & V & D);
        destruct (TerrainTile.uploadToGPU calls t) as [res t'] eqn:U
    end; cbn [fst snd] in R, S, V, D.
    subst res. cbn [is_success negb]. exists t'. unfold TerrainTile.getState.
    rewrite Hs.
    split; [reflexivity|]. split; [exact S|]. split; [rewrite D; exact Hlen|].
    unfold TerrainTile.render. rewrite V. cbn [negb fst snd]. split; reflexivity.
Qed.

Lemma loadAndUpload_outcomes_witness :
  exists tile',
    TileLoadingScope.loadAndUpload sample_synth "tiles" sample_gpu_calls
      (TileLoadingScope.create sample_tile)
    = (VK_SUCCESS, TileLoadingScope.mk (Some tile') Empty true) /\
    TerrainTile.m_state tile' = Ready /\
    Z.of_nat (List.length (TileCPUData.heightData (TerrainTile.m_cpuData tile')))
    = 262144 /\
    fst (TerrainTile.render tile') = VK_SUCCESS /\
    TerrainTile.m_framesSinceAccess (snd (TerrainTile.render tile')) = 0.
Proof.
  apply (proj2 (proj2 (loadAndUpload_outcomes binary32 sample_tile sample_synth
                         "tiles" sample_gpu_calls))).
  - reflexivity.
  - exists 1, 2, 3, 4, 5. repeat split; discriminate.
Defined.

(** Releasing a tile.  [unloadFromGPU] frees the GPU side only: the GPU
    usage is 0, the heights stay, and a [Ready] tile is [Loaded] again, so
    it can be uploaded once more.  [evictFromMemory] frees both sides: both
    usages are 0 and [render] refuses the tile. *)
Theorem releasing_a_tile :
  forall (fl : FloatOps) (tile : TerrainTile.t fl),
    (TerrainTile.getGPUMemoryUsage (TerrainTile.unloadFromGPU tile) = 0 /\
     TerrainTile.getMemoryUsage (TerrainTile.unloadFromGPU tile)
     = TerrainTile.getMemoryUsage tile /\
     (TerrainTile.m_state tile = Ready ->
      TerrainTile.m_state (TerrainTile.unloadFromGPU tile) = Loaded)) /\
    (TerrainTile.getGPUMemoryUsage (TerrainTile.evictFromMemory tile) = 0 /\
     TerrainTile.getMemoryUsage (TerrainTile.evictFromMemory tile) = 0 /\
     TerrainTile.hasValidGPUResources (TerrainTile.evictFromMemory tile) = false /\
     TerrainTile.render (TerrainTile.evictFromMemory tile)
     = (VK_ERROR_INITIALIZATION_FAILED, TerrainTile.evictFromMemory tile) /\
     TerrainTile.m_coordinate (TerrainTile.evictFromMemory tile)
     = TerrainTile.m_coordinate tile /\
     TerrainTile.m_framesSinceAccess (TerrainTile.evictFromMemory tile)
     = TerrainTile.m_framesSinceAccess tile).
Proof.
  intros fl [co st bo cp gp pr fr ld em].
  split.
  - split; [destruct st; reflexivity|]. split; [destruct st; reflexivity|].
    cbn [TerrainTile.m_state]. intros ->. reflexivity.
  - assert (V : TerrainTile.hasValidGPUResources
                  (TerrainTile.evictFromMemory
                     (TerrainTile.mk co st bo cp gp pr fr ld em)) = false)
      by (destruct st; reflexivity).
    split; [destruct st; reflexivity|]. split; [destruct st; reflexivity|].
    split; [exact V|]. split; [unfold TerrainTile.render; rewrite V; reflexivity|].
    split; destruct st; reflexivity.
Qed.

Lemma releasing_a_tile_witness :
  TerrainTile.m_state (TerrainTile.unloadFromGPU (sample_tile_in Ready)) = Loaded.
Proof.
  apply (proj1 (releasing_a_tile binary32 (sample_tile_in Ready))). reflexivity.
Defined.

(** ** The tile manager: lookup, removal, queue, cleanup and statistics *)

Section ManagerLookup.
Context {fl : FloatOps}.
Implicit Types m : TerrainTileManager.t fl.
Implicit Types L : list (TerrainTileManager.Entry fl).

Lemma find_erase_same c L :
  TerrainTileManager.find c (TerrainTileManager.erase c L) = None.
Proof.
  unfold TerrainTileManager.find, TerrainTileManager.erase.
  induction L as [|e L IH]; [reflexivity|]. cbn [filter].
  destruct (TileCoordinate.eqb (fst e) c) eqn:E; cbn [negb]; [exact IH|].
  cbn [List.find]. rewrite E. exact IH.
Qed.

Lemma find_erase_other c c' L :
  c' <> c ->
  TerrainTileManager.find c' (TerrainTileManager.erase c L) = TerrainTileManager.find c' L.
Proof.
  intros N. unfold TerrainTileManager.find, TerrainTileManager.erase.
  induction L as [|e L IH]; [reflexivity|]. cbn [filter List.find].
  destruct (TileCoordinate.eqb (fst e) c) eqn:E; cbn [negb].
  - apply TileCoordinate_eqb_eq in E.
    assert (E' : TileCoordinate.eqb (fst e) c' = false)
      by (apply TileCoordinate_eqb_neq; congruence).
    rewrite E'. exact IH.
  - cbn [List.find]. destruct (TileCoordinate.eqb (fst e) c'); [reflexivity|exact IH].
Qed.

End ManagerLookup.

(** Creating a tile while the manager has room.  [createTile] returns the
    tile that [getTile] then finds under the coordinate, and leaves every
    other coordinate as it was; for a new coordinate the tile is a fresh
    one and the map grows by one, for a known coordinate the manager is
    unchanged and the tile is the one it held. *)
Theorem createTile_then_getTile :
  forall (fl : FloatOps) (m : TerrainTileManager.t fl) (c : TileCoordinate.t),
    TerrainTileManager.size m < TerrainTileManager.m_maxTiles m ->
    let r := TerrainTileManager.createTile c m in
    TerrainTileManager.getTile c (fst r) = Some (snd r) /\
    (forall c', c' <> c ->
                TerrainTileManager.getTile c' (fst r) = TerrainTileManager.getTile c' m) /\
    (TerrainTileManager.getTile c m = None ->
     snd r = TerrainTile.create c /\
     TerrainTileManager.size (fst r) = TerrainTileManager.size m + 1) /\
    (forall tile, TerrainTileManager.getTile c m = Some tile -> r = (m, tile)).
Proof.
  intros fl m c Hroom r. subst r.
  unfold TerrainTileManager.createTile, TerrainTileManager.getTile.
  destruct (TerrainTileManager.find c (TerrainTileManager.m_tiles m)) as [tile|] eqn:F.
  - cbn [fst snd]. split; [exact F|]. split; [reflexivity|]. split; [discriminate|].
    intros t E. congruence.
  - assert (E : TerrainTileManager.enforceLimits
                  (TerrainTileManager.with_tiles
                     ((c, TerrainTile.create c) :: TerrainTileManager.m_tiles m) m)
                = TerrainTileManager.with_tiles
                    ((c, TerrainTile.create c) :: TerrainTileManager.m_tiles m) m).
    { unfold TerrainTileManager.enforceLimits, TerrainTileManager.size in *.
      cbn [TerrainTileManager.with_tiles TerrainTileManager.m_tiles
           TerrainTileManager.m_maxTiles List.length].
      replace (_ <=? _) with true; [reflexivity|].
      symmetry. apply Z.leb_le. lia. }
    cbv zeta. rewrite E. cbn [fst snd TerrainTileManager.with_tiles
                              TerrainTileManager.m_tiles].
    split; [|split; [|split; [|discriminate]]].
    + unfold TerrainTileManager.find. cbn [List.find fst].
      rewrite TileCoordinate_eqb_refl. reflexivity.
    + intros c' N. unfold TerrainTileManager.find. cbn [List.find fst].
      replace (TileCoordinate.eqb c c') with false; [reflexivity|].
      symmetry. apply TileCoordinate_eqb_neq. congruence.
    + intros _. split; [reflexivity|]. unfold TerrainTileManager.size.
      cbn [TerrainTileManager.m_tiles TerrainTileManager.with_tiles List.length]. lia.
Qed.

Lemma createTile_then_getTile_witness :
  TerrainTileManager.getTile sample_coord
    (fst (TerrainTileManager.createTile sample_coord
            (TerrainTileManager.init (fl := binary32))))
  = Some (snd (TerrainTileManager.createTile sample_coord
                 (TerrainTileManager.init (fl := binary32)))).
Proof.
  apply (createTile_then_getTile binary32 TerrainTileManager.init sample_coord).
  reflexivity.
Defined.

(** Removing a tile.  After [removeTile] the coordinate is no longer found,
    every other coordinate is found as before, the map has not grown, and
    removing a coordinate that is not in the map changes nothing. *)
Theorem removeTile_then_getTile :
  forall (fl : FloatOps) (m : TerrainTileManager.t fl) (c : TileCoordinate.t),
    TerrainTileManager.getTile c (TerrainTileManager.removeTile c m) = None /\
    (forall c', c' <> c ->
                TerrainTileManager.getTile c' (TerrainTileManager.removeTile c m)
                = TerrainTileManager.getTile c' m) /\
    TerrainTileManager.size (TerrainTileManager.removeTile c m)
    <= TerrainTileManager.size m /\
    (TerrainTileManager.getTile c m <> None ->
     TerrainTileManager.size (TerrainTileManager.removeTile c m)
     < TerrainTileManager.size m).
Proof.
  intros fl m c. unfold TerrainTileManager.removeTile, TerrainTileManager.getTile.
  destruct (TerrainTileManager.find c (TerrainTileManager.m_tiles m)) as [tile|] eqn:F;
    cbn [TerrainTileManager.with_tiles TerrainTileManager.m_tiles].
  - split; [apply find_erase_same|]. split; [intros c' N; apply find_erase_other, N|].
    unfold TerrainTileManager.size, TerrainTileManager.erase.
    cbn [TerrainTileManager.with_tiles TerrainTileManager.m_tiles].
    assert (S : (List.length
                   (filter (fun e => negb (TileCoordinate.eqb (fst e) c))
                           (TerrainTileManager.m_tiles m))
                 < List.length (TerrainTileManager.m_tiles m))%nat).
    { unfold TerrainTileManager.find in F.
      destruct (List.find _ _) as [e|] eqn:Fe; [|discriminate].
      apply find_some in Fe. destruct Fe as [Hin He].
      induction (TerrainTileManager.m_tiles m) as [|e' L IH]; [contradiction|].
      cbn [filter List.length]. destruct Hin as [->|Hin].
      - rewrite He. cbn [negb]. apply Nat.lt_succ_r.
        exact (filter_length_le (fun e => negb (TileCoordinate.eqb (fst e) c)) L).
      - specialize (IH Hin).
        destruct (negb (TileCoordinate.eqb (fst e') c)); cbn [List.length].
        + apply (proj1 (Nat.succ_lt_mono _ _)). exact IH.
        + apply Nat.lt_lt_succ_r. exact IH. }
    apply Nat2Z.inj_lt in S. split; [apply Z.lt_le_incl; exact S|]. intros _. exact S.
  - split; [exact F|]. split; [reflexivity|]. split; [lia|]. intros N. contradiction.
Qed.

Lemma removeTile_then_getTile_witness :
  TerrainTileManager.size
    (TerrainTileManager.removeTile sample_coord sample_evicted_manager)
  < TerrainTileManager.size sample_evicted_manager.
Proof.
  apply (proj2 (proj2 (proj2 (removeTile_then_getTile binary32 sample_evicted_manager
                                sample_coord)))).
  discriminate.
Defined.

(** *** Sorting with a comparator *)

Section SortGeneric.
Context {A : Type} (comp : A -> A -> bool) (R : A -> A -> Prop).
Hypothesis R_trans : forall a b c, R a b -> R b c -> R a c.
Hypothesis comp_true : forall a b, comp a b = true -> R a b.
Hypothesis comp_false : forall a b, comp a b = false -> R b a.

Lemma sort_insert_sorted_by (a : A) (l : list A) :
  StronglySorted R l -> StronglySorted R (sort_insert comp a l).
Proof.
  induction 1 as [|b l Hl IH Hb]; cbn [sort_insert].
  - constructor; constructor.
  - destruct (comp b a) eqn:E.
    + constructor; [exact IH|].
      apply (Permutation_Forall (sort_insert_perm comp a l)).
      constructor; [apply comp_true, E|exact Hb].
    + constructor; [constructor; assumption|].
      constructor; [apply comp_false, E|].
      eapply Forall_impl; [|exact Hb]. intros x Hx.
      eapply R_trans; [apply comp_false, E|exact Hx].
Qed.

Lemma std_sort_sorted_by (l : list A) : StronglySorted R (std_sort comp l).
Proof.
  induction l as [|a l IH]; cbn [std_sort]; [constructor|].
  apply sort_insert_sorted_by. exact IH.
Qed.

End SortGeneric.

Lemma firstn_In {A} (n : nat) (l : list A) (x : A) : In x (firstn n l) -> In x l.
Proof.
  intros H. rewrite <- (firstn_skipn n l). apply in_or_app. left. exact H.
Qed.

Lemma StronglySorted_firstn {A} (R : A -> A -> Prop) (n : nat) (l : list A) :
  StronglySorted R l -> StronglySorted R (firstn n l).
Proof.
  revert n. induction l as [|a l IH]; intros [|n] S; cbn [firstn]; try constructor.
  - apply IH. inversion S; assumption.
  - inversion S as [|? ? _ F]; subst. rewrite Forall_forall in *.
    intros x Hx. apply F. apply (firstn_In n l x Hx).
Qed.

Lemma NoDup_firstn' {A} (n : nat) (l : list A) : NoDup l -> NoDup (firstn n l).
Proof.
  intros N. rewrite <- (firstn_skipn n l) in N. apply NoDup_app_remove_r in N. exact N.
Qed.

(** The loading queue.  [getHighPriorityLoadingQueue] returns at most
    [maxCount] coordinates, each the key of a tile that is [Empty] or
    [Evicted], and none twice when the keys of the map are distinct. *)
Theorem loading_queue_members :
  forall (fl : FloatOps) (m : TerrainTileManager.t fl) (maxCount : Z),
    0 <= maxCount ->
    let queue := TerrainTileManager.getHighPriorityLoadingQueue maxCount m in
    Z.of_nat (List.length queue) <= maxCount /\
    (forall c, In c queue ->
               exists tile, In (c, tile) (TerrainTileManager.m_tiles m) /\
                            (TerrainTile.m_state tile = Empty \/
                             TerrainTile.m_state tile = Evicted)) /\
    (NoDup (map fst (TerrainTileManager.m_tiles m)) -> NoDup queue).
Proof.
  intros fl m maxCount Hmax queue. subst queue.
  unfold TerrainTileManager.getHighPriorityLoadingQueue. cbv zeta.
  match goal with |- context [filter ?f ?l] => set (cands := filter f l) end.
  match goal with |- context [map ?f cands] => set (plist := map f cands) end.
  match goal with |- context [std_sort ?f plist] => set (sorted := std_sort f plist) end.
  assert (P : Permutation (map fst sorted) (map fst cands)).
  { eapply perm_trans; [apply Permutation_map; symmetry; apply std_sort_perm|].
    unfold plist. rewrite map_map. cbn [fst]. apply Permutation_refl. }
  split; [|split].
  - rewrite length_map, length_firstn. lia.
  - intros c Hc. rewrite <- firstn_map in Hc. apply firstn_In in Hc.
    apply (Permutation_in _ P) in Hc. apply in_map_iff in Hc.
    destruct Hc as ([c' tile] & <- & Hin). unfold cands in Hin.
    apply filter_In in Hin. destruct Hin as [Hin Hst]. exists tile.
    split; [exact Hin|]. cbn [snd] in Hst. unfold TerrainTile.getState in Hst.
    apply orb_true_iff in Hst. destruct Hst as [H|H]; apply TileState_eqb_eq in H; auto.
  - intros N. rewrite <- firstn_map. apply NoDup_firstn'.
    apply (Permutation_NoDup (Permutation_sym P)). unfold cands.
    apply NoDup_map_filter. exact N.
Qed.

Lemma loading_queue_members_witness :
  Z.of_nat (List.length
              (TerrainTileManager.getHighPriorityLoadingQueue 4 sample_evicted_manager))
  <= 4.
Proof.
  apply (loading_queue_members binary32 sample_evicted_manager 4). lia.
Defined.

(** In exact arithmetic the queue is in the order of the priorities, highest
    first. *)
Theorem loading_queue_sorted :
  forall (sqrtQ : Q -> Q) (m : TerrainTileManager.t (exactQ sqrtQ)) (maxCount : Z),
    let priorityList :=
      map (fun e => (fst e, TerrainTile.getPriority (snd e)))
          (filter (fun e => TileState_eqb (TerrainTile.getState (snd e)) Empty
                            || TileState_eqb (TerrainTile.getState (snd e)) Evicted)
                  (TerrainTileManager.m_tiles m)) in
    exists sorted : list (TileCoordinate.t * Q),
      Permutation sorted priorityList /\
      StronglySorted (fun a b => (snd b <= snd a)%Q) sorted /\
      TerrainTileManager.getHighPriorityLoadingQueue maxCount m
      = map fst (firstn (Z.to_nat (Z.min maxCount (Z.of_nat (List.length sorted)))) sorted).
Proof.
  intros sqrtQ m maxCount priorityList.
  exists (std_sort (fun a b => flt (exactQ sqrtQ) (snd b) (snd a)) priorityList).
  split; [symmetry; apply std_sort_perm|]. split; [|reflexivity].
  apply std_sort_sorted_by.
  - intros a b c H1 H2. eapply Qle_trans; eassumption.
  - intros a b H. apply flt_exactQ_true in H. apply Qlt_le_weak. exact H.
  - intros a b H. apply flt_exactQ_false in H. exact H.
Qed.

(** *** [performMemoryCleanup] *)

Section MemoryCleanup.
Context {fl : FloatOps}.
Implicit Types m : TerrainTileManager.t fl.

(** An entry after a cleanup: the entry before it, or that entry with its
    tile evicted. *)
Let kept_or_evicted (before after : TerrainTileManager.Entry fl) : Prop :=
  fst after = fst before /\
  (snd after = snd before \/ snd after = TerrainTile.evictFromMemory (snd before)).

Lemma evictFromMemory_idempotent (tile : TerrainTile.t fl) :
  TerrainTile.evictFromMemory (TerrainTile.evictFromMemory tile)
  = TerrainTile.evictFromMemory tile.
Proof. destruct tile as [co st bo cp gp pr fr ld em]. destruct st; reflexivity. Qed.

Lemma callTile_evict_entries c m L0 :
  Forall2 kept_or_evicted L0 (TerrainTileManager.m_tiles m) ->
  Forall2 kept_or_evicted L0
    (TerrainTileManager.m_tiles
       (TerrainTileManager.callTile c TerrainTile.CallEvictFromMemory m)).
Proof.
  unfold TerrainTileManager.callTile.
  cbn [TerrainTileManager.m_tiles TerrainTileManager.with_tiles].
  induction 1 as [|e0 e L0 L He HL IH]; cbn [map]; constructor; [|exact IH].
  destruct He as [Hk Ht].
  destruct (TileCoordinate.eqb (fst e) c); [|split; assumption].
  split; [exact Hk|]. cbn [snd TerrainTile.call]. right.
  destruct Ht as [-> | ->]; [reflexivity|apply evictFromMemory_idempotent].
Qed.

Lemma cleanup_fold_entries (lru : list (TerrainTile.t fl)) : forall m L0,
  Forall2 kept_or_evicted L0 (TerrainTileManager.m_tiles m) ->
  Forall2 kept_or_evicted L0
    (TerrainTileManager.m_tiles
       (fold_left (fun m tile =>
                     TerrainTileManager.callTile (TerrainTile.getCoordinate tile)
                       TerrainTile.CallEvictFromMemory m) lru m)).
Proof.
  induction lru as [|t lru IH]; intros m L0 H; [exact H|].
  cbn [fold_left]. apply IH. apply callTile_evict_entries. exact H.
Qed.

Lemma cleanup_fold_limits (lru : list (TerrainTile.t fl)) : forall m,
  TerrainTileManager.m_maxTiles
    (fold_left (fun m tile =>
                  TerrainTileManager.callTile (TerrainTile.getCoordinate tile)
                    TerrainTile.CallEvictFromMemory m) lru m)
  = TerrainTileManager.m_maxTiles m.
Proof.
  induction lru as [|t lru IH]; intros m; [reflexivity|].
  cbn [fold_left]. rewrite IH. reflexivity.
Qed.

Lemma Forall2_kept_refl (L : list (TerrainTileManager.Entry fl)) :
  Forall2 kept_or_evicted L L.
Proof.
  induction L as [|e L IH]; constructor; [|exact IH]. split; [reflexivity|left; reflexivity].
Qed.

Lemma getTotalMemoryUsage_range m :
  0 <= TerrainTileManager.getTotalMemoryUsage m < 2 ^ 64.
Proof.
  unfold TerrainTileManager.getTotalMemoryUsage.
  assert (G : forall L acc, 0 <= acc < 2 ^ 64 ->
              0 <= fold_left
                     (fun total (e : TerrainTileManager.Entry fl) =>
                        wrap64 (total + TerrainTile.getMemoryUsage (snd e))) L acc
              < 2 ^ 64).
  { induction L as [|e L IH]; intros acc Hacc; [exact Hacc|].
    cbn [fold_left]. apply IH. unfold wrap64. apply Z.mod_pos_bound. lia. }
  apply G. lia.
Qed.

Lemma performMemoryCleanup_entries (targetMemoryUsage : Z) m :
  TerrainTileManager.m_maxTiles (TerrainTileManager.performMemoryCleanup targetMemoryUsage m)
  = TerrainTileManager.m_maxTiles m /\
  Forall2 kept_or_evicted (TerrainTileManager.m_tiles m)
    (TerrainTileManager.m_tiles
       (TerrainTileManager.performMemoryCleanup targetMemoryUsage m)) /\
  (0 <= targetMemoryUsage ->
   TerrainTileManager.getTotalMemoryUsage m < targetMemoryUsage + 1024 * 1024 ->
   TerrainTileManager.performMemoryCleanup targetMemoryUsage m = m).
Proof.
  unfold TerrainTileManager.performMemoryCleanup. cbv zeta.
  destruct (Z.leb_spec (TerrainTileManager.getTotalMemoryUsage m) targetMemoryUsage)
    as [Hle|Hgt].
  - split; [reflexivity|]. split; [apply Forall2_kept_refl|reflexivity].
  - split; [apply cleanup_fold_limits|].
    split; [apply cleanup_fold_entries, Forall2_kept_refl|].
    intros Ht Hsmall. pose proof (getTotalMemoryUsage_range m) as Hr.
    assert (E : wrap64 (TerrainTileManager.getTotalMemoryUsage m - targetMemoryUsage)
                / (1024 * 1024) = 0).
    { unfold wrap64. rewrite Z.mod_small by lia. apply Z.div_small. lia. }
    rewrite E. unfold TerrainTileManager.getLRUTiles. cbv zeta.
    rewrite Z.min_l by lia. reflexivity.
Qed.

End MemoryCleanup.

(** [performMemoryCleanup] removes no tile from the map and adds none: entry
    by entry, the coordinate is the same and the tile is as before or has
    been evicted; the limits are unchanged.  And it does nothing at all
    unless the usage exceeds the target by at least 1 MiB: the number of
    tiles to evict is the excess divided by 1 MiB, rounded down. *)
Theorem performMemoryCleanup_keeps_the_map :
  forall (fl : FloatOps) (m : TerrainTileManager.t fl) (targetMemoryUsage : Z),
    let m' := TerrainTileManager.performMemoryCleanup targetMemoryUsage m in
    map fst (TerrainTileManager.m_tiles m') = map fst (TerrainTileManager.m_tiles m) /\
    TerrainTileManager.m_maxTiles m' = TerrainTileManager.m_maxTiles m /\
    (forall c tile', In (c, tile') (TerrainTileManager.m_tiles m') ->
       exists tile, In (c, tile) (TerrainTileManager.m_tiles m) /\
                    (tile' = tile \/ tile' = TerrainTile.evictFromMemory tile)) /\
    (0 <= targetMemoryUsage ->
     TerrainTileManager.getTotalMemoryUsage m < targetMemoryUsage + 1024 * 1024 ->
     m' = m).
Proof.
  intros fl m target m'. subst m'.
  destruct (performMemoryCleanup_entries target m) as (Hl & He & Hs).
  set (L := TerrainTileManager.m_tiles m) in *.
  set (L' := TerrainTileManager.m_tiles _) in *.
  split; [|split; [exact Hl|split; [|exact Hs]]].
  - clear Hs Hl. induction He as [|e e' K K' [Hk _] _ IH]; [reflexivity|].
    cbn [map]. rewrite Hk, IH. reflexivity.
  - clear Hs Hl. induction He as [|e e' K K' [Hk Ht] _ IH]; intros c tile' Hin;
      [contradiction|].
    destruct Hin as [->|Hin].
    + exists (snd e). cbn [fst snd] in Hk, Ht. subst c.
      split; [left; apply surjective_pairing|exact Ht].
    + destruct (IH c tile' Hin) as (tile & Hin' & Ht'). exists tile.
      split; [right; exact Hin'|exact Ht'].
Qed.

Lemma performMemoryCleanup_keeps_the_map_witness :
  TerrainTileManager.performMemoryCleanup 1000000 sample_loaded_manager
  = sample_loaded_manager.
Proof.
  apply (performMemoryCleanup_keeps_the_map binary32 sample_loaded_manager 1000000).
  - lia.
  - cut (TerrainTileManager.getTotalMemoryUsage sample_loaded_manager = 1048576);
      [intros ->; lia|].
    unfold sample_loaded_manager.
    assert (E : TerrainTileManager.run
                  [ TerrainTileManager.OpCreateTile sample_coord;
                    TerrainTileManager.OpCallTile sample_coord
                      (TerrainTile.CallLoadData sample_synth "terrain.tif");
                    TerrainTileManager.OpCreateTile sample_coord_b ]
                  (manager_with_limits 10 1000000)
                = TerrainTileManager.mk
                    [ (sample_coord_b, TerrainTile.create sample_coord_b);
                      (sample_coord,
                       snd (TerrainTile.loadData sample_synth "terrain.tif"
                              (TerrainTile.create sample_coord))) ] 10 1000000)
      by reflexivity.
    rewrite E. unfold TerrainTileManager.getTotalMemoryUsage.
    cbn [TerrainTileManager.m_tiles fold_left snd].
    rewrite (loadData_memory sample_synth "terrain.tif" (TerrainTile.create sample_coord))
      by reflexivity.
    reflexivity.
Defined.

(** *** [getStats] *)

Section ManagerStats.
Context {fl : FloatOps}.
Implicit Types L : list (TerrainTileManager.Entry fl).

Let isReady (s : TileState) : bool := TileState_eqb s Ready.
Let isLoading (s : TileState) : bool := TileState_eqb s Loading || TileState_eqb s Uploading.
Let isError (s : TileState) : bool := TileState_eqb s Error.
Let count (p : TileState -> bool) L : Z :=
  Z.of_nat (List.length (filter (fun e => p (TerrainTile.getState (snd e))) L)).

Let stats_step (stats : TerrainTileManager.TileStats)
    (e : TerrainTileManager.Entry fl) : TerrainTileManager.TileStats :=
  let tile := snd e in
  let stats :=
    match TerrainTile.getState tile with
    | Ready =>
        TerrainTileManager.mkTileStats (TerrainTileManager.totalTiles stats)
          (wrap32 (TerrainTileManager.readyTiles stats + 1))
          (TerrainTileManager.loadingTiles stats) (TerrainTileManager.errorTiles stats)
          (TerrainTileManager.memoryUsage stats) (TerrainTileManager.gpuMemoryUsage stats)
    | Loading | Uploading =>
        TerrainTileManager.mkTileStats (TerrainTileManager.totalTiles stats)
          (TerrainTileManager.readyTiles stats)
          (wrap32 (TerrainTileManager.loadingTiles stats + 1))
          (TerrainTileManager.errorTiles stats)
          (TerrainTileManager.memoryUsage stats) (TerrainTileManager.gpuMemoryUsage stats)
    | Error =>
        TerrainTileManager.mkTileStats (TerrainTileManager.totalTiles stats)
          (TerrainTileManager.readyTiles stats) (TerrainTileManager.loadingTiles stats)
          (wrap32 (TerrainTileManager.errorTiles stats + 1))
          (TerrainTileManager.memoryUsage stats) (TerrainTileManager.gpuMemoryUsage stats)
    | _ => stats
    end in
  TerrainTileManager.mkTileStats (TerrainTileManager.totalTiles stats)
    (TerrainTileManager.readyTiles stats) (TerrainTileManager.loadingTiles stats)
    (TerrainTileManager.errorTiles stats)
    (wrap64 (TerrainTileManager.memoryUsage stats + TerrainTile.getMemoryUsage tile))
    (wrap64 (TerrainTileManager.gpuMemoryUsage stats + TerrainTile.getGPUMemoryUsage tile)).

Lemma stats_fold L : forall s0,
  let s := fold_left stats_step L s0 in
  TerrainTileManager.totalTiles s = TerrainTileManager.totalTiles s0 /\
  wrap32 (TerrainTileManager.readyTiles s)
  = wrap32 (TerrainTileManager.readyTiles s0 + count isReady L) /\
  wrap32 (TerrainTileManager.loadingTiles s)
  = wrap32 (TerrainTileManager.loadingTiles s0 + count isLoading L) /\
  wrap32 (TerrainTileManager.errorTiles s)
  = wrap32 (TerrainTileManager.errorTiles s0 + count isError L) /\
  TerrainTileManager.memoryUsage s
  = fold_left (fun total e => wrap64 (total + TerrainTile.getMemoryUsage (snd e)))
              L (TerrainTileManager.memoryUsage s0) /\
  TerrainTileManager.gpuMemoryUsage s
  = fold_left (fun total e => wrap64 (total + TerrainTile.getGPUMemoryUsage (snd e)))
              L (TerrainTileManager.gpuMemoryUsage s0).
Proof.
  induction L as [|e L IH]; intros s0 s.
  - subst s. unfold count. cbn [fold_left filter List.length Z.of_nat].
    rewrite !Z.add_0_r. repeat split.
  - subst s. cbn [fold_left]. destruct (IH (stats_step s0 e)) as (T & R & G & E & M & U).
    rewrite T, R, G, E, M, U. clear IH T R G E M U.
    unfold count. cbn [filter]. unfold isReady, isLoading, isError, stats_step.
    destruct (TerrainTile.getState (snd e));
      cbn [TileState_eqb orb List.length
           TerrainTileManager.totalTiles TerrainTileManager.readyTiles
           TerrainTileManager.loadingTiles TerrainTileManager.errorTiles
           TerrainTileManager.memoryUsage TerrainTileManager.gpuMemoryUsage];
      rewrite ?Nat2Z.inj_succ, ?wrap32_add_l;
      repeat split; f_equal; lia.
Qed.

Lemma getStats_fold (m : TerrainTileManager.t fl) :
  let s := TerrainTileManager.getStats m in
  TerrainTileManager.totalTiles s = wrap32 (TerrainTileManager.size m) /\
  wrap32 (TerrainTileManager.readyTiles s)
  = wrap32 (count_state (fun s => TileState_eqb s Ready) m) /\
  wrap32 (TerrainTileManager.loadingTiles s)
  = wrap32 (count_state
              (fun s => TileState_eqb s Loading || TileState_eqb s Uploading) m) /\
  wrap32 (TerrainTileManager.errorTiles s)
  = wrap32 (count_state (fun s => TileState_eqb s Error) m) /\
  TerrainTileManager.memoryUsage s = TerrainTileManager.getTotalMemoryUsage m /\
  TerrainTileManager.gpuMemoryUsage s = TerrainTileManager.getTotalGPUMemoryUsage m.
Proof.
  exact (stats_fold (TerrainTileManager.m_tiles m)
           (TerrainTileManager.mkTileStats (wrap32 (TerrainTileManager.size m))
              0 0 0 0 0)).
Qed.

Lemma getStats_counters_range (m : TerrainTileManager.t fl) :
  let s := TerrainTileManager.getStats m in
  0 <= TerrainTileManager.readyTiles s < 2 ^ 32 /\
  0 <= TerrainTileManager.loadingTiles s < 2 ^ 32 /\
  0 <= TerrainTileManager.errorTiles s < 2 ^ 32.
Proof.
  unfold TerrainTileManager.getStats.
  change (fold_left _ (TerrainTileManager.m_tiles m) ?s0)
    with (fold_left stats_step (TerrainTileManager.m_tiles m) s0).
  assert (G : forall L s0,
             (0 <= TerrainTileManager.readyTiles s0 < 2 ^ 32 /\
              0 <= TerrainTileManager.loadingTiles s0 < 2 ^ 32 /\
              0 <= TerrainTileManager.errorTiles s0 < 2 ^ 32) ->
             0 <= TerrainTileManager.readyTiles (fold_left stats_step L s0) < 2 ^ 32 /\
             0 <= TerrainTileManager.loadingTiles (fold_left stats_step L s0) < 2 ^ 32 /\
             0 <= TerrainTileManager.errorTiles (fold_left stats_step L s0) < 2 ^ 32).
  { induction L as [|e L IH]; intros s0 H0; [exact H0|].
    cbn [fold_left]. apply IH. unfold stats_step.
    pose proof (Z.mod_pos_bound (TerrainTileManager.readyTiles s0 + 1) (2 ^ 32)
                  ltac:(lia)).
    pose proof (Z.mod_pos_bound (TerrainTileManager.loadingTiles s0 + 1) (2 ^ 32)
                  ltac:(lia)).
    pose proof (Z.mod_pos_bound (TerrainTileManager.errorTiles s0 + 1) (2 ^ 32)
                  ltac:(lia)).
    destruct (TerrainTile.getState (snd e));
      cbn [TerrainTileManager.readyTiles TerrainTileManager.loadingTiles
           TerrainTileManager.errorTiles]; unfold wrap32; tauto. }
  apply G. cbn. lia.
Qed.

End ManagerStats.

(** [getStats] agrees with the other queries of the manager: the usages are
    [getTotalMemoryUsage] and [getTotalGPUMemoryUsage], the counters are the
    numbers of tiles that are [Ready], [Loading] or [Uploading], and in
    [Error] (for a map of fewer than 2^32 tiles), and together they never
    exceed the total. *)
Theorem getStats_consistent :
  forall (fl : FloatOps) (m : TerrainTileManager.t fl),
    let stats := TerrainTileManager.getStats m in
    TerrainTileManager.memoryUsage stats = TerrainTileManager.getTotalMemoryUsage m /\
    TerrainTileManager.gpuMemoryUsage stats = TerrainTileManager.getTotalGPUMemoryUsage m /\
    (TerrainTileManager.size m < 2 ^ 32 ->
     TerrainTileManager.totalTiles stats = TerrainTileManager.size m /\
     TerrainTileManager.readyTiles stats = count_state (fun s => TileState_eqb s Ready) m /\
     TerrainTileManager.loadingTiles stats
     = count_state (fun s => TileState_eqb s Loading || TileState_eqb s Uploading) m /\
     TerrainTileManager.errorTiles stats = count_state (fun s => TileState_eqb s Error) m /\
     TerrainTileManager.readyTiles stats + TerrainTileManager.loadingTiles stats
     + TerrainTileManager.errorTiles stats <= TerrainTileManager.totalTiles stats).
Proof.
  intros fl m stats.
  destruct (getStats_fold m) as (T & R & G & E & M & U).
  destruct (getStats_counters_range m) as (Rr & Gr & Er).
  fold stats in T, R, G, E, M, U, Rr, Gr, Er.
  split; [exact M|]. split; [exact U|]. intros Hsz.
  assert (Hs : 0 <= TerrainTileManager.size m)
    by (unfold TerrainTileManager.size; lia).
  assert (C : forall p q r : TileState -> bool,
             (forall s, (if p s then 1 else 0) + (if q s then 1 else 0)
                        + (if r s then 1 else 0) <= 1) ->
             0 <= count_state p m /\ 0 <= count_state q m /\ 0 <= count_state r m /\
             count_state p m + count_state q m + count_state r m
             <= TerrainTileManager.size m).
  { intros p q r Hpqr. unfold count_state, TerrainTileManager.size.
    induction (TerrainTileManager.m_tiles m) as [|e L IH];
      cbn [filter List.length]; [lia|].
    specialize (Hpqr (TerrainTile.getState (snd e))).
    destruct (p (TerrainTile.getState (snd e))),
             (q (TerrainTile.getState (snd e))),
             (r (TerrainTile.getState (snd e)));
      cbn [List.length]; rewrite ?Nat2Z.inj_succ; lia. }
  destruct (C (fun s => TileState_eqb s Ready)
              (fun s => TileState_eqb s Loading || TileState_eqb s Uploading)
              (fun s => TileState_eqb s Error)) as (C1 & C2 & C3 & C4);
    [intros s; destruct s; cbn; lia|].
  unfold wrap32 in T, R, G, E.
  rewrite Z.mod_small in T by lia.
  rewrite (Z.mod_small (TerrainTileManager.readyTiles stats)) in R by lia.
  rewrite (Z.mod_small (TerrainTileManager.loadingTiles stats)) in G by lia.
  rewrite (Z.mod_small (TerrainTileManager.errorTiles stats)) in E by lia.
  rewrite Z.mod_small in R by lia. rewrite Z.mod_small in G by lia.
  rewrite Z.mod_small in E by lia.
  rewrite T, R, G, E. repeat split; try reflexivity. exact C4.
Qed.

Lemma getStats_consistent_witness :
  TerrainTileManager.totalTiles (TerrainTileManager.getStats sample_evicted_manager) = 1 /\
  TerrainTileManager.readyTiles (TerrainTileManager.getStats sample_evicted_manager) = 0.
Proof.
  destruct (proj2 (proj2 (getStats_consistent binary32 sample_evicted_manager)))
    as (T & R & _); [reflexivity|].
  split; [exact T|exact R].
Defined.

(** ** Memory utilities *)

(** [alignSize] rounds up to the alignment.  For an alignment that is a
    power of two and a size that leaves room below 2^64, the result is the
    least multiple of the alignment that is not below the size;
    [isAligned] accepts it, and aligning it again changes nothing. *)
Theorem alignSize_rounds_up :
  forall (k size : Z),
    0 <= k < 64 -> 0 <= size -> size + 2 ^ k <= 2 ^ 64 ->
    let a := TerrainMemoryUtils.alignSize size (2 ^ k) in
    size <= a < size + 2 ^ k /\
    a mod 2 ^ k = 0 /\
    (forall b, size <= b -> b mod 2 ^ k = 0 -> a <= b) /\
    TerrainMemoryUtils.isAligned a (2 ^ k) = true /\
    TerrainMemoryUtils.alignSize a (2 ^ k) = a.
Proof.
  intros k size Hk Hs Hb a.
  assert (P : 0 < 2 ^ k) by (apply Z.pow_pos_nonneg; lia).
  assert (P64 : 2 ^ k < 2 ^ 64) by (apply Z.pow_lt_mono_r; lia).
  assert (Ea : forall s, 0 <= s -> s + 2 ^ k <= 2 ^ 64 ->
               TerrainMemoryUtils.alignSize s (2 ^ k)
               = (s + 2 ^ k - 1) - (s + 2 ^ k - 1) mod 2 ^ k).
  { intros s Hs0 Hs1.
    unfold TerrainMemoryUtils.alignSize, TerrainMemoryUtils.lnot64, wrap64.
    rewrite (Z.mod_small (s + 2 ^ k - 1)) by lia.
    rewrite (Z.mod_small (2 ^ k - 1)) by lia.
    rewrite (Z.mod_small (2 ^ k - 1)) by lia.
    replace (2 ^ 64 - 1 - (2 ^ k - 1)) with (2 ^ 64 - 2 ^ k) by lia.
    apply land_mask; lia. }
  pose proof (Ea size Hs Hb) as E. fold a in E.
  pose proof (Z.mod_pos_bound (size + 2 ^ k - 1) (2 ^ k) P) as B.
  pose proof (Z.div_mod (size + 2 ^ k - 1) (2 ^ k) ltac:(lia)) as D.
  assert (M : a = 2 ^ k * ((size + 2 ^ k - 1) / 2 ^ k)) by lia.
  assert (A0 : a mod 2 ^ k = 0)
    by (rewrite M, Z.mul_comm; apply Z.mod_mul; lia).
  assert (R : size <= a < size + 2 ^ k) by lia.
  split; [exact R|]. split; [exact A0|]. split; [|split].
  - intros b Hb1 Hb2.
    pose proof (Z.div_mod b (2 ^ k) ltac:(lia)) as Db. rewrite Hb2 in Db.
    assert ((size + 2 ^ k - 1) / 2 ^ k <= b / 2 ^ k); [|nia].
    apply Z.div_le_lower_bound; [lia|].
    assert (size + 2 ^ k - 1 < 2 ^ k * (b / 2 ^ k + 1)) by nia.
    apply Z.div_lt_upper_bound in H; [|lia]. nia.
  - unfold TerrainMemoryUtils.isAligned, wrap64.
    rewrite (Z.mod_small (2 ^ k - 1)) by lia.
    replace (2 ^ k - 1) with (Z.ones k) by (rewrite Z.ones_equiv; lia).
    rewrite Z.land_ones by lia. rewrite A0. reflexivity.
  - assert (Ha : a + 2 ^ k <= 2 ^ 64).
    { pose proof (Z.div_mod (2 ^ 64) (2 ^ k) ltac:(lia)) as D64.
      assert (Z64 : 2 ^ 64 mod 2 ^ k = 0).
      { replace (2 ^ 64) with (2 ^ (64 - k) * 2 ^ k)
          by (rewrite <- Z.pow_add_r by lia; f_equal; lia).
        apply Z.mod_mul. lia. }
      assert ((size + 2 ^ k - 1) / 2 ^ k < 2 ^ 64 / 2 ^ k); [|nia].
      apply Z.div_lt_upper_bound; [lia|]. nia. }
    rewrite (Ea a ltac:(lia) Ha).
    replace (a + 2 ^ k - 1) with (2 ^ k - 1 + ((size + 2 ^ k - 1) / 2 ^ k) * 2 ^ k) by lia.
    rewrite Z.mod_add by lia. rewrite (Z.mod_small (2 ^ k - 1)) by lia. lia.
Qed.

Lemma alignSize_rounds_up_witness :
  1000 <= TerrainMemoryUtils.alignSize 1000
            (TerrainMemoryUtils.getOptimalAlignment StagingBuffer) < 1000 + 2 ^ 6.
Proof.
  apply (alignSize_rounds_up 6 1000); lia.
Defined.

(** The names of the memory types are distinct. *)
Theorem getTypeName_injective :
  forall a b : TerrainMemoryType,
    TerrainMemoryUtils.getTypeName a = TerrainMemoryUtils.getTypeName b -> a = b.
Proof. intros a b; destruct a, b; cbn; intros H; try reflexivity; discriminate H. Qed.

Lemma getTypeName_injective_witness :
  HeightTexture = HeightTexture.
Proof. apply getTypeName_injective. reflexivity. Defined.

(** *** [calculateOptimalPoolSize] *)

Section PoolSizeFold.

Let step : Z * Z -> Z -> Z * Z :=
  fun '(total, maxSize) size => (wrap64 (total + size), Z.max maxSize size).

Lemma poolSize_fold (B : Z) (sizes : list Z) : forall total maxSize n,
  Forall (fun s => 0 <= s < B) sizes ->
  0 <= maxSize < B -> 0 <= total <= n * maxSize -> 0 <= n ->
  (n + Z.of_nat (List.length sizes)) * B <= 2 ^ 64 ->
  let r := fold_left step sizes (total, maxSize) in
  maxSize <= snd r < B /\
  Forall (fun s => s <= snd r) sizes /\
  0 <= fst r <= (n + Z.of_nat (List.length sizes)) * snd r.
Proof.
  induction sizes as [|s sizes IH]; intros total maxSize n Hs Hm Ht Hn Hb r.
  - subst r. cbn [fold_left fst snd List.length Z.of_nat].
    split; [lia|]. split; [constructor|lia].
  - subst r. cbn [fold_left step]. inversion Hs as [|? ? Hs0 Hs']; subst.
    cbn [List.length] in Hb. rewrite Nat2Z.inj_succ in Hb.
    assert (W : wrap64 (total + s) = total + s).
    { unfold wrap64. apply Z.mod_small. nia. }
    rewrite W.
    destruct (IH (total + s) (Z.max maxSize s) (n + 1) Hs') as (M & F & T);
      [lia|nia|lia|lia|].
    cbn [List.length]. rewrite Nat2Z.inj_succ.
    split; [lia|]. split.
    + constructor; [lia|exact F].
    + replace (n + Z.succ (Z.of_nat (List.length sizes)))
        with (n + 1 + Z.of_nat (List.length sizes)) by lia.
      exact T.
Qed.

End PoolSizeFold.

(** The recommended pool size is 64 MiB for an empty history and always
    lies between 16 MiB and 1 GiB; and for a history of fewer than 2^20
    sizes below 2^40 it holds three times every size of the history, unless
    it is capped at 1 GiB. *)
Theorem calculateOptimalPoolSize_bounds :
  forall (type : TerrainMemoryType) (allocationSizes : list Z),
    let poolSize := TerrainMemoryUtils.calculateOptimalPoolSize type allocationSizes in
    (allocationSizes = [] -> poolSize = 64 * 1024 * 1024) /\
    16 * 1024 * 1024 <= poolSize <= 1024 * 1024 * 1024 /\
    (Forall (fun s => 0 <= s < 2 ^ 40) allocationSizes ->
     Z.of_nat (List.length allocationSizes) < 2 ^ 20 ->
     Forall (fun s => 3 * s <= poolSize \/ poolSize = 1024 * 1024 * 1024)
            allocationSizes).
Proof.
  intros type sizes poolSize. subst poolSize.
  unfold TerrainMemoryUtils.calculateOptimalPoolSize.
  destruct sizes as [|s0 sizes]; [split; [reflexivity|split; [lia|constructor]]|].
  set (l := s0 :: sizes).
  change (fold_left _ l (0, 0))
    with (fold_left (fun '(total, maxSize) size =>
                       (wrap64 (total + size), Z.max maxSize size)) l (0, 0)).
  split; [discriminate|]. split.
  - destruct (fold_left _ l (0, 0)) as [total maxSize]. cbv zeta. lia.
  - intros Hs Hn.
    destruct (poolSize_fold (2 ^ 40) l 0 0 0 Hs) as (M & F & T); [lia|lia|lia|nia|].
    destruct (fold_left _ l (0, 0)) as [total maxSize]. cbn [fst snd] in M, F, T.
    cbv zeta.
    assert (Hl : 0 < Z.of_nat (List.length l)) by (unfold l; cbn [List.length]; lia).
    assert (A : 0 <= total / Z.of_nat (List.length l) <= maxSize).
    { split; [apply Z.div_pos; lia|].
      apply Z.div_le_upper_bound; [lia|]. nia. }
    assert (W1 : wrap64 (total / Z.of_nat (List.length l) * 15)
                 = total / Z.of_nat (List.length l) * 15)
      by (unfold wrap64; apply Z.mod_small; lia).
    assert (W2 : wrap64 (maxSize * 3) = maxSize * 3)
      by (unfold wrap64; apply Z.mod_small; lia).
    rewrite W1, W2.
    assert (W3 : wrap64 (Z.max (total / Z.of_nat (List.length l) * 15) (maxSize * 3) * 2)
                 = Z.max (total / Z.of_nat (List.length l) * 15) (maxSize * 3) * 2)
      by (unfold wrap64; apply Z.mod_small; lia).
    eapply Forall_impl; [|exact F]. intros s Hle. cbv beta in Hle.
    destruct type; rewrite ?W3; lia.
Qed.

Lemma calculateOptimalPoolSize_bounds_witness :
  Forall (fun s => 3 * s <= TerrainMemoryUtils.calculateOptimalPoolSize VertexBuffer
                               [4194304; 16777216]
                   \/ TerrainMemoryUtils.calculateOptimalPoolSize VertexBuffer
                        [4194304; 16777216] = 1024 * 1024 * 1024)
         [4194304; 16777216].
Proof.
  apply (calculateOptimalPoolSize_bounds VertexBuffer [4194304; 16777216]).
  - repeat constructor; lia.
  - cbn. lia.
Defined.

(** ** Memory pools: what allocation and release do to the accounting *)

Lemma erase_first_app_fresh (o : Z) (l : list Z) :
  ~ In o l -> TerrainMemoryPool.erase_first o (l ++ [o]) = l.
Proof.
  induction l as [|x l IH]; intros N; cbn [app TerrainMemoryPool.erase_first].
  - rewrite Z.eqb_refl. reflexivity.
  - destruct (Z.eqb_spec x o) as [->|_]; [exfalso; apply N; left; reflexivity|].
    rewrite IH; [reflexivity|]. intros H. apply N. right. exact H.
Qed.

Lemma is_success_iff (r : VkResult) : is_success r = true <-> r = VK_SUCCESS.
Proof. destruct r; cbn; split; intros H; try reflexivity; discriminate H. Qed.

(** The outcome of an allocation and the accounting.  A buffer or image
    allocation that does not return [VK_SUCCESS] hands out no allocation and
    leaves the used size, the allocation count and the tracked references
    as they were; one that returns [VK_SUCCESS] hands out an allocation of
    the pool's type, counts it and tracks it. *)
Theorem allocation_outcome :
  forall (p : TerrainMemoryPool.t) (size : Z) (cp : VkResult * Handle)
         (cb : VkResult * Handle * Handle) (ci : VkResult * Handle * Handle * Z * Z)
         (o : Z),
    let accounted (r : VkResult * TerrainMemoryPool.t * option TerrainMemoryAllocation.t)
                  (bytes : Z) : Prop :=
      (fst (fst r) <> VK_SUCCESS ->
       snd r = None /\
       TerrainMemoryPool.m_usedSize (snd (fst r)) = TerrainMemoryPool.m_usedSize p /\
       TerrainMemoryPool.m_activeAllocations (snd (fst r))
       = TerrainMemoryPool.m_activeAllocations p /\
       TerrainMemoryPool.m_allocations (snd (fst r)) = TerrainMemoryPool.m_allocations p) /\
      (fst (fst r) = VK_SUCCESS ->
       exists a,
         snd r = Some a /\
         TerrainMemoryAllocation.object a = o /\
         TerrainMemoryAllocation.type a = TerrainMemoryPool.m_type p /\
         TerrainMemoryAllocation.size a = bytes /\
         TerrainMemoryPool.m_usedSize (snd (fst r))
         = wrap64 (TerrainMemoryPool.m_usedSize p + bytes) /\
         TerrainMemoryPool.m_activeAllocations (snd (fst r))
         = wrap32 (TerrainMemoryPool.m_activeAllocations p + 1) /\
         TerrainMemoryPool.m_allocations (snd (fst r))
         = TerrainMemoryPool.m_allocations p ++ [o]) in
    accounted (TerrainMemoryPool.allocateBuffer size cp cb o p) size /\
    accounted (TerrainMemoryPool.allocateImage cp ci o p) (snd (fst ci)).
Proof.
  intros p size [rp hp] [[rb bb] ab] [[[[ri ii] ai] si] li] o accounted.
  subst accounted. cbv beta.
  unfold TerrainMemoryPool.allocateBuffer, TerrainMemoryPool.allocateImage,
    TerrainMemoryPool.createPool.
  split.
  - destruct (is_null (TerrainMemoryPool.m_vmaPool p)).
    + destruct rp; cbn [is_success negb fst snd];
        try (split; [intros _; repeat split|intros H; discriminate H]).
      cbn [TerrainMemoryPool.m_config TerrainMemoryPool.m_type
           TerrainMemoryPool.m_usedSize TerrainMemoryPool.m_activeAllocations
           TerrainMemoryPool.m_allocations TerrainMemoryPool.m_vmaPool
           TerrainMemoryPool.m_totalSize].
      destruct (negb (TerrainMemoryPool.canAllocate _ _ _));
        [cbn [fst snd]; split; [intros _; repeat split|intros H; discriminate H]|].
      destruct rb; cbn [is_success negb fst snd];
        try (split; [intros _; repeat split|intros H; discriminate H]).
      split; [intros H; contradiction|]. intros _. eexists. repeat split.
    + cbn [is_success negb].
      destruct (negb (TerrainMemoryPool.canAllocate _ _ _));
        [cbn [fst snd]; split; [intros _; repeat split|intros H; discriminate H]|].
      destruct rb; cbn [is_success negb fst snd];
        try (split; [intros _; repeat split|intros H; discriminate H]).
      split; [intros H; contradiction|]. intros _. eexists. repeat split.
  - destruct (is_null (TerrainMemoryPool.m_vmaPool p)).
    + destruct rp; cbn [is_success negb fst snd];
        try (split; [intros _; repeat split|intros H; discriminate H]).
      destruct ri; cbn [is_success negb fst snd];
        try (split; [intros _; repeat split|intros H; discriminate H]).
      split; [intros H; contradiction|]. intros _. eexists. repeat split.
    + cbn [is_success negb].
      destruct ri; cbn [is_success negb fst snd];
        try (split; [intros _; repeat split|intros H; discriminate H]).
      split; [intros H; contradiction|]. intros _. eexists. repeat split.
Qed.

Lemma allocation_outcome_witness :
  snd (TerrainMemoryPool.allocateBuffer (256 * 1024 * 1024) (VK_SUCCESS, 1)
         (VK_SUCCESS, 4, 5) 1001 sample_pool) = None.
Proof.
  apply (proj1 (proj1 (allocation_outcome sample_pool (256 * 1024 * 1024)
                         (VK_SUCCESS, 1) (VK_SUCCESS, 4, 5)
                         (VK_SUCCESS, 6, 7, 0, 1) 1001))).
  vm_compute. discriminate.
Defined.

Lemma allocateBuffer_success_tracking size cp cb o p p' a :
  TerrainMemoryPool.allocateBuffer size cp cb o p = (VK_SUCCESS, p', Some a) ->
  TerrainMemoryPool.m_type p' = TerrainMemoryPool.m_type p /\
  TerrainMemoryPool.m_config p' = TerrainMemoryPool.m_config p /\
  TerrainMemoryAllocation.object a = o /\
  TerrainMemoryPool.m_allocations p' = TerrainMemoryPool.m_allocations p ++ [o].
Proof.
  unfold TerrainMemoryPool.allocateBuffer, TerrainMemoryPool.createPool.
  destruct cp as [r h], cb as [[rb hb] ha].
  destruct (is_null (TerrainMemoryPool.m_vmaPool p)).
  - destruct r; cbn [is_success negb]; try (intros H; discriminate H).
    destruct (negb (TerrainMemoryPool.canAllocate _ _ _)); [intros H; discriminate H|].
    destruct rb; cbn [is_success negb]; try (intros H; discriminate H).
    intros H. injection H as <- <-. repeat split.
  - cbn [is_success negb].
    destruct (negb (TerrainMemoryPool.canAllocate _ _ _)); [intros H; discriminate H|].
    destruct rb; cbn [is_success negb]; try (intros H; discriminate H).
    intros H. injection H as <- <-. repeat split.
Qed.

(** Allocating a buffer and releasing it again.  After a successful
    [allocateBuffer] of a new allocation object with handles that are not
    null, [deallocate] brings the used size, the allocation count and the
    tracked references back to what they were; the VMA pool and the total
    size stay as the allocation left them. *)
Theorem allocate_then_deallocate :
  forall (p p' : TerrainMemoryPool.t) (a : TerrainMemoryAllocation.t) (size : Z)
         (cp : VkResult * Handle) (cb : VkResult * Handle * Handle) (o : Z),
    TerrainMemoryPool.allocateBuffer size cp cb o p = (VK_SUCCESS, p', Some a) ->
    0 <= TerrainMemoryPool.m_usedSize p < 2 ^ 64 ->
    0 <= TerrainMemoryPool.m_activeAllocations p < 2 ^ 32 ->
    snd (fst cb) <> VK_NULL_HANDLE -> snd cb <> VK_NULL_HANDLE ->
    ~ In o (TerrainMemoryPool.m_allocations p) ->
    TerrainMemoryPool.deallocate (Some a) p'
    = TerrainMemoryPool.mk (TerrainMemoryPool.m_type p) (TerrainMemoryPool.m_config p)
        (TerrainMemoryPool.m_vmaPool p') (TerrainMemoryPool.m_totalSize p')
        (TerrainMemoryPool.m_usedSize p) (TerrainMemoryPool.m_activeAllocations p)
        (TerrainMemoryPool.m_allocations p).
Proof.
  intros p p' a size cp cb o H Hu Hc Hb Ha Ho.
  destruct (allocateBuffer_success _ _ _ _ _ _ _ H) as (U & C & S & B & A).
  destruct (allocateBuffer_success_tracking _ _ _ _ _ _ _ H) as (Ty & Cf & Eo & El).
  unfold TerrainMemoryPool.deallocate, TerrainMemoryAllocation.isValid.
  rewrite A, B. unfold is_null.
  replace (snd cb =? VK_NULL_HANDLE) with false by (symmetry; apply Z.eqb_neq; exact Ha).
  replace (snd (fst cb) =? VK_NULL_HANDLE) with false
    by (symmetry; apply Z.eqb_neq; exact Hb).
  cbn [negb andb orb]. rewrite Ty, Cf, U, C, S, Eo, El.
  rewrite erase_first_app_fresh by exact Ho.
  f_equal.
  - rewrite wrap64_add_l'. replace (_ + size - size) with (TerrainMemoryPool.m_usedSize p)
      by lia. unfold wrap64. apply Z.mod_small. exact Hu.
  - rewrite wrap32_add_l'.
    replace (_ + 1 - 1) with (TerrainMemoryPool.m_activeAllocations p) by lia.
    unfold wrap32. apply Z.mod_small. exact Hc.
Qed.

Lemma allocate_then_deallocate_witness :
  exists p' a,
    TerrainMemoryPool.allocateBuffer 100 (VK_SUCCESS, 1) (VK_SUCCESS, 2, 3) 1000 sample_pool
    = (VK_SUCCESS, p', Some a) /\
    TerrainMemoryPool.deallocate (Some a) p'
    = TerrainMemoryPool.mk (TerrainMemoryPool.m_type sample_pool)
        (TerrainMemoryPool.m_config sample_pool)
        (TerrainMemoryPool.m_vmaPool p') (TerrainMemoryPool.m_totalSize p')
        (TerrainMemoryPool.m_usedSize sample_pool)
        (TerrainMemoryPool.m_activeAllocations sample_pool)
        (TerrainMemoryPool.m_allocations sample_pool).
Proof.
  eexists _, _. split; [reflexivity|].
  apply (allocate_then_deallocate sample_pool _ _ 100 (VK_SUCCESS, 1)
           (VK_SUCCESS, 2, 3) 1000 eq_refl);
    cbn; try lia; try discriminate; try tauto.
Defined.

(** Image allocations are not checked against the capacity.  Where a buffer
    request of some size is rejected because it does not fit, an image
    whose reported size is the same is accepted, and the used size then
    exceeds the total size. *)
Theorem allocateImage_ignores_capacity :
  forall (p : TerrainMemoryPool.t) (k bytes : Z) (cp : VkResult * Handle)
         (cb : VkResult * Handle * Handle) (image allocation infoAlignment o : Z),
    TerrainMemoryPool.m_vmaPool p <> VK_NULL_HANDLE ->
    0 <= TerrainMemoryPool.m_usedSize p <= TerrainMemoryPool.m_totalSize p ->
    TerrainMemoryConfig.allocationAlignment (TerrainMemoryPool.m_config p) = 2 ^ k ->
    0 <= k < 64 -> 0 <= bytes ->
    TerrainMemoryPool.m_usedSize p + bytes + 2 ^ k <= 2 ^ 64 ->
    TerrainMemoryPool.m_totalSize p < TerrainMemoryPool.m_usedSize p + bytes ->
    fst (fst (TerrainMemoryPool.allocateBuffer bytes cp cb o p))
    = VK_ERROR_OUT_OF_DEVICE_MEMORY /\
    fst (fst (TerrainMemoryPool.allocateImage cp
                (VK_SUCCESS, image, allocation, bytes, infoAlignment) o p))
    = VK_SUCCESS /\
    TerrainMemoryPool.m_totalSize p
    < TerrainMemoryPool.m_usedSize
        (snd (fst (TerrainMemoryPool.allocateImage cp
                     (VK_SUCCESS, image, allocation, bytes, infoAlignment) o p))).
Proof.
  intros p k bytes cp cb image allocation infoAlignment o Hp Hu Hk Hk' Hb Hr Hfit.
  unfold TerrainMemoryPool.allocateBuffer, TerrainMemoryPool.allocateImage.
  unfold is_null. replace (TerrainMemoryPool.m_vmaPool p =? VK_NULL_HANDLE) with false
    by (symmetry; apply Z.eqb_neq; exact Hp).
  cbn [is_success negb fst snd TerrainMemoryPool.m_usedSize].
  assert (P : 0 < 2 ^ k) by (apply Z.pow_pos_nonneg; lia).
  split; [|split; [reflexivity|]].
  - assert (C : TerrainMemoryPool.canAllocate bytes
                  (TerrainMemoryConfig.allocationAlignment (TerrainMemoryPool.m_config p)) p
                = false).
    { unfold TerrainMemoryPool.canAllocate. rewrite Hk.
      pose proof (alignSize_bounds k bytes Hk' Hb ltac:(lia)) as A.
      unfold TerrainMemoryUtils.alignSize in A.
      apply Z.leb_gt. unfold wrap64 at 1. rewrite Z.mod_small; lia. }
    rewrite C. reflexivity.
  - unfold wrap64. rewrite Z.mod_small; lia.
Qed.

Lemma allocateImage_ignores_capacity_witness :
  TerrainMemoryPool.m_totalSize sample_pool_in_use
  < TerrainMemoryPool.m_usedSize
      (snd (fst (TerrainMemoryPool.allocateImage (VK_SUCCESS, 1)
                   (VK_SUCCESS, 8, 9, 200 * 1024 * 1024, 1024) 2000
                   sample_pool_in_use))).
Proof.
  apply (allocateImage_ignores_capacity sample_pool_in_use 8 (200 * 1024 * 1024)
           (VK_SUCCESS, 1) (VK_SUCCESS, 6, 7) 8 9 1024 2000);
    cbn; try lia; try discriminate; try reflexivity.
Defined.

(** ** The allocator's statistics *)

Section AllocatorStats.
Context {fl : FloatOps}.

Lemma wrapped_sum_range (f : TerrainMemoryPool.t -> Z) (k : Z) pools acc :
  0 < k -> 0 <= acc < 2 ^ k ->
  0 <= fold_left (fun acc p => (acc + f p) mod 2 ^ k) pools acc < 2 ^ k.
Proof.
  intros Hk. revert acc. induction pools as [|p pools IH]; intros acc Ha; cbn [fold_left].
  - exact Ha.
  - apply IH. apply Z.mod_pos_bound. apply Z.pow_pos_nonneg; lia.
Qed.

Lemma used_plus_free_step (a b c used total : Z) :
  wrap64 (a + b) = wrap64 c ->
  wrap64 (wrap64 (a + used) + wrap64 (b + wrap64 (total - used)))
  = wrap64 (wrap64 (c + total)).
Proof.
  unfold wrap64. intros H.
  rewrite Z.mod_mod by lia.
  rewrite <- Z.add_mod by lia.
  rewrite Z.add_assoc.
  rewrite Z.add_mod_idemp_r by lia.
  replace (a + used + b + (total - used)) with (a + b + total) by lia.
  rewrite <- Z.add_mod_idemp_l by lia. rewrite H.
  rewrite Z.add_mod_idemp_l by lia. reflexivity.
Qed.

Lemma used_plus_free (pools : list TerrainMemoryPool.t) (a b c : Z) :
  wrap64 (a + b) = wrap64 c ->
  wrap64 (fold_left (fun acc p => wrap64 (acc + TerrainMemoryPool.getUsedSize p)) pools a
          + fold_left (fun acc p => wrap64 (acc + TerrainMemoryPool.getFreeSize p)) pools b)
  = wrap64 (fold_left (fun acc p => wrap64 (acc + TerrainMemoryPool.getTotalSize p))
              pools c).
Proof.
  revert a b c. induction pools as [|p pools IH]; intros a b c H; cbn [fold_left].
  - exact H.
  - apply IH. unfold TerrainMemoryPool.getUsedSize, TerrainMemoryPool.getFreeSize,
      TerrainMemoryPool.getTotalSize.
    rewrite (used_plus_free_step a b c (TerrainMemoryPool.m_usedSize p)
               (TerrainMemoryPool.m_totalSize p) H).
    unfold wrap64. rewrite Z.mod_mod by lia. reflexivity.
Qed.

Lemma sum_over_cons (f : TerrainMemoryPool.t -> Z) p pools :
  sum_over f (p :: pools) = f p + sum_over f pools.
Proof. reflexivity. Qed.

Lemma sum_over_nonneg (f : TerrainMemoryPool.t -> Z) pools :
  Forall (fun p => 0 <= f p) pools -> 0 <= sum_over f pools.
Proof.
  induction 1 as [|p ps Hp _ IH]; [cbn; lia|]. rewrite sum_over_cons. lia.
Qed.

Lemma wrapped_sum_exact (f : TerrainMemoryPool.t -> Z) pools acc :
  Forall (fun p => 0 <= f p) pools -> 0 <= acc ->
  acc + sum_over f pools < 2 ^ 64 ->
  fold_left (fun acc p => wrap64 (acc + f p)) pools acc = acc + sum_over f pools.
Proof.
  intros Hf. revert acc. induction Hf as [|p pools Hp Hps IH]; intros acc Ha Hs.
  - cbn. lia.
  - rewrite sum_over_cons in *. cbn [fold_left].
    pose proof (sum_over_nonneg f pools Hps) as S.
    unfold wrap64 at 2. rewrite Z.mod_small by lia.
    rewrite IH by lia. lia.
Qed.

Lemma free_sum pools :
  Forall (fun p => 0 <= TerrainMemoryPool.m_usedSize p
                   <= TerrainMemoryPool.m_totalSize p) pools ->
  sum_over TerrainMemoryPool.m_totalSize pools < 2 ^ 64 ->
  0 <= sum_over TerrainMemoryPool.m_usedSize pools
  <= sum_over TerrainMemoryPool.m_totalSize pools /\
  sum_over TerrainMemoryPool.getFreeSize pools
  = sum_over TerrainMemoryPool.m_totalSize pools
    - sum_over TerrainMemoryPool.m_usedSize pools.
Proof.
  induction 1 as [|p ps Hp Hps IH]; [cbn; lia|].
  rewrite !sum_over_cons. intros Hs.
  assert (T : 0 <= sum_over TerrainMemoryPool.m_totalSize ps).
  { apply sum_over_nonneg. eapply Forall_impl; [|exact Hps]. cbn beta. intros q Hq. lia. }
  destruct (IH ltac:(lia)) as [R E]. rewrite E.
  unfold TerrainMemoryPool.getFreeSize at 1. unfold wrap64.
  rewrite Z.mod_small by lia. lia.
Qed.

End AllocatorStats.

(** [updateGlobalStats].  The used and the free total add up to the
    allocated total in [size_t] arithmetic, whatever the pools hold, and the
    pool count is the number of pools; when every pool has its used size
    within its total size and the totals add up without overflow, the three
    aggregates are the integer sums over the pools and used + free =
    allocated holds in the integers. *)
Theorem updateGlobalStats_consistent :
  forall (fl : FloatOps) (pools : list TerrainMemoryPool.t),
    let s := TerrainMemoryAllocator.updateGlobalStats (fl := fl) pools in
    wrap64 (TerrainMemoryAllocator.totalUsed s + TerrainMemoryAllocator.totalFree s)
    = TerrainMemoryAllocator.totalAllocated s /\
    TerrainMemoryAllocator.poolCount s = wrap32 (Z.of_nat (List.length pools)) /\
    (Forall (fun p => 0 <= TerrainMemoryPool.m_usedSize p
                      <= TerrainMemoryPool.m_totalSize p) pools ->
     sum_over TerrainMemoryPool.m_totalSize pools < 2 ^ 64 ->
     TerrainMemoryAllocator.totalAllocated s = sum_over TerrainMemoryPool.m_totalSize pools /\
     TerrainMemoryAllocator.totalUsed s = sum_over TerrainMemoryPool.m_usedSize pools /\
     TerrainMemoryAllocator.totalUsed s + TerrainMemoryAllocator.totalFree s
     = TerrainMemoryAllocator.totalAllocated s).
Proof.
  intros fl pools s. subst s. unfold TerrainMemoryAllocator.updateGlobalStats.
  cbn [TerrainMemoryAllocator.totalUsed TerrainMemoryAllocator.totalFree
       TerrainMemoryAllocator.totalAllocated TerrainMemoryAllocator.poolCount].
  split; [|split; [reflexivity|]].
  - rewrite (used_plus_free pools 0 0 0 eq_refl).
    unfold wrap64 at 1. apply Z.mod_small.
    apply (wrapped_sum_range TerrainMemoryPool.getTotalSize 64); lia.
  - intros Hp Hs.
    destruct (free_sum pools Hp Hs) as [Hle Hfree].
    assert (Hfree0 : Forall (fun p => 0 <= TerrainMemoryPool.getFreeSize p) pools).
    { apply Forall_forall. intros p _. unfold TerrainMemoryPool.getFreeSize, wrap64.
      apply Z.mod_pos_bound. lia. }
    rewrite (wrapped_sum_exact TerrainMemoryPool.getTotalSize pools 0);
      [|eapply Forall_impl; [|exact Hp]; cbn beta; intros p H;
        unfold TerrainMemoryPool.getTotalSize; lia|lia|exact Hs].
    rewrite (wrapped_sum_exact TerrainMemoryPool.getUsedSize pools 0);
      [|eapply Forall_impl; [|exact Hp]; cbn beta; intros p H;
        unfold TerrainMemoryPool.getUsedSize; lia|lia|
        change (sum_over TerrainMemoryPool.getUsedSize pools)
          with (sum_over TerrainMemoryPool.m_usedSize pools); lia].
    rewrite (wrapped_sum_exact TerrainMemoryPool.getFreeSize pools 0);
      [|exact Hfree0|lia|rewrite Hfree; lia].
    change (sum_over TerrainMemoryPool.getUsedSize pools)
      with (sum_over TerrainMemoryPool.m_usedSize pools).
    change (sum_over TerrainMemoryPool.getTotalSize pools)
      with (sum_over TerrainMemoryPool.m_totalSize pools).
    rewrite Hfree. repeat split; lia.
Qed.

Lemma updateGlobalStats_consistent_witness :
  let s := TerrainMemoryAllocator.updateGlobalStats (fl := binary32)
             [sample_pool; sample_pool_in_use] in
  TerrainMemoryAllocator.totalUsed s + TerrainMemoryAllocator.totalFree s
  = TerrainMemoryAllocator.totalAllocated s.
Proof.
  apply (updateGlobalStats_consistent binary32 [sample_pool; sample_pool_in_use]).
  - repeat constructor; cbn; lia.
  - cbn. lia.
Defined.

(** ** Pool maintenance *)

Lemma cleanup_accounting expired p :
  TerrainMemoryPool.m_usedSize (TerrainMemoryPool.cleanup expired p)
  = TerrainMemoryPool.m_usedSize p /\
  TerrainMemoryPool.m_activeAllocations (TerrainMemoryPool.cleanup expired p)
  = TerrainMemoryPool.m_activeAllocations p /\
  TerrainMemoryPool.m_totalSize (TerrainMemoryPool.cleanup expired p)
  = TerrainMemoryPool.m_totalSize p /\
  incl (TerrainMemoryPool.m_allocations (TerrainMemoryPool.cleanup expired p))
       (TerrainMemoryPool.m_allocations p).
Proof.
  unfold TerrainMemoryPool.cleanup. cbn. repeat split.
  intros o H. apply filter_In in H. apply H.
Qed.

(** Maintenance reclaims nothing.  Whatever sequence of [cleanup] and
    [defragment] calls runs on a pool, with whatever references expired and
    whatever the clock says, the used size, the allocation count and the
    total size stay as they were, so the bytes of an allocation that was
    dropped without [deallocate] stay counted; the only effect is that
    tracked references go away. *)
Theorem maintenance_reclaims_nothing :
  forall (ops : list TerrainMemoryPool.Op) (p : TerrainMemoryPool.t),
    forallb is_maintenance ops = true ->
    TerrainMemoryPool.m_usedSize (TerrainMemoryPool.run ops p)
    = TerrainMemoryPool.m_usedSize p /\
    TerrainMemoryPool.m_activeAllocations (TerrainMemoryPool.run ops p)
    = TerrainMemoryPool.m_activeAllocations p /\
    TerrainMemoryPool.getFreeSize (TerrainMemoryPool.run ops p)
    = TerrainMemoryPool.getFreeSize p /\
    incl (TerrainMemoryPool.m_allocations (TerrainMemoryPool.run ops p))
         (TerrainMemoryPool.m_allocations p).
Proof.
  intros ops. unfold TerrainMemoryPool.run.
  induction ops as [|op ops IH]; intros p H; cbn [fold_left forallb] in *.
  - repeat split. apply incl_refl.
  - apply andb_true_iff in H. destruct H as [Hop Hops].
    assert (S : TerrainMemoryPool.m_usedSize (TerrainMemoryPool.step p op)
                = TerrainMemoryPool.m_usedSize p /\
                TerrainMemoryPool.m_activeAllocations (TerrainMemoryPool.step p op)
                = TerrainMemoryPool.m_activeAllocations p /\
                TerrainMemoryPool.m_totalSize (TerrainMemoryPool.step p op)
                = TerrainMemoryPool.m_totalSize p /\
                incl (TerrainMemoryPool.m_allocations (TerrainMemoryPool.step p op))
                     (TerrainMemoryPool.m_allocations p)).
    { destruct op; try discriminate Hop; cbn [TerrainMemoryPool.step].
      - apply cleanup_accounting.
      - unfold TerrainMemoryPool.defragment.
        destruct (negb _); cbn [snd]; [repeat split; apply incl_refl|].
        destruct (elapsedMs >? maxTimeMs); cbn [snd]; apply cleanup_accounting. }
    destruct S as (U & A & T & I).
    destruct (IH (TerrainMemoryPool.step p op) Hops) as (U' & A' & F' & I').
    rewrite U', A', F'. unfold TerrainMemoryPool.getFreeSize. rewrite U, A, T.
    repeat split. intros o Ho. apply I, I', Ho.
Qed.

Lemma maintenance_reclaims_nothing_witness :
  TerrainMemoryPool.m_usedSize
    (TerrainMemoryPool.run
       [TerrainMemoryPool.OpCleanup (fun _ => true);
        TerrainMemoryPool.OpDefragment (fun _ => true) 3 16]
       sample_pool_in_use)
  = TerrainMemoryPool.m_usedSize sample_pool_in_use.
Proof.
  exact (proj1 (maintenance_reclaims_nothing
                  [TerrainMemoryPool.OpCleanup (fun _ => true);
                   TerrainMemoryPool.OpDefragment (fun _ => true) 3 16]
                  sample_pool_in_use eq_refl)).
Defined.

(** ** Level of detail and tile addressing, in exact arithmetic *)

Section LodExact.
Variable sqrtQ : Q -> Q.
Let flQ := exactQ sqrtQ.

Lemma lod_ratio_range (near far d : Q) :
  (near < far)%Q -> (near <= d)%Q -> (d <= far)%Q ->
  0 <= wrap32 (Qtrunc (Qred (Qred (Qred (d - near) / Qred (far - near)) * inject_Z 7)))
  <= 7.
Proof.
  intros Hnf Hn Hf.
  set (q := Qred (Qred (Qred (d - near) / Qred (far - near)) * inject_Z 7)).
  assert (Hq : (0 <= q)%Q /\ (q <= inject_Z 7)%Q).
  { unfold q. rewrite !Qred_correct. split.
    - apply Qmult_le_0_compat; [|discriminate].
      apply Qle_shift_div_l; lra.
    - rewrite <- (Qmult_1_l (inject_Z 7)) at 2.
      apply Qmult_le_compat_r; [|discriminate].
      apply Qle_shift_div_r; lra. }
  destruct Hq as [H0 H7].
  apply Qtrunc_mono in H0, H7.
  change (Qtrunc 0) with 0 in H0. change (Qtrunc (inject_Z 7)) with 7 in H7.
  unfold wrap32. rewrite Z.mod_small; lia.
Qed.

Lemma lod_ratio_mono (near far d1 d2 : Q) :
  (near < far)%Q -> (near <= d1)%Q -> (d1 <= d2)%Q -> (d2 <= far)%Q ->
  wrap32 (Qtrunc (Qred (Qred (Qred (d1 - near) / Qred (far - near)) * inject_Z 7)))
  <= wrap32 (Qtrunc (Qred (Qred (Qred (d2 - near) / Qred (far - near)) * inject_Z 7))).
Proof.
  intros Hnf Hn H12 Hf.
  pose proof (lod_ratio_range near far d1 Hnf Hn ltac:(lra)) as R1.
  pose proof (lod_ratio_range near far d2 Hnf ltac:(lra) Hf) as R2.
  assert (T : Qtrunc (Qred (Qred (Qred (d1 - near) / Qred (far - near)) * inject_Z 7))
              <= Qtrunc (Qred (Qred (Qred (d2 - near) / Qred (far - near)) * inject_Z 7))).
  { apply Qtrunc_mono. rewrite !Qred_correct.
    apply Qmult_le_compat_r; [|discriminate].
    unfold Qdiv. apply Qmult_le_compat_r; [lra|].
    apply Qlt_le_weak, Qinv_lt_0_compat. lra. }
  assert (B : forall z, 0 <= wrap32 z <= 7 -> 0 <= z < 2 ^ 32 -> wrap32 z = z).
  { intros z _ Hz. unfold wrap32. apply Z.mod_small. exact Hz. }
  assert (P1 : 0 <= Qtrunc (Qred (Qred (Qred (d1 - near) / Qred (far - near)) * inject_Z 7))).
  { change 0 with (Qtrunc 0). apply Qtrunc_mono. rewrite !Qred_correct.
    apply Qmult_le_0_compat; [|discriminate]. apply Qle_shift_div_l; lra. }
  assert (P2 : Qtrunc (Qred (Qred (Qred (d2 - near) / Qred (far - near)) * inject_Z 7)) <= 7).
  { change 7 with (Qtrunc (inject_Z 7)). apply Qtrunc_mono. rewrite !Qred_correct.
    rewrite <- (Qmult_1_l (inject_Z 7)) at 2.
    apply Qmult_le_compat_r; [|discriminate]. apply Qle_shift_div_r; lra. }
  unfold wrap32. rewrite !Z.mod_small by lia. exact T.
Qed.

(** The level as a function of the distance alone. *)
Lemma lod_of_distance (near far d1 d2 : Q) :
  (near < far)%Q -> (d1 <= d2)%Q ->
  let lod (d : Q) :=
    if flt flQ d near then 0
    else if flt flQ far d then 7
    else wrap32 (to_int flQ (fmul flQ (fdiv flQ (fsub flQ d near) (fsub flQ far near))
                               (of_Z flQ 7))) in
  0 <= lod d1 <= 7 /\ lod d1 <= lod d2.
Proof.
  intros Hnf H12 lod.
  assert (R : forall d, 0 <= lod d <= 7).
  { intros d. unfold lod.
    destruct (flt flQ d near) eqn:E1; [lia|].
    destruct (flt flQ far d) eqn:E2; [lia|].
    apply flt_exactQ_false in E1, E2.
    apply (lod_ratio_range near far d Hnf E1 E2). }
  split; [apply R|].
  pose proof (R d1) as R1. pose proof (R d2) as R2. unfold lod in *.
  destruct (flt flQ d1 near) eqn:A1; [lia|].
  apply flt_exactQ_false in A1.
  destruct (flt flQ d2 near) eqn:A2;
    [apply flt_exactQ_true in A2; exfalso; lra|].
  destruct (flt flQ far d2) eqn:B2.
  - destruct (flt flQ far d1); lia.
  - apply flt_exactQ_false in B2.
    destruct (flt flQ far d1) eqn:B1;
      [apply flt_exactQ_true in B1; exfalso; lra|].
    apply flt_exactQ_false in B1.
    apply (lod_ratio_mono near far d1 d2 Hnf A1 H12 B2).
Qed.

Lemma Qfloor_unique (q : Q) (z : Z) :
  (inject_Z z <= q)%Q -> (q < inject_Z (z + 1))%Q -> Qfloor q = z.
Proof.
  intros L U.
  pose proof (Qfloor_le q) as F1. pose proof (Qlt_floor q) as F2.
  assert (A : (inject_Z (Qfloor q) < inject_Z (z + 1))%Q) by (eapply Qle_lt_trans; eauto).
  assert (B : (inject_Z z < inject_Z (Qfloor q + 1))%Q) by (eapply Qle_lt_trans; eauto).
  rewrite <- Zlt_Qlt in A, B. lia.
Qed.

Lemma tile_size_positive (level : Z) : (0 < Qpower (2 # 1) (- level))%Q.
Proof. apply Qpower_0_lt. reflexivity. Qed.

End LodExact.

(** Level of detail, in exact arithmetic and with the near distance below
    the far distance: [calculateLODLevel] and [getRecommendedLOD] return a
    level from 0 to 7, and of two tiles the one farther from the camera never
    gets the finer level. *)
Theorem lod_level_range_and_order :
  forall (sqrtQ : Q -> Q) (cfg : TerrainRenderer.Config (exactQ sqrtQ))
         (cameraPos c1 c2 : vec3 (exactQ sqrtQ))
         (tile1 tile2 : TerrainTile.t (exactQ sqrtQ)),
    (TerrainRenderer.nearDistance cfg < TerrainRenderer.farDistance cfg)%Q ->
    let near := TerrainRenderer.nearDistance cfg in
    let far := TerrainRenderer.farDistance cfg in
    0 <= TerrainRenderer.calculateLODLevel cfg c1 cameraPos <= 7 /\
    0 <= TerrainTile.getRecommendedLOD cameraPos near far tile1 <= 7 /\
    ((length3 (vec3_sub cameraPos c1) <= length3 (vec3_sub cameraPos c2))%Q ->
     TerrainRenderer.calculateLODLevel cfg c1 cameraPos
     <= TerrainRenderer.calculateLODLevel cfg c2 cameraPos) /\
    ((TerrainTile.getDistanceToCamera cameraPos tile1
      <= TerrainTile.getDistanceToCamera cameraPos tile2)%Q ->
     TerrainTile.getRecommendedLOD cameraPos near far tile1
     <= TerrainTile.getRecommendedLOD cameraPos near far tile2).
Proof.
  intros sqrtQ cfg cameraPos c1 c2 tile1 tile2 Hnf near far.
  unfold TerrainRenderer.calculateLODLevel, TerrainTile.getRecommendedLOD.
  cbv zeta. fold near far.
  split; [|split; [|split]].
  - apply (lod_of_distance sqrtQ near far _ _ Hnf (Qle_refl _)).
  - apply (lod_of_distance sqrtQ near far _ _ Hnf (Qle_refl _)).
  - intros H. apply (lod_of_distance sqrtQ near far _ _ Hnf H).
  - intros H. apply (lod_of_distance sqrtQ near far _ _ Hnf H).
Qed.

Lemma lod_level_range_and_order_witness :
  0 <= TerrainRenderer.calculateLODLevel sample_configQ (vec3Q 100 0 0) (vec3Q 0 0 0) <= 7.
Proof.
  apply (lod_level_range_and_order (fun q => q) sample_configQ (vec3Q 0 0 0)
           (vec3Q 100 0 0) (vec3Q 200 0 0) sample_tileQ sample_tileQ).
  reflexivity.
Defined.

Section TileAddressing.
Variable sqrtQ : Q -> Q.
Let flQ := exactQ sqrtQ.

Lemma div_times (p T : Q) : (0 < T)%Q -> (p / T * T == p)%Q.
Proof. intros HT. field. intros E. rewrite E in HT. discriminate HT. Qed.

(** The index [std::floor(p / tileSize)] and the interval of the tile. *)
Lemma floor_index (p T : Q) :
  (0 < T)%Q ->
  (inject_Z (Qfloor (p / T)) * T <= p)%Q /\
  (p < inject_Z (Qfloor (p / T) + 1) * T)%Q.
Proof.
  intros HT. split.
  - rewrite <- (div_times p T HT) at 2.
    apply Qmult_le_compat_r; [apply Qfloor_le|apply Qlt_le_weak, HT].
  - rewrite <- (div_times p T HT) at 1.
    apply Qmult_lt_compat_r; [exact HT|apply Qlt_floor].
Qed.

Lemma index_floor (p T : Q) (z : Z) :
  (0 < T)%Q -> (inject_Z z * T <= p)%Q -> (p < inject_Z (z + 1) * T)%Q ->
  Qfloor (p / T) = z.
Proof.
  intros HT L U. apply Qfloor_unique.
  - apply Qle_shift_div_l; assumption.
  - apply Qlt_shift_div_r; assumption.
Qed.

Lemma Qtrunc_inject_Z (z : Z) : Qtrunc (inject_Z z) = z.
Proof. unfold Qtrunc. cbn [Qnum Qden inject_Z]. apply Z.quot_1_r. Qed.

End TileAddressing.

(** World positions and tiles, in exact arithmetic.  The tile that
    [worldToTileCoordinate] finds for a position of height 0 to 200 has
    bounds ([getTileBounds]) that contain the position; and it is the only
    tile of its level and dataset whose bounds contain the position with the
    upper edges left out, so the centre of a tile is addressed to that
    tile. *)
Theorem world_position_and_tile :
  forall (sqrtQ : Q -> Q) (ds : string) (pos : vec3 (exactQ sqrtQ)) (level : Z)
         (c : TileCoordinate.t),
    (0 <= vy pos)%Q -> (vy pos <= 200)%Q ->
    let found := TerrainRenderer.worldToTileCoordinate (fl := exactQ sqrtQ)
                   floorQ ds pos level in
    let b := TerrainRenderer.getTileBounds (fl := exactQ sqrtQ) c in
    TerrainBounds.contains (TerrainRenderer.getTileBounds found) pos = true /\
    (TileCoordinate.level c = level -> TileCoordinate.datasetId c = ds ->
     (vx (TerrainBounds.min b) <= vx pos)%Q -> (vx pos < vx (TerrainBounds.max b))%Q ->
     (vz (TerrainBounds.min b) <= vz pos)%Q -> (vz pos < vz (TerrainBounds.max b))%Q ->
     found = c) /\
    TerrainRenderer.worldToTileCoordinate (fl := exactQ sqrtQ) floorQ
      (TileCoordinate.datasetId c) (TerrainBounds.center b) (TileCoordinate.level c) = c.
Proof.
  intros sqrtQ ds pos level c Hy0 Hy1 found b.
  assert (HT : forall l, (0 < Qred (inject_Z 1000 * Qpower (2 # 1) (- l)))%Q).
  { intros l. rewrite Qred_correct.
    apply Qmult_lt_0_compat; [reflexivity|apply tile_size_positive]. }
  assert (Unique : forall (p : vec3 (exactQ sqrtQ)) (d : TileCoordinate.t),
             (vx (TerrainBounds.min (TerrainRenderer.getTileBounds (fl := exactQ sqrtQ) d))
              <= vx p)%Q ->
             (vx p < vx (TerrainBounds.max (TerrainRenderer.getTileBounds
                                              (fl := exactQ sqrtQ) d)))%Q ->
             (vz (TerrainBounds.min (TerrainRenderer.getTileBounds (fl := exactQ sqrtQ) d))
              <= vz p)%Q ->
             (vz p < vz (TerrainBounds.max (TerrainRenderer.getTileBounds
                                              (fl := exactQ sqrtQ) d)))%Q ->
             TerrainRenderer.worldToTileCoordinate (fl := exactQ sqrtQ) floorQ
               (TileCoordinate.datasetId d) p (TileCoordinate.level d) = d).
  { intros p d. unfold TerrainRenderer.getTileBounds, TerrainRenderer.worldToTileCoordinate.
    cbn [TerrainBounds.min TerrainBounds.max vx vz]. exactQ_ops sqrtQ. exactQ_ops sqrtQ.
    pose proof (HT (TileCoordinate.level d)) as HTd.
    remember (Qred (inject_Z 1000 * Qpower (2 # 1) (- TileCoordinate.level d))) as T
      eqn:ET.
    clear ET. intros X0 X1 Z0 Z1. rewrite Qred_correct in X0, X1, Z0, Z1.
    unfold floorQ. rewrite !Qtrunc_inject_Z.
    rewrite (Qfloor_comp _ _ (Qred_correct (vx p / T))).
    rewrite (Qfloor_comp _ _ (Qred_correct (vz p / T))).
    rewrite (index_floor (vx p) T (TileCoordinate.x d) HTd X0 X1).
    rewrite (index_floor (vz p) T (TileCoordinate.y d) HTd Z0 Z1).
    destruct d; reflexivity. }
  split; [|split].
  - subst found. apply terrain_contains_exactQ.
    unfold TerrainRenderer.getTileBounds, TerrainRenderer.worldToTileCoordinate.
    cbn [TerrainBounds.min TerrainBounds.max vx vy vz TileCoordinate.x TileCoordinate.y
         TileCoordinate.level].
    unfold f0. exactQ_ops sqrtQ. exactQ_ops sqrtQ.
    pose proof (HT level) as HTl.
    remember (Qred (inject_Z 1000 * Qpower (2 # 1) (- level))) as T eqn:ET. clear ET.
    unfold floorQ. rewrite !Qtrunc_inject_Z.
    destruct (floor_index (vx pos) T HTl) as [X0 X1].
    destruct (floor_index (vz pos) T HTl) as [Z0 Z1].
    rewrite (Qfloor_comp _ _ (Qred_correct (vx pos / T))).
    rewrite (Qfloor_comp _ _ (Qred_correct (vz pos / T))).
    repeat split; try assumption; rewrite Qred_correct;
      try assumption; apply Qlt_le_weak; assumption.
  - intros Hl Hd X0 X1 Z0 Z1. subst found. rewrite <- Hl, <- Hd.
    apply Unique; assumption.
  - apply Unique; subst b;
      unfold TerrainRenderer.getTileBounds, TerrainBounds.center, vec3_scale, vec3_add,
        fhalf;
      cbn [TerrainBounds.min TerrainBounds.max vx vz]; exactQ_ops sqrtQ;
      exactQ_ops sqrtQ;
      pose proof (HT (TileCoordinate.level c)) as HTc;
      remember (Qred (inject_Z 1000 * Qpower (2 # 1) (- TileCoordinate.level c))) as T
        eqn:ET;
      clear ET; rewrite !Qred_correct; rewrite inject_Z_plus;
      change (inject_Z 1 / inject_Z 2)%Q with (1 # 2)%Q;
      change (inject_Z 1) with 1%Q; nra.
Qed.

Lemma world_position_and_tile_witness :
  TerrainBounds.contains
    (TerrainRenderer.getTileBounds
       (TerrainRenderer.worldToTileCoordinate (fl := exactQ (fun q => q)) floorQ
          "terrain" (vec3Q (-130) 20 260) 2))
    (vec3Q (-130) 20 260) = true.
Proof.
  apply (world_position_and_tile (fun q => q) "terrain" (vec3Q (-130) 20 260) 2
           (TileCoordinate.mk 0 0 2 "terrain")).
  - discriminate.
  - discriminate.
Defined.

(** ** The renderer: datasets, tiles and the loading queue *)

Lemma keys_NoDup_snoc {K : Type} (k : K) (keys : list K) :
  NoDup keys -> ~ In k keys -> NoDup (keys ++ [k]).
Proof.
  intros N I. induction keys as [|x l IH]; cbn [app].
  - constructor; [intros []|constructor].
  - apply NoDup_cons_iff in N. destruct N as [Nx N]. apply NoDup_cons.
    + intros H. apply in_app_or in H. destruct H as [H|[H|[]]]; [tauto|].
      subst x. apply I. left. reflexivity.
    + apply IH; [exact N|]. intros H. apply I. right. exact H.
Qed.

Section MapFacts.
Context {K V : Type} (eqb : K -> K -> bool).
Hypothesis eqb_eq : forall a b, eqb a b = true <-> a = b.
Implicit Types (m : list (K * V)) (k : K) (v : V).

Let lookup (k : K) (m : list (K * V)) := List.find (fun e => eqb (fst e) k) m.

Lemma lookup_Some_key k m e : lookup k m = Some e -> fst e = k /\ In e m.
Proof.
  intros H. apply find_some in H. destruct H as [I E]. apply eqb_eq in E. tauto.
Qed.

Lemma lookup_None_key k m : lookup k m = None <-> ~ In k (map fst m).
Proof.
  split.
  - intros H I. apply in_map_iff in I. destruct I as (e & <- & I).
    pose proof (find_none _ _ H e I) as N. cbn beta in N.
    rewrite (proj2 (eqb_eq _ _) eq_refl) in N. discriminate N.
  - intros N. unfold lookup. destruct (List.find _ m) as [e|] eqn:E; [|reflexivity].
    exfalso. apply N. apply find_some in E. destruct E as [I E].
    apply eqb_eq in E. subst k. apply in_map. exact I.
Qed.

Lemma assign_keys k v m :
  map fst (assign eqb k v m)
  = match lookup k m with Some _ => map fst m | None => map fst m ++ [k] end.
Proof.
  unfold lookup. induction m as [|e m IH]; [reflexivity|].
  cbn [assign List.find]. destruct (eqb (fst e) k); [reflexivity|].
  cbn [map]. rewrite IH. destruct (List.find _ m); reflexivity.
Qed.

Lemma assign_NoDup k v m :
  NoDup (map fst m) -> NoDup (map fst (assign eqb k v m)).
Proof.
  intros N. rewrite assign_keys. destruct (lookup k m) eqn:E; [exact N|].
  apply keys_NoDup_snoc; [exact N|]. apply lookup_None_key. exact E.
Qed.

Lemma assign_keeps_keys k v m k' :
  In k' (map fst m) -> In k' (map fst (assign eqb k v m)).
Proof.
  intros I. rewrite assign_keys. destruct (lookup k m); [exact I|].
  apply in_or_app. left. exact I.
Qed.

Lemma assign_has_key k v m : In k (map fst (assign eqb k v m)).
Proof.
  rewrite assign_keys. destruct (lookup k m) as [e|] eqn:E.
  - apply lookup_Some_key in E. destruct E as [<- I]. apply in_map. exact I.
  - apply in_or_app. right. left. reflexivity.
Qed.

Lemma assign_entries k v m e :
  In e (assign eqb k v m) -> e = (k, v) \/ In e m.
Proof.
  induction m as [|x m IH]; cbn [assign].
  - intros [<-|[]]. left. reflexivity.
  - destruct (eqb (fst x) k) eqn:E.
    + apply eqb_eq in E. intros [<-|I]; [left; rewrite E; reflexivity|right; right; exact I].
    + intros [<-|I]; [right; left; reflexivity|].
      destruct (IH I) as [->|I']; [left; reflexivity|right; right; exact I'].
Qed.

Lemma assign_lookup k v m : lookup k (assign eqb k v m) = Some (k, v).
Proof.
  unfold lookup. induction m as [|x m IH]; cbn [assign List.find fst].
  - rewrite (proj2 (eqb_eq _ _) eq_refl). reflexivity.
  - destruct (eqb (fst x) k) eqn:E; cbn [List.find fst]; rewrite E.
    + apply eqb_eq in E. rewrite E. reflexivity.
    + exact IH.
Qed.

Lemma assign_lookup_other k v m k' :
  k' <> k -> lookup k' (assign eqb k v m) = lookup k' m.
Proof.
  intros N. unfold lookup.
  assert (F : eqb k k' = false).
  { destruct (eqb k k') eqn:E; [|reflexivity]. apply eqb_eq in E. congruence. }
  induction m as [|x m IH]; cbn [assign List.find fst].
  - rewrite F. reflexivity.
  - destruct (eqb (fst x) k) eqn:E; cbn [List.find fst].
    + apply eqb_eq in E. rewrite E, F. reflexivity.
    + rewrite IH. reflexivity.
Qed.

End MapFacts.

Section RendererFacts.
Context {fl : FloatOps}.
Implicit Types r : TerrainRenderer.t fl.

Lemma findDataset_None id (datasets : list (string * TerrainRenderer.DatasetInfo fl)) :
  TerrainRenderer.findDataset id datasets = None <-> ~ In id (map fst datasets).
Proof.
  unfold TerrainRenderer.findDataset.
  rewrite <- (lookup_None_key String.eqb String.eqb_eq id datasets).
  destruct (List.find _ datasets); split; intros H; try discriminate H; reflexivity.
Qed.

Lemma findDataset_Some id (datasets : list (string * TerrainRenderer.DatasetInfo fl)) d :
  TerrainRenderer.findDataset id datasets = Some d -> In id (map fst datasets).
Proof.
  intros H. destruct (in_dec string_dec id (map fst datasets)) as [I|N]; [exact I|].
  apply findDataset_None in N. congruence.
Qed.

Lemma subscript_keys id (datasets : list (string * TerrainRenderer.DatasetInfo fl)) :
  NoDup (map fst datasets) ->
  NoDup (map fst (TerrainRenderer.subscript id datasets)) /\
  In id (map fst (TerrainRenderer.subscript id datasets)) /\
  (forall k, In k (map fst datasets) ->
             In k (map fst (TerrainRenderer.subscript id datasets))) /\
  (In id (map fst datasets) -> TerrainRenderer.subscript id datasets = datasets).
Proof.
  intros N. unfold TerrainRenderer.subscript.
  destruct (TerrainRenderer.findDataset id datasets) as [d|] eqn:E.
  - apply findDataset_Some in E. repeat split; auto.
  - apply findDataset_None in E. rewrite map_app. cbn [map fst].
    split; [apply keys_NoDup_snoc; assumption|].
    split; [apply in_or_app; right; left; reflexivity|].
    split; [intros k I; apply in_or_app; left; exact I|].
    intros I. contradiction.
Qed.

(** The loop over the candidates of [performCulling]: it changes nothing
    but the list of visible tiles and the loading queue. *)
Lemma getOrCreate_loop candidates : forall r,
  let ready c :=
    match TerrainTileManager.find c (TerrainRenderer.m_tiles r) with
    | Some tile => TileState_eqb (TerrainTile.getState tile) Ready
    | None => false
    end in
  let missing c :=
    match TerrainTileManager.find c (TerrainRenderer.m_tiles r) with
    | Some _ => false
    | None => true
    end in
  fold_left TerrainRenderer.getOrCreate candidates r
  = TerrainRenderer.mk (TerrainRenderer.m_config r) (TerrainRenderer.m_initialized r)
      (TerrainRenderer.m_datasets r) (TerrainRenderer.m_activeDataset r)
      (TerrainRenderer.m_tiles r)
      (TerrainRenderer.m_loadingQueue r ++ filter missing candidates)
      (TerrainRenderer.visibleTiles r ++ filter ready candidates)
      (TerrainRenderer.tilesCulled r).
Proof.
  induction candidates as [|c candidates IH]; intros r ready missing.
  - cbn [fold_left filter]. rewrite !app_nil_r. destruct r; reflexivity.
  - cbn [fold_left filter]. rewrite IH. clear IH.
    unfold TerrainRenderer.getOrCreate, TerrainRenderer.getTile,
      TerrainRenderer.scheduleLoading.
    subst ready missing. cbv beta.
    destruct (TerrainTileManager.find c (TerrainRenderer.m_tiles r)) as [tile|] eqn:E.
    + destruct (TileState_eqb (TerrainTile.getState tile) Ready);
        cbn [TerrainRenderer.with_visibleTiles TerrainRenderer.m_config
             TerrainRenderer.m_initialized TerrainRenderer.m_datasets
             TerrainRenderer.m_activeDataset TerrainRenderer.m_tiles
             TerrainRenderer.m_loadingQueue TerrainRenderer.visibleTiles
             TerrainRenderer.tilesCulled];
        rewrite <- ?app_assoc; reflexivity.
    + cbn [TerrainRenderer.with_loadingQueue TerrainRenderer.m_config
           TerrainRenderer.m_initialized TerrainRenderer.m_datasets
           TerrainRenderer.m_activeDataset TerrainRenderer.m_tiles
           TerrainRenderer.m_loadingQueue TerrainRenderer.visibleTiles
           TerrainRenderer.tilesCulled].
      rewrite <- ?app_assoc. reflexivity.
Qed.

(** What [performCulling] does to the renderer. *)
Lemma performCullingFrame_fields camera frustum r :
  let r' := snd (TerrainRenderer.performCullingFrame camera frustum r) in
  TerrainRenderer.m_tiles r' = TerrainRenderer.m_tiles r /\
  TerrainRenderer.m_activeDataset r' = TerrainRenderer.m_activeDataset r /\
  TerrainRenderer.m_initialized r' = TerrainRenderer.m_initialized r /\
  TerrainRenderer.m_config r' = TerrainRenderer.m_config r /\
  TerrainRenderer.m_datasets r'
  = (if TerrainRenderer.isEmptyString (TerrainRenderer.m_activeDataset r)
     then TerrainRenderer.m_datasets r
     else TerrainRenderer.subscript (TerrainRenderer.m_activeDataset r)
            (TerrainRenderer.m_datasets r)).
Proof.
  unfold TerrainRenderer.performCullingFrame.
  cbn [TerrainRenderer.with_visibleTiles TerrainRenderer.m_activeDataset].
  destruct (TerrainRenderer.isEmptyString (TerrainRenderer.m_activeDataset r)).
  - cbn. repeat split.
  - cbv zeta. rewrite getOrCreate_loop. cbn. repeat split.
Qed.

Lemma tileLoadingWorker_datasets synth calls r :
  TerrainRenderer.m_activeDataset (TerrainRenderer.tileLoadingWorker synth calls r)
  = TerrainRenderer.m_activeDataset r /\
  TerrainRenderer.m_datasets (TerrainRenderer.tileLoadingWorker synth calls r)
  = match TerrainRenderer.m_loadingQueue r with
    | [] => TerrainRenderer.m_datasets r
    | coord :: _ =>
        TerrainRenderer.subscript (TileCoordinate.datasetId coord)
          (TerrainRenderer.m_datasets r)
    end.
Proof.
  unfold TerrainRenderer.tileLoadingWorker.
  destruct (TerrainRenderer.m_loadingQueue r) as [|coord rest]; [split; reflexivity|].
  cbv zeta.
  destruct (TerrainTile.loadData synth _ _) as [r1 t1].
  destruct (is_success r1).
  - destruct (TerrainTile.uploadToGPU calls t1) as [r2 t2].
    destruct (is_success r2); split; reflexivity.
  - cbn [is_success]. destruct (is_success r1); split; reflexivity.
Qed.

Lemma step_datasets_ok (op : TerrainRenderer.Op fl) r :
  datasets_ok r -> datasets_ok (TerrainRenderer.step r op).
Proof.
  unfold datasets_ok. intros [N A].
  destruct op; cbn [TerrainRenderer.step].
  - unfold TerrainRenderer.initialize.
    destruct (TerrainRenderer.m_initialized r); [split; assumption|].
    destruct (negb (is_success vulkan)); split; assumption.
  - unfold TerrainRenderer.loadDataset. cbv zeta. cbn [snd].
    match goal with
    | |- context [assign String.eqb datasetId ?d _] => set (dataset := d)
    end.
    cbn [TerrainRenderer.with_datasets TerrainRenderer.m_activeDataset].
    destruct (TerrainRenderer.isEmptyString (TerrainRenderer.m_activeDataset r));
      cbn [TerrainRenderer.with_activeDataset TerrainRenderer.with_datasets
           TerrainRenderer.m_datasets TerrainRenderer.m_activeDataset].
    + split; [apply (assign_NoDup String.eqb String.eqb_eq), N|].
      right. apply (assign_has_key String.eqb String.eqb_eq).
    + split; [apply (assign_NoDup String.eqb String.eqb_eq), N|].
      destruct A as [A|A]; [left; exact A|right].
      apply (assign_keeps_keys String.eqb), A.
  - unfold TerrainRenderer.unloadDataset.
    destruct (TerrainRenderer.findDataset datasetId (TerrainRenderer.m_datasets r));
      [|split; assumption].
    cbv zeta.
    cbn [TerrainRenderer.with_tiles TerrainRenderer.with_datasets
         TerrainRenderer.m_datasets TerrainRenderer.m_activeDataset].
    set (rest := filter _ (TerrainRenderer.m_datasets r)).
    assert (Nr : NoDup (map fst rest)) by (apply NoDup_map_filter, N).
    destruct (String.eqb (TerrainRenderer.m_activeDataset r) datasetId) eqn:E;
      cbn [TerrainRenderer.with_activeDataset TerrainRenderer.m_datasets
           TerrainRenderer.m_activeDataset].
    + split; [exact Nr|]. destruct rest as [|e rest']; [left; reflexivity|].
      right. left. reflexivity.
    + split; [exact Nr|]. destruct A as [A|A]; [left; exact A|right].
      apply in_map_iff in A. destruct A as (e & Ee & Ie).
      apply in_map_iff. exists e. split; [exact Ee|].
      apply filter_In. split; [exact Ie|]. rewrite Ee, E. reflexivity.
  - unfold TerrainRenderer.setActiveDataset.
    destruct (TerrainRenderer.findDataset datasetId (TerrainRenderer.m_datasets r))
      as [d|] eqn:E; [|split; assumption].
    cbn [TerrainRenderer.with_activeDataset TerrainRenderer.m_datasets
         TerrainRenderer.m_activeDataset].
    split; [exact N|]. right. apply (findDataset_Some _ _ _ E).
  - split; assumption.
  - destruct (performCullingFrame_fields camera frustum r) as (_ & Ea & _ & _ & Ed).
    rewrite Ea, Ed.
    destruct (TerrainRenderer.isEmptyString (TerrainRenderer.m_activeDataset r));
      [split; assumption|].
    destruct (subscript_keys (TerrainRenderer.m_activeDataset r)
                (TerrainRenderer.m_datasets r) N) as (N' & I' & _).
    split; [exact N'|right; exact I'].
  - split; assumption.
  - destruct (tileLoadingWorker_datasets synth calls r) as [Ea Ed]. rewrite Ea, Ed.
    destruct (TerrainRenderer.m_loadingQueue r) as [|coord rest]; [split; assumption|].
    destruct (subscript_keys (TileCoordinate.datasetId coord)
                (TerrainRenderer.m_datasets r) N) as (N' & _ & S' & _).
    split; [exact N'|]. destruct A as [A|A]; [left; exact A|right; apply S', A].
Qed.

Lemma run_datasets_ok (ops : list (TerrainRenderer.Op fl)) : forall r,
  datasets_ok r -> datasets_ok (TerrainRenderer.run ops r).
Proof.
  unfold TerrainRenderer.run. induction ops as [|op ops IH]; intros r H; [exact H|].
  cbn [fold_left]. apply IH, step_datasets_ok, H.
Qed.

End RendererFacts.

(** The active dataset.  Whatever sequence of [initialize], [loadDataset],
    [unloadDataset], [setActiveDataset], [updateConfig], culling passes,
    tile-state updates and worker turns runs on a new renderer, the active
    dataset is unset or one of the loaded datasets, and [performCulling],
    which reads [m_datasets[m_activeDataset]], does not add an entry to the
    map. *)
Theorem active_dataset_is_loaded :
  forall (fl : FloatOps) (ops : list (TerrainRenderer.Op fl))
         (camera : TerrainCamera.t fl) (frustum : Frustum.t fl),
    let r := TerrainRenderer.run ops TerrainRenderer.init in
    (TerrainRenderer.m_activeDataset r = EmptyString \/
     TerrainRenderer.findDataset (TerrainRenderer.m_activeDataset r)
       (TerrainRenderer.m_datasets r) <> None) /\
    TerrainRenderer.m_datasets (snd (TerrainRenderer.performCullingFrame camera frustum r))
    = TerrainRenderer.m_datasets r.
Proof.
  intros fl ops camera frustum r.
  assert (H : datasets_ok r).
  { apply run_datasets_ok. split; [constructor|left; reflexivity]. }
  destruct H as [N A]. split.
  - destruct A as [A|A]; [left; exact A|right].
    intros E. apply findDataset_None in E. contradiction.
  - destruct (performCullingFrame_fields camera frustum r) as (_ & _ & _ & _ & Ed).
    rewrite Ed.
    destruct (TerrainRenderer.isEmptyString (TerrainRenderer.m_activeDataset r)) eqn:E;
      [reflexivity|].
    destruct A as [A|A]; [rewrite A in E; discriminate E|].
    apply (subscript_keys _ _ N), A.
Qed.

Section RendererTiles.
Context {fl : FloatOps}.
Implicit Types r : TerrainRenderer.t fl.

(** A turn of the loading worker either leaves the tiles alone or stores a
    [Ready] tile under the coordinate it took from the queue. *)
Lemma tileLoadingWorker_tiles synth calls r :
  TerrainRenderer.m_tiles (TerrainRenderer.tileLoadingWorker synth calls r)
  = TerrainRenderer.m_tiles r \/
  exists coord rest tile,
    TerrainRenderer.m_loadingQueue r = coord :: rest /\
    TerrainRenderer.m_tiles (TerrainRenderer.tileLoadingWorker synth calls r)
    = assign TileCoordinate.eqb coord tile (TerrainRenderer.m_tiles r) /\
    TerrainTile.m_coordinate tile = coord /\ TerrainTile.m_state tile = Ready.
Proof.
  unfold TerrainRenderer.tileLoadingWorker.
  destruct (TerrainRenderer.m_loadingQueue r) as [|coord rest]; [left; reflexivity|].
  cbv zeta.
  match goal with
  | |- context [TerrainTile.loadData synth ?p ?t] =>
      pose proof (loadData_state_from_Empty synth p t eq_refl) as [R1 S1];
      pose proof (loadData_coordinate synth p t) as C1;
      destruct (TerrainTile.loadData synth p t) as [r1 t1]
  end.
  cbn [fst snd] in R1, S1, C1. subst r1. cbn [is_success].
  pose proof (uploadToGPU_coordinate calls t1) as C2.
  destruct (uploadToGPU_from_Loaded calls t1 S1) as [[R2 S2]|[R2 S2]];
    destruct (TerrainTile.uploadToGPU calls t1) as [r2 t2]; cbn [fst snd] in *.
  - subst r2. cbn [is_success]. right. exists coord, rest, t2.
    split; [reflexivity|]. split; [reflexivity|]. split; [|exact S2].
    rewrite C2, C1. reflexivity.
  - left. destruct r2; cbn [is_success]; try reflexivity. contradiction.
Qed.

Lemma updateTileStates_entry (e : TileCoordinate.t * TerrainTile.t fl) :
  let tile := TerrainTile.incrementFrameCounter (snd e) in
  let tile' := if TerrainTile.getFramesSinceAccess tile >? 300
               then TerrainTile.evictFromMemory tile else tile in
  TerrainTile.m_coordinate tile' = TerrainTile.m_coordinate (snd e) /\
  (TerrainTile.m_state (snd e) = Ready \/ TerrainTile.m_state (snd e) = Evicted ->
   TerrainTile.m_state tile' = Ready \/ TerrainTile.m_state tile' = Evicted).
Proof.
  destruct e as [c [co st bo cp gp pr fr ld em]]. cbn [snd]. cbv zeta.
  destruct (TerrainTile.getFramesSinceAccess _ >? 300).
  - split; [destruct st; reflexivity|].
    rewrite evictFromMemory_state. cbn. intros [->| ->]; right; reflexivity.
  - split; [reflexivity|]. cbn. tauto.
Qed.

Lemma step_tiles_ok (op : TerrainRenderer.Op fl) r :
  tiles_ok r -> tiles_ok (TerrainRenderer.step r op).
Proof.
  unfold tiles_ok. intros [N A].
  destruct op; cbn [TerrainRenderer.step].
  - unfold TerrainRenderer.initialize.
    destruct (TerrainRenderer.m_initialized r); [split; assumption|].
    destruct (negb (is_success vulkan)); split; assumption.
  - unfold TerrainRenderer.loadDataset. cbv zeta. cbn [snd].
    cbn [TerrainRenderer.with_datasets TerrainRenderer.m_activeDataset].
    destruct (TerrainRenderer.isEmptyString (TerrainRenderer.m_activeDataset r));
      split; assumption.
  - unfold TerrainRenderer.unloadDataset.
    destruct (TerrainRenderer.findDataset datasetId (TerrainRenderer.m_datasets r));
      [|split; assumption].
    cbv zeta.
    cbn [TerrainRenderer.with_tiles TerrainRenderer.with_datasets
         TerrainRenderer.m_datasets TerrainRenderer.m_activeDataset].
    destruct (String.eqb (TerrainRenderer.m_activeDataset r) datasetId);
      cbn [TerrainRenderer.with_activeDataset TerrainRenderer.m_tiles];
      (split; [apply NoDup_map_filter, N|apply Forall_filter', A]).
  - unfold TerrainRenderer.setActiveDataset.
    destruct (TerrainRenderer.findDataset datasetId (TerrainRenderer.m_datasets r));
      split; assumption.
  - split; assumption.
  - destruct (performCullingFrame_fields camera frustum r) as (Et & _).
    rewrite Et. split; assumption.
  - unfold TerrainRenderer.updateTileStates.
    cbn [TerrainRenderer.with_tiles TerrainRenderer.m_tiles]. split.
    + rewrite map_map. cbn [fst]. exact N.
    + apply Forall_map. eapply Forall_impl; [|exact A]. cbn beta.
      intros e [C S]. cbn [fst snd].
      destruct (updateTileStates_entry e) as [C' S']. cbv zeta in C', S'.
      split; [rewrite C'; exact C|apply S', S].
  - destruct (tileLoadingWorker_tiles synth calls r)
      as [E|(coord & rest & tile & _ & E & C & S)]; rewrite E; [split; assumption|].
    split; [apply (assign_NoDup TileCoordinate.eqb TileCoordinate_eqb_eq), N|].
    apply Forall_forall. intros e I.
    apply (assign_entries TileCoordinate.eqb TileCoordinate_eqb_eq) in I.
    destruct I as [->|I]; [cbn [fst snd]; split; [exact C|left; exact S]|].
    apply (proj1 (Forall_forall _ _) A e I).
Qed.

Lemma run_tiles_ok (ops : list (TerrainRenderer.Op fl)) : forall r,
  tiles_ok r -> tiles_ok (TerrainRenderer.run ops r).
Proof.
  unfold TerrainRenderer.run. induction ops as [|op ops IH]; intros r H; [exact H|].
  cbn [fold_left]. apply IH, step_tiles_ok, H.
Qed.

Lemma getTile_entry c r tile :
  TerrainRenderer.getTile c r = Some tile -> In (c, tile) (TerrainRenderer.m_tiles r).
Proof.
  unfold TerrainRenderer.getTile, TerrainTileManager.find.
  destruct (List.find _ _) as [e|] eqn:E; [|discriminate].
  intros H. injection H as <-. apply find_some in E. destruct E as [I E].
  apply TileCoordinate_eqb_eq in E. rewrite <- E. destruct e; exact I.
Qed.

(** When every GPU call succeeds, a turn of the worker stores the tile of
    the coordinate at the front of the queue, [Ready]. *)
Lemma worker_stores_tile synth calls r coord rest :
  TerrainRenderer.m_loadingQueue r = coord :: rest ->
  gpu_calls_succeed calls ->
  exists tile,
    TerrainRenderer.getTile coord (TerrainRenderer.tileLoadingWorker synth calls r)
    = Some tile /\
    TerrainTile.m_state tile = Ready /\
    TerrainRenderer.m_loadingQueue (TerrainRenderer.tileLoadingWorker synth calls r)
    = rest /\
    forall c, c <> coord ->
      TerrainRenderer.getTile c (TerrainRenderer.tileLoadingWorker synth calls r)
      = TerrainRenderer.getTile c r.
Proof.
  intros Hq Hc. unfold TerrainRenderer.tileLoadingWorker. rewrite Hq. cbv zeta.
  match goal with
  | |- context [TerrainTile.loadData synth ?p ?t] =>
      destruct (loadData_result synth p t eq_refl) as (h & hs & b & _ & E1);
      rewrite E1
  end.
  cbn [is_success].
  match goal with
  | |- context [TerrainTile.uploadToGPU calls ?t] =>
      destruct (uploadToGPU_succeeds calls t eq_refl eq_refl Hc) as (R2 & S2 & _);
      destruct (TerrainTile.uploadToGPU calls t) as [r2 t2]
  end.
  cbn [fst snd] in R2, S2. subst r2. cbn [is_success].
  exists t2. unfold TerrainRenderer.getTile, TerrainTileManager.find.
  cbn [TerrainRenderer.with_tiles TerrainRenderer.with_datasets
       TerrainRenderer.with_loadingQueue TerrainRenderer.m_tiles
       TerrainRenderer.m_loadingQueue].
  split; [|split; [exact S2|split; [reflexivity|]]].
  - rewrite (assign_lookup TileCoordinate.eqb TileCoordinate_eqb_eq). reflexivity.
  - intros c N.
    rewrite (assign_lookup_other TileCoordinate.eqb TileCoordinate_eqb_eq _ _ _ _ N).
    reflexivity.
Qed.

End RendererTiles.

(** The tiles of a renderer.  Whatever sequence of calls, culling passes,
    tile-state updates and worker turns runs on a new renderer, a tile found
    in its map is stored under its own coordinate and is [Ready] or
    [Evicted]: the worker stores a tile only when loading and uploading
    succeeded, and afterwards only eviction changes its state. *)
Theorem renderer_tiles_ready_or_evicted :
  forall (fl : FloatOps) (ops : list (TerrainRenderer.Op fl)) (c : TileCoordinate.t)
         (tile : TerrainTile.t fl),
    TerrainRenderer.getTile c (TerrainRenderer.run ops TerrainRenderer.init) = Some tile ->
    TerrainTile.getCoordinate tile = c /\
    (TerrainTile.getState tile = Ready \/ TerrainTile.getState tile = Evicted).
Proof.
  intros fl ops c tile H. apply getTile_entry in H.
  assert (T : tiles_ok (TerrainRenderer.run ops (TerrainRenderer.init (fl := fl)))).
  { apply run_tiles_ok. split; constructor. }
  destruct T as [_ A]. apply (proj1 (Forall_forall _ _) A (c, tile) H).
Qed.

Lemma sample_frame_queue :
  TerrainRenderer.m_loadingQueue (TerrainRenderer.run sample_frame_ops TerrainRenderer.init)
  = [sample_coord].
Proof. vm_compute. reflexivity. Qed.

Lemma sample_gpu_calls_succeed : gpu_calls_succeed sample_gpu_calls.
Proof. exists 1, 2, 3, 4, 5. repeat split; discriminate. Qed.

Lemma renderer_tiles_ready_or_evicted_witness :
  exists tile,
    TerrainRenderer.getTile sample_coord
      (TerrainRenderer.run sample_worker_ops TerrainRenderer.init) = Some tile /\
    TerrainTile.getCoordinate tile = sample_coord /\
    (TerrainTile.getState tile = Ready \/ TerrainTile.getState tile = Evicted).
Proof.
  destruct (worker_stores_tile sample_synth sample_gpu_calls
              (TerrainRenderer.run sample_frame_ops TerrainRenderer.init)
              sample_coord [] sample_frame_queue sample_gpu_calls_succeed)
    as (tile & G & _).
  assert (E : TerrainRenderer.getTile sample_coord
                (TerrainRenderer.run sample_worker_ops TerrainRenderer.init) = Some tile).
  { unfold sample_worker_ops, TerrainRenderer.run. rewrite fold_left_app. exact G. }
  exists tile. split; [exact E|].
  exact (renderer_tiles_ready_or_evicted binary32 sample_worker_ops sample_coord tile E).
Defined.

Section CullingPass.
Context {fl : FloatOps}.
Implicit Types r : TerrainRenderer.t fl.

Lemma levelTiles_member cfg frustum cameraPos maxDistance ds level c :
  In c (TerrainRenderer.levelTiles (fl := fl) cfg frustum cameraPos maxDistance ds level) ->
  TileCoordinate.level c = level /\ TileCoordinate.datasetId c = ds.
Proof.
  unfold TerrainRenderer.levelTiles. cbv zeta. intros H.
  apply in_flat_map in H. destruct H as (y & _ & H).
  apply in_flat_map in H. destruct H as (x & _ & H).
  destruct (TerrainRenderer.keepTile _ _ _ _ _); [|contradiction].
  destruct H as [<-|[]]. split; reflexivity.
Qed.

Lemma levelLoop_member cfg frustum cameraPos maxDistance ds levels c :
  In c (TerrainRenderer.levelLoop (fl := fl) cfg frustum cameraPos maxDistance ds levels) ->
  In (TileCoordinate.level c) levels /\ TileCoordinate.datasetId c = ds.
Proof.
  induction levels as [|level levels IH]; cbn [TerrainRenderer.levelLoop]; [intros []|].
  destruct (flt fl maxDistance _); [intros []|]. intros H.
  apply in_app_or in H. destruct H as [H|H].
  - apply levelTiles_member in H. destruct H as [<- Hd]. split; [left; reflexivity|exact Hd].
  - destruct (IH H) as [Hl Hd]. split; [right; exact Hl|exact Hd].
Qed.

Lemma performCulling_member cfg camera frustum ds c :
  In c (TerrainRenderer.performCulling (fl := fl) cfg camera frustum ds) ->
  TileCoordinate.datasetId c = ds /\ 0 <= TileCoordinate.level c <= 7.
Proof.
  unfold TerrainRenderer.performCulling. cbv zeta. intros H.
  assert (S : In c (std_sort
                      (fun a b =>
                         flt fl
                           (length3 (vec3_sub (TerrainCamera.position camera)
                                       (TerrainBounds.center (TerrainRenderer.getTileBounds a))))
                           (length3 (vec3_sub (TerrainCamera.position camera)
                                       (TerrainBounds.center (TerrainRenderer.getTileBounds b)))))
                      (TerrainRenderer.candidateTiles cfg frustum
                         (TerrainCamera.position camera)
                         (TerrainRenderer.fmin (TerrainCamera.farPlane camera)
                            (TerrainRenderer.farDistance cfg)) ds))).
  { destruct (_ >? _); [apply (firstn_In _ _ _ H)|exact H]. }
  apply (Permutation_in _ (Permutation_sym (std_sort_perm _ _))) in S.
  unfold TerrainRenderer.candidateTiles in S. apply levelLoop_member in S.
  destruct S as [Hl Hd]. split; [exact Hd|].
  change (zrange 0 7) with [0; 1; 2; 3; 4; 5; 6; 7] in Hl.
  cbn [In] in Hl. lia.
Qed.

Lemma performCulling_length cfg camera frustum ds :
  0 <= TerrainRenderer.maxVisibleTiles cfg ->
  Z.of_nat (List.length (TerrainRenderer.performCulling (fl := fl) cfg camera frustum ds))
  <= TerrainRenderer.maxVisibleTiles cfg.
Proof.
  intros H. unfold TerrainRenderer.performCulling. cbv zeta.
  destruct (_ >? _) eqn:E.
  - rewrite length_firstn. lia.
  - rewrite Z.gtb_ltb in E. apply Z.ltb_ge in E. exact E.
Qed.

Lemma filter_length_le {A} (p : A -> bool) (l : list A) :
  (List.length (filter p l) <= List.length l)%nat.
Proof.
  induction l as [|a l IH]; cbn [filter List.length]; [apply Nat.le_refl|].
  destruct (p a); cbn [List.length]; [apply le_n_S, IH|apply Nat.le_le_succ_r, IH].
Qed.

End CullingPass.

(** One culling pass.  [performCulling] leaves the tiles alone; the tiles it
    makes visible are at most [maxVisibleTiles], belong to the active
    dataset, have a level from 0 to 7 and are [Ready] tiles of the map; the
    coordinates it queues for loading are added at the back of the queue,
    belong to the active dataset and have no tile in the map, so a tile that is in the
    map but not [Ready] is neither shown nor queued; and the culled count
    and the visible tiles add up to the candidates. *)
Theorem culling_pass_outcome :
  forall (fl : FloatOps) (r : TerrainRenderer.t fl) (camera : TerrainCamera.t fl)
         (frustum : Frustum.t fl),
    0 <= TerrainRenderer.maxVisibleTiles (TerrainRenderer.m_config r) < 2 ^ 32 ->
    let r' := snd (TerrainRenderer.performCullingFrame camera frustum r) in
    TerrainRenderer.m_tiles r' = TerrainRenderer.m_tiles r /\
    Z.of_nat (List.length (TerrainRenderer.visibleTiles r'))
    <= TerrainRenderer.maxVisibleTiles (TerrainRenderer.m_config r) /\
    (forall c, In c (TerrainRenderer.visibleTiles r') ->
       TileCoordinate.datasetId c = TerrainRenderer.m_activeDataset r /\
       0 <= TileCoordinate.level c <= 7 /\
       exists tile, TerrainRenderer.getTile c r = Some tile /\
                    TerrainTile.getState tile = Ready) /\
    (exists scheduled,
       TerrainRenderer.m_loadingQueue r' = TerrainRenderer.m_loadingQueue r ++ scheduled /\
       forall c, In c scheduled ->
         TileCoordinate.datasetId c = TerrainRenderer.m_activeDataset r /\
         TerrainRenderer.getTile c r = None) /\
    (TerrainRenderer.isEmptyString (TerrainRenderer.m_activeDataset r) = false ->
     TerrainRenderer.tilesCulled r'
     + Z.of_nat (List.length (TerrainRenderer.visibleTiles r'))
     = Z.of_nat (List.length
                   (TerrainRenderer.performCulling (TerrainRenderer.m_config r) camera
                      frustum (TerrainRenderer.m_activeDataset r)))).
Proof.
  intros fl r camera frustum Hmax r'. subst r'.
  unfold TerrainRenderer.performCullingFrame.
  cbn [TerrainRenderer.with_visibleTiles TerrainRenderer.m_activeDataset].
  destruct (TerrainRenderer.isEmptyString (TerrainRenderer.m_activeDataset r)) eqn:Ea.
  - cbn [snd TerrainRenderer.m_tiles TerrainRenderer.visibleTiles
         TerrainRenderer.m_loadingQueue List.length].
    split; [reflexivity|]. split; [cbn; lia|]. split; [intros c []|].
    split; [exists []; rewrite app_nil_r; split; [reflexivity|intros c []]|].
    intros H. discriminate H.
  - cbv zeta. rewrite getOrCreate_loop.
    destruct r as [cfg ini datasets active tiles queue visible culled].
    cbn [snd TerrainRenderer.with_datasets TerrainRenderer.with_visibleTiles
         TerrainRenderer.m_tiles TerrainRenderer.visibleTiles
         TerrainRenderer.m_loadingQueue TerrainRenderer.m_config
         TerrainRenderer.m_activeDataset TerrainRenderer.tilesCulled app] in *.
    set (candidates := TerrainRenderer.performCulling cfg camera frustum active).
    pose proof (performCulling_length cfg camera frustum active (proj1 Hmax)) as Hlen.
    fold candidates in Hlen.
    match goal with
    | |- context [List.length (filter ?f candidates)] => set (ready := f)
    end.
    pose proof (filter_length_le ready candidates) as Hf.
    split; [reflexivity|]. split; [lia|]. split; [|split].
    + intros c H. apply filter_In in H. destruct H as [Hc Hr].
      destruct (performCulling_member _ _ _ _ _ Hc) as [Hd Hl].
      split; [exact Hd|]. split; [exact Hl|].
      unfold ready in Hr. unfold TerrainRenderer.getTile.
      cbn [TerrainRenderer.m_tiles].
      destruct (TerrainTileManager.find c tiles) as [tile|];
        [|discriminate Hr].
      exists tile. split; [reflexivity|]. apply TileState_eqb_eq, Hr.
    + eexists. split; [reflexivity|]. intros c H.
      apply filter_In in H. destruct H as [Hc Hm].
      destruct (performCulling_member _ _ _ _ _ Hc) as [Hd _].
      split; [exact Hd|]. unfold TerrainRenderer.getTile.
      cbn [TerrainRenderer.m_tiles].
      destruct (TerrainTileManager.find c tiles);
        [discriminate Hm|reflexivity].
    + intros _. unfold wrap32, wrap64.
      change (2 ^ 64) with 18446744073709551616.
      change (2 ^ 32) with 4294967296 in *.
      rewrite (Z.mod_small _ 18446744073709551616) by lia.
      rewrite Z.mod_small by lia. lia.
Qed.

Lemma culling_pass_outcome_witness :
  Z.of_nat (List.length
              (TerrainRenderer.visibleTiles
                 (snd (TerrainRenderer.performCullingFrame sample_near_camera
                         (Frustum.mk [])
                         (TerrainRenderer.run sample_worker_ops TerrainRenderer.init)))))
  <= 256.
Proof.
  assert (C : TerrainRenderer.maxVisibleTiles
                (TerrainRenderer.m_config
                   (TerrainRenderer.run sample_worker_ops TerrainRenderer.init)) = 256).
  { unfold sample_worker_ops, TerrainRenderer.run. rewrite fold_left_app.
    cbn [fold_left TerrainRenderer.step].
    unfold TerrainRenderer.tileLoadingWorker.
    destruct (TerrainRenderer.m_loadingQueue _) as [|coord rest] eqn:Q; [reflexivity|].
    cbv zeta. destruct (TerrainTile.loadData _ _ _) as [r1 t1].
    destruct (is_success r1); [destruct (TerrainTile.uploadToGPU _ _) as [r2 t2]|];
      destruct (is_success _); reflexivity. }
  assert (H : 0 <= TerrainRenderer.maxVisibleTiles
                     (TerrainRenderer.m_config
                        (TerrainRenderer.run sample_worker_ops TerrainRenderer.init))
              < 2 ^ 32) by (rewrite C; lia).
  pose proof (proj1 (proj2 (culling_pass_outcome binary32
                              (TerrainRenderer.run sample_worker_ops TerrainRenderer.init)
                              sample_near_camera (Frustum.mk []) H))) as P.
  rewrite C in P. exact P.
Defined.

Section UploadKeepsAge.
Context {fl : FloatOps}.
Implicit Types tile : TerrainTile.t fl.




End UploadKeepsAge.

Section TileAgeing.
Context {fl : FloatOps}.
Implicit Types (r : TerrainRenderer.t fl) (tile : TerrainTile.t fl).







End TileAgeing.




Section UnloadDataset.
Context {fl : FloatOps}.
Implicit Types r : TerrainRenderer.t fl.

Lemma find_without_dataset id c (tiles : list (TileCoordinate.t * TerrainTile.t fl)) :
  TerrainTileManager.find c
    (filter (fun e => negb (String.eqb (TileCoordinate.datasetId (fst e)) id)) tiles)
  = if String.eqb (TileCoordinate.datasetId c) id then None
    else TerrainTileManager.find c tiles.
Proof.
  unfold TerrainTileManager.find.
  induction tiles as [|e tiles IH]; cbn [filter List.find].
  - destruct (String.eqb _ id); reflexivity.
  - destruct (TileCoordinate.eqb (fst e) c) eqn:Ec.
    + pose proof (proj1 (TileCoordinate_eqb_eq _ _) Ec) as Ec'.
      replace (TileCoordinate.datasetId (fst e)) with (TileCoordinate.datasetId c)
        by (rewrite Ec'; reflexivity).
      destruct (String.eqb (TileCoordinate.datasetId c) id) eqn:Ed; cbn [negb].
      * exact IH.
      * cbn [List.find]. rewrite Ec. reflexivity.
    + destruct (negb (String.eqb (TileCoordinate.datasetId (fst e)) id)).
      * cbn [List.find]. rewrite Ec. exact IH.
      * exact IH.
Qed.

Lemma findDataset_without id (datasets : list (string * TerrainRenderer.DatasetInfo fl)) :
  TerrainRenderer.findDataset id
    (filter (fun e => negb (String.eqb (fst e) id)) datasets) = None.
Proof.
  apply findDataset_None. intros I. apply in_map_iff in I.
  destruct I as (e & Ee & I). apply filter_In in I. destruct I as [_ N].
  rewrite Ee, String.eqb_refl in N. discriminate N.
Qed.

Lemma findDataset_snoc id d (datasets : list (string * TerrainRenderer.DatasetInfo fl)) :
  TerrainRenderer.findDataset id datasets = None ->
  TerrainRenderer.findDataset id (datasets ++ [(id, d)]) = Some d.
Proof.
  unfold TerrainRenderer.findDataset. intros H.
  induction datasets as [|e datasets IH]; cbn [app List.find fst].
  - rewrite String.eqb_refl. reflexivity.
  - cbn [List.find] in H. destruct (String.eqb (fst e) id); [discriminate H|].
    apply IH, H.
Qed.

Lemma unloadDataset_fields id r d :
  TerrainRenderer.findDataset id (TerrainRenderer.m_datasets r) = Some d ->
  TerrainRenderer.m_tiles (TerrainRenderer.unloadDataset id r)
  = filter (fun e => negb (String.eqb (TileCoordinate.datasetId (fst e)) id))
      (TerrainRenderer.m_tiles r) /\
  TerrainRenderer.m_datasets (TerrainRenderer.unloadDataset id r)
  = filter (fun e => negb (String.eqb (fst e) id)) (TerrainRenderer.m_datasets r) /\
  TerrainRenderer.m_loadingQueue (TerrainRenderer.unloadDataset id r)
  = TerrainRenderer.m_loadingQueue r.
Proof.
  intros H. unfold TerrainRenderer.unloadDataset. rewrite H. cbv zeta.
  cbn [TerrainRenderer.with_tiles TerrainRenderer.with_datasets
       TerrainRenderer.m_datasets TerrainRenderer.m_activeDataset].
  destruct (String.eqb (TerrainRenderer.m_activeDataset r) id); repeat split.
Qed.

End UnloadDataset.

(** Unloading a dataset.  [unloadDataset] of a loaded dataset removes the
    dataset and its tiles and leaves the tiles of the other datasets and the
    loading queue alone.  A coordinate of the unloaded dataset that is still
    queued is therefore loaded by the next turn of the worker (when every GPU
    call succeeds): its tile is in the map again, [Ready], and the dataset is
    back in the map as an empty entry. *)
Theorem unloadDataset_and_the_queue :
  forall (fl : FloatOps) (r : TerrainRenderer.t fl) (id : string),
    TerrainRenderer.findDataset id (TerrainRenderer.m_datasets r) <> None ->
    let r' := TerrainRenderer.unloadDataset id r in
    TerrainRenderer.findDataset id (TerrainRenderer.m_datasets r') = None /\
    (forall c, TileCoordinate.datasetId c = id -> TerrainRenderer.getTile c r' = None) /\
    (forall c, TileCoordinate.datasetId c <> id ->
               TerrainRenderer.getTile c r' = TerrainRenderer.getTile c r) /\
    TerrainRenderer.m_loadingQueue r' = TerrainRenderer.m_loadingQueue r /\
    (forall coord rest synth calls,
        TerrainRenderer.m_loadingQueue r = coord :: rest ->
        TileCoordinate.datasetId coord = id ->
        gpu_calls_succeed calls ->
        let r'' := TerrainRenderer.tileLoadingWorker synth calls r' in
        TerrainRenderer.findDataset id (TerrainRenderer.m_datasets r'')
        = Some TerrainRenderer.emptyDataset /\
        exists tile, TerrainRenderer.getTile coord r'' = Some tile /\
                     TerrainTile.getState tile = Ready).
Proof.
  intros fl r id H r'. subst r'.
  destruct (TerrainRenderer.findDataset id (TerrainRenderer.m_datasets r)) as [d|] eqn:E;
    [clear H|contradiction].
  destruct (unloadDataset_fields id r d E) as (Et & Ed & Eq).
  split; [rewrite Ed; apply findDataset_without|].
  split; [|split; [|split; [exact Eq|]]].
  - intros c Hc. unfold TerrainRenderer.getTile. rewrite Et, find_without_dataset.
    rewrite Hc, String.eqb_refl. reflexivity.
  - intros c Hc. unfold TerrainRenderer.getTile. rewrite Et, find_without_dataset.
    destruct (String.eqb (TileCoordinate.datasetId c) id) eqn:Ec; [|reflexivity].
    apply String.eqb_eq in Ec. contradiction.
  - intros coord rest synth calls Hq Hc Hg r''. subst r''.
    rewrite <- Eq in Hq.
    destruct (worker_stores_tile synth calls _ coord rest Hq Hg) as (tile & G & S & _).
    split; [|exists tile; split; [exact G|exact S]].
    destruct (tileLoadingWorker_datasets synth calls (TerrainRenderer.unloadDataset id r))
      as [_ D].
    rewrite D, Hq, Hc, Ed. unfold TerrainRenderer.subscript.
    rewrite findDataset_without. apply findDataset_snoc, findDataset_without.
Qed.

Lemma unloadDataset_and_the_queue_witness :
  TerrainRenderer.findDataset "terrain"
    (TerrainRenderer.m_datasets
       (TerrainRenderer.tileLoadingWorker sample_synth sample_gpu_calls
          (TerrainRenderer.unloadDataset "terrain"
             (TerrainRenderer.run sample_frame_ops TerrainRenderer.init))))
  = Some TerrainRenderer.emptyDataset.
Proof.
  assert (H : TerrainRenderer.findDataset "terrain"
                (TerrainRenderer.m_datasets
                   (TerrainRenderer.run sample_frame_ops TerrainRenderer.init)) <> None)
    by (intros E; apply findDataset_None in E; apply E; vm_compute; left; reflexivity).
  exact (proj1 (proj2 (proj2 (proj2 (proj2
           (unloadDataset_and_the_queue binary32
              (TerrainRenderer.run sample_frame_ops TerrainRenderer.init) "terrain" H))))
           sample_coord [] sample_synth sample_gpu_calls sample_frame_queue eq_refl
           sample_gpu_calls_succeed)).
Defined.

(** [destroy] clears the datasets and the tiles but keeps the name of the
    active dataset.  A renderer that is destroyed while a dataset is active
    and initialised again passes the test of [render] (initialised, active
    dataset not empty) with no dataset loaded, and its next culling pass
    makes an empty dataset entry under the old name. *)
Theorem destroy_keeps_the_active_dataset :
  forall (fl : FloatOps) (r : TerrainRenderer.t fl) (config : TerrainRenderer.Config fl)
         (camera : TerrainCamera.t fl) (frustum : Frustum.t fl),
    TerrainRenderer.m_initialized r = true ->
    TerrainRenderer.isEmptyString (TerrainRenderer.m_activeDataset r) = false ->
    let r' := snd (TerrainRenderer.initialize config VK_SUCCESS (TerrainRenderer.destroy r)) in
    TerrainRenderer.m_initialized r' = true /\
    TerrainRenderer.m_activeDataset r' = TerrainRenderer.m_activeDataset r /\
    TerrainRenderer.m_datasets r' = [] /\
    TerrainRenderer.m_tiles r' = [] /\
    TerrainRenderer.m_datasets (snd (TerrainRenderer.performCullingFrame camera frustum r'))
    = [(TerrainRenderer.m_activeDataset r, TerrainRenderer.emptyDataset)].
Proof.
  intros fl r config camera frustum Hi Ha r'. subst r'.
  unfold TerrainRenderer.destroy, TerrainRenderer.initialize. rewrite Hi.
  cbn [negb TerrainRenderer.m_initialized is_success snd TerrainRenderer.m_config
       TerrainRenderer.m_datasets TerrainRenderer.m_activeDataset TerrainRenderer.m_tiles
       TerrainRenderer.m_loadingQueue TerrainRenderer.visibleTiles
       TerrainRenderer.tilesCulled].
  repeat (split; [reflexivity|]).
  match goal with
  | |- TerrainRenderer.m_datasets (snd (TerrainRenderer.performCullingFrame _ _ ?x)) = _ =>
      destruct (performCullingFrame_fields camera frustum x) as (_ & _ & _ & _ & Ed)
  end.
  rewrite Ed. cbn [TerrainRenderer.m_activeDataset TerrainRenderer.m_datasets].
  rewrite Ha. reflexivity.
Qed.

Lemma destroy_keeps_the_active_dataset_witness :
  TerrainRenderer.m_datasets
    (snd (TerrainRenderer.initialize (sample_config false) VK_SUCCESS
            (TerrainRenderer.destroy
               (TerrainRenderer.run sample_frame_ops TerrainRenderer.init)))) = [].
Proof.
  exact (proj1 (proj2 (proj2
           (destroy_keeps_the_active_dataset binary32
              (TerrainRenderer.run sample_frame_ops TerrainRenderer.init)
              (sample_config false) sample_near_camera (Frustum.mk [])
              eq_refl eq_refl)))).
Defined.

(** ** The allocator object *)

Lemma TerrainMemoryType_eqb_eq (a b : TerrainMemoryType) :
  TerrainMemoryType_eqb a b = true <-> a = b.
Proof. destruct a, b; cbn; split; intros H; try reflexivity; discriminate H. Qed.

Section PoolTypes.

Lemma allocateBuffer_type size cp cb o p :
  TerrainMemoryPool.m_type (snd (fst (TerrainMemoryPool.allocateBuffer size cp cb o p)))
  = TerrainMemoryPool.m_type p.
Proof.
  unfold TerrainMemoryPool.allocateBuffer, TerrainMemoryPool.createPool.
  destruct cp as [r h], cb as [[rb hb] ha].
  destruct (is_null (TerrainMemoryPool.m_vmaPool p)).
  - destruct r; cbn [negb is_success]; try reflexivity.
    destruct (negb (TerrainMemoryPool.canAllocate _ _ _)); [reflexivity|].
    destruct (negb (is_success rb)); reflexivity.
  - cbn [negb is_success].
    destruct (negb (TerrainMemoryPool.canAllocate _ _ _)); [reflexivity|].
    destruct (negb (is_success rb)); reflexivity.
Qed.

Lemma allocateImage_type cp ci o p :
  TerrainMemoryPool.m_type (snd (fst (TerrainMemoryPool.allocateImage cp ci o p)))
  = TerrainMemoryPool.m_type p.
Proof.
  unfold TerrainMemoryPool.allocateImage, TerrainMemoryPool.createPool.
  destruct cp as [r h], ci as [[[[ri ii] ai] si] li].
  destruct (is_null (TerrainMemoryPool.m_vmaPool p)).
  - destruct r; cbn [negb is_success]; try reflexivity;
      destruct (negb (is_success ri)); reflexivity.
  - cbn [negb is_success]. destruct (negb (is_success ri)); reflexivity.
Qed.

Lemma deallocate_type a p :
  TerrainMemoryPool.m_type (TerrainMemoryPool.deallocate a p) = TerrainMemoryPool.m_type p.
Proof.
  unfold TerrainMemoryPool.deallocate. destruct a as [a|]; [|reflexivity].
  destruct (negb (TerrainMemoryAllocation.isValid a)); reflexivity.
Qed.

Lemma defragment_type expired elapsed maxTime p :
  TerrainMemoryPool.m_type (snd (TerrainMemoryPool.defragment expired elapsed maxTime p))
  = TerrainMemoryPool.m_type p.
Proof.
  unfold TerrainMemoryPool.defragment.
  destruct (negb _); [reflexivity|]. destruct (elapsed >? maxTime); reflexivity.
Qed.

End PoolTypes.

Ltac unchanged_fields :=
  repeat (split; [reflexivity|]); split; intros H; exact H.

Section AllocatorFacts.
Context {fl : FloatOps}.
Implicit Types a : Allocator.t fl.

Let keyed (pools : list (TerrainMemoryType * TerrainMemoryPool.t)) : Prop :=
  NoDup (map fst pools) /\ Forall (fun e => TerrainMemoryPool.m_type (snd e) = fst e) pools.

Lemma keyed_assign type pool pools :
  keyed pools -> TerrainMemoryPool.m_type pool = type ->
  keyed (assign TerrainMemoryType_eqb type pool pools).
Proof.
  intros [N A] H. split.
  - apply (assign_NoDup TerrainMemoryType_eqb TerrainMemoryType_eqb_eq), N.
  - apply Forall_forall. intros e I.
    apply (assign_entries TerrainMemoryType_eqb TerrainMemoryType_eqb_eq) in I.
    destruct I as [->|I]; [exact H|]. apply (proj1 (Forall_forall _ _) A e I).
Qed.

Lemma keyed_map (g : TerrainMemoryPool.t -> TerrainMemoryPool.t) pools :
  (forall p, TerrainMemoryPool.m_type (g p) = TerrainMemoryPool.m_type p) ->
  keyed pools -> keyed (map (fun e => (fst e, g (snd e))) pools).
Proof.
  intros Hg [N A]. split.
  - rewrite map_map. cbn [fst]. exact N.
  - apply Forall_map. eapply Forall_impl; [|exact A]. cbn beta. intros e H.
    cbn [fst snd]. rewrite Hg. exact H.
Qed.

Lemma defragmentPools_keys clock timePerPool maxTimeMs pools :
  map fst (Allocator.defragmentPools clock timePerPool maxTimeMs pools) = map fst pools /\
  (Forall (fun e => TerrainMemoryPool.m_type (snd e) = fst e) pools ->
   Forall (fun e => TerrainMemoryPool.m_type (snd e) = fst e)
          (Allocator.defragmentPools clock timePerPool maxTimeMs pools)).
Proof.
  induction pools as [|e pools [IHk IHt]]; cbn [Allocator.defragmentPools];
    [split; [reflexivity|intros H; exact H]|].
  pose proof (defragment_type (Allocator.expired clock) (Allocator.defragmentMs clock (fst e))
                timePerPool (snd e)) as T.
  destruct (TerrainMemoryPool.defragment _ _ _ (snd e)) as [result pool]. cbn [snd] in T.
  assert (Stop : map fst ((fst e, pool) :: pools) = map fst (e :: pools) /\
                 (Forall (fun e => TerrainMemoryPool.m_type (snd e) = fst e) (e :: pools) ->
                  Forall (fun e => TerrainMemoryPool.m_type (snd e) = fst e)
                         ((fst e, pool) :: pools))).
  { split; [reflexivity|]. intros H. inversion H as [|? ? He Hp]; subst.
    constructor; [cbn [fst snd]; rewrite T; exact He|exact Hp]. }
  assert (Go : map fst ((fst e, pool)
                          :: Allocator.defragmentPools clock timePerPool maxTimeMs pools)
               = map fst (e :: pools) /\
               (Forall (fun e => TerrainMemoryPool.m_type (snd e) = fst e) (e :: pools) ->
                Forall (fun e => TerrainMemoryPool.m_type (snd e) = fst e)
                       ((fst e, pool)
                          :: Allocator.defragmentPools clock timePerPool maxTimeMs pools))).
  { split; [cbn [map fst]; rewrite IHk; reflexivity|].
    intros H. inversion H as [|? ? He Hp]; subst.
    constructor; [cbn [fst snd]; rewrite T; exact He|apply IHt, Hp]. }
  destruct result; try (destruct (_ >? _); [exact Stop|exact Go]). exact Stop.
Qed.

Lemma getPool_keyed type a pool :
  Forall (fun e => TerrainMemoryPool.m_type (snd e) = fst e) (Allocator.m_pools a) ->
  Allocator.getPool type a = Some pool -> TerrainMemoryPool.m_type pool = type.
Proof.
  unfold Allocator.getPool. intros A H.
  destruct (List.find _ _) as [e|] eqn:E; [|discriminate H]. injection H as <-.
  apply find_some in E. destruct E as [I E]. apply TerrainMemoryType_eqb_eq in E.
  rewrite (proj1 (Forall_forall _ _) A e I). exact E.
Qed.

(** The maintenance calls keep the keys and the types of the pools. *)
Lemma garbageCollect_fields clock a :
  Allocator.m_initialized (Allocator.garbageCollect clock a) = Allocator.m_initialized a /\
  Allocator.m_config (Allocator.garbageCollect clock a) = Allocator.m_config a /\
  Allocator.m_backgroundThreadRunning (Allocator.garbageCollect clock a)
  = Allocator.m_backgroundThreadRunning a /\
  (keyed (Allocator.m_pools a) -> keyed (Allocator.m_pools (Allocator.garbageCollect clock a))) /\
  (Allocator.m_pools a = [] -> Allocator.m_pools (Allocator.garbageCollect clock a) = []).
Proof.
  unfold Allocator.garbageCollect, Allocator.updateGlobalStats, Allocator.with_pools.
  cbn [Allocator.m_initialized Allocator.m_config Allocator.m_pools
       Allocator.m_backgroundThreadRunning].
  repeat split.
  - apply (keyed_map (TerrainMemoryPool.cleanup (Allocator.expired clock)));
      [reflexivity|apply H].
  - apply (keyed_map (TerrainMemoryPool.cleanup (Allocator.expired clock)));
      [reflexivity|apply H].
  - intros ->. reflexivity.
Qed.

Lemma defragment_fields clock maxTimeMs a :
  let a' := snd (Allocator.defragment clock maxTimeMs a) in
  Allocator.m_initialized a' = Allocator.m_initialized a /\
  Allocator.m_config a' = Allocator.m_config a /\
  Allocator.m_backgroundThreadRunning a' = Allocator.m_backgroundThreadRunning a /\
  (keyed (Allocator.m_pools a) -> keyed (Allocator.m_pools a')) /\
  (Allocator.m_pools a = [] -> Allocator.m_pools a' = []).
Proof.
  unfold Allocator.defragment.
  destruct (negb (Allocator.enableAutoDefragmentation (Allocator.m_config a)));
    cbv zeta; cbn [snd]; [unchanged_fields|].
  unfold Allocator.updateGlobalStats, Allocator.with_pools.
  cbn [Allocator.m_initialized Allocator.m_config Allocator.m_pools
       Allocator.m_backgroundThreadRunning].
  split; [reflexivity|]. split; [reflexivity|]. split; [reflexivity|]. split.
  - intros [N A].
    destruct (defragmentPools_keys clock
                (maxTimeMs / Z.max 1 (Z.of_nat (List.length (Allocator.m_pools a))))
                maxTimeMs (Allocator.m_pools a)) as [K T].
    split; [rewrite K; exact N|apply T, A].
  - intros ->. reflexivity.
Qed.

Lemma checkMemoryPressure_fields clock a :
  let a' := Allocator.checkMemoryPressure clock a in
  Allocator.m_initialized a' = Allocator.m_initialized a /\
  Allocator.m_config a' = Allocator.m_config a /\
  Allocator.m_backgroundThreadRunning a' = Allocator.m_backgroundThreadRunning a /\
  (keyed (Allocator.m_pools a) -> keyed (Allocator.m_pools a')) /\
  (Allocator.m_pools a = [] -> Allocator.m_pools a' = []).
Proof.
  unfold Allocator.checkMemoryPressure. cbv zeta.
  destruct (flt fl _ _); [|unchanged_fields].
  unfold Allocator.handleMemoryPressure.
  destruct (garbageCollect_fields clock a) as (I1 & C1 & B1 & K1 & E1).
  destruct (defragment_fields clock 50 (Allocator.garbageCollect clock a))
    as (I2 & C2 & B2 & K2 & E2). cbv zeta in *.
  rewrite I2, C2, B2, I1, C1, B1.
  repeat (split; [reflexivity|]). split; intros H; [apply K2, K1, H|apply E2, E1, H].
Qed.

Lemma updateGlobalStats_fields a :
  Allocator.m_initialized (Allocator.updateGlobalStats a) = Allocator.m_initialized a /\
  Allocator.m_config (Allocator.updateGlobalStats a) = Allocator.m_config a /\
  Allocator.m_backgroundThreadRunning (Allocator.updateGlobalStats a)
  = Allocator.m_backgroundThreadRunning a /\
  Allocator.m_pools (Allocator.updateGlobalStats a) = Allocator.m_pools a.
Proof. repeat split. Qed.

(** An allocation changes the pool of its type and nothing else. *)
Lemma allocate_fields (type : TerrainMemoryType) clock a pool
    (r : VkResult * TerrainMemoryPool.t * option TerrainMemoryAllocation.t) :
  TerrainMemoryPool.m_type (snd (fst r)) = TerrainMemoryPool.m_type pool ->
  Allocator.getPool type a = Some pool ->
  let a' :=
    snd (fst (let '(result, pool, allocation) := r in
              let a := Allocator.with_pools
                         (assign TerrainMemoryType_eqb type pool (Allocator.m_pools a)) a in
              if negb (is_success result) then (result, a, allocation)
              else (result,
                    Allocator.checkMemoryPressure clock (Allocator.updateGlobalStats a),
                    allocation))) in
  Allocator.m_initialized a' = Allocator.m_initialized a /\
  (keyed (Allocator.m_pools a) -> keyed (Allocator.m_pools a')).
Proof.
  destruct r as [[result pool'] allocation]. cbn [fst snd]. intros T G. cbv zeta.
  set (a1 := Allocator.with_pools _ a).
  assert (K1 : keyed (Allocator.m_pools a) -> keyed (Allocator.m_pools a1)).
  { intros K. apply keyed_assign; [exact K|]. rewrite T.
    apply (getPool_keyed type a pool (proj2 K) G). }
  destruct (negb (is_success result)); cbn [fst snd]; [split; [reflexivity|exact K1]|].
  destruct (checkMemoryPressure_fields clock (Allocator.updateGlobalStats a1))
    as (I & _ & _ & K & _). cbv zeta in *.
  rewrite I. split; [reflexivity|]. intros H. apply K, K1, H.
Qed.

Lemma findTypeConfig_key type (config : Allocator.Config fl) :
  In type (map fst (Allocator.typeConfigs config)) ->
  Allocator.findTypeConfig type config <> None.
Proof.
  unfold Allocator.findTypeConfig. intros I E.
  destruct (List.find _ _) as [e|] eqn:F; [discriminate E|].
  apply (proj1 (lookup_None_key TerrainMemoryType_eqb TerrainMemoryType_eqb_eq type
                  (Allocator.typeConfigs config)) F I).
Qed.

Lemma createPool_fields type a :
  Allocator.findTypeConfig type (Allocator.m_config a) <> None ->
  keyed (Allocator.m_pools a) ->
  fst (Allocator.createPool type a) = VK_SUCCESS /\
  Allocator.m_config (snd (Allocator.createPool type a)) = Allocator.m_config a /\
  Allocator.m_initialized (snd (Allocator.createPool type a)) = Allocator.m_initialized a /\
  keyed (Allocator.m_pools (snd (Allocator.createPool type a))).
Proof.
  unfold Allocator.createPool. intros H K.
  destruct (Allocator.findTypeConfig type (Allocator.m_config a)) as [tc|];
    [|contradiction].
  cbn [fst snd Allocator.with_pools Allocator.m_config Allocator.m_initialized
       Allocator.m_pools].
  repeat (split; [reflexivity|]). apply keyed_assign; [exact K|reflexivity].
Qed.

Lemma createPools_fields types : forall a,
  (forall type, In type types ->
                Allocator.findTypeConfig type (Allocator.m_config a) <> None) ->
  keyed (Allocator.m_pools a) ->
  fst (Allocator.createPools types a) = VK_SUCCESS /\
  Allocator.m_config (snd (Allocator.createPools types a)) = Allocator.m_config a /\
  Allocator.m_initialized (snd (Allocator.createPools types a))
  = Allocator.m_initialized a /\
  keyed (Allocator.m_pools (snd (Allocator.createPools types a))).
Proof.
  induction types as [|type types IH]; intros a H K; cbn [Allocator.createPools].
  - repeat (split; [reflexivity|]). exact K.
  - destruct (createPool_fields type a (H type (or_introl eq_refl)) K) as (R & C & I & K').
    destruct (Allocator.createPool type a) as [result a1]. cbn [fst snd] in R, C, I, K'.
    subst result. cbn [is_success negb].
    destruct (IH a1) as (R2 & C2 & I2 & K2).
    + intros t It. rewrite C. apply H. right. exact It.
    + exact K'.
    + rewrite C2, I2, C, I. repeat (split; [assumption || reflexivity|]). exact K2.
Qed.

(** [initialize] never takes the failing branch of its loop: every key of
    [config.typeConfigs] is found in the copy of the configuration. *)
Lemma initialize_fields config a :
  Allocator.m_initialized a = false -> Allocator.m_pools a = [] ->
  fst (Allocator.initialize config a) = VK_SUCCESS /\
  Allocator.m_initialized (snd (Allocator.initialize config a)) = true /\
  Allocator.m_config (snd (Allocator.initialize config a)) = config /\
  keyed (Allocator.m_pools (snd (Allocator.initialize config a))).
Proof.
  intros Hi Hp. unfold Allocator.initialize. rewrite Hi. cbv zeta.
  match goal with
  | |- context [Allocator.createPools ?ts ?x] =>
      destruct (createPools_fields ts x) as (R & C & I & K);
      [intros type It; apply findTypeConfig_key, It
      |cbn [Allocator.m_pools]; rewrite Hp; split; constructor|];
      destruct (Allocator.createPools ts x) as [result a1]
  end.
  cbn [fst snd Allocator.m_config] in R, C, I, K. subst result.
  cbn [is_success negb fst snd Allocator.m_initialized Allocator.m_config
       Allocator.m_pools].
  repeat (split; [assumption || reflexivity|]). exact K.
Qed.

Lemma step_allocator_ok (op : Allocator.Op fl) a :
  allocator_ok a -> allocator_ok (Allocator.step a op).
Proof.
  unfold allocator_ok. intros (E & N & A).
  assert (K : keyed (Allocator.m_pools a)) by (split; assumption).
  destruct op; cbn [Allocator.step].
  - destruct (Allocator.m_initialized a) eqn:Hi.
    + unfold Allocator.initialize. rewrite Hi. cbn [snd]. rewrite Hi.
      split; [intros H; discriminate H|split; assumption].
    + destruct (initialize_fields config a Hi (E eq_refl)) as (_ & I & _ & [N' A']).
      rewrite I. split; [intros H; discriminate H|split; assumption].
  - unfold Allocator.destroy. destruct (Allocator.m_initialized a) eqn:Hi; cbn [negb].
    + cbn [Allocator.m_initialized Allocator.m_pools].
      split; [reflexivity|split; constructor].
    + rewrite Hi. split; [exact E|split; assumption].
  - unfold Allocator.allocateBuffer.
    destruct (Allocator.getPool type a) as [pool|] eqn:G;
      [|cbn [fst snd]; split; [exact E|split; assumption]].
    destruct (allocate_fields type clock a pool
                (TerrainMemoryPool.allocateBuffer size vmaCreatePool vmaCreateBuffer
                   object pool) (allocateBuffer_type _ _ _ _ _) G) as [I K'].
    cbv zeta in I, K'. rewrite I. destruct (K' K) as [N' A'].
    split; [|split; assumption].
    intros Hi. specialize (E Hi). unfold Allocator.getPool in G. rewrite E in G.
    discriminate G.
  - unfold Allocator.allocateImage.
    destruct (Allocator.getPool type a) as [pool|] eqn:G;
      [|cbn [fst snd]; split; [exact E|split; assumption]].
    destruct (allocate_fields type clock a pool
                (TerrainMemoryPool.allocateImage vmaCreatePool vmaCreateImage object pool)
                (allocateImage_type _ _ _ _) G) as [I K'].
    cbv zeta in I, K'. rewrite I. destruct (K' K) as [N' A'].
    split; [|split; assumption].
    intros Hi. specialize (E Hi). unfold Allocator.getPool in G. rewrite E in G.
    discriminate G.
  - unfold Allocator.deallocate. destruct allocation as [alloc|];
      [|split; [exact E|split; assumption]].
    destruct (Allocator.getPool (TerrainMemoryAllocation.type alloc) a) as [pool|] eqn:G;
      [|split; [exact E|split; assumption]].
    cbn [Allocator.updateGlobalStats Allocator.with_pools Allocator.m_initialized
         Allocator.m_pools].
    destruct (keyed_assign (TerrainMemoryAllocation.type alloc)
                (TerrainMemoryPool.deallocate (Some alloc) pool) (Allocator.m_pools a) K)
      as [N' A'].
    { rewrite deallocate_type. apply (getPool_keyed _ a pool A G). }
    split; [|split; assumption].
    intros Hi. specialize (E Hi). unfold Allocator.getPool in G. rewrite E in G.
    discriminate G.
  - destruct (garbageCollect_fields clock a) as (I & _ & _ & K' & E').
    rewrite I. destruct (K' K) as [N' A']. split; [|split; assumption].
    intros Hi. apply E', E, Hi.
  - destruct (defragment_fields clock maxTimeMs a) as (I & _ & _ & K' & E').
    cbv zeta in *. rewrite I. destruct (K' K) as [N' A']. split; [|split; assumption].
    intros Hi. apply E', E, Hi.
  - cbn [Allocator.updateConfig Allocator.m_initialized Allocator.m_pools].
    split; [exact E|split; assumption].
  - unfold Allocator.backgroundWorker.
    destruct (negb (Allocator.m_backgroundThreadRunning a));
      [split; [exact E|split; assumption]|].
    cbv zeta.
    destruct (garbageCollect_fields clock a) as (I1 & _ & _ & K1 & E1).
    set (a1 := Allocator.garbageCollect clock a) in *.
    assert (S2 : exists a2,
               (if timeSinceDefrag >? 5
                then if flt fl (Allocator.defragmentationThreshold (Allocator.m_config a1))
                          (TerrainMemoryAllocator.fragmentation (Allocator.m_stats a1))
                     then snd (Allocator.defragment clock
                                 (Allocator.maxDefragmentationTime (Allocator.m_config a1)) a1)
                     else a1
                else a1) = a2 /\
               Allocator.m_initialized a2 = Allocator.m_initialized a1 /\
               (keyed (Allocator.m_pools a1) -> keyed (Allocator.m_pools a2)) /\
               (Allocator.m_pools a1 = [] -> Allocator.m_pools a2 = [])).
    { destruct (defragment_fields clock
                  (Allocator.maxDefragmentationTime (Allocator.m_config a1)) a1)
        as (I2 & _ & _ & K2 & E2). cbv zeta in *.
      eexists. split; [reflexivity|].
      destruct (timeSinceDefrag >? 5); [destruct (flt fl _ _)|];
        (split; [assumption || reflexivity|]);
        (split; [assumption || (intros H; exact H)|assumption || (intros H; exact H)]). }
    destruct S2 as (a2 & -> & I2 & K2 & E2).
    destruct (checkMemoryPressure_fields clock a2) as (I3 & _ & _ & K3 & E3).
    cbv zeta in *. rewrite I3, I2, I1. destruct (K3 (K2 (K1 K))) as [N' A'].
    split; [|split; assumption].
    intros Hi. apply E3, E2, E1, E, Hi.
Qed.

Lemma run_allocator_ok (ops : list (Allocator.Op fl)) : forall a,
  allocator_ok a -> allocator_ok (Allocator.run ops a).
Proof.
  unfold Allocator.run. induction ops as [|op ops IH]; intros a H; [exact H|].
  cbn [fold_left]. apply IH, step_allocator_ok, H.
Qed.

End AllocatorFacts.

Section AllocatorLookup.
Context {fl : FloatOps}.
Implicit Types a : Allocator.t fl.

Let mkpool (e : TerrainMemoryType * TerrainMemoryConfig.TypeConfig) :=
  (fst e, TerrainMemoryPool.create (fst e) (snd e)).

Lemma assign_fresh {V : Type} (type : TerrainMemoryType) (v : V)
    (m : list (TerrainMemoryType * V)) :
  ~ In type (map fst m) -> assign TerrainMemoryType_eqb type v m = m ++ [(type, v)].
Proof.
  induction m as [|e m IH]; cbn [assign map app]; intros N; [reflexivity|].
  destruct (TerrainMemoryType_eqb (fst e) type) eqn:E.
  - apply TerrainMemoryType_eqb_eq in E. exfalso. apply N. left. exact E.
  - rewrite IH; [reflexivity|]. intros I. apply N. right. exact I.
Qed.

Lemma find_first_of_key {V : Type} (done : list (TerrainMemoryType * V)) e rest :
  ~ In (fst e) (map fst done) ->
  List.find (fun x => TerrainMemoryType_eqb (fst x) (fst e)) (done ++ e :: rest) = Some e.
Proof.
  induction done as [|d done IH]; cbn [app List.find map]; intros N.
  - rewrite (proj2 (TerrainMemoryType_eqb_eq _ _) eq_refl). reflexivity.
  - destruct (TerrainMemoryType_eqb (fst d) (fst e)) eqn:E.
    + apply TerrainMemoryType_eqb_eq in E. exfalso. apply N. left. exact E.
    + apply IH. intros I. apply N. right. exact I.
Qed.

(** The pools that the loop of [initialize] makes, one per configured type. *)
Lemma createPools_all (todo : list (TerrainMemoryType * TerrainMemoryConfig.TypeConfig)) :
  forall done a,
    Allocator.typeConfigs (Allocator.m_config a) = done ++ todo ->
    NoDup (map fst (done ++ todo)) ->
    Allocator.m_pools a = map mkpool done ->
    Allocator.createPools (map fst todo) a
    = (VK_SUCCESS, Allocator.with_pools (map mkpool (done ++ todo)) a).
Proof.
  induction todo as [|e todo IH]; intros done a C N P; cbn [map Allocator.createPools].
  - rewrite app_nil_r, <- P. destruct a; reflexivity.
  - assert (Nk : ~ In (fst e) (map fst done)).
    { rewrite map_app in N. cbn [map] in N. apply NoDup_remove_2 in N.
      intros I. apply N. apply in_or_app. left. exact I. }
    unfold Allocator.createPool, Allocator.findTypeConfig. rewrite C.
    rewrite (find_first_of_key done e todo Nk). cbn [is_success negb].
    rewrite P, assign_fresh by (rewrite map_map; exact Nk).
    rewrite (IH (done ++ [e])).
    + rewrite <- app_assoc. reflexivity.
    + cbn [Allocator.with_pools Allocator.m_config]. rewrite <- app_assoc. exact C.
    + rewrite <- app_assoc. exact N.
    + cbn [Allocator.with_pools Allocator.m_pools]. rewrite map_app. reflexivity.
Qed.

Lemma find_mkpool type (configs : list (TerrainMemoryType * TerrainMemoryConfig.TypeConfig)) :
  match List.find (fun e => TerrainMemoryType_eqb (fst e) type) (map mkpool configs) with
  | Some e => Some (snd e)
  | None => None
  end
  = option_map (TerrainMemoryPool.create type)
      (match List.find (fun e => TerrainMemoryType_eqb (fst e) type) configs with
       | Some e => Some (snd e)
       | None => None
       end).
Proof.
  induction configs as [|e configs IH]; [reflexivity|].
  cbn [map List.find mkpool fst]. fold mkpool.
  destruct (TerrainMemoryType_eqb (fst e) type) eqn:E; [|exact IH].
  apply TerrainMemoryType_eqb_eq in E. unfold mkpool. cbn [snd option_map].
  rewrite E. reflexivity.
Qed.

(** Maintenance keeps the accounting of every pool. *)
Let same_accounts (p q : TerrainMemoryPool.t) : Prop :=
  TerrainMemoryPool.m_usedSize q = TerrainMemoryPool.m_usedSize p /\
  TerrainMemoryPool.m_activeAllocations q = TerrainMemoryPool.m_activeAllocations p /\
  TerrainMemoryPool.m_totalSize q = TerrainMemoryPool.m_totalSize p.

Let pool_of (type : TerrainMemoryType) (pools : list (TerrainMemoryType * TerrainMemoryPool.t)) :=
  match List.find (fun e => TerrainMemoryType_eqb (fst e) type) pools with
  | Some e => Some (snd e)
  | None => None
  end.

Lemma pool_of_map type (g : TerrainMemoryPool.t -> TerrainMemoryPool.t) pools p :
  pool_of type pools = Some p ->
  pool_of type (map (fun e => (fst e, g (snd e))) pools) = Some (g p).
Proof.
  unfold pool_of. induction pools as [|e pools IH]; cbn [map List.find fst];
    [intros H; discriminate H|].
  destruct (TerrainMemoryType_eqb (fst e) type); [|exact IH].
  intros H. injection H as <-. reflexivity.
Qed.

Lemma defragment_accounts expired elapsed maxTime p :
  same_accounts p (snd (TerrainMemoryPool.defragment expired elapsed maxTime p)).
Proof.
  unfold TerrainMemoryPool.defragment, same_accounts.
  destruct (negb _); [repeat split|]. destruct (elapsed >? maxTime); repeat split.
Qed.

Lemma pool_of_defragmentPools type clock timePerPool maxTimeMs pools p :
  pool_of type pools = Some p ->
  exists q, pool_of type (Allocator.defragmentPools clock timePerPool maxTimeMs pools)
            = Some q /\ same_accounts p q.
Proof.
  unfold pool_of. induction pools as [|e pools IH];
    cbn [Allocator.defragmentPools List.find]; [intros H; discriminate H|].
  pose proof (defragment_accounts (Allocator.expired clock)
                (Allocator.defragmentMs clock (fst e)) timePerPool (snd e)) as S.
  destruct (TerrainMemoryPool.defragment _ _ _ (snd e)) as [result pool]. cbn [snd] in S.
  intros H.
  assert (Stop : exists q,
             match List.find (fun x => TerrainMemoryType_eqb (fst x) type)
                     ((fst e, pool) :: pools) with
             | Some x => Some (snd x)
             | None => None
             end = Some q /\ same_accounts p q).
  { cbn [List.find fst]. destruct (TerrainMemoryType_eqb (fst e) type).
    - injection H as <-. exists pool. split; [reflexivity|exact S].
    - exists p. split; [exact H|repeat split]. }
  assert (Go : exists q,
             match List.find (fun x => TerrainMemoryType_eqb (fst x) type)
                     ((fst e, pool)
                        :: Allocator.defragmentPools clock timePerPool maxTimeMs pools) with
             | Some x => Some (snd x)
             | None => None
             end = Some q /\ same_accounts p q).
  { cbn [List.find fst]. destruct (TerrainMemoryType_eqb (fst e) type).
    - injection H as <-. exists pool. split; [reflexivity|exact S].
    - apply IH, H. }
  destruct result; try (destruct (_ >? _); [exact Stop|exact Go]). exact Stop.
Qed.

Lemma checkMemoryPressure_accounts type clock a p :
  Allocator.getPool type a = Some p ->
  exists q, Allocator.getPool type (Allocator.checkMemoryPressure clock a) = Some q /\
            same_accounts p q.
Proof.
  intros G. unfold Allocator.checkMemoryPressure. cbv zeta.
  destruct (flt fl _ _); [|exists p; split; [exact G|repeat split]].
  unfold Allocator.handleMemoryPressure, Allocator.defragment.
  assert (G1 : Allocator.getPool type (Allocator.garbageCollect clock a)
               = Some (TerrainMemoryPool.cleanup (Allocator.expired clock) p)).
  { unfold Allocator.getPool, Allocator.garbageCollect, Allocator.updateGlobalStats,
      Allocator.with_pools. cbn [Allocator.m_pools].
    apply (pool_of_map type (TerrainMemoryPool.cleanup (Allocator.expired clock))), G. }
  set (a1 := Allocator.garbageCollect clock a) in *.
  destruct (negb (Allocator.enableAutoDefragmentation (Allocator.m_config a1)));
    cbn [snd].
  - eexists. split; [exact G1|repeat split].
  - unfold Allocator.getPool, Allocator.updateGlobalStats, Allocator.with_pools.
    cbn [Allocator.m_pools].
    destruct (pool_of_defragmentPools type clock
                (50 / Z.max 1 (Z.of_nat (List.length (Allocator.m_pools a1)))) 50
                (Allocator.m_pools a1) _ G1) as (q & Gq & U & A & T).
    exists q. split; [exact Gq|]. cbn in U, A, T. repeat split; assumption.
Qed.

End AllocatorLookup.

(** The life cycle of the allocator.  After any sequence of calls on a new
    allocator: a pool is stored under its own memory type; while the
    allocator is not initialised it has no pool, and every allocation is
    refused with [VK_ERROR_OUT_OF_DEVICE_MEMORY] and changes nothing; an
    initialised allocator refuses a second [initialize]; and [initialize] of
    an uninitialised one succeeds and leaves exactly one new, empty pool for
    each configured memory type. *)
Theorem allocator_life_cycle :
  forall (fl : FloatOps) (ops : list (Allocator.Op fl)),
    let a := Allocator.run ops Allocator.init in
    (forall type pool,
        Allocator.getPool type a = Some pool -> TerrainMemoryPool.m_type pool = type) /\
    (Allocator.m_initialized a = false ->
     forall type size cp cb ci o clock,
       Allocator.getPool type a = None /\
       Allocator.allocateBuffer type size cp cb o clock a
       = (VK_ERROR_OUT_OF_DEVICE_MEMORY, a, None) /\
       Allocator.allocateImage type cp ci o clock a
       = (VK_ERROR_OUT_OF_DEVICE_MEMORY, a, None)) /\
    (Allocator.m_initialized a = true ->
     forall config,
       Allocator.initialize config a = (VK_ERROR_INITIALIZATION_FAILED, a)) /\
    (Allocator.m_initialized a = false ->
     forall config type,
       NoDup (map fst (Allocator.typeConfigs config)) ->
       fst (Allocator.initialize config a) = VK_SUCCESS /\
       Allocator.m_initialized (snd (Allocator.initialize config a)) = true /\
       Allocator.getPool type (snd (Allocator.initialize config a))
       = option_map (TerrainMemoryPool.create type) (Allocator.findTypeConfig type config)).
Proof.
  intros fl ops a.
  assert (H : allocator_ok a).
  { apply run_allocator_ok. split; [reflexivity|split; constructor]. }
  destruct H as (E & N & A). split; [|split; [|split]].
  - intros type pool G. apply (getPool_keyed type a pool A G).
  - intros Hi type size cp cb ci o clock.
    assert (G : Allocator.getPool type a = None)
      by (unfold Allocator.getPool; rewrite (E Hi); reflexivity).
    unfold Allocator.allocateBuffer, Allocator.allocateImage. rewrite G.
    repeat split.
  - intros Hi config. unfold Allocator.initialize. rewrite Hi. reflexivity.
  - intros Hi config type Nc.
    unfold Allocator.initialize. rewrite Hi. cbv zeta.
    rewrite (createPools_all (Allocator.typeConfigs config) []);
      [|reflexivity|exact Nc|cbn [Allocator.m_pools map]; apply E, Hi].
    cbn [is_success negb fst snd Allocator.m_initialized].
    split; [reflexivity|]. split; [reflexivity|].
    unfold Allocator.getPool, Allocator.findTypeConfig.
    cbn [Allocator.with_pools Allocator.m_pools app].
    apply find_mkpool.
Qed.

Lemma allocator_life_cycle_witness :
  Allocator.getPool HeightTexture
    (snd (Allocator.initialize Allocator.defaultConfig
            (Allocator.run [Allocator.OpDestroy] (Allocator.init (fl := binary32)))))
  = Some (TerrainMemoryPool.create HeightTexture
            (TerrainMemoryConfig.typeConfigs HeightTexture)).
Proof.
  refine (proj2 (proj2
            (proj2 (proj2 (proj2 (allocator_life_cycle binary32 [Allocator.OpDestroy])))
               eq_refl Allocator.defaultConfig HeightTexture _))).
  cbn. repeat constructor; cbn; intuition discriminate.
Defined.

Lemma allocateBuffer_success_type size cp cb o p p' a :
  TerrainMemoryPool.allocateBuffer size cp cb o p = (VK_SUCCESS, p', Some a) ->
  TerrainMemoryAllocation.type a = TerrainMemoryPool.m_type p.
Proof.
  unfold TerrainMemoryPool.allocateBuffer, TerrainMemoryPool.createPool.
  destruct cp as [r h], cb as [[rb hb] ha].
  destruct (is_null (TerrainMemoryPool.m_vmaPool p)).
  - destruct r; cbn [is_success negb]; try (intros H; discriminate H).
    destruct (negb (TerrainMemoryPool.canAllocate _ _ _)); [intros H; discriminate H|].
    destruct rb; cbn [is_success negb]; try (intros H; discriminate H).
    intros H. injection H as _ <-. reflexivity.
  - cbn [is_success negb].
    destruct (negb (TerrainMemoryPool.canAllocate _ _ _)); [intros H; discriminate H|].
    destruct rb; cbn [is_success negb]; try (intros H; discriminate H).
    intros H. injection H as _ <-. reflexivity.
Qed.

(** Allocation and release through the allocator.  After any sequence of
    calls, a buffer allocation that succeeds comes from the pool of the
    requested type, carries that type, and adds its size to the used size of
    that pool, also when the allocation triggers the memory-pressure
    clean-up; and [deallocate] of it finds the same pool and, for handles
    that are not null, brings its used size and allocation count back. *)
Theorem allocator_allocate_then_deallocate :
  forall (fl : FloatOps) (ops : list (Allocator.Op fl)) (type : TerrainMemoryType)
         (size : Z) (cp : VkResult * Handle) (cb : VkResult * Handle * Handle) (o : Z)
         (clock : Allocator.Clock) (a' : Allocator.t fl)
         (alloc : TerrainMemoryAllocation.t),
    Allocator.allocateBuffer type size cp cb o clock
      (Allocator.run ops Allocator.init) = (VK_SUCCESS, a', Some alloc) ->
    exists pool pool',
      Allocator.getPool type (Allocator.run ops Allocator.init) = Some pool /\
      Allocator.getPool type a' = Some pool' /\
      TerrainMemoryAllocation.type alloc = type /\
      TerrainMemoryAllocation.size alloc = size /\
      TerrainMemoryPool.m_usedSize pool'
      = wrap64 (TerrainMemoryPool.m_usedSize pool + size) /\
      TerrainMemoryPool.m_activeAllocations pool'
      = wrap32 (TerrainMemoryPool.m_activeAllocations pool + 1) /\
      (0 <= TerrainMemoryPool.m_usedSize pool < 2 ^ 64 ->
       0 <= TerrainMemoryPool.m_activeAllocations pool < 2 ^ 32 ->
       snd (fst cb) <> VK_NULL_HANDLE -> snd cb <> VK_NULL_HANDLE ->
       exists pool'',
         Allocator.getPool type (Allocator.deallocate (Some alloc) a') = Some pool'' /\
         TerrainMemoryPool.m_usedSize pool'' = TerrainMemoryPool.m_usedSize pool /\
         TerrainMemoryPool.m_activeAllocations pool''
         = TerrainMemoryPool.m_activeAllocations pool).
Proof.
  intros fl ops type size cp cb o clock a' alloc H.
  set (a := Allocator.run ops Allocator.init) in *.
  assert (Ok : allocator_ok a).
  { apply run_allocator_ok. split; [reflexivity|split; constructor]. }
  destruct Ok as (_ & _ & A).
  unfold Allocator.allocateBuffer in H.
  destruct (Allocator.getPool type a) as [pool|] eqn:G; [|discriminate H].
  pose proof (getPool_keyed type a pool A G) as Ty.
  destruct (TerrainMemoryPool.allocateBuffer size cp cb o pool) as [[result p1] al] eqn:P.
  destruct result; cbn [is_success negb] in H; try discriminate H.
  injection H as <- ->.
  destruct (allocateBuffer_success _ _ _ _ _ _ _ P) as (U & C & S & B & Al).
  pose proof (allocateBuffer_success_type _ _ _ _ _ _ _ P) as Ta.
  set (a1 := Allocator.updateGlobalStats
               (Allocator.with_pools
                  (assign TerrainMemoryType_eqb type p1 (Allocator.m_pools a)) a)).
  assert (G1 : Allocator.getPool type a1 = Some p1).
  { unfold Allocator.getPool, a1, Allocator.updateGlobalStats, Allocator.with_pools.
    cbn [Allocator.m_pools].
    rewrite (assign_lookup TerrainMemoryType_eqb TerrainMemoryType_eqb_eq). reflexivity. }
  destruct (checkMemoryPressure_accounts type clock a1 p1 G1) as (q & Gq & Uq & Cq & _).
  exists pool, q. split; [reflexivity|]. split; [exact Gq|].
  split; [rewrite Ta; exact Ty|]. split; [exact S|].
  split; [rewrite Uq; exact U|]. split; [rewrite Cq; exact C|].
  intros Hu Hc Hb Ha.
  unfold Allocator.deallocate. rewrite Ta, Ty, Gq.
  eexists. split.
  - unfold Allocator.getPool, Allocator.updateGlobalStats, Allocator.with_pools.
    cbn [Allocator.m_pools].
    rewrite (assign_lookup TerrainMemoryType_eqb TerrainMemoryType_eqb_eq). reflexivity.
  - unfold TerrainMemoryPool.deallocate, TerrainMemoryAllocation.isValid.
    rewrite Al, B. unfold is_null.
    replace (snd cb =? VK_NULL_HANDLE) with false by (symmetry; apply Z.eqb_neq; exact Ha).
    replace (snd (fst cb) =? VK_NULL_HANDLE) with false
      by (symmetry; apply Z.eqb_neq; exact Hb).
    cbn [negb andb orb TerrainMemoryPool.m_usedSize TerrainMemoryPool.m_activeAllocations].
    rewrite Uq, Cq, U, C, S. split.
    + rewrite wrap64_add_l'.
      replace (TerrainMemoryPool.m_usedSize pool + size - size)
        with (TerrainMemoryPool.m_usedSize pool) by lia.
      unfold wrap64. apply Z.mod_small. exact Hu.
    + rewrite wrap32_add_l'.
      replace (TerrainMemoryPool.m_activeAllocations pool + 1 - 1)
        with (TerrainMemoryPool.m_activeAllocations pool) by lia.
      unfold wrap32. apply Z.mod_small. exact Hc.
Qed.

Lemma allocator_allocate_then_deallocate_witness :
  exists pool pool',
    Allocator.getPool VertexBuffer sample_allocator = Some pool /\
    Allocator.getPool VertexBuffer
      (snd (fst (Allocator.allocateBuffer VertexBuffer 4096 (VK_SUCCESS, 1)
                   (VK_SUCCESS, 2, 3) 1000 sample_clock sample_allocator)))
    = Some pool' /\
    TerrainMemoryPool.m_usedSize pool' = wrap64 (TerrainMemoryPool.m_usedSize pool + 4096).
Proof.
  set (r := Allocator.allocateBuffer VertexBuffer 4096 (VK_SUCCESS, 1)
              (VK_SUCCESS, 2, 3) 1000 sample_clock sample_allocator).
  assert (E : r = (VK_SUCCESS, snd (fst r),
                   Some (TerrainMemoryAllocation.mk 1000 3 2 VK_NULL_HANDLE
                           VertexBuffer 4096 256))) by reflexivity.
  destruct (allocator_allocate_then_deallocate (exactQ (fun q => q))
              [Allocator.OpInitialize Allocator.defaultConfig] VertexBuffer 4096
              (VK_SUCCESS, 1) (VK_SUCCESS, 2, 3) 1000 sample_clock (snd (fst r))
              (TerrainMemoryAllocation.mk 1000 3 2 VK_NULL_HANDLE VertexBuffer 4096 256) E)
    as (pool & pool' & G & G' & _ & _ & U & _).
  exists pool, pool'. split; [exact G|]. split; [exact G'|exact U].
Defined.

(** ** Instances of the order and of the bounds properties *)

Lemma TileCoordinate_ltb_strict_total_order_witness :
  TileCoordinate.ltb (TileCoordinate.mk 0 0 0 "a") (TileCoordinate.mk 5 0 1 "b") = true.
Proof.
  apply (proj1 (proj2 TileCoordinate_ltb_strict_total_order)
           (TileCoordinate.mk 0 0 0 "a") (TileCoordinate.mk 3 1 0 "a")
           (TileCoordinate.mk 5 0 1 "b")); reflexivity.
Defined.

Lemma boxes_with_common_point_intersect_witness :
  TerrainBounds.intersects
    (TerrainBounds.mk (vec3Q 0 0 0) (vec3Q 1000 200 1000))
    (TerrainBounds.mk (vec3Q 500 0 500) (vec3Q 1500 200 1500)) = true.
Proof.
  apply (proj1 (boxes_with_common_point_intersect (fun q => q)
                  (TerrainBounds.mk (vec3Q 0 0 0) (vec3Q 1000 200 1000))
                  (TerrainBounds.mk (vec3Q 500 0 500) (vec3Q 1500 200 1500))
                  (vec3Q 600 100 600) eq_refl eq_refl)).
Defined.

(** ** The boxes of a tile, its parent and its children *)

Section QuadtreeBoxes.
Variable sqrtQ : Q -> Q.
Let flQ := exactQ sqrtQ.

Lemma tile_size_halves (l : Z) :
  (Qpower (2 # 1) (- (l + 1)) == (1 # 2) * Qpower (2 # 1) (- l))%Q.
Proof.
  replace (- (l + 1)) with (- l + -1) by lia.
  rewrite Qpower_plus by discriminate. rewrite Qmult_comm. reflexivity.
Qed.

(** The box of a coordinate: a square of side 1000 / 2^level, at column
    [x] and row [y] of the grid of such squares. *)
Lemma calculateBounds_exactQ (c : TileCoordinate.t) :
  let T := (inject_Z 1000 * Qpower (2 # 1) (- TileCoordinate.level c))%Q in
  let b := TerrainTile.calculateBounds (fl := flQ) c in
  (vx (TileBounds.min b) == inject_Z (TileCoordinate.x c) * T)%Q /\
  (vx (TileBounds.max b) == (inject_Z (TileCoordinate.x c) + 1) * T)%Q /\
  (vz (TileBounds.min b) == inject_Z (TileCoordinate.y c) * T)%Q /\
  (vz (TileBounds.max b) == (inject_Z (TileCoordinate.y c) + 1) * T)%Q /\
  (0 < T)%Q.
Proof.
  cbv zeta. unfold TerrainTile.calculateBounds.
  cbn [TileBounds.min TileBounds.max vx vz]. unfold flQ. exactQ_ops sqrtQ.
  exactQ_ops sqrtQ.
  rewrite !Qred_correct, !inject_Z_plus. change (inject_Z 1) with 1%Q.
  repeat (split; [reflexivity|]).
  apply Qmult_lt_0_compat; [reflexivity|apply tile_size_positive].
Qed.

End QuadtreeBoxes.

(** The parent's box is the smaller one.  In exact arithmetic the box that
    [calculateBounds] gives a tile is a square of side 1000 / 2^level; the
    box of [getParent] has half that side and the box of each of
    [getChildren] twice that side, so the box of the parent never contains
    the box of the tile. *)
Theorem parent_box_is_smaller :
  forall (sqrtQ : Q -> Q) (c : TileCoordinate.t),
    0 <= TileCoordinate.level c < 2 ^ 32 - 1 ->
    let side (d : TileCoordinate.t) :=
      (vx (TileBounds.max (TerrainTile.calculateBounds (fl := exactQ sqrtQ) d))
       - vx (TileBounds.min (TerrainTile.calculateBounds (fl := exactQ sqrtQ) d)))%Q in
    (0 < side c)%Q /\
    (side (TileCoordinate.getParent c) == (1 # 2) * side c)%Q /\
    (forall d, In d (TileCoordinate.getChildren c) -> (side d == 2 * side c)%Q) /\
    ~ (TileBounds.contains
         (TerrainTile.calculateBounds (fl := exactQ sqrtQ) (TileCoordinate.getParent c))
         (TileBounds.min (TerrainTile.calculateBounds (fl := exactQ sqrtQ) c)) = true /\
       TileBounds.contains
         (TerrainTile.calculateBounds (fl := exactQ sqrtQ) (TileCoordinate.getParent c))
         (TileBounds.max (TerrainTile.calculateBounds (fl := exactQ sqrtQ) c)) = true).
Proof.
  intros sqrtQ c Hl side.
  destruct (calculateBounds_exactQ sqrtQ c) as (X0 & X1 & _ & _ & HT). cbv zeta in *.
  set (T := (inject_Z 1000 * Qpower (2 # 1) (- TileCoordinate.level c))%Q) in *.
  assert (Sc : (side c == T)%Q) by (unfold side; rewrite X0, X1; ring).
  assert (Lp : TileCoordinate.level (TileCoordinate.getParent c)
               = TileCoordinate.level c + 1).
  { cbn [TileCoordinate.getParent TileCoordinate.level]. unfold wrap32.
    apply Z.mod_small. lia. }
  destruct (calculateBounds_exactQ sqrtQ (TileCoordinate.getParent c))
    as (P0 & P1 & _ & _ & HP). cbv zeta in *.
  rewrite Lp in P0, P1, HP.
  assert (Tp : (inject_Z 1000 * Qpower (2 # 1) (- (TileCoordinate.level c + 1))
                == (1 # 2) * T)%Q)
    by (rewrite tile_size_halves; unfold T; ring).
  rewrite Tp in P0, P1.
  assert (Sp : (side (TileCoordinate.getParent c) == (1 # 2) * T)%Q)
    by (unfold side; rewrite P0, P1; ring).
  split; [rewrite Sc; exact HT|]. split; [rewrite Sp, Sc; reflexivity|]. split.
  - intros d Hd. unfold TileCoordinate.getChildren in Hd.
    destruct (TileCoordinate.level c =? 0) eqn:E0; [contradiction|].
    apply Z.eqb_neq in E0.
    assert (Ld : TileCoordinate.level d = TileCoordinate.level c - 1).
    { assert (W : wrap32 (TileCoordinate.level c - 1) = TileCoordinate.level c - 1)
        by (unfold wrap32; apply Z.mod_small; lia).
      destruct Hd as [<-|[<-|[<-|[<-|[]]]]]; cbn [TileCoordinate.level]; exact W. }
    destruct (calculateBounds_exactQ sqrtQ d) as (D0 & D1 & _). cbv zeta in *.
    rewrite Ld in D0, D1.
    assert (Td : (inject_Z 1000 * Qpower (2 # 1) (- (TileCoordinate.level c - 1))
                  == 2 * T)%Q).
    { pose proof (tile_size_halves (TileCoordinate.level c - 1)) as Hh.
      replace (TileCoordinate.level c - 1 + 1) with (TileCoordinate.level c) in Hh by lia.
      unfold T. rewrite Hh. ring. }
    rewrite Td in D0, D1. unfold side at 1. rewrite D0, D1, Sc. ring.
  - intros [C0 C1]. apply contains_exactQ in C0, C1.
    destruct C0 as ((A0 & _) & _). destruct C1 as ((_ & A1) & _).
    rewrite X0, P0 in A0. rewrite X1, P1 in A1. nra.
Qed.

Lemma parent_box_is_smaller_witness :
  ~ (TileBounds.contains
       (TerrainTile.calculateBounds (fl := exactQ (fun q => q))
          (TileCoordinate.getParent (TileCoordinate.mk 2 0 0 "terrain")))
       (TileBounds.min (TerrainTile.calculateBounds (fl := exactQ (fun q => q))
                          (TileCoordinate.mk 2 0 0 "terrain"))) = true /\
     TileBounds.contains
       (TerrainTile.calculateBounds (fl := exactQ (fun q => q))
          (TileCoordinate.getParent (TileCoordinate.mk 2 0 0 "terrain")))
       (TileBounds.max (TerrainTile.calculateBounds (fl := exactQ (fun q => q))
                          (TileCoordinate.mk 2 0 0 "terrain"))) = true).
Proof.
  refine (proj2 (proj2 (proj2 (parent_box_is_smaller (fun q => q)
                                 (TileCoordinate.mk 2 0 0 "terrain") _)))).
  cbn. lia.
Defined.
